(** * FPL_data: the temporal dataset construction pipeline

    A shallow embedding of the table loader, the finished-gameweek index,
    the feature builders and the label builder of [src/], and the
    properties of the specification that concern them.

    Data model.  A pandas [DataFrame] is an ordered list of named columns,
    every column a list of cells of the same length; the positional order of
    the rows is the order of the frame.  A cell is a missing value, a
    boolean, an integer, a float or a string.  Floats are modelled by exact
    rationals ([Qc]): rounding, infinities and signed zeros are outside the
    model, and the three missing markers of pandas ([NaN], [None], [pd.NA])
    are one cell [NA].  Python exceptions are values of [exn], and a function
    that can raise returns a [result].  [OutsideModel] is no exception of
    Python: a function of the model returns it where the program returns a
    table that holds an infinite float, for which there is no cell. *)

From Stdlib Require Import List ZArith QArith Qcanon String Ascii Bool Lia.
From Stdlib Require Import DecimalString DecimalPos DecimalZ Permutation Sorted.
Import ListNotations.

Local Open Scope string_scope.
Local Open Scope Z_scope.

(** ** Python values and exceptions *)

Inductive cell : Type :=
| NA
| VBool (b : bool)
| VInt (z : Z)
| VFloat (q : Qc)
| VStr (s : string).

Inductive exn : Type :=
| ValueError (msg : string)
| KeyError (key : string)
| TypeError (msg : string)
| FileNotFoundError (path : string)
| NotImplementedError (msg : string)
| OutsideModel (what : string).

Inductive result (A : Type) : Type :=
| Ok (a : A)
| Raise (e : exn).

Arguments Ok {A} a.
Arguments Raise {A} e.

Definition bind {A C : Type} (c : result A) (k : A -> result C) : result C :=
  match c with
  | Ok a => k a
  | Raise e => Raise e
  end.

Notation "'let*' x ':=' c 'in' k" := (bind c (fun x => k))
  (at level 10, x name, c at level 100, k at level 200).

Fixpoint mapM {A C : Type} (f : A -> result C) (l : list A) : result (list C) :=
  match l with
  | [] => Ok []
  | a :: l' =>
      let* c := f a in
      let* cs := mapM f l' in
      Ok (c :: cs)
  end.

Fixpoint foldM {X Y : Type} (f : X -> Y -> result X) (l : list Y) (x : X) : result X :=
  match l with
  | [] => Ok x
  | y :: l' => let* x' := f x y in foldM f l' x'
  end.

Definition is_ok {A : Type} (r : result A) : bool :=
  match r with Ok _ => true | Raise _ => false end.

(** ** Strings: [str.lower], [str.strip], [str(int)], [int(str)] *)

Definition lower_ascii (c : ascii) : ascii :=
  let n := nat_of_ascii c in
  if andb (Nat.leb 65 n) (Nat.leb n 90) then ascii_of_nat (n + 32) else c.

Fixpoint lower (s : string) : string :=
  match s with
  | EmptyString => EmptyString
  | String c s' => String (lower_ascii c) (lower s')
  end.

(** The ASCII characters for which [str.isspace] holds. *)
Definition is_space (c : ascii) : bool :=
  let n := nat_of_ascii c in
  orb (andb (Nat.leb 9 n) (Nat.leb n 13))
      (orb (andb (Nat.leb 28 n) (Nat.leb n 31)) (Nat.eqb n 32)).

Fixpoint lstrip (s : string) : string :=
  match s with
  | EmptyString => EmptyString
  | String c s' => if is_space c then lstrip s' else s
  end.

Fixpoint rstrip (s : string) : string :=
  match s with
  | EmptyString => EmptyString
  | String c s' =>
      match rstrip s' with
      | EmptyString => if is_space c then EmptyString else String c EmptyString
      | r => String c r
      end
  end.

Definition strip (s : string) : string := rstrip (lstrip s).

Definition str_of_Z (z : Z) : string := NilZero.string_of_int (Z.to_int z).

Definition isin (s : string) (l : list string) : bool :=
  existsb (String.eqb s) l.

Definition digit_of (c : ascii) : option Z :=
  let n := nat_of_ascii c in
  if andb (Nat.leb 48 n) (Nat.leb n 57) then Some (Z.of_nat (n - 48)) else None.

(** Digits of an integer literal, single underscores allowed between
    digits; [acc] is the value read so far and [prev] tells whether the
    previous character was a digit. *)
Fixpoint int_digits (s : string) (acc : Z) (prev : bool) : option Z :=
  match s with
  | EmptyString => if prev then Some acc else None
  | String c s' =>
      match digit_of c with
      | Some d => int_digits s' (10 * acc + d) true
      | None =>
          if andb (Ascii.eqb c "_") prev then
            match s' with
            | EmptyString => None
            | String c' _ =>
                match digit_of c' with
                | Some _ => int_digits s' acc false
                | None => None
                end
            end
          else None
      end
  end.

(** Column names are made of a base name, an underscore and a suffix:
    the text before and the text after the last underscore, and the texts
    made of digits only. *)
Fixpoint split_last (s : string) : option (string * string) :=
  match s with
  | EmptyString => None
  | String a s' =>
      match split_last s' with
      | Some (p, q) => Some (String a p, q)
      | None => if Ascii.eqb a "_" then Some (EmptyString, s') else None
      end
  end.

Fixpoint all_digits (s : string) : bool :=
  match s with
  | EmptyString => true
  | String a s' =>
      match digit_of a with
      | Some _ => all_digits s'
      | None => false
      end
  end.

(** The texts made of digits and minus signs only, the texts of the
    integers among them, and the texts with a decimal point, the texts of
    the floats among them. *)
Definition sign_or_digit (a : ascii) : bool :=
  match digit_of a with Some _ => true | None => Ascii.eqb a "-" end.

Fixpoint numeral (s : string) : bool :=
  match s with
  | EmptyString => true
  | String a s' => andb (sign_or_digit a) (numeral s')
  end.

Fixpoint has_dot (s : string) : bool :=
  match s with
  | EmptyString => false
  | String a s' => orb (Ascii.eqb a ".") (has_dot s')
  end.

(** [int(s)] in base ten: surrounding whitespace, an optional sign, digits. *)
Definition py_int (s : string) : option Z :=
  match strip s with
  | String "-" r => option_map Z.opp (int_digits r 0 false)
  | String "+" r => int_digits r 0 false
  | r => int_digits r 0 false
  end.

(** ** Numbers *)

Definition Z2Qc (z : Z) : Qc := Q2Qc (inject_Z z).

Definition num_of (c : cell) : option Qc :=
  match c with
  | VBool b => Some (Z2Qc (if b then 1 else 0))
  | VInt z => Some (Z2Qc z)
  | VFloat q => Some q
  | NA | VStr _ => None
  end.

Definition Qc_leb (a b : Qc) : bool := Qle_bool (this a) (this b).

Definition is_na (c : cell) : bool :=
  match c with NA => true | _ => false end.

Definition is_bool (c : cell) : bool :=
  match c with VBool _ => true | _ => false end.

Definition is_int (c : cell) : bool :=
  match c with VInt _ => true | _ => false end.

Definition is_text (c : cell) : bool :=
  match c with VStr _ => true | _ => false end.

(** [float.__repr__]: exact for integral values below [1e16] in magnitude,
    which print as the integer followed by [.0]; for the other values the
    integral part and sixteen decimals stand for the shortest round-trip
    digits, and what matters to the callers is only that the text of a float
    never reads as an integer or a word. *)
Fixpoint frac_digits (n : nat) (num den : Z) : string :=
  match n with
  | O => EmptyString
  | S n' =>
      if num =? 0 then EmptyString
      else str_of_Z ((10 * num) / den) ++ frac_digits n' ((10 * num) mod den) den
  end.

Definition float_repr (q : Qc) : string :=
  let n := Qnum (this q) in
  let d := Zpos (Qden (this q)) in
  if d =? 1 then str_of_Z n ++ ".0"
  else
    let a := Z.abs n in
    let sign := if n <? 0 then "-" else "" in
    sign ++ str_of_Z (a / d) ++ "." ++ frac_digits 16 (a mod d) d.

(** [Series.astype(str)], cell by cell. *)
Definition astype_str (c : cell) : string :=
  match c with
  | NA => "nan"
  | VBool true => "True"
  | VBool false => "False"
  | VInt z => str_of_Z z
  | VFloat q => float_repr q
  | VStr s => s
  end.

(** [Series.astype(int)], cell by cell: a missing value or a text that is
    not an integer literal raises, a float is truncated towards zero. *)
Definition astype_int (c : cell) : result Z :=
  match c with
  | NA => Raise (ValueError "cannot convert float NaN to integer")
  | VBool b => Ok (if b then 1 else 0)
  | VInt z => Ok z
  | VFloat q => Ok (Z.quot (Qnum (this q)) (Zpos (Qden (this q))))
  | VStr s =>
      match py_int s with
      | Some z => Ok z
      | None => Raise (ValueError "invalid literal for int() with base 10")
      end
  end.

(** ** Frames *)

Definition column := list cell.
Definition frame := list (string * column).

Fixpoint get_col (name : string) (df : frame) : option column :=
  match df with
  | [] => None
  | (n, c) :: df' => if String.eqb n name then Some c else get_col name df'
  end.

Definition has_col (name : string) (df : frame) : bool :=
  match get_col name df with Some _ => true | None => false end.

Definition columns (df : frame) : list string := map fst df.

Definition nrows (df : frame) : nat :=
  match df with
  | [] => O
  | (_, c) :: _ => List.length c
  end.

(** Every column of a frame has one cell per row. *)
Definition well_formed (df : frame) : Prop :=
  forall n c, In (n, c) df -> List.length c = nrows df.

(** [DataFrame.empty]: no column or no row. *)
Definition empty (df : frame) : bool := Nat.eqb (nrows df) 0.

(** [df[name] = c]: replaces the column in place, or appends it. *)
Fixpoint set_col (name : string) (c : column) (df : frame) : frame :=
  match df with
  | [] => [(name, c)]
  | (n, c0) :: df' =>
      if String.eqb n name then (n, c) :: df' else (n, c0) :: set_col name c df'
  end.

Definition col_or_raise (df : frame) (name : string) : result column :=
  match get_col name df with
  | Some c => Ok c
  | None => Raise (KeyError name)
  end.

(** [max(l)] and [min(l)] of a non-empty list [x :: l]. *)
Definition py_max (x : Z) (l : list Z) : Z := fold_left Z.max l x.
Definition py_min (x : Z) (l : list Z) : Z := fold_left Z.min l x.

(** ** Series and frame operations of pandas *)

Module Pandas.

(** Sort and group keys.  Numbers compare by value whatever their type
    ([True == 1 == 1.0]), strings by their characters; in a sort, numbers
    come before strings and missing values last. *)
Inductive key : Type :=
| KNum (q : Qc)
| KStr (s : string).

Definition key_of (c : cell) : option key :=
  match c with
  | NA => None
  | VStr s => Some (KStr s)
  | VBool _ | VInt _ | VFloat _ => option_map KNum (num_of c)
  end.

Definition key_eqb (a b : key) : bool :=
  match a, b with
  | KNum x, KNum y => Qc_eq_bool x y
  | KStr x, KStr y => String.eqb x y
  | _, _ => false
  end.

Definition okey_eqb (a b : option key) : bool :=
  match a, b with
  | Some x, Some y => key_eqb x y
  | _, _ => false
  end.

(** Python's [==] on cells: a missing value equals nothing. *)
Definition cell_eqb (a b : cell) : bool := okey_eqb (key_of a) (key_of b).

Definition key_leb (a b : option key) : bool :=
  match a, b with
  | _, None => true
  | None, Some _ => false
  | Some (KNum x), Some (KNum y) => Qc_leb x y
  | Some (KNum _), Some (KStr _) => true
  | Some (KStr _), Some (KNum _) => false
  | Some (KStr x), Some (KStr y) => String.leb x y
  end.

(** Lexicographic order on lists of keys, one key per sort column. *)
Fixpoint keys_leb (a b : list (option key)) : bool :=
  match a, b with
  | x :: a', y :: b' =>
      if key_leb x y then (if key_leb y x then keys_leb a' b' else true) else false
  | _, _ => true
  end.

Section Sorting.
Context {A : Type} (leb : A -> A -> bool).

(** Stable insertion: [x] came before every element of [l]. *)
Fixpoint insert_by (x : A) (l : list A) : list A :=
  match l with
  | [] => [x]
  | y :: l' => if leb x y then x :: l else y :: insert_by x l'
  end.

Definition sort_by (l : list A) : list A := fold_right insert_by [] l.
End Sorting.

Definition gather (idx : list nat) (c : column) : column :=
  map (fun i => nth i c NA) idx.

Definition gather_opt (idx : list (option nat)) (c : column) : column :=
  map (fun oi => match oi with Some i => nth i c NA | None => NA end) idx.

Definition take_rows (idx : list nat) (df : frame) : frame :=
  map (fun nc => (fst nc, gather idx (snd nc))) df.

(** The cells of row [i] in the columns [cols]. *)
Definition row_at (cols : list column) (i : nat) : list cell :=
  map (fun c => nth i c NA) cols.

Definition row_keys (by_cols : list column) (i : nat) : list (option key) :=
  map key_of (row_at by_cols i).

(** [df.sort_values(by)]: a stable sort of the rows, [KeyError] on a column
    that is not there. *)
Definition sort_values (by_names : list string) (df : frame) : result frame :=
  let* by_cols := mapM (col_or_raise df) by_names in
  let idx :=
    sort_by (fun i j => keys_leb (row_keys by_cols i) (row_keys by_cols j))
            (seq 0 (nrows df)) in
  Ok (take_rows idx df).

(** Row selection by a boolean mask: [df[mask]]. *)
Definition mask_index (mask : list bool) : list nat :=
  filter (fun i => nth i mask false) (seq 0 (List.length mask)).

Definition filter_rows (mask : list bool) (df : frame) : frame :=
  take_rows (mask_index mask) df.

(** [df.dropna(subset=[name])] *)
Definition dropna (name : string) (df : frame) : result frame :=
  let* c := col_or_raise df name in
  Ok (filter_rows (map (fun x => negb (is_na x)) c) df).

Definition drop_col (name : string) (df : frame) : frame :=
  filter (fun nc => negb (String.eqb (fst nc) name)) df.

Definition rename_col (old new : string) (df : frame) : frame :=
  map (fun nc => (if String.eqb (fst nc) old then new else fst nc, snd nc)) df.

Definition fillna (a b : cell) : cell := if is_na a then b else a.

(** Names in the order of their first appearance. *)
Definition add_names (seen : list string) (names : list string) : list string :=
  fold_left (fun acc n => if isin n acc then acc else (acc ++ [n])%list) names seen.

(** [pd.concat(frames, ignore_index=True)]: the rows of the frames one
    after the other, under the union of their columns. *)
Definition concat_frames (frames : list frame) : frame :=
  map (fun n =>
         (n, flat_map (fun f => match get_col n f with
                                | Some c => c
                                | None => repeat NA (nrows f)
                                end) frames))
      (fold_left (fun acc f => add_names acc (columns f)) frames []).

(** A row under construction is a dictionary; [pd.DataFrame(rows)] makes
    the frame of a list of them. *)
Definition dict := list (string * cell).

Fixpoint dict_get (k : string) (d : dict) : option cell :=
  match d with
  | [] => None
  | (n, v) :: d' => if String.eqb n k then Some v else dict_get k d'
  end.

Fixpoint dict_set (k : string) (v : cell) (d : dict) : dict :=
  match d with
  | [] => [(k, v)]
  | (n, v0) :: d' =>
      if String.eqb n k then (n, v) :: d' else (n, v0) :: dict_set k v d'
  end.

(** The cell of a row under a name, missing when the row has none. *)
Definition dict_cell (n : string) (d : dict) : cell :=
  match dict_get n d with Some v => v | None => NA end.

Definition frame_of_rows (rows : list dict) : frame :=
  map (fun n => (n, map (dict_cell n) rows))
      (fold_left (fun acc d => add_names acc (map fst d)) rows []).

(** Join keys match by value, and a missing key matches a missing key. *)
Definition key_match (a b : cell) : bool :=
  orb (andb (is_na a) (is_na b)) (cell_eqb a b).

Definition keys_match (a b : list cell) : bool :=
  forallb (fun ab => key_match (fst ab) (snd ab)) (combine a b).

(** No two rows of a key column match: the column is the key of a
    dimension table. *)
Definition distinct_keys (c : column) : Prop :=
  forall i j, (i < j < List.length c)%nat -> key_match (nth i c NA) (nth j c NA) = false.

(** The rows of the right frame that match row [i] of the left frame. *)
Definition matches_of (lk rk : list column) (nr : nat) (i : nat) : list nat :=
  filter (fun j => keys_match (row_at lk i) (row_at rk j)) (seq 0 nr).

Definition merge_pairs (lk rk : list column) (nl nr : nat) : list (nat * option nat) :=
  flat_map (fun i =>
              match matches_of lk rk nr i with
              | [] => [(i, None)]
              | js => map (fun j => (i, Some j)) js
              end)
           (seq 0 nl).

(** The names of the columns of a join: a name on both sides that is not
    a shared key gets the suffix [_x] on the left and [_y] on the right. *)
Definition left_name (shared : list string) (rhs : frame) (n : string) : string :=
  if andb (negb (isin n shared)) (has_col n rhs) then n ++ "_x" else n.

Definition right_name (lhs : frame) (n : string) : string :=
  if has_col n lhs then n ++ "_y" else n.

(** The dtype of a column as far as a join looks at it: [bool] for
    booleans only, a number type for integers, floats and missing values,
    [object] for a column with a text, or with booleans among other
    values. *)
Inductive dtype : Type := BoolType | NumberType | ObjectType.

Definition dtype_of (c : column) : dtype :=
  if forallb is_bool c then BoolType
  else if existsb (fun x => orb (is_text x) (is_bool x)) c then ObjectType
  else NumberType.

(** The check of a join on one pair of key columns
    ([_maybe_coerce_merge_keys]).  A pair with one side without rows is not
    looked at.  An [object] column against a number column is refused when
    the values of the [object] column are inferred as text or as mixed,
    which is when none of them is an integer; columns of the same type, two
    number types, and booleans against anything go through.  Two columns
    without rows have no cell to tell their types, which are taken to
    agree. *)
Definition keys_compatible (lk rk : column) : bool :=
  match lk, rk with
  | [], _ :: _ => true
  | _ :: _, [] => true
  | _, _ =>
      match dtype_of lk, dtype_of rk with
      | ObjectType, NumberType => existsb is_int lk
      | NumberType, ObjectType => existsb is_int rk
      | _, _ => true
      end
  end.

(** [lhs.merge(rhs, left_on=left_on, right_on=right_on, how="left")]: the
    rows of [lhs] in their order, each once per matching row of [rhs] and
    once when there is none.  A key under the same name on both sides gives
    one column.  Text keys against number keys raise [ValueError]. *)
Definition merge_left_on (lhs rhs : frame) (left_on right_on : list string)
  : result frame :=
  let* lk := mapM (col_or_raise lhs) left_on in
  let* rk := mapM (col_or_raise rhs) right_on in
  if negb (forallb (fun p => keys_compatible (fst p) (snd p)) (combine lk rk)) then
    Raise (ValueError "You are trying to merge on object and number columns")
  else
  let pairs := merge_pairs lk rk (nrows lhs) (nrows rhs) in
  let shared :=
    map fst (filter (fun p => String.eqb (fst p) (snd p)) (combine left_on right_on)) in
  let lcols :=
    map (fun nc => (left_name shared rhs (fst nc), gather (map fst pairs) (snd nc))) lhs in
  let rcols :=
    flat_map (fun nc =>
                if isin (fst nc) shared then []
                else [(right_name lhs (fst nc), gather_opt (map snd pairs) (snd nc))])
             rhs in
  Ok (lcols ++ rcols)%list.

(** [lhs.merge(rhs, on=on, how="left")] *)
Definition merge_left (lhs rhs : frame) (on : string) : result frame :=
  merge_left_on lhs rhs [on] [on].

(** [Series.shift(k)]: the value of row [i] moves to row [i + k]. *)
Definition shift (k : Z) (s : column) : column :=
  map (fun i =>
         let j := Z.of_nat i - k in
         if andb (0 <=? j) (j <? Z.of_nat (List.length s))
         then nth (Z.to_nat j) s NA else NA)
      (seq 0 (List.length s)).

Definition present (l : list (option Qc)) : list Qc :=
  flat_map (fun v => match v with Some q => [q] | None => [] end) l.

Definition qsum (l : list Qc) : Qc := fold_left Qcplus l (Z2Qc 0).

Definition qmean (l : list Qc) : Qc :=
  (qsum l / Z2Qc (Z.of_nat (List.length l)))%Qc.

(** The window of at most [w] rows that ends at row [i]. *)
Definition window {X : Type} (w : nat) (i : nat) (s : list X) : list X :=
  skipn (S i - w) (firstn (S i) s).

Section Numeric.
(** Python's [float(s)] on a string: [None] when [s] is no float literal,
    [Some None] for a literal of [nan]. *)
Variable float_of_str : string -> option (option Qc).

(** [pd.to_numeric(..., errors="coerce")], cell by cell. *)
Definition to_numeric (c : cell) : cell :=
  match c with
  | VStr s =>
      match float_of_str s with
      | Some (Some q) => VFloat q
      | _ => NA
      end
  | _ => c
  end.

(** The conversion to [float64] that a window or a reduction applies to
    its input: a text that is no number raises. *)
Definition as_float (c : cell) : result (option Qc) :=
  match c with
  | VStr s =>
      match float_of_str s with
      | Some v => Ok v
      | None => Raise (TypeError "No numeric types to aggregate")
      end
  | _ => Ok (num_of c)
  end.

(** [s.rolling(window=w, min_periods=m).agg()], for [agg] one of [sum]
    and [mean] and [m] at least one: the aggregate of the observed values
    of the window when there are at least [m] of them, missing otherwise. *)
Definition rolling (agg : list Qc -> Qc) (w : positive) (m : nat) (s : column)
  : result column :=
  let* vals := mapM as_float s in
  Ok (map (fun i =>
             let obs := present (window (Pos.to_nat w) i vals) in
             if andb (Nat.leb m (List.length obs)) (Nat.leb 1 (List.length obs))
             then VFloat (agg obs) else NA)
          (seq 0 (List.length s))).

Definition rolling_sum : positive -> nat -> column -> result column := rolling qsum.
Definition rolling_mean : positive -> nat -> column -> result column := rolling qmean.

(** [Series.mean()]: the mean of the observed values, missing when there
    is none. *)
Definition series_mean (s : column) : result cell :=
  let* vals := mapM as_float s in
  match present vals with
  | [] => Ok NA
  | obs => Ok (VFloat (qmean obs))
  end.
End Numeric.

(** The rows of the group of row [i], as positions, for the group column
    [ids]; rows with a missing key belong to no group. *)
Definition group_index (ids : column) (i : nat) : list nat :=
  filter (fun j => cell_eqb (nth j ids NA) (nth i ids NA)) (seq 0 (List.length ids)).

(** The rank of row [i] inside its group. *)
Definition group_rank (ids : column) (i : nat) : nat :=
  List.length (filter (fun j => cell_eqb (nth j ids NA) (nth i ids NA)) (seq 0 i)).

(** [df.groupby(ids, sort=False)[vals].transform(f)]: [f] is applied to
    the values of each group and its results are put back at the rows of
    the group; a row with a missing key gets a missing value. *)
Definition transform (f : column -> result column) (ids vals : column) : result column :=
  mapM (fun i =>
          if is_na (nth i ids NA) then Ok NA
          else
            let* r := f (gather (group_index ids i) vals) in
            Ok (nth (group_rank ids i) r NA))
       (seq 0 (List.length vals)).

End Pandas.

(** * [src/io/index.py]: the finished-gameweek index *)

Module Index.

Record FinishedGwIndex : Type := {
  finished_gws : list Z;
  max_finished_gw : Z
}.

Definition truthy : list string := ["true"; "1"; "t"; "yes"].

Definition to_bool (c : cell) : bool :=
  isin (lower (strip (astype_str c))) truthy.

Definition _to_bool_series (series : column) : list bool := map to_bool series.

(** The keys of [groupby(..., sort=True)]: distinct, ascending. *)
Fixpoint insert_key (x : Z) (l : list Z) : list Z :=
  match l with
  | [] => [x]
  | y :: l' =>
      if x <? y then x :: l
      else if x =? y then l
      else y :: insert_key x l'
  end.

Definition group_keys (l : list Z) : list Z := fold_right insert_key [] l.

(** The rows of the group with key [g], as the values of a second column. *)
Definition group_rows {A : Type} (g : Z) (keys : list Z) (vals : list A) : list A :=
  map snd (filter (fun kv => fst kv =? g) (combine keys vals)).

Definition compute_finished_gws (matches : frame) : result FinishedGwIndex :=
  let gw_col := if has_col "gw" matches then "gw" else "gameweek" in
  match get_col gw_col matches with
  | None => Raise (ValueError "matches must include gw or gameweek column")
  | Some gws =>
      match get_col "finished" matches with
      | None => Raise (ValueError "matches must include finished column")
      | Some fin =>
          let* gw := mapM astype_int gws in
          let finished_bool := _to_bool_series fin in
          let finished_gws :=
            filter (fun g => forallb (fun b => b) (group_rows g gw finished_bool))
                   (group_keys gw) in
          let max_finished :=
            match finished_gws with
            | [] => 0
            | g :: rest => py_max g rest
            end in
          Ok {| finished_gws := finished_gws; max_finished_gw := max_finished |}
      end
  end.

End Index.

(** * [src/labels/targets.py]: the label builder *)

Module Targets.
Import Pandas.

Definition DEFAULT_TARGET_MAP : list (string * string) :=
  [ ("points", "event_points");
    ("expected_goals", "expected_goals");
    ("expected_assists", "expected_assists");
    ("defensive_contribution", "defensive_contribution");
    ("goals_conceded", "goals_conceded");
    ("saves", "saves") ].

Definition DEFAULT_HORIZONS : list positive := [1; 5; 10; 15]%positive.

Definition total_name (target_name : string) (h : positive) : string :=
  target_name ++ "_next_" ++ str_of_Z (Zpos h) ++ "_total".

Definition per_week_name (target_name : string) (h : positive) : string :=
  target_name ++ "_next_" ++ str_of_Z (Zpos h) ++ "_per_week".

(** [total / float(h)] on a cell of the total. *)
Definition div_h (h : positive) (c : cell) : cell :=
  match num_of c with
  | Some q => VFloat (q / Z2Qc (Zpos h))%Qc
  | None => NA
  end.

(** The sum of the observed values [vals] over the [h] rows that follow
    row [i] among the rows of its entity, missing when fewer than [h] rows
    follow or one of them is not observed. *)
Definition next_rows_total (ids : column) (vals : list (option Qc)) (h : positive)
           (i : nat) : cell :=
  let rows :=
    firstn (Pos.to_nat h)
           (filter (fun j => cell_eqb (nth j ids NA) (nth i ids NA))
                   (seq (S i) (List.length ids - S i))) in
  let obs := present (map (fun j => nth j vals None) rows) in
  if Nat.eqb (List.length obs) (Pos.to_nat h) then VFloat (qsum obs) else NA.

Section WithFloat.
Variable float_of_str : string -> option (option Qc).

(** The lambda of the transform:
    [s.shift(-1).rolling(window=h, min_periods=h).sum().shift(-(h - 1))]. *)
Definition next_h_sum (h : positive) (s : column) : result column :=
  let* r := rolling_sum float_of_str h (Pos.to_nat h) (shift (-1) s) in
  Ok (shift (- (Zpos h - 1)) r).

(** One pass of the inner loop: the two label columns of a target and a
    horizon. *)
Definition add_label (id_col target_name src_col : string) (h : positive)
           (df : frame) : result frame :=
  match get_col id_col df, get_col src_col df with
  | Some ids, Some src =>
      let* total := transform (next_h_sum h) ids src in
      let df := set_col (total_name target_name h) total df in
      Ok (set_col (per_week_name target_name h) (map (div_h h) total) df)
  | None, _ => Raise (KeyError id_col)
  | _, None => Raise (KeyError src_col)
  end.

Fixpoint add_labels (id_col target_name src_col : string) (horizons : list positive)
         (df : frame) : result frame :=
  match horizons with
  | [] => Ok df
  | h :: hs =>
      let* df := add_label id_col target_name src_col h df in
      add_labels id_col target_name src_col hs df
  end.

Fixpoint add_targets (id_col : string) (require_all : bool)
         (horizons : list positive) (target_map : list (string * string))
         (df : frame) : result frame :=
  match target_map with
  | [] => Ok df
  | (target_name, src_col) :: rest =>
      if has_col src_col df then
        let* df := add_labels id_col target_name src_col horizons df in
        add_targets id_col require_all horizons rest df
      else if require_all then
        Raise (ValueError ("Missing target source column: " ++ src_col))
      else add_targets id_col require_all horizons rest df
  end.

Definition add_horizon_labels (df : frame) (horizons : list positive)
           (target_map : option (list (string * string)))
           (id_col gw_col : string) (require_all : bool) : result frame :=
  let target_map :=
    match target_map with
    | None => DEFAULT_TARGET_MAP
    | Some m => m
    end in
  if orb (negb (has_col id_col df)) (negb (has_col gw_col df)) then
    Raise (ValueError ("Missing required columns: " ++ id_col ++ ", " ++ gw_col))
  else
    let* df := sort_values [id_col; gw_col] df in
    add_targets id_col require_all horizons target_map df.

(** The two label columns of a target and a horizon in a frame [df], for
    the entity column [ids] and the source column of the sorted input
    [sorted]. *)
Definition labels_at (sorted df : frame) (ids : column) (target_name src_col : string)
           (h : positive) : Prop :=
  exists src vals total,
    get_col src_col sorted = Some src /\
    mapM (as_float float_of_str) src = Ok vals /\
    get_col (total_name target_name h) df = Some total /\
    get_col (per_week_name target_name h) df = Some (map (div_h h) total) /\
    List.length total = nrows sorted /\
    forall i, (i < nrows sorted)%nat -> is_na (nth i ids NA) = false ->
      nth i total NA = next_rows_total ids vals h i.

(** What the loops of [add_horizon_labels] keep of the sorted input: the
    rows, the entity column and the source columns. *)
Definition labels_keep (sorted df : frame) (id_col : string)
           (target_map : list (string * string)) : Prop :=
  well_formed df /\ df <> [] /\ nrows df = nrows sorted /\
  get_col id_col df = get_col id_col sorted /\
  forall t src, In (t, src) target_map -> get_col src df = get_col src sorted.
End WithFloat.

(** [max(horizons) if horizons else 0] *)
Definition max_horizon (horizons : list Z) : Z :=
  match horizons with
  | [] => 0
  | h :: hs => py_max h hs
  end.

Definition labelable_mask (df : frame) (max_finished_gw : Z) (horizons : list Z)
           (gw_col : string) : result (list bool) :=
  match get_col gw_col df with
  | None => Raise (ValueError ("Missing column: " ++ gw_col))
  | Some gws =>
      let max_h := max_horizon horizons in
      let* gw := mapM astype_int gws in
      Ok (map (fun g => g <=? max_finished_gw - max_h) gw)
  end.

End Targets.

(** * [src/features/player_features.py]: per-90 and rolling features *)

Module PlayerFeatures.
Import Pandas.

Definition DEFAULT_ROLLING_COLS : list string :=
  [ "minutes"; "event_points"; "expected_goals"; "expected_assists";
    "goals_scored"; "assists"; "defensive_contribution"; "saves";
    "clean_sheets"; "goals_conceded"; "influence"; "creativity"; "threat";
    "ict_index"; "bps"; "bonus" ].

Definition DEFAULT_WINDOWS : list positive := [3; 5; 10]%positive.

Definition _available_cols (df : frame) (cols : list string) : list string :=
  filter (fun c => has_col c df) cols.

(** [.replace(0, pd.NA)] on a cell of a column that is not of dtype
    [bool].  A boolean among other values is a number once the column went
    through [to_numeric], and [False] is the number 0. *)
Definition replace_zero (c : cell) : cell :=
  match num_of c with
  | Some q => if Qc_eq_bool q (Z2Qc 0) then NA else c
  | None => c
  end.

(** [.replace(0, pd.NA)] on a column.  A column of dtype [bool], which
    is a column of booleans only, holds no [0]: nothing is replaced and
    [False] stays. *)
Definition replace_zero_col (col : column) : column :=
  if forallb is_bool col then col else map replace_zero col.

(** The result of a float division: a cell, or an infinite float with its
    sign. *)
Inductive quotient : Type :=
| Finite (c : cell)
| Infinite (negative : bool).

(** [(x / m) * 90.0] on two cells.  A missing operand gives a missing
    value; a divisor that is zero gives an infinite float with the sign of
    [x], and a missing value ([NaN]) when [x] is zero as well. *)
Definition per90_cell (x m : cell) : quotient :=
  match num_of x, num_of m with
  | Some a, Some b =>
      if Qc_eq_bool b (Z2Qc 0) then
        if Qc_eq_bool a (Z2Qc 0) then Finite NA
        else Infinite (negb (Qc_leb (Z2Qc 0) a))
      else Finite (VFloat (a / b * Z2Qc 90)%Qc)
  | _, _ => Finite NA
  end.

(** The cell of a quotient, when it has one. *)
Definition finite_cell (q : quotient) : result cell :=
  match q with
  | Finite c => Ok c
  | Infinite _ => Raise (OutsideModel "infinite float")
  end.

Definition per90_name (c : string) : string := c ++ "_per90".

Definition roll_name (col : string) (w : positive) : string :=
  col ++ "_roll" ++ str_of_Z (Zpos w).

Definition trend_name (base_col : string) (w_short w_long : positive) : string :=
  base_col ++ "_trend_" ++ str_of_Z (Zpos w_short) ++ "_" ++ str_of_Z (Zpos w_long).

(** [a - b] on two columns of numbers *)
Definition sub_cell (a b : cell) : cell :=
  match num_of a, num_of b with
  | Some x, Some y => VFloat (x - y)%Qc
  | _, _ => NA
  end.

Definition trend_pairs : list (string * positive * positive) :=
  [ ("event_points", 3, 10); ("expected_goals", 3, 10);
    ("expected_assists", 3, 10) ]%positive.

Section WithFloat.
Variable float_of_str : string -> option (option Qc).

(** [pd.to_numeric(df[minutes_col], errors="coerce").replace(0, pd.NA)] *)
Definition minutes_of (mc : column) : column :=
  replace_zero_col (map (to_numeric float_of_str) mc).

(** The quotients [(df[c] / mins) * 90.0] of the values [cc], row by row. *)
Definition per90_quotients (cc mins : column) : list quotient :=
  map (fun xm => per90_cell (fst xm) (snd xm))
      (combine (map (to_numeric float_of_str) cc) mins).

(** [df[c] / mins] is refused when both columns are of dtype [bool], that
    is, hold booleans only; columns without rows have no cell to tell their
    type, which is taken not to be [bool]. *)
Definition bool_by_bool (num mins : column) : bool :=
  match mins with
  | [] => false
  | _ :: _ => andb (forallb is_bool num) (forallb is_bool mins)
  end.

(** The column [(df[c] / mins) * 90.0] of the values [cc]. *)
Definition per90_values (cc mins : column) : result column :=
  if bool_by_bool (map (to_numeric float_of_str) cc) mins then
    Raise (NotImplementedError "operator 'truediv' not implemented for bool dtypes")
  else mapM finite_cell (per90_quotients cc mins).

Definition add_per90_step (mins : column) (df : frame) (c : string) : result frame :=
  match get_col c df with
  | None => Ok df
  | Some cc =>
      let df' := set_col c (map (to_numeric float_of_str) cc) df in
      let* q := per90_values cc mins in
      Ok (set_col (per90_name c) q df')
  end.

Definition add_per90_features (df : frame) (cols : list string)
           (minutes_col : string) : result frame :=
  match get_col minutes_col df with
  | None => Ok df
  | Some mc => foldM (add_per90_step (minutes_of mc)) cols df
  end.




(** The inner function [_rolling] *)
Definition _rolling (include_current : bool) (series : column) (window : positive)
  : result column :=
  if include_current then rolling_mean float_of_str window 1 series
  else rolling_mean float_of_str window 1 (shift 1 series).

Definition numeric_step (df : frame) (c : string) : result frame :=
  match get_col c df with
  | Some cc => Ok (set_col c (map (to_numeric float_of_str) cc) df)
  | None => Raise (KeyError c)
  end.

(** One entry of [new_cols]: the rolling mean of [col] over [w] rows,
    entity by entity. *)
Definition roll_step (include_current : bool) (id_col : string) (df : frame)
           (col : string) (new_cols : frame) (w : positive) : result frame :=
  match get_col id_col df, get_col col df with
  | Some ids, Some vals =>
      let* r := transform (fun s => _rolling include_current s w) ids vals in
      Ok (set_col (roll_name col w) r new_cols)
  | None, _ => Raise (KeyError id_col)
  | _, None => Raise (KeyError col)
  end.

(** The value that [roll_step] stores under the name of a column and a
    window. *)
Definition roll_value (include_current : bool) (id_col : string) (df : frame)
           (p : string * positive) : result column :=
  match get_col id_col df, get_col (fst p) df with
  | Some ids, Some vals =>
      transform (fun s => _rolling include_current s (snd p)) ids vals
  | None, _ => Raise (KeyError id_col)
  | _, None => Raise (KeyError (fst p))
  end.

Definition trend_step (new_cols : frame) (p : string * positive * positive) : frame :=
  let '(base_col, w_short, w_long) := p in
  match get_col (roll_name base_col w_short) new_cols,
        get_col (roll_name base_col w_long) new_cols with
  | Some c_short, Some c_long =>
      set_col (trend_name base_col w_short w_long)
              (map (fun ab => sub_cell (fst ab) (snd ab)) (combine c_short c_long))
              new_cols
  | _, _ => new_cols
  end.

(** The frame and the columns to roll, after the optional per-90 step. *)
Definition roll_columns (df : frame) (cols : list string) (per90 : bool)
           (minutes_col : string) : result (frame * list string) :=
  if per90 then
    let roll_cols := _available_cols df cols in
    let* df := add_per90_features df roll_cols minutes_col in
    Ok (df, (roll_cols ++ filter (fun c => has_col c df) (map per90_name roll_cols))%list)
  else Ok (df, _available_cols df cols).

Definition add_player_rolling_features (df : frame) (windows : list positive)
           (cols : option (list string)) (per90 include_current : bool)
           (id_col gw_col minutes_col : string) : result frame :=
  let cols := match cols with None => DEFAULT_ROLLING_COLS | Some l => l end in
  if orb (negb (has_col id_col df)) (negb (has_col gw_col df)) then
    Raise (ValueError ("Missing required columns: " ++ id_col ++ ", " ++ gw_col))
  else
    let* rolled := roll_columns df cols per90 minutes_col in
    let '(df, roll_cols) := rolled in
    let* df := foldM numeric_step roll_cols df in
    let* df := sort_values [id_col; gw_col] df in
    let* new_cols :=
      foldM (fun nc col => foldM (roll_step include_current id_col df col) windows nc)
            roll_cols [] in
    let new_cols := fold_left trend_step trend_pairs new_cols in
    match new_cols with
    | [] => Ok df
    | _ => Ok (df ++ new_cols)%list
    end.
End WithFloat.

End PlayerFeatures.

(** * [src/features/fixture_features.py]: fixture difficulty *)

Module FixtureFeatures.
Import Pandas.

Definition DEFAULT_HORIZONS : list Z := [1; 5; 10; 15].

(** [a - b] on cells: numbers subtract, a missing operand gives a missing
    value, a text raises. *)
Definition num_sub (a b : cell) : result cell :=
  match a, b with
  | VStr _, _ | _, VStr _ => Raise (TypeError "unsupported operand type(s) for -")
  | _, _ =>
      match num_of a, num_of b with
      | Some x, Some y => Ok (VFloat (x - y)%Qc)
      | _, _ => Ok NA
      end
  end.

Definition cell_Z (c : cell) : Z :=
  match c with VInt z => z | _ => 0 end.

Definition _ensure_gw_col (df : frame) : frame :=
  match get_col "gameweek" df with
  | Some c => if has_col "gw" df then df else set_col "gw" c df
  | None => df
  end.

Definition required : list string :=
  ["gw"; "home_team"; "away_team"; "home_team_elo"; "away_team_elo"].

(** [fx.assign(team_id=fx[team], opp_id=fx[opp], is_home=flag,
    team_elo=fx[team_elo], opp_elo=fx[opp_elo])] *)
Definition side_rows (fx : frame) (team opp : string) (flag : Z)
           (team_elo opp_elo : string) : result frame :=
  match get_col team fx, get_col opp fx, get_col team_elo fx, get_col opp_elo fx with
  | Some t, Some o, Some te, Some oe =>
      Ok (set_col "opp_elo" oe
           (set_col "team_elo" te
             (set_col "is_home" (repeat (VInt flag) (nrows fx))
               (set_col "opp_id" o (set_col "team_id" t fx)))))
  | _, _, _, _ => Raise (KeyError team)
  end.

(** [dim[[key, value]].rename(columns={key: key', value: value'})] *)
Definition dim_lookup (dim : frame) (key value key' value' : string) : option frame :=
  match get_col key dim, get_col value dim with
  | Some k, Some v => Some [(key', k); (value', v)]
  | _, _ => None
  end.

(** [series.dropna().unique()]: the first occurrence of each value. *)
Fixpoint unique (l : list cell) : list cell :=
  match l with
  | [] => []
  | c :: l' =>
      if is_na c then unique l'
      else c :: filter (fun x => negb (cell_eqb x c)) (unique l')
  end.

Definition is_num_key (c : cell) : bool :=
  match key_of c with Some (KNum _) => true | _ => false end.

Definition is_str_key (c : cell) : bool :=
  match key_of c with Some (KStr _) => true | _ => false end.

(** [sorted(l)]: numbers are ordered with numbers and strings with
    strings; anything else raises. *)
Definition py_sorted (l : list cell) : result (list cell) :=
  if orb (forallb is_num_key l) (forallb is_str_key l) then
    Ok (sort_by (fun a b => key_leb (key_of a) (key_of b)) l)
  else Raise (TypeError "'<' not supported between instances").

Definition name_count (h : Z) : string := "fixture_count_next_" ++ str_of_Z h.
Definition name_home (h : Z) : string := "home_share_next_" ++ str_of_Z h.
Definition name_opp_elo (h : Z) : string := "opp_elo_avg_next_" ++ str_of_Z h.
Definition name_opp_strength (h : Z) : string := "opp_strength_avg_next_" ++ str_of_Z h.
Definition name_elo_delta (h : Z) : string := "elo_delta_avg_next_" ++ str_of_Z h.

Definition with_opp_strength (team_fx dim : frame) : result frame :=
  match dim_lookup dim "id" "strength" "opp_id" "opp_strength" with
  | Some lookup => merge_left team_fx lookup "opp_id"
  | None => Ok team_fx
  end.

Definition with_team_elo (team_fx dim : frame) : result frame :=
  match dim_lookup dim "id" "elo" "team_id" "team_elo_dim" with
  | Some lookup =>
      let* m := merge_left team_fx lookup "team_id" in
      match get_col "team_elo" m, get_col "team_elo_dim" m with
      | Some e, Some d =>
          Ok (drop_col "team_elo_dim"
                (set_col "team_elo"
                   (map (fun ab => fillna (fst ab) (snd ab)) (combine e d)) m))
      | None, _ => Raise (KeyError "team_elo")
      | _, None => Raise (KeyError "team_elo_dim")
      end
  | None => Ok team_fx
  end.

(** The team table is a dimension table: no two of its rows have the same
    id. *)
Definition dim_ids_distinct (teams_dim : option frame) : Prop :=
  match teams_dim with
  | Some dim => forall ids, get_col "id" dim = Some ids -> distinct_keys ids
  | None => True
  end.

(** The table of team fixtures: every fixture once for its home team and
    once for its away team, with the strength of the opponent and the
    rating of the team looked up in the team table when there is one, and
    the difference of the ratings. *)
Definition team_fixtures (fx : frame) (teams_dim : option frame) : result frame :=
  let* home_rows :=
    side_rows fx "home_team" "away_team" 1 "home_team_elo" "away_team_elo" in
  let* away_rows :=
    side_rows fx "away_team" "home_team" 0 "away_team_elo" "home_team_elo" in
  let team_fx := concat_frames [home_rows; away_rows] in
  let* team_fx :=
    match teams_dim with
    | Some dim =>
        if empty dim then Ok team_fx
        else
          let* t := with_opp_strength team_fx dim in
          with_team_elo t dim
    | None => Ok team_fx
    end in
  let* te := col_or_raise team_fx "team_elo" in
  let* oe := col_or_raise team_fx "opp_elo" in
  let* delta := mapM (fun ab => num_sub (fst ab) (snd ab)) (combine te oe) in
  Ok (set_col "elo_delta" delta team_fx).

(** The names of the columns of a horizon. *)
Definition horizon_names (h : Z) : list string :=
  [name_count h; name_home h; name_opp_elo h; name_opp_strength h; name_elo_delta h].

Section WithFloat.
Variable float_of_str : string -> option (option Qc).

Definition col_mean (name : string) (df : frame) : result cell :=
  match get_col name df with
  | Some c => series_mean float_of_str c
  | None => Raise (KeyError name)
  end.

(** The rows of [team_rows] with [current_gw < gw <= current_gw + h]. *)
Definition upcoming_rows (team_rows : frame) (current_gw h : Z) : result frame :=
  match get_col "gw" team_rows with
  | Some gws =>
      Ok (filter_rows
            (map (fun c => andb (current_gw <? cell_Z c) (cell_Z c <=? current_gw + h)) gws)
            team_rows)
  | None => Raise (KeyError "gw")
  end.

(** The body of the loop over the horizons. *)
Definition horizon_step (team_rows : frame) (current_gw : Z) (row : dict) (h : Z)
  : result dict :=
  let* upcoming := upcoming_rows team_rows current_gw h in
  let count := nrows upcoming in
  let row := dict_set (name_count h) (VInt (Z.of_nat count)) row in
  if Nat.eqb count 0 then
    Ok (dict_set (name_elo_delta h) NA
         (dict_set (name_opp_strength h) NA
           (dict_set (name_opp_elo h) NA
             (dict_set (name_home h) NA row))))
  else
    let* home := col_mean "is_home" upcoming in
    let row := dict_set (name_home h) home row in
    let* opp_elo := col_mean "opp_elo" upcoming in
    let row := dict_set (name_opp_elo h) opp_elo row in
    let* opp_strength :=
      if has_col "opp_strength" upcoming then col_mean "opp_strength" upcoming
      else Ok NA in
    let row := dict_set (name_opp_strength h) opp_strength row in
    let* elo_delta := col_mean "elo_delta" upcoming in
    Ok (dict_set (name_elo_delta h) elo_delta row).

(** What the columns of horizon [h] hold in a row for the team rows
    [team_rows] and the gameweek [g]: the count of the upcoming rows, and
    missing aggregates when there is none. *)
Definition horizon_cells (team_rows : frame) (g h : Z) (row : dict) : Prop :=
  exists upcoming,
    upcoming_rows team_rows g h = Ok upcoming /\
    dict_get (name_count h) row = Some (VInt (Z.of_nat (nrows upcoming))) /\
    (nrows upcoming = 0%nat ->
     dict_get (name_home h) row = Some NA /\
     dict_get (name_opp_elo h) row = Some NA /\
     dict_get (name_opp_strength h) row = Some NA /\
     dict_get (name_elo_delta h) row = Some NA).

Definition gw_row (team_rows : frame) (horizons : list Z) (team_id : cell)
           (current_gw : Z) : result dict :=
  foldM (horizon_step team_rows current_gw) horizons
    [("team_id", team_id); ("gw", VInt current_gw)].

(** [range(a, b + 1)] *)
Definition gw_range (a b : Z) : list Z :=
  map (fun k => a + Z.of_nat k) (seq 0 (Z.to_nat (b + 1 - a))).

(** [team_fx[team_fx["team_id"] == team_id]] *)
Definition rows_of_team (team_fx : frame) (ids : column) (team_id : cell) : frame :=
  filter_rows (map (fun c => cell_eqb c team_id) ids) team_fx.

Definition team_block (team_fx : frame) (horizons : list Z) (min_gw max_gw : Z)
           (team_id : cell) : result (list dict) :=
  match get_col "team_id" team_fx with
  | Some ids =>
      let team_rows := rows_of_team team_fx ids team_id in
      mapM (gw_row team_rows horizons team_id) (gw_range min_gw max_gw)
  | None => Raise (KeyError "team_id")
  end.

(** The loop over the teams and the gameweeks, on the table of team
    fixtures. *)
Definition difficulty_rows (team_fx : frame) (horizons : list Z) : result (list dict) :=
  let* g := col_or_raise team_fx "gw" in
  match map cell_Z g with
  | [] => Raise (ValueError "cannot convert float NaN to integer")
  | g0 :: gs =>
      let min_gw := py_min g0 gs in
      let max_gw := py_max g0 gs in
      let* ids := col_or_raise team_fx "team_id" in
      let* teams := py_sorted (unique ids) in
      let* blocks := mapM (team_block team_fx horizons min_gw max_gw) teams in
      Ok (List.concat blocks)
  end.

Definition build_team_fixture_difficulty (fixtures : frame)
           (teams_dim : option frame) (horizons : list Z) : result frame :=
  if empty fixtures then Ok []
  else
    let fx := _ensure_gw_col fixtures in
    if negb (forallb (fun c => has_col c fx) required) then
      Raise (ValueError "fixtures missing columns")
    else
      let* gws := col_or_raise fx "gw" in
      let* gw := mapM astype_int gws in
      let fx := set_col "gw" (map VInt gw) fx in
      let* team_fx := team_fixtures fx teams_dim in
      let* rows := difficulty_rows team_fx horizons in
      Ok (frame_of_rows rows).
End WithFloat.

End FixtureFeatures.

(** * [src/features/match_features.py]: the gameweek of a player-match row *)

Module MatchFeatures.
Import Pandas.

(** [matches[["match_id", "gw"]]]: a missing column raises. *)
Definition select2 (df : frame) (a b : string) : result frame :=
  let* ca := col_or_raise df a in
  let* cb := col_or_raise df b in
  Ok [(a, ca); (b, cb)].

Definition with_gw_alias (matches : frame) : frame :=
  match get_col "gameweek" matches with
  | Some c => if has_col "gw" matches then matches else set_col "gw" c matches
  | None => matches
  end.

Definition _ensure_gw (pm : frame) (matches : option frame) : result frame :=
  if has_col "gw" pm then Ok pm
  else
    match matches with
    | None => Ok pm
    | Some matches =>
        if orb (empty matches) (negb (has_col "match_id" pm)) then Ok pm
        else
          let m := with_gw_alias matches in
          if negb (has_col "gw" m) then Ok pm
          else
            let* lookup := select2 m "match_id" "gw" in
            merge_left pm lookup "match_id"
    end.

End MatchFeatures.

(** * [src/features/availability_flags.py]: substitution rates *)

Module Availability.
Import Pandas.

(** A comparison of a cell with an integer: false on a missing value, a
    text raises. *)
Definition compare_cell (op : Qc -> Qc -> bool) (c : cell) (z : Z) : result bool :=
  match c with
  | VStr _ => Raise (TypeError "comparison not supported between str and int")
  | _ =>
      match num_of c with
      | Some q => Ok (op q (Z2Qc z))
      | None => Ok false
      end
  end.

Definition Qc_ltb (a b : Qc) : bool := negb (Qc_leb b a).

Definition int_of_bool (b : bool) : cell := VInt (if b then 1 else 0).

(** The first row of every group of the two key columns, the groups in
    ascending order of their keys; a row with a missing key is in no
    group. *)
Definition group_reps (k1 k2 : column) : list nat :=
  let n := List.length k1 in
  let keyed i := andb (negb (is_na (nth i k1 NA))) (negb (is_na (nth i k2 NA))) in
  let same i j := keys_match (row_at [k1; k2] i) (row_at [k1; k2] j) in
  let firsts :=
    filter (fun i => andb (keyed i) (negb (existsb (same i) (seq 0 i)))) (seq 0 n) in
  sort_by (fun i j => keys_leb (row_keys [k1; k2] i) (row_keys [k1; k2] j)) firsts.

(** [df[names]] for names that are columns of [df]. *)
Definition select_cols (names : list string) (df : frame) : frame :=
  flat_map (fun n => match get_col n df with Some c => [(n, c)] | None => [] end) names.

(** The frame the flags are computed on: [id] stands in for a missing
    entity column, the three columns are required, the gameweek is cast to
    integers and the rows are sorted by entity and gameweek. *)
Definition prepared (pgw_all : frame) (id_col gw_col minutes_col : string) : result frame :=
  let df :=
    if andb (has_col "id" pgw_all) (negb (has_col id_col pgw_all))
    then rename_col "id" id_col pgw_all else pgw_all in
  let* _ :=
    foldM (fun _ col =>
             if has_col col df then Ok tt
             else Raise (ValueError ("Missing required column: " ++ col)))
          [id_col; gw_col; minutes_col] tt in
  let* gws := col_or_raise df gw_col in
  let* gw := mapM astype_int gws in
  sort_values [id_col; gw_col] (set_col gw_col (map VInt gw) df).

(** [minutes.fillna(0) <= 0], cell by cell. *)
Definition did_not_play (c : cell) : result bool :=
  compare_cell Qc_leb (fillna c (VInt 0)) 0.

(** [str(x).lower() != "a"] *)
Definition status_flag (c : cell) : cell :=
  VBool (negb (String.eqb (lower (astype_str c)) "a")).

(** The rows of the entity of row [i] up to row [i], the last [w] of
    them. *)
Definition last_rows (ids : column) (w : positive) (i : nat) : list nat :=
  let rows := filter (fun j => cell_eqb (nth j ids NA) (nth i ids NA)) (seq 0 (S i)) in
  skipn (List.length rows - Pos.to_nat w) rows.

Definition KEEP_COLS (id_col gw_col : string) : list string :=
  [ id_col; gw_col; "missed_last_n"; "avg_minutes_last_n"; "starts_last_n";
    "status_flag"; "chance_flag" ].

Section WithFloat.
Variable float_of_str : string -> option (option Qc).

(** [pd.to_numeric(x, errors="coerce").fillna(100) < 100] *)
Definition chance_flag (c : cell) : cell :=
  VBool match num_of (fillna (to_numeric float_of_str c) (VInt 100)) with
        | Some q => Qc_ltb q (Z2Qc 100)
        | None => false
        end.

Definition build_availability_flags (pgw_all : frame) (window_gw : positive)
           (id_col gw_col minutes_col : string) : result frame :=
  let* df := prepared pgw_all id_col gw_col minutes_col in
  let* minutes := col_or_raise df minutes_col in
  let* dnp := mapM did_not_play minutes in
  let df := set_col "_dnp" (map int_of_bool dnp) df in
  let* ids := col_or_raise df id_col in
  let* dnp_col := col_or_raise df "_dnp" in
  let* missed := transform (rolling_sum float_of_str window_gw 1) ids dnp_col in
  let* missed := mapM astype_int missed in
  let df := set_col "missed_last_n" (map VInt missed) df in
  let* ids := col_or_raise df id_col in
  let* minutes := col_or_raise df minutes_col in
  let* avg := transform (rolling_mean float_of_str window_gw 1) ids minutes in
  let df := set_col "avg_minutes_last_n" avg df in
  let* df :=
    match get_col "starts" df with
    | Some starts =>
        let* ids := col_or_raise df id_col in
        let* s := transform (rolling_sum float_of_str window_gw 1) ids starts in
        Ok (set_col "starts_last_n" s df)
    | None => Ok df
    end in
  let df :=
    match get_col "status" df with
    | Some st => set_col "status_flag" (map status_flag st) df
    | None => df
    end in
  let df :=
    match get_col "chance_of_playing_next_round" df with
    | Some ch => set_col "chance_flag" (map chance_flag ch) df
    | None => df
    end in
  Ok (select_cols (filter (fun c => has_col c df) (KEEP_COLS id_col gw_col)) df).

(** [pm.groupby([id_col, "gw"], as_index=False).agg(early_sub_rate=("early_sub", "mean"),
    sub_on_rate=("sub_on", "mean"))] *)
Definition gw_rates_of (pm : frame) (id_col : string) : result frame :=
  let* ids := col_or_raise pm id_col in
  let* gws := col_or_raise pm "gw" in
  let* early := col_or_raise pm "early_sub" in
  let* sub_on := col_or_raise pm "sub_on" in
  let reps := group_reps ids gws in
  let rows_of i :=
    filter (fun j => keys_match (row_at [ids; gws] i) (row_at [ids; gws] j))
           (seq 0 (List.length ids)) in
  let* early_rate := mapM (fun i => series_mean float_of_str (gather (rows_of i) early)) reps in
  let* sub_on_rate := mapM (fun i => series_mean float_of_str (gather (rows_of i) sub_on)) reps in
  Ok (set_col "sub_on_rate" sub_on_rate
        (set_col "early_sub_rate" early_rate
           (set_col "gw" (gather reps gws) [(id_col, gather reps ids)]))).

Definition smooth (window_gw : positive) (id_col col : string) (gw_rates : frame)
  : result frame :=
  let* ids := col_or_raise gw_rates id_col in
  let* vals := col_or_raise gw_rates col in
  let* r := transform (rolling_mean float_of_str window_gw 1) ids vals in
  Ok (set_col (col ++ "_last_n") r gw_rates).

Definition add_substitution_rates (base_df playermatchstats matches : frame)
           (window_gw : positive) (early_sub_min sub_on_min : Z)
           (id_col gw_col : string) : result frame :=
  if orb (empty playermatchstats) (empty matches) then Ok base_df
  else if orb (negb (has_col "match_id" playermatchstats))
              (negb (has_col "match_id" matches)) then Ok base_df
  else
    let pm := playermatchstats in
    if negb (has_col "player_id" pm) then Ok base_df
    else
      let matches := MatchFeatures.with_gw_alias matches in
      let* pm :=
        if negb (has_col "gw" pm) then
          let* lookup := MatchFeatures.select2 matches "match_id" "gw" in
          let* pm := merge_left pm lookup "match_id" in
          if has_col "gw" pm then dropna "gw" pm else Ok pm
        else
          match get_col "gw_y" pm, get_col "gw_x" pm with
          | Some y, Some x =>
              Ok (set_col "gw" (map (fun ab => fillna (fst ab) (snd ab)) (combine y x)) pm)
          | _, _ => Ok pm
          end in
      if negb (has_col "gw" pm) then Ok base_df
      else
        let* pm := dropna "gw" pm in
        let* gws := col_or_raise pm "gw" in
        let* gw := mapM astype_int gws in
        let pm := set_col "gw" (map VInt gw) pm in
        if orb (negb (has_col "start_min" pm)) (negb (has_col "finish_min" pm)) then
          Ok base_df
        else
          let* start := col_or_raise pm "start_min" in
          let* finish := col_or_raise pm "finish_min" in
          let* started := mapM (fun c => compare_cell Qc_leb c sub_on_min) start in
          let* off_early := mapM (fun c => compare_cell Qc_ltb c early_sub_min) finish in
          let* played_col := col_or_raise pm "minutes_played" in
          let* played := mapM (fun c => compare_cell (fun a b => Qc_ltb b a) c 0) played_col in
          let early_sub :=
            map (fun t => int_of_bool (andb (andb (fst (fst t)) (snd (fst t))) (snd t)))
                (combine (combine started off_early) played) in
          let pm := set_col "early_sub" early_sub pm in
          let* came_on := mapM (fun c => compare_cell (fun a b => Qc_ltb b a) c sub_on_min) start in
          let pm := set_col "sub_on" (map int_of_bool came_on) pm in
          let* gw_rates := gw_rates_of pm id_col in
          let* gw_rates := sort_values [id_col; "gw"] gw_rates in
          let* gw_rates := smooth window_gw id_col "early_sub_rate" gw_rates in
          let* gw_rates := smooth window_gw id_col "sub_on_rate" gw_rates in
          let* ids := col_or_raise gw_rates id_col in
          let* g := col_or_raise gw_rates "gw" in
          let* e := col_or_raise gw_rates "early_sub_rate_last_n" in
          let* s := col_or_raise gw_rates "sub_on_rate_last_n" in
          let rates :=
            set_col "sub_on_rate_last_n" s
              (set_col "early_sub_rate_last_n" e (set_col "gw" g [(id_col, ids)])) in
          let* out := merge_left_on base_df rates [id_col; gw_col] [id_col; "gw"] in
          Ok (rename_col "gw_x" gw_col (drop_col "gw_y" out)).
End WithFloat.

End Availability.

(** * Dictionaries of tables *)

(** A Python [dict] with string keys, in insertion order: [d[k]] and
    [d[k] = v]. *)
Fixpoint lookup {A : Type} (k : string) (d : list (string * A)) : option A :=
  match d with
  | [] => None
  | (n, v) :: d' => if String.eqb n k then Some v else lookup k d'
  end.

Fixpoint update {A : Type} (k : string) (v : A) (d : list (string * A))
  : list (string * A) :=
  match d with
  | [] => [(k, v)]
  | (n, v0) :: d' => if String.eqb n k then (n, v) :: d' else (n, v0) :: update k v d'
  end.

Definition tables : Type := list (string * frame).

(** * [src/io/loaders.py]: the table loader *)

Module Loaders.
Import Pandas.

(** The file system under the by-gameweek directory: every entry of the
    root has a name, is a directory or not, and holds files; a file is given
    by what [pd.read_csv] makes of it, a frame or an exception.  The root is
    [None] when it does not exist. *)
Record dirent : Type := {
  d_name : string;
  d_is_dir : bool;
  d_files : list (string * result frame)
}.

Definition root_dir := option (list dirent).

Fixpoint find_file (filename : string) (files : list (string * result frame))
  : option (result frame) :=
  match files with
  | [] => None
  | (n, r) :: files' => if String.eqb n filename then Some r else find_file filename files'
  end.

(** [s[2:]] *)
Definition drop2 (s : string) : string :=
  match s with
  | String _ (String _ r) => r
  | _ => EmptyString
  end.

Definition gw_dir (p : dirent) : list (string * Z * dirent) :=
  if andb (d_is_dir p) (String.prefix "gw" (lower (d_name p))) then
    match py_int (drop2 (d_name p)) with
    | Some gw_num => [(d_name p, gw_num, p)]
    | None => []
    end
  else [].

Definition list_gw_dirs (by_gameweek_dir : root_dir)
  : result (list (string * Z * dirent)) :=
  match by_gameweek_dir with
  | None => Raise (FileNotFoundError "By Gameweek directory not found")
  | Some entries =>
      Ok (sort_by (fun a b => snd (fst a) <=? snd (fst b)) (flat_map gw_dir entries))
  end.

(** [df.insert(0, "gw", gw_num)] *)
Definition insert_gw (gw_num : Z) (df : frame) : frame :=
  ("gw", repeat (VInt gw_num) (nrows df)) :: df.

(** The state of the loop: the frames read so far and the headers of the
    first of them. *)
Definition load_state : Type := list frame * option (list string).

(** [if add_gw and "gw" not in df.columns: df.insert(0, "gw", gw_num)] *)
Definition place_gw (add_gw : bool) (gw_num : Z) (df : frame) : frame :=
  if andb add_gw (negb (has_col "gw" df)) then insert_gw gw_num df else df.

Definition load_step (filename : string) (add_gw allow_missing : bool)
           (st : load_state) (d : string * Z * dirent) : result load_state :=
  match find_file filename (d_files (snd d)) with
  | None =>
      if allow_missing then Ok st
      else Raise (FileNotFoundError ("Missing file: " ++ fst (fst d) ++ "/" ++ filename))
  | Some read =>
      let* df := read in
      let first_columns :=
        match snd st with
        | None => Some (columns df)
        | Some c => Some c
        end in
      let df := place_gw add_gw (snd (fst d)) df in
      Ok ((fst st ++ [df])%list, first_columns)
  end.

(** [pd.DataFrame(columns=cols)] *)
Definition empty_frame (cols : list string) : frame := map (fun c => (c, [])) cols.

Definition finish_load (st : load_state) : frame :=
  match fst st with
  | [] => []
  | frames =>
      match filter (fun f => negb (empty f)) frames with
      | [] => empty_frame (match snd st with Some c => c | None => [] end)
      | non_empty => concat_frames non_empty
      end
  end.

Definition load_all_gws (by_gameweek_dir : root_dir) (filename : string)
           (add_gw allow_missing : bool) : result frame :=
  let* dirs := list_gw_dirs by_gameweek_dir in
  let* st := foldM (load_step filename add_gw allow_missing) dirs ([], None) in
  Ok (finish_load st).

(** [name.replace("GW", "")] *)
Fixpoint remove_GW (s : string) : string :=
  match s with
  | String "G" (String "W" r) => remove_GW r
  | String c r => String c (remove_GW r)
  | EmptyString => EmptyString
  end.

(** [load_csv_for_gw]: [gw_path] is a directory, and [Path(gw_path).name]
    its name. *)
Definition load_csv_for_gw (gw_path : dirent) (filename : string) (add_gw : bool)
           (gw_num : option Z) : result frame :=
  match find_file filename (d_files gw_path) with
  | None => Raise (FileNotFoundError ("Missing file: " ++ d_name gw_path ++ "/" ++ filename))
  | Some read =>
      let* df := read in
      if andb add_gw (negb (has_col "gw" df)) then
        let* n :=
          match gw_num with
          | Some n => Ok n
          | None =>
              match py_int (remove_GW (d_name gw_path)) with
              | Some n => Ok n
              | None => Raise (ValueError "invalid literal for int() with base 10")
              end
          end in
        Ok (insert_gw n df)
      else Ok df
  end.

(** The tables of [load_tables] and their files, in the order of the
    dictionary. *)
Definition TABLE_FILES : list (string * string) :=
  [ ("teams", "teams.csv"); ("players", "players.csv"); ("matches", "matches.csv");
    ("fixtures", "fixtures.csv");
    ("player_gameweek_stats", "player_gameweek_stats.csv");
    ("playerstats", "playerstats.csv"); ("playermatchstats", "playermatchstats.csv") ].

(** [load_tables]: [by_gw] is the directory [data_root/season/"By Gameweek"]. *)
Definition load_tables (by_gw : root_dir) (add_gw : bool) : result tables :=
  foldM (fun out nf =>
           let* df := load_all_gws by_gw (snd nf) add_gw false in
           Ok (update (fst nf) df out))
        TABLE_FILES [].

Definition load_specific_tables (by_gameweek_dir : root_dir) (filenames : list string)
           (add_gw allow_missing : bool) : result tables :=
  foldM (fun out name =>
           let* df := load_all_gws by_gameweek_dir name add_gw allow_missing in
           Ok (update name df out))
        filenames [].




End Loaders.

(** * [src/io/schema.py]: the required columns *)

Module Schema.

Definition REQUIRED_COLUMNS : list (string * list string) :=
  [ ("teams", ["code"; "id"; "name"; "strength"; "elo"]);
    ("players", ["player_id"; "web_name"; "team_code"; "position"]);
    ("matches",
     [ "gameweek"; "home_team"; "away_team"; "home_team_elo"; "away_team_elo";
       "finished"; "match_id" ]);
    ("fixtures",
     [ "gameweek"; "home_team"; "away_team"; "home_team_elo"; "away_team_elo";
       "finished"; "match_id" ]);
    ("player_gameweek_stats",
     [ "id"; "gw"; "minutes"; "event_points"; "expected_goals"; "expected_assists";
       "defensive_contribution" ]);
    ("playerstats",
     [ "id"; "gw"; "minutes"; "event_points"; "expected_goals"; "expected_assists";
       "defensive_contribution" ]);
    ("playermatchstats", ["player_id"; "match_id"; "minutes_played"]) ].

Definition validate_columns (df : frame) (required : list string) (table : string)
  : result unit :=
  match filter (fun c => negb (has_col c df)) required with
  | [] => Ok tt
  | _ => Raise (ValueError ("Missing columns in " ++ table))
  end.

Definition validate_all (t : tables) : result unit :=
  foldM (fun _ nr =>
           match lookup (fst nr) t with
           | None => Raise (ValueError ("Missing table in load output: " ++ fst nr))
           | Some df => validate_columns df (snd nr) (fst nr)
           end)
        REQUIRED_COLUMNS tt.

Definition list_required_columns (table : string) : result (list string) :=
  match lookup table REQUIRED_COLUMNS with
  | None => Raise (KeyError ("Unknown table: " ++ table))
  | Some required => Ok required
  end.

End Schema.

(** * The specification's wording, and sample tables *)

Module Spec.
Import Pandas.

(** The total label as the specification words it: the sum of the source
    column over the rows of the same entity whose gameweek lies in
    [g + 1 .. g + h], [g] the gameweek of row [i]. *)
Definition gameweek_window_sum (ids gws src : column) (h : positive) (i : nat) : Qc :=
  let g := match nth i gws NA with VInt z => z | _ => 0 end in
  qsum (present
          (map (fun j => num_of (nth j src NA))
               (filter (fun j =>
                          andb (cell_eqb (nth j ids NA) (nth i ids NA))
                               (match nth j gws NA with
                                | VInt z => andb (g <? z) (z <=? g + Zpos h)
                                | _ => false
                                end))
                       (seq 0 (List.length ids))))).

(** The fixtures of team [t] after gameweek [g] and within [h] gameweeks
    of it, home and away. *)
Definition in_window (g h gw : Z) : bool := andb (g <? gw) (gw <=? g + h).

Definition side_ahead (side : column) (gw : list Z) (t : cell) (g h : Z) : nat :=
  List.length (filter (fun p => andb (cell_eqb (fst p) t) (in_window g h (snd p)))
                      (combine side gw)).

Definition fixtures_ahead (home away : column) (gw : list Z) (t : cell) (g h : Z) : nat :=
  (side_ahead home gw t g h + side_ahead away gw t g h)%nat.

(** The rows of a table with the key ([t], [g]). *)
Definition rows_keyed (team_ids gws : column) (t : cell) (g : Z) : nat :=
  List.length (filter (fun p => andb (cell_eqb (fst p) t)
                                     (match snd p with VInt z => z =? g | _ => false end))
                      (combine team_ids gws)).

(** The finished flags that the index counts as true, by the type of the
    cell: the boolean [True], the integer [1], and a text that is one of
    [true], [1], [t] and [yes] once stripped and in lower case.  A float
    does not count, whatever its value, and neither does a missing value. *)
Definition flag_counts (c : cell) : bool :=
  match c with
  | VBool b => b
  | VInt z => z =? 1
  | VStr s => isin (lower (strip s)) ["true"; "1"; "t"; "yes"]
  | VFloat _ => false
  | NA => false
  end.

(** The cell of column [n] at row [i] of a table. *)
Definition cell_at (n : string) (df : frame) (i : nat) : option cell :=
  match get_col n df with
  | Some c => nth_error c i
  | None => None
  end.

(** The value of a cell as a fraction, for reading results. *)
Definition view (c : cell) : option Q := option_map this (num_of c).

End Spec.

Module Samples.

(** No text of the sample tables is a number. *)
Definition no_float (s : string) : option (option Qc) := None.

(** One player, gameweeks 1 to 5, the points of the specification. *)
Definition five_weeks : frame :=
  [ ("player_id", [VInt 7; VInt 7; VInt 7; VInt 7; VInt 7]);
    ("gw", [VInt 1; VInt 2; VInt 3; VInt 4; VInt 5]);
    ("event_points", [VInt 2; VInt 4; VInt 6; VInt 8; VInt 10]) ].

(** One player who has no row at gameweek 3. *)
Definition gap_at_3 : frame :=
  [ ("player_id", [VInt 7; VInt 7; VInt 7; VInt 7]);
    ("gw", [VInt 1; VInt 2; VInt 4; VInt 5]);
    ("event_points", [VInt 2; VInt 4; VInt 6; VInt 8]) ].

Definition base_rows : frame :=
  [ ("player_id", [VInt 1; VInt 1; VInt 2]); ("gw", [VInt 1; VInt 2; VInt 1]) ].

Definition player_matches : frame :=
  [ ("player_id", [VInt 1; VInt 1; VInt 2; VInt 1]);
    ("match_id", [VInt 100; VInt 101; VInt 100; VInt 102]);
    ("start_min", [VInt 0; VInt 60; VInt 0; VInt 0]);
    ("finish_min", [VInt 65; VInt 90; VInt 90; VInt 90]);
    ("minutes_played", [VInt 65; VInt 30; VInt 90; VInt 90]) ].

(** A match table with neither a [gw] nor a [gameweek] column. *)
Definition matches_without_gw : frame :=
  [ ("match_id", [VInt 100; VInt 101; VInt 102]);
    ("finished", [VBool true; VBool true; VBool true]) ].

Definition matches_with_gameweek : frame :=
  [ ("match_id", [VInt 100; VInt 101; VInt 102]);
    ("gameweek", [VInt 1; VInt 2; VInt 2]) ].

(** A by-gameweek directory: gameweek 1 holds an empty table with its
    headers, gameweek 2 holds rows, gameweek 3 has no file, and one entry is
    no gameweek directory. *)
Definition season_dir : Loaders.root_dir :=
  Some [ {| Loaders.d_name := "GW2"; Loaders.d_is_dir := true;
            Loaders.d_files := [("teams.csv", Ok [("id", [VInt 1; VInt 2])])] |};
         {| Loaders.d_name := "GW1"; Loaders.d_is_dir := true;
            Loaders.d_files := [("teams.csv", Ok [("id", [])])] |};
         {| Loaders.d_name := "GW3"; Loaders.d_is_dir := true; Loaders.d_files := [] |};
         {| Loaders.d_name := "notes"; Loaders.d_is_dir := true; Loaders.d_files := [] |} ].

(** Three fixtures of three teams over the gameweeks 1 to 3, and the team
    table. *)
Definition three_fixtures : frame :=
  [ ("gameweek", [VInt 1; VInt 2; VInt 3]);
    ("home_team", [VInt 10; VInt 20; VInt 10]);
    ("away_team", [VInt 20; VInt 30; VInt 30]);
    ("home_team_elo", [VInt 1500; VInt 1600; NA]);
    ("away_team_elo", [VInt 1600; VInt 1700; VInt 1700]) ].

Definition three_teams : frame :=
  [ ("id", [VInt 10; VInt 20; VInt 30]);
    ("strength", [VInt 3; VInt 4; VInt 5]);
    ("elo", [VInt 1501; VInt 1601; VInt 1701]) ].

(** The team table with the team 30 listed twice. *)
Definition repeated_teams : frame :=
  [ ("id", [VInt 10; VInt 20; VInt 30; VInt 30]);
    ("strength", [VInt 3; VInt 4; VInt 5; VInt 5]);
    ("elo", [VInt 1501; VInt 1601; VInt 1701; VInt 1701]) ].

(** A dictionary with the tables of the schema, each of one row under its
    required columns. *)
Definition valid_tables : tables :=
  map (fun nr => (fst nr, map (fun c => (c, [VInt 1])) (snd nr))) Schema.REQUIRED_COLUMNS.

(** A by-gameweek directory with one gameweek that holds the seven files
    of the schema, each of one row under its required columns. *)
Definition full_dir : Loaders.root_dir :=
  Some [ {| Loaders.d_name := "GW1"; Loaders.d_is_dir := true;
            Loaders.d_files :=
              map (fun nr => (fst nr ++ ".csv",
                              Ok (map (fun c => (c, [VInt 1])) (snd nr))))
                  Schema.REQUIRED_COLUMNS |} ].

(** Gameweek directories named in upper and in lower case. *)
Definition upper_dir : Loaders.dirent :=
  {| Loaders.d_name := "GW4"; Loaders.d_is_dir := true;
     Loaders.d_files := [("teams.csv", Ok [("id", [VInt 1; VInt 2])])] |}.

Definition lower_dir : Loaders.dirent :=
  {| Loaders.d_name := "gw4"; Loaders.d_is_dir := true;
     Loaders.d_files := [("teams.csv", Ok [("id", [VInt 1; VInt 2])])] |}.

(** The gameweek rows of two players, out of order and with the entity
    column under the name [id]: player 1 plays gameweek 1, has no minutes at
    gameweek 2 and no entry at gameweek 3. *)
Definition minutes_rows : frame :=
  [ ("id", [VInt 1; VInt 1; VInt 1; VInt 2]);
    ("gw", [VInt 2; VInt 1; VInt 3; VInt 1]);
    ("minutes", [VInt 0; VInt 90; NA; VInt 45]) ].


(** Two rows: 45 minutes with a metric of 9, and no minutes at all. *)
Definition two_rows : frame :=
  [ ("player_id", [VInt 1; VInt 2]); ("gw", [VInt 1; VInt 1]);
    ("minutes", [VInt 45; VInt 0]); ("metric", [VInt 9; VInt 5]) ].

End Samples.

(** * Properties *)

(** ** The result monad *)

Lemma mapM_length {A C : Type} (f : A -> result C) (l : list A) (r : list C) :
  mapM f l = Ok r -> List.length r = List.length l.
Proof.
  revert r. induction l as [|a l IH]; simpl; intros r H.
  - inversion H. reflexivity.
  - destruct (f a) as [c|e]; simpl in H; try discriminate.
    destruct (mapM f l) as [cs|e]; simpl in H; try discriminate.
    inversion H. simpl. f_equal. apply IH. reflexivity.
Qed.

Lemma mapM_nth_error {A C : Type} (f : A -> result C) (l : list A) (r : list C) :
  mapM f l = Ok r ->
  forall i a, nth_error l i = Some a ->
  exists c, f a = Ok c /\ nth_error r i = Some c.
Proof.
  revert r. induction l as [|a0 l IH]; simpl; intros r H i a Hi.
  - destruct i; discriminate.
  - destruct (f a0) as [c0|e] eqn:E0; simpl in H; try discriminate.
    destruct (mapM f l) as [cs|e] eqn:E1; simpl in H; try discriminate.
    inversion H; subst r. destruct i as [|i]; simpl in *.
    + inversion Hi; subst. eauto.
    + eapply IH; eauto.
Qed.

Lemma mapM_ok_map {A C : Type} (f : A -> result C) (g : A -> C) (l : list A) :
  (forall a, In a l -> f a = Ok (g a)) -> mapM f l = Ok (map g l).
Proof.
  induction l as [|a l IH]; simpl; intros H; [reflexivity|].
  rewrite (H a) by auto. simpl. rewrite IH by auto. reflexivity.
Qed.

Lemma mapM_total {A C : Type} (f : A -> result C) (l : list A) :
  (forall x, In x l -> exists y, f x = Ok y) -> exists r, mapM f l = Ok r.
Proof.
  induction l as [|a l IH]; intros H; simpl; [eauto|].
  destruct (H a (or_introl eq_refl)) as [y Hy]. rewrite Hy.
  destruct IH as [r Hr]; [intros x Hx; apply H; right; exact Hx|].
  rewrite Hr. simpl. eauto.
Qed.

Lemma mapM_In_ok {A C : Type} (f : A -> result C) (l : list A) (r : list C) (x : A) :
  mapM f l = Ok r -> In x l -> exists y, f x = Ok y.
Proof.
  intros H Hx. apply In_nth_error in Hx. destruct Hx as [i Hi].
  destruct (mapM_nth_error _ _ _ H i x Hi) as (c & Hc & _). eauto.
Qed.

(** ** Maxima *)

Lemma py_max_ge_init (l : list Z) (x : Z) : x <= py_max x l.
Proof.
  unfold py_max. revert x. induction l as [|y l IH]; simpl; intros x; [lia|].
  specialize (IH (Z.max x y)). lia.
Qed.

Lemma py_max_upper (l : list Z) (x y : Z) : In y (x :: l) -> y <= py_max x l.
Proof.
  unfold py_max. revert x. induction l as [|z l IH]; simpl; intros x H.
  - destruct H as [->|[]]. lia.
  - destruct H as [->|[->|H]].
    + pose proof (py_max_ge_init l (Z.max y z)). unfold py_max in *. lia.
    + pose proof (py_max_ge_init l (Z.max x y)). unfold py_max in *. lia.
    + apply IH. right. exact H.
Qed.

Lemma py_max_in (l : list Z) (x : Z) : In (py_max x l) (x :: l).
Proof.
  unfold py_max. revert x. induction l as [|z l IH]; simpl; intros x; [auto|].
  destruct (IH (Z.max x z)) as [H|H].
  - destruct (Z.max_spec x z) as [[_ E]|[_ E]]; rewrite E in *; auto.
  - auto.
Qed.
(** ** The labelable mask *)

Lemma max_horizon_largest (hs : list Z) :
  hs <> [] ->
  In (Targets.max_horizon hs) hs /\ forall h, In h hs -> h <= Targets.max_horizon hs.
Proof.
  destruct hs as [|h hs]; [congruence|]. intros _. simpl. split.
  - apply py_max_in.
  - intros k Hk. apply py_max_upper. exact Hk.
Qed.

(** C3, as the specification words it: with [max_finished_gw = 10] and
    horizons [[1; 5]] a row at gameweek 6 would be labelable and a row at
    gameweek 7 would not.  The code does not flag the row at gameweek 6:
    its threshold is [10 - 5 = 5]. *)
Lemma labelable_mask_gw6_not_labelable :
  Targets.labelable_mask [("gw", [VInt 6; VInt 7])] 10 [1; 5] "gw" <> Ok [true; false].
Proof. vm_compute. discriminate. Qed.

(** C3 (amended): [labelable_mask] flags exactly the rows whose gameweek is
    at most [max_finished_gw] minus the largest horizon; with
    [max_finished_gw = 10] and horizons [[1; 5]] a row at gameweek 5 is
    labelable and a row at gameweek 6 is not. *)
Theorem labelable_mask_exact :
  (forall (df : frame) (max_finished_gw : Z) (horizons : list Z) (gw_col : string)
          (gws : column) (gw : list Z),
      get_col gw_col df = Some gws ->
      mapM astype_int gws = Ok gw ->
      horizons <> [] ->
      exists largest mask,
        In largest horizons /\
        (forall h, In h horizons -> h <= largest) /\
        Targets.labelable_mask df max_finished_gw horizons gw_col = Ok mask /\
        List.length mask = List.length gw /\
        forall i g, nth_error gw i = Some g ->
          exists b, nth_error mask i = Some b /\
                    (b = true <-> g <= max_finished_gw - largest)) /\
  Targets.labelable_mask [("gw", [VInt 5; VInt 6])] 10 [1; 5] "gw" = Ok [true; false].
Proof.
  split; [|reflexivity].
  intros df M hs gw_col gws gw Hcol Hgw Hne.
  destruct (max_horizon_largest hs Hne) as [Hin Hup].
  exists (Targets.max_horizon hs),
         (map (fun g => g <=? M - Targets.max_horizon hs) gw).
  repeat split; auto.
  - unfold Targets.labelable_mask. rewrite Hcol, Hgw. reflexivity.
  - apply length_map.
  - intros i g Hi. exists (g <=? M - Targets.max_horizon hs). split.
    + rewrite nth_error_map, Hi. reflexivity.
    + apply Z.leb_le.
Qed.

Lemma labelable_mask_exact_witness :
  get_col "gw" [("gw", [VInt 5; VInt 6])] = Some [VInt 5; VInt 6] /\
  mapM astype_int [VInt 5; VInt 6] = Ok [5; 6] /\
  exists largest mask,
    In largest [1; 5] /\
    (forall h, In h [1; 5] -> h <= largest) /\
    Targets.labelable_mask [("gw", [VInt 5; VInt 6])] 10 [1; 5] "gw" = Ok mask /\
    List.length mask = 2%nat /\
    forall i g, nth_error [5; 6] i = Some g ->
      exists b, nth_error mask i = Some b /\ (b = true <-> g <= 10 - largest).
Proof.
  split; [reflexivity|]. split; [reflexivity|].
  apply (proj1 labelable_mask_exact [("gw", [VInt 5; VInt 6])] 10 [1; 5] "gw"
           [VInt 5; VInt 6] [5; 6]); [reflexivity|reflexivity|discriminate].
Defined.

(** ** The text of a number *)

Lemma str_of_Z_inj (a b : Z) : str_of_Z a = str_of_Z b -> a = b.
Proof.
  unfold str_of_Z. intros H.
  assert (Hn : forall z, Z.to_int z <> Decimal.Pos Decimal.Nil /\
                         Z.to_int z <> Decimal.Neg Decimal.Nil).
  { intros [|p|p]; simpl; split; try discriminate;
      intros E; injection E as E; exact (DecimalPos.Unsigned.to_uint_nonnil p E). }
  assert (E : Some (Z.to_int a) = Some (Z.to_int b)).
  { rewrite <- (NilZero.isi (Z.to_int a)) by apply Hn.
    rewrite <- (NilZero.isi (Z.to_int b)) by apply Hn.
    rewrite H. reflexivity. }
  injection E as E. rewrite <- (DecimalZ.of_to a), <- (DecimalZ.of_to b), E. reflexivity.
Qed.

Lemma all_digits_uint (d : Decimal.uint) : all_digits (NilEmpty.string_of_uint d) = true.
Proof. induction d; simpl; auto. Qed.

Lemma all_digits_str_of_pos (p : positive) : all_digits (str_of_Z (Zpos p)) = true.
Proof.
  unfold str_of_Z. simpl. unfold NilZero.string_of_uint.
  destruct (Pos.to_uint p) eqn:E; try (rewrite <- E; apply all_digits_uint).
  reflexivity.
Qed.

Lemma sign_or_digit_plain (a : ascii) :
  sign_or_digit a = true -> is_space a = false /\ lower_ascii a = a.
Proof.
  destruct a as [[] [] [] [] [] [] [] []]; vm_compute; intros H;
    first [discriminate H | split; reflexivity].
Qed.

Lemma all_digits_numeral (s : string) : all_digits s = true -> numeral s = true.
Proof.
  induction s as [|a s IH]; simpl; [reflexivity|].
  unfold sign_or_digit. destruct (digit_of a); [exact IH|discriminate].
Qed.

Lemma numeral_str_of_Z (z : Z) : numeral (str_of_Z z) = true.
Proof.
  destruct z as [|p|p].
  - reflexivity.
  - apply all_digits_numeral, all_digits_str_of_pos.
  - pose proof (all_digits_str_of_pos p) as H. unfold str_of_Z in *. simpl in *.
    apply all_digits_numeral. exact H.
Qed.

Lemma numeral_lstrip (s : string) : numeral s = true -> lstrip s = s.
Proof.
  destruct s as [|a s]; simpl; [reflexivity|]. intros H.
  apply andb_true_iff in H. destruct H as [H _].
  destruct (sign_or_digit_plain a H) as [-> _]. reflexivity.
Qed.

Lemma numeral_rstrip (s : string) : numeral s = true -> rstrip s = s.
Proof.
  induction s as [|a s IH]; simpl; [reflexivity|]. intros H.
  apply andb_true_iff in H. destruct H as [Ha Hs]. rewrite (IH Hs).
  destruct (sign_or_digit_plain a Ha) as [-> _]. destruct s; reflexivity.
Qed.

Lemma numeral_lower (s : string) : numeral s = true -> lower s = s.
Proof.
  induction s as [|a s IH]; simpl; [reflexivity|]. intros H.
  apply andb_true_iff in H. destruct H as [Ha Hs]. rewrite (IH Hs).
  destruct (sign_or_digit_plain a Ha) as [_ ->]. reflexivity.
Qed.

Lemma to_bool_int (z : Z) : Index.to_bool (VInt z) = (z =? 1).
Proof.
  unfold Index.to_bool. cbn [astype_str]. unfold strip.
  pose proof (numeral_str_of_Z z) as Hn.
  rewrite (numeral_lstrip _ Hn), (numeral_rstrip _ Hn), (numeral_lower _ Hn).
  unfold isin, Index.truthy. cbn [existsb].
  destruct (String.eqb_spec (str_of_Z z) "true") as [E|_];
    [rewrite E in Hn; discriminate|].
  destruct (String.eqb_spec (str_of_Z z) "t") as [E|_];
    [rewrite E in Hn; discriminate|].
  destruct (String.eqb_spec (str_of_Z z) "yes") as [E|_];
    [rewrite E in Hn; discriminate|].
  rewrite !orb_false_r. cbn [orb].
  destruct (String.eqb_spec (str_of_Z z) "1") as [E|E].
  - change "1" with (str_of_Z 1) in E. apply str_of_Z_inj in E. subst z. reflexivity.
  - symmetry. apply Z.eqb_neq. intros ->. apply E. reflexivity.
Qed.

Lemma has_dot_app (a b : string) : has_dot (a ++ b) = orb (has_dot a) (has_dot b).
Proof.
  induction a as [|x a IH]; simpl; [reflexivity|]. rewrite IH, orb_assoc. reflexivity.
Qed.

Lemma dot_plain (a : ascii) :
  (is_space a = true -> Ascii.eqb a "." = false) /\
  Ascii.eqb (lower_ascii a) "." = Ascii.eqb a ".".
Proof.
  destruct a as [[] [] [] [] [] [] [] []]; vm_compute; split;
    first [reflexivity | intros H; first [reflexivity | discriminate H]].
Qed.

Lemma has_dot_lstrip (s : string) : has_dot (lstrip s) = has_dot s.
Proof.
  induction s as [|a s IH]; simpl; [reflexivity|].
  destruct (is_space a) eqn:E; [|reflexivity].
  rewrite (proj1 (dot_plain a) E). exact IH.
Qed.

Lemma has_dot_rstrip (s : string) : has_dot (rstrip s) = has_dot s.
Proof.
  induction s as [|a s IH]; simpl; [reflexivity|].
  destruct (rstrip s) as [|b r] eqn:Er.
  - simpl in IH. rewrite <- IH. destruct (is_space a) eqn:E.
    + rewrite (proj1 (dot_plain a) E). reflexivity.
    + reflexivity.
  - cbn [has_dot] in *. rewrite IH. reflexivity.
Qed.

Lemma has_dot_lower (s : string) : has_dot (lower s) = has_dot s.
Proof.
  induction s as [|a s IH]; simpl; [reflexivity|].
  rewrite IH, (proj2 (dot_plain a)). reflexivity.
Qed.

Lemma has_dot_float_repr (q : Qc) : has_dot (float_repr q) = true.
Proof.
  unfold float_repr. destruct (Zpos (Qden (this q)) =? 1).
  - rewrite has_dot_app. apply orb_true_r.
  - rewrite !has_dot_app. cbn [has_dot]. change (Ascii.eqb "." ".") with true.
    cbn [orb]. rewrite !orb_true_r. reflexivity.
Qed.

Lemma to_bool_float (q : Qc) : Index.to_bool (VFloat q) = false.
Proof.
  unfold Index.to_bool. cbn [astype_str].
  assert (Hd : has_dot (lower (strip (float_repr q))) = true).
  { unfold strip. rewrite has_dot_lower, has_dot_rstrip, has_dot_lstrip.
    apply has_dot_float_repr. }
  destruct (isin _ Index.truthy) eqn:E; [|reflexivity].
  unfold isin, Index.truthy in E. cbn [existsb] in E.
  repeat (apply orb_true_iff in E; destruct E as [E|E];
          [apply String.eqb_eq in E; rewrite E in Hd; discriminate|]).
  discriminate.
Qed.

(** The flags that [_to_bool_series] reads as true are the ones listed by
    the type of the cell. *)
Lemma to_bool_flag_counts (c : cell) : Index.to_bool c = Spec.flag_counts c.
Proof.
  destruct c as [|b|z|q|s].
  - reflexivity.
  - destruct b; reflexivity.
  - apply to_bool_int.
  - apply to_bool_float.
  - reflexivity.
Qed.

(** ** The finished-gameweek index *)

(** The encodings of the finished flag that the code reads as intended. *)
Lemma to_bool_bool (b : bool) : Index.to_bool (VBool b) = b.
Proof. destruct b; reflexivity. Qed.

Lemma to_bool_int_0_1 : Index.to_bool (VInt 1) = true /\ Index.to_bool (VInt 0) = false.
Proof. split; reflexivity. Qed.

Lemma to_bool_str (s : string) :
  Index.to_bool (VStr s) = isin (lower (strip s)) ["true"; "1"; "t"; "yes"].
Proof. reflexivity. Qed.

Example to_bool_strings :
  Index._to_bool_series
    [VStr "true"; VStr "True"; VStr " TRUE "; VStr "yes"; VStr "Yes"; VStr "t";
     VStr "T"; VStr "false"; VStr "False"; VStr "FALSE"; VStr "no"; NA]
  = [true; true; true; true; true; true; true; false; false; false; false; false].
Proof. reflexivity. Qed.

(** C5 at its failing input: a finished flag stored as the float [1.0]
    (what a 0/1 column with an empty cell is read as) prints as ["1.0"],
    which is not in the list of truthy texts; the flag reads as false and
    a gameweek whose only match carries it is not finished. *)
Theorem to_bool_float_one_is_false :
  Index._to_bool_series [VInt 1; VFloat (Z2Qc 1); VInt 0; VFloat (Z2Qc 0)]
    = [true; false; false; false] /\
  Index.compute_finished_gws [("gw", [VInt 1]); ("finished", [VFloat (Z2Qc 1)])]
    = Ok {| Index.finished_gws := []; Index.max_finished_gw := 0 |} /\
  Index.compute_finished_gws [("gw", [VInt 1]); ("finished", [VInt 1])]
    = Ok {| Index.finished_gws := [1]; Index.max_finished_gw := 1 |}.
Proof. repeat split; reflexivity. Qed.

Lemma insert_key_in (x y : Z) (l : list Z) :
  In y (Index.insert_key x l) <-> y = x \/ In y l.
Proof.
  induction l as [|z l IH]; simpl.
  - intuition.
  - destruct (x <? z) eqn:E1; simpl; [intuition|].
    destruct (x =? z) eqn:E2; simpl.
    + apply Z.eqb_eq in E2. subst. intuition.
    + rewrite IH. intuition.
Qed.

Lemma group_keys_in (g : Z) (l : list Z) : In g (Index.group_keys l) <-> In g l.
Proof.
  unfold Index.group_keys. induction l as [|x l IH]; simpl; [tauto|].
  rewrite insert_key_in, IH. intuition.
Qed.

Lemma group_rows_all (g : Z) (keys : list Z) (vals : list bool) :
  List.length vals = List.length keys ->
  forallb (fun b => b) (Index.group_rows g keys vals) = true <->
  forall i, nth_error keys i = Some g -> nth_error vals i = Some true.
Proof.
  unfold Index.group_rows. revert vals.
  induction keys as [|k keys IH]; intros [|v vals] Hlen; simpl in *; try discriminate.
  - split; auto. intros _ [|i]; discriminate.
  - injection Hlen as Hlen. specialize (IH vals Hlen).
    destruct (k =? g) eqn:E; simpl.
    + apply Z.eqb_eq in E. subst k. rewrite andb_true_iff, IH. split.
      * intros [Hv H] [|i] Hi; simpl in *; [subst; reflexivity|auto].
      * intros H. split.
        -- specialize (H O eq_refl). simpl in H. congruence.
        -- intros i Hi. apply (H (S i)). exact Hi.
    + apply Z.eqb_neq in E. rewrite IH. split.
      * intros H [|i] Hi; simpl in *; [congruence|auto].
      * intros H i Hi. apply (H (S i)). exact Hi.
Qed.

(** C2: for a match table with a gameweek column of integers and a
    finished column, [compute_finished_gws] returns (it does not raise); a
    gameweek is in [finished_gws] exactly when some match row carries it
    and the finished flag of every match row that carries it is the boolean
    [True], the integer [1] or one of the texts [true], [1], [t], [yes] in
    any case; [max_finished_gw] is the largest of them, or 0 when there is
    none.  A flag stored as a float, the float [1.0] with the others, is not
    read as true: a gameweek with such a row is never in [finished_gws]. *)
Theorem compute_finished_gws_spec
        (matches : frame) (gws fin : column) (gw : list Z) :
  get_col (if has_col "gw" matches then "gw" else "gameweek") matches = Some gws ->
  get_col "finished" matches = Some fin ->
  mapM astype_int gws = Ok gw ->
  List.length fin = List.length gws ->
  exists idx,
    Index.compute_finished_gws matches = Ok idx /\
    (forall g, In g (Index.finished_gws idx) <->
       In g gw /\
       forall i, nth_error gw i = Some g ->
         exists c, nth_error fin i = Some c /\ Spec.flag_counts c = true) /\
    (forall g i q, nth_error gw i = Some g -> nth_error fin i = Some (VFloat q) ->
       ~ In g (Index.finished_gws idx)) /\
    (Index.finished_gws idx = [] -> Index.max_finished_gw idx = 0) /\
    (Index.finished_gws idx <> [] ->
       In (Index.max_finished_gw idx) (Index.finished_gws idx) /\
       forall g, In g (Index.finished_gws idx) -> g <= Index.max_finished_gw idx).
Proof.
  intros Hgw Hfin Hint Hlen.
  unfold Index.compute_finished_gws. rewrite Hgw, Hfin, Hint. simpl.
  eexists. split; [reflexivity|]. simpl.
  set (fgws := filter _ (Index.group_keys gw)).
  assert (Hl : List.length (Index._to_bool_series fin) = List.length gw).
  { unfold Index._to_bool_series. rewrite length_map, Hlen.
    symmetry. eapply mapM_length; eauto. }
  assert (Hmem : forall g, In g fgws <->
            In g gw /\
            forall i, nth_error gw i = Some g ->
              exists c, nth_error fin i = Some c /\ Spec.flag_counts c = true).
  { intros g. unfold fgws. rewrite filter_In, group_keys_in.
    rewrite (group_rows_all g gw _ Hl). split.
    - intros [Hin H]. split; [exact Hin|]. intros i Hi.
      specialize (H i Hi). unfold Index._to_bool_series in H.
      rewrite nth_error_map in H.
      destruct (nth_error fin i) as [c|]; simpl in H; [|discriminate].
      exists c. rewrite <- to_bool_flag_counts. split; congruence.
    - intros [Hin H]. split; [exact Hin|]. intros i Hi.
      destruct (H i Hi) as (c & Hc & Ht). rewrite <- to_bool_flag_counts in Ht.
      unfold Index._to_bool_series. rewrite nth_error_map, Hc. simpl. congruence. }
  split; [exact Hmem|]. split; [|split].
  - intros g i q Hi Hq Hin. apply Hmem in Hin. destruct Hin as [_ H].
    destruct (H i Hi) as (c & Hc & Ht). rewrite Hq in Hc. injection Hc as <-.
    discriminate.
  - intros E. rewrite E. reflexivity.
  - intros Hne. destruct fgws as [|g rest]; [congruence|]. split.
    + apply py_max_in.
    + intros k Hk. apply py_max_upper. exact Hk.
Qed.

Lemma compute_finished_gws_spec_witness :
  exists idx,
    Index.compute_finished_gws
      [("gw", [VInt 1; VInt 1; VInt 2; VInt 3; VInt 3]);
       ("finished", [VBool true; VStr "yes"; VInt 0; VInt 1; VFloat (Z2Qc 1)])]
    = Ok idx /\
    (forall g, In g (Index.finished_gws idx) <->
       In g [1; 1; 2; 3; 3] /\
       forall i, nth_error [1; 1; 2; 3; 3] i = Some g ->
         exists c, nth_error [VBool true; VStr "yes"; VInt 0; VInt 1; VFloat (Z2Qc 1)] i
                   = Some c /\
                   Spec.flag_counts c = true) /\
    (forall g i q,
       nth_error [1; 1; 2; 3; 3] i = Some g ->
       nth_error [VBool true; VStr "yes"; VInt 0; VInt 1; VFloat (Z2Qc 1)] i
       = Some (VFloat q) ->
       ~ In g (Index.finished_gws idx)) /\
    (Index.finished_gws idx = [] -> Index.max_finished_gw idx = 0) /\
    (Index.finished_gws idx <> [] ->
       In (Index.max_finished_gw idx) (Index.finished_gws idx) /\
       forall g, In g (Index.finished_gws idx) -> g <= Index.max_finished_gw idx).
Proof.
  apply (compute_finished_gws_spec
           [("gw", [VInt 1; VInt 1; VInt 2; VInt 3; VInt 3]);
            ("finished", [VBool true; VStr "yes"; VInt 0; VInt 1; VFloat (Z2Qc 1)])]
           [VInt 1; VInt 1; VInt 2; VInt 3; VInt 3]
           [VBool true; VStr "yes"; VInt 0; VInt 1; VFloat (Z2Qc 1)] [1; 1; 2; 3; 3]);
    reflexivity.
Defined.

(** The gameweek 3 of the table above has two matches, both finished, one
    flag read by pandas as the integer 1 and one as the float 1.0: it is
    left out. *)
Example compute_finished_gws_float_flag :
  Index.compute_finished_gws
    [("gw", [VInt 1; VInt 1; VInt 2; VInt 3; VInt 3]);
     ("finished", [VBool true; VStr "yes"; VInt 0; VInt 1; VFloat (Z2Qc 1)])]
  = Ok {| Index.finished_gws := [1]; Index.max_finished_gw := 1 |}.
Proof. reflexivity. Qed.

(** ** The label builder *)

(** The worked example of the specification: the points
    [[2; 4; 6; 8; 10]] at the gameweeks 1 to 5 give the totals over two
    gameweeks 10, 14 and 18, and no total at the gameweeks 4 and 5. *)
Example horizon_labels_five_weeks (fos : string -> option (option Qc)) :
  exists out,
    Targets.add_horizon_labels fos Samples.five_weeks [2%positive]
      (Some [("points", "event_points")]) "player_id" "gw" true = Ok out /\
    option_map (map Spec.view) (get_col "points_next_2_total" out)
      = Some [Some (10 # 1); Some (14 # 1); Some (18 # 1); None; None] /\
    option_map (map Spec.view) (get_col "points_next_2_per_week" out)
      = Some [Some (5 # 1); Some (7 # 1); Some (9 # 1); None; None].
Proof. eexists. split; [vm_compute; reflexivity|]. split; vm_compute; reflexivity. Qed.

(** C1 at its failing input: a player with rows at the gameweeks 1, 2, 4
    and 5 (none at gameweek 3) and the points 2, 4, 6, 8.  The window of
    the code is the next two rows of the player, so the total at gameweek 1
    is 4 + 6 = 10 and takes in gameweek 4; the sum over the gameweeks 2 to 3
    is 4.  At gameweek 2 the code gives 6 + 8 = 14, the sum over the
    gameweeks 3 to 4 is 6. *)
Theorem horizon_labels_window_counts_rows (fos : string -> option (option Qc)) :
  exists out ids gws src,
    Targets.add_horizon_labels fos Samples.gap_at_3 [2%positive]
      (Some [("points", "event_points")]) "player_id" "gw" true = Ok out /\
    get_col "player_id" out = Some ids /\
    get_col "gw" out = Some gws /\
    get_col "event_points" out = Some src /\
    gws = [VInt 1; VInt 2; VInt 4; VInt 5] /\
    option_map (map Spec.view) (get_col "points_next_2_total" out)
      = Some [Some (10 # 1); Some (14 # 1); None; None] /\
    map (fun i => this (Spec.gameweek_window_sum ids gws src 2 i)) [0; 1]%nat
      = [4 # 1; 6 # 1].
Proof.
  do 4 eexists. split; [vm_compute; reflexivity|].
  repeat split; vm_compute; reflexivity.
Qed.

(** ** Substitution rates *)

(** The guards that come before any lookup: an empty player-match or match
    table, no [match_id] on either side, no [player_id]. *)
Lemma add_substitution_rates_early_guards
      (fos : string -> option (option Qc)) (base_df pm matches : frame)
      (window_gw : positive) (early_sub_min sub_on_min : Z) (id_col gw_col : string) :
  empty pm = true \/ empty matches = true \/
  has_col "match_id" pm = false \/ has_col "match_id" matches = false \/
  has_col "player_id" pm = false ->
  Availability.add_substitution_rates fos base_df pm matches window_gw
    early_sub_min sub_on_min id_col gw_col = Ok base_df.
Proof.
  intros H. unfold Availability.add_substitution_rates.
  destruct (empty pm); simpl; [reflexivity|].
  destruct (empty matches); simpl; [reflexivity|].
  destruct (has_col "match_id" pm); simpl; [|reflexivity].
  destruct (has_col "match_id" matches); simpl; [|reflexivity].
  destruct (has_col "player_id" pm); simpl; [|reflexivity].
  destruct H as [H|[H|[H|[H|H]]]]; discriminate.
Qed.

(** With a gameweek to be had and the two minute columns, the rates are
    joined to the base rows. *)
Example add_substitution_rates_sample (fos : string -> option (option Qc)) :
  exists out,
    Availability.add_substitution_rates fos Samples.base_rows Samples.player_matches
      Samples.matches_with_gameweek 5 70 1 "player_id" "gw" = Ok out /\
    columns out = ["player_id"; "gw"; "early_sub_rate_last_n"; "sub_on_rate_last_n"] /\
    option_map (map Spec.view) (get_col "early_sub_rate_last_n" out)
      = Some [Some (1 # 1); Some (1 # 2); Some (0 # 1)].
Proof. eexists. split; [vm_compute; reflexivity|]. split; vm_compute; reflexivity. Qed.

(** C8 at its failing input: a player-match table without a [gw] column
    and a match table that has a [match_id] but neither [gw] nor
    [gameweek].  No gameweek can be derived, and the selection
    [matches[["match_id", "gw"]]] raises [KeyError] before the guard on
    [gw] is reached; the base frame is not returned.  On the same tables
    [_ensure_gw] of the match features tests for the column first and
    returns its input. *)
Theorem add_substitution_rates_raises_without_gw (fos : string -> option (option Qc)) :
  empty Samples.player_matches = false /\
  empty Samples.matches_without_gw = false /\
  has_col "gw" Samples.matches_without_gw = false /\
  has_col "gameweek" Samples.matches_without_gw = false /\
  Availability.add_substitution_rates fos Samples.base_rows Samples.player_matches
    Samples.matches_without_gw 5 70 1 "player_id" "gw" = Raise (KeyError "gw") /\
  MatchFeatures._ensure_gw Samples.player_matches (Some Samples.matches_without_gw)
    = Ok Samples.player_matches.
Proof. repeat split; reflexivity. Qed.

(** ** The table loader *)

Section LoadAll.
Variables (filename : string) (add_gw : bool).


Lemma load_strict_raises (dirs : list (string * Z * Loaders.dirent)) (st : Loaders.load_state) :
  (exists d, In d dirs /\ Loaders.find_file filename (Loaders.d_files (snd d)) = None) ->
  exists e, foldM (Loaders.load_step filename add_gw false) dirs st = Raise e.
Proof.
  revert st. induction dirs as [|d dirs IH]; intros st [d0 [Hin Hnone]]; [destruct Hin|].
  simpl. unfold Loaders.load_step at 1.
  destruct (Loaders.find_file filename (Loaders.d_files (snd d))) as [r|] eqn:E.
  - destruct r as [df|e]; simpl; [|eauto].
    apply IH. destruct Hin as [->|Hin]; [congruence|eauto].
  - simpl. eauto.
Qed.





End LoadAll.

Lemma add_names_keeps (names seen : list string) (h : string) :
  In h seen -> In h (Pandas.add_names seen names).
Proof.
  unfold Pandas.add_names. revert seen.
  induction names as [|n names IH]; intros seen H; simpl; [exact H|].
  apply IH. destruct (isin n seen); [exact H|]. apply in_or_app. auto.
Qed.

Lemma isin_In (s : string) (l : list string) : isin s l = true <-> In s l.
Proof.
  unfold isin. rewrite existsb_exists. split.
  - intros [x [Hin E]]. apply String.eqb_eq in E. subst. exact Hin.
  - intros H. exists s. split; [exact H|apply String.eqb_refl].
Qed.

Lemma add_names_adds (names seen : list string) (h : string) :
  In h names -> In h (Pandas.add_names seen names).
Proof.
  unfold Pandas.add_names. revert seen.
  induction names as [|n names IH]; intros seen H; simpl; [destruct H|].
  destruct H as [->|H]; [|apply IH; exact H].
  apply (add_names_keeps names). destruct (isin h seen) eqn:E.
  - apply isin_In. exact E.
  - apply in_or_app. right. left. reflexivity.
Qed.

Lemma union_names_in {X : Type} (names_of : X -> list string) (xs : list X)
      (seen : list string) (x : X) (h : string) :
  (In h seen \/ (In x xs /\ In h (names_of x))) ->
  In h (fold_left (fun acc y => Pandas.add_names acc (names_of y)) xs seen).
Proof.
  revert seen. induction xs as [|y xs IH]; intros seen H; simpl.
  - destruct H as [H|[[] _]]. exact H.
  - apply IH. destruct H as [H|[[->|Hin] Hh]].
    + left. apply add_names_keeps. exact H.
    + left. apply add_names_adds. exact Hh.
    + right. auto.
Qed.

Lemma concat_frames_columns (frames : list frame) (f : frame) (h : string) :
  In f frames -> In h (columns f) -> In h (columns (Pandas.concat_frames frames)).
Proof.
  intros Hf Hh. unfold Pandas.concat_frames. unfold columns at 1.
  rewrite map_map. simpl. rewrite map_id.
  apply (union_names_in columns frames [] f). right. auto.
Qed.





Example load_all_gws_sample :
  Loaders.load_all_gws Samples.season_dir "teams.csv" true true
    = Ok [("gw", [VInt 2; VInt 2]); ("id", [VInt 1; VInt 2])] /\
  Loaders.load_all_gws Samples.season_dir "fixtures.csv" true true = Ok [] /\
  Loaders.load_all_gws Samples.season_dir "teams.csv" true false
    = Raise (FileNotFoundError "Missing file: GW3/teams.csv").
Proof. repeat split; reflexivity. Qed.

(** ** Strings and frames *)

Lemma length_append (a b : string) :
  String.length (a ++ b) = (String.length a + String.length b)%nat.
Proof. induction a as [|x a IH]; simpl; [reflexivity|]. rewrite IH. reflexivity. Qed.

Lemma append_same_suffix (a b s : string) : a ++ s = b ++ s -> a = b.
Proof.
  intros H.
  assert (Hlen : String.length a = String.length b).
  { apply (f_equal String.length) in H. rewrite !length_append in H. lia. }
  revert b H Hlen. induction a as [|x a IH]; intros [|y b] H Hlen; simpl in *;
    try discriminate; [reflexivity|].
  injection H as -> H. f_equal. apply IH; [exact H|lia].
Qed.

Lemma append_same_prefix (p a b : string) : p ++ a = p ++ b -> a = b.
Proof. induction p as [|x p IH]; simpl; intros H; [exact H|]. injection H as H. auto. Qed.

Lemma append_longer (a s : string) : s <> "" -> a ++ s <> a.
Proof.
  intros Hs H. apply (f_equal String.length) in H. rewrite length_append in H.
  destruct s; [congruence|]. simpl in H. lia.
Qed.

Lemma get_col_set_col_same (n : string) (c : column) (df : frame) :
  get_col n (set_col n c df) = Some c.
Proof.
  induction df as [|[m c0] df IH]; simpl.
  - rewrite String.eqb_refl. reflexivity.
  - destruct (String.eqb m n) eqn:E; simpl; rewrite E; auto.
Qed.

Lemma get_col_set_col_other (n m : string) (c : column) (df : frame) :
  m <> n -> get_col n (set_col m c df) = get_col n df.
Proof.
  intros Hne. induction df as [|[k c0] df IH]; simpl.
  - destruct (String.eqb m n) eqn:E; [apply String.eqb_eq in E; congruence|reflexivity].
  - destruct (String.eqb k m) eqn:E; simpl.
    + apply String.eqb_eq in E. subst k.
      destruct (String.eqb m n) eqn:E'; [apply String.eqb_eq in E'; congruence|reflexivity].
    + destruct (String.eqb k n); auto.
Qed.

Lemma has_col_set_col (n m : string) (c : column) (df : frame) :
  has_col n (set_col m c df) = orb (String.eqb m n) (has_col n df).
Proof.
  unfold has_col. destruct (String.eqb m n) eqn:E.
  - apply String.eqb_eq in E. subst. rewrite get_col_set_col_same. reflexivity.
  - rewrite get_col_set_col_other; [reflexivity|].
    intros ->. rewrite String.eqb_refl in E. discriminate.
Qed.

Lemma get_col_app (n : string) (a b : frame) :
  get_col n (a ++ b)%list = match get_col n a with Some c => Some c | None => get_col n b end.
Proof.
  induction a as [|[m c] a IH]; simpl; [reflexivity|].
  destruct (String.eqb m n); auto.
Qed.

Lemma get_col_In (n : string) (c : column) (df : frame) :
  get_col n df = Some c -> In (n, c) df.
Proof.
  induction df as [|[m c0] df IH]; simpl; [discriminate|].
  destruct (String.eqb m n) eqn:E.
  - apply String.eqb_eq in E. intros H. injection H as ->. subst. auto.
  - auto.
Qed.

(** ** Numbers *)

Lemma Qc_eq_bool_refl (q : Qc) : Qc_eq_bool q q = true.
Proof. unfold Qc_eq_bool. destruct (Qc_eq_dec q q); congruence. Qed.


Lemma Qc_eq_bool_eq (p q : Qc) : Qc_eq_bool p q = true <-> p = q.
Proof.
  split; [apply Qc_eq_bool_correct|]. intros ->. apply Qc_eq_bool_refl.
Qed.

Section Coercion.
Variable fos : string -> option (option Qc).


Lemma to_numeric_not_str (c : cell) (s : string) : Pandas.to_numeric fos c <> VStr s.
Proof. destruct c; simpl; try discriminate. destruct (fos s0) as [[q|]|]; discriminate. Qed.

Lemma as_float_to_numeric (c : cell) :
  Pandas.as_float fos (Pandas.to_numeric fos c) = Ok (num_of (Pandas.to_numeric fos c)).
Proof.
  destruct (Pandas.to_numeric fos c) eqn:E; try reflexivity.
  exfalso. eapply to_numeric_not_str. exact E.
Qed.


End Coercion.

(** ** Per-90 features *)

Section Per90.
Variable fos : string -> option (option Qc).




Lemma per90_values_ok (cc mins q : column) :
  PlayerFeatures.per90_values fos cc mins = Ok q ->
  mapM PlayerFeatures.finite_cell (PlayerFeatures.per90_quotients fos cc mins) = Ok q.
Proof.
  unfold PlayerFeatures.per90_values.
  destruct (PlayerFeatures.bool_by_bool _ mins); [discriminate|auto].
Qed.


Lemma per90_name_neq (c : string) : PlayerFeatures.per90_name c <> c.
Proof. apply append_longer. discriminate. Qed.
















End Per90.



(** The instance of the specification: 45 minutes and a metric of 9 give
    18, and no minutes give a missing value. *)
Example add_per90_features_two_rows :
  exists res,
    PlayerFeatures.add_per90_features Samples.no_float Samples.two_rows
      ["metric"] "minutes" = Ok res /\
    option_map (map Spec.view) (get_col "metric_per90" res) = Some [Some (18 # 1); None].
Proof. eexists. split; [vm_compute; reflexivity|]. vm_compute. reflexivity. Qed.


(** A metric of booleans on the same minutes: pandas refuses to divide a
    [bool] column by a [bool] column. *)
Example per90_boolean_metric :
  PlayerFeatures.add_per90_features Samples.no_float
    [("minutes", [VBool true; VBool false]); ("metric", [VBool true; VBool true])]
    ["metric"] "minutes"
  = Raise (NotImplementedError "operator 'truediv' not implemented for bool dtypes").
Proof. reflexivity. Qed.

(** ** Column names *)

Lemma split_last_digits (d : string) : all_digits d = true -> split_last d = None.
Proof.
  induction d as [|a d IH]; simpl; [reflexivity|].
  destruct (digit_of a) eqn:E; [|discriminate].
  intros H. rewrite (IH H).
  destruct (Ascii.eqb a "_") eqn:Ea; [|reflexivity].
  apply Ascii.eqb_eq in Ea. subst a. discriminate.
Qed.

Lemma split_last_append (c q : string) :
  split_last q = None -> split_last (c ++ String "_" q) = Some (c, q).
Proof.
  intros H. induction c as [|a c IH]; simpl.
  - rewrite H. reflexivity.
  - rewrite IH. reflexivity.
Qed.

Lemma append_assoc (a b c : string) : (a ++ b) ++ c = a ++ (b ++ c).
Proof. induction a as [|x a IH]; simpl; [reflexivity|]. rewrite IH. reflexivity. Qed.

Lemma split_last_roll_name (c : string) (w : positive) :
  split_last (PlayerFeatures.roll_name c w) = Some (c, "roll" ++ str_of_Z (Zpos w)).
Proof.
  unfold PlayerFeatures.roll_name.
  change (c ++ "_roll" ++ str_of_Z (Zpos w))
    with (c ++ String "_" ("roll" ++ str_of_Z (Zpos w))).
  apply split_last_append. simpl.
  rewrite (split_last_digits _ (all_digits_str_of_pos w)). reflexivity.
Qed.

Lemma roll_name_inj (c c' : string) (w w' : positive) :
  PlayerFeatures.roll_name c w = PlayerFeatures.roll_name c' w' -> c = c' /\ w = w'.
Proof.
  intros H. apply (f_equal split_last) in H. rewrite !split_last_roll_name in H.
  injection H as Hc Hw. split; [exact Hc|].
  apply str_of_Z_inj in Hw. congruence.
Qed.

Lemma split_last_trend_name (b : string) (s l : positive) :
  split_last (PlayerFeatures.trend_name b s l)
  = Some (b ++ "_trend_" ++ str_of_Z (Zpos s), str_of_Z (Zpos l)).
Proof.
  unfold PlayerFeatures.trend_name.
  replace (b ++ "_trend_" ++ str_of_Z (Zpos s) ++ "_" ++ str_of_Z (Zpos l))
    with ((b ++ "_trend_" ++ str_of_Z (Zpos s)) ++ String "_" (str_of_Z (Zpos l))).
  - apply split_last_append. apply split_last_digits. apply all_digits_str_of_pos.
  - rewrite !append_assoc. reflexivity.
Qed.

Lemma trend_name_not_roll_name (b c : string) (s l w : positive) :
  PlayerFeatures.trend_name b s l <> PlayerFeatures.roll_name c w.
Proof.
  intros H. apply (f_equal split_last) in H.
  rewrite split_last_trend_name, split_last_roll_name in H.
  injection H as _ H.
  pose proof (all_digits_str_of_pos l) as Hd. rewrite H in Hd. discriminate.
Qed.

(** ** Groups, windows and rolling means *)

Lemma nth_error_seq (n i : nat) : (i < n)%nat -> nth_error (seq 0 n) i = Some i.
Proof.
  intros H. rewrite (nth_error_nth' (seq 0 n) O) by (rewrite length_seq; exact H).
  rewrite seq_nth by exact H. reflexivity.
Qed.

Lemma nth_map_seq {X : Type} (F : nat -> X) (n k : nat) (d : X) :
  (k < n)%nat -> nth k (map F (seq 0 n)) d = F k.
Proof.
  intros H. apply nth_error_nth. rewrite nth_error_map, nth_error_seq by exact H.
  reflexivity.
Qed.

Lemma nth_error_nth_default {X : Type} (l : list X) (i : nat) (x d : X) :
  nth_error l i = Some x -> nth i l d = x.
Proof. apply nth_error_nth. Qed.

Lemma transform_length (f : column -> result column) (ids vals r : column) :
  Pandas.transform f ids vals = Ok r -> List.length r = List.length vals.
Proof.
  intros H. apply mapM_length in H. rewrite length_seq in H. exact H.
Qed.

(** The cell of a transform at a row with a key: the result of [f] on the
    values of the group of the row, at the rank of the row in its group. *)
Lemma transform_nth (f : column -> result column) (ids vals r : column) (i : nat) :
  Pandas.transform f ids vals = Ok r ->
  (i < List.length vals)%nat ->
  is_na (nth i ids NA) = false ->
  exists g, f (Pandas.gather (Pandas.group_index ids i) vals) = Ok g /\
            nth i r NA = nth (Pandas.group_rank ids i) g NA.
Proof.
  intros H Hi Hna. unfold Pandas.transform in H.
  destruct (mapM_nth_error _ _ _ H i i (nth_error_seq _ _ Hi)) as (c & Hc & Hr).
  rewrite Hna in Hc.
  destruct (f (Pandas.gather (Pandas.group_index ids i) vals)) as [g|e]; simpl in Hc;
    [|discriminate].
  injection Hc as <-. exists g. split; [reflexivity|].
  apply nth_error_nth_default. exact Hr.
Qed.

Lemma cell_eqb_refl (c : cell) : is_na c = false -> Pandas.cell_eqb c c = true.
Proof.
  unfold Pandas.cell_eqb. destruct c as [|b|z|q|s]; simpl; try discriminate; intros _.
  - apply Qc_eq_bool_refl.
  - apply Qc_eq_bool_refl.
  - apply Qc_eq_bool_refl.
  - apply String.eqb_refl.
Qed.

(** The rows of the entity of row [i] up to and including row [i]. *)
Lemma group_index_split (ids : column) (i : nat) :
  (i < List.length ids)%nat ->
  Pandas.group_index ids i
  = (filter (fun j => Pandas.cell_eqb (nth j ids NA) (nth i ids NA)) (seq 0 (S i))
     ++ filter (fun j => Pandas.cell_eqb (nth j ids NA) (nth i ids NA))
          (seq (S i) (List.length ids - S i)))%list.
Proof.
  intros H. unfold Pandas.group_index. rewrite <- filter_app, <- seq_app.
  do 2 f_equal. lia.
Qed.

Lemma rows_so_far_length (ids : column) (i : nat) :
  is_na (nth i ids NA) = false ->
  List.length (filter (fun j => Pandas.cell_eqb (nth j ids NA) (nth i ids NA)) (seq 0 (S i)))
  = S (Pandas.group_rank ids i).
Proof.
  intros H. unfold Pandas.group_rank.
  rewrite seq_S, filter_app, length_app. simpl.
  rewrite (cell_eqb_refl _ H). simpl. lia.
Qed.

Lemma firstn_gather (idx1 idx2 : list nat) (vals : column) :
  firstn (List.length idx1) (Pandas.gather (idx1 ++ idx2) vals) = Pandas.gather idx1 vals.
Proof.
  unfold Pandas.gather. rewrite map_app.
  rewrite <- (length_map (fun i => nth i vals NA) idx1).
  rewrite firstn_app, Nat.sub_diag, firstn_all. simpl. apply app_nil_r.
Qed.

Section Rolling.
Variable fos : string -> option (option Qc).

Lemma qmean_single (v : Qc) : Pandas.qmean [v] = v.
Proof.
  unfold Pandas.qmean, Pandas.qsum. simpl.
  change (Z2Qc 0) with (Q2Qc 0). change (Z2Qc 1) with (Q2Qc 1).
  field. discriminate.
Qed.

(** A column of converted values goes through the float conversion of a
    window unchanged. *)
Lemma as_float_numeric (col : column) :
  mapM (Pandas.as_float fos) (map (Pandas.to_numeric fos) col)
  = Ok (map num_of (map (Pandas.to_numeric fos) col)).
Proof.
  apply mapM_ok_map. intros a Ha. apply in_map_iff in Ha.
  destruct Ha as (c & <- & _). apply as_float_to_numeric.
Qed.

(** The values a window of [min_periods = 1] aggregates at row [k]: when
    the row has fewer than [w] rows before it, all the rows so far. *)
Lemma rolling_mean_early (w : positive) (s : column) (vals : list (option Qc))
      (r : column) (k : nat) :
  mapM (Pandas.as_float fos) s = Ok vals ->
  Pandas.rolling_mean fos w 1 s = Ok r ->
  (k < List.length s)%nat ->
  (S k <= Pos.to_nat w)%nat ->
  nth k r NA = match Pandas.present (firstn (S k) vals) with
               | [] => NA
               | obs => VFloat (Pandas.qmean obs)
               end.
Proof.
  intros Hv Hr Hk Hw. unfold Pandas.rolling_mean, Pandas.rolling in Hr.
  rewrite Hv in Hr. simpl in Hr. injection Hr as <-.
  rewrite nth_map_seq by exact Hk.
  unfold Pandas.window. replace (S k - Pos.to_nat w)%nat with O by lia.
  change (skipn 0 (firstn (S k) vals)) with (firstn (S k) vals).
  destruct (Pandas.present (firstn (S k) vals)) as [|q obs]; reflexivity.
Qed.

End Rolling.

(** ** Loops that fill a dictionary of columns *)

Lemma foldM_app {X Y : Type} (f : X -> Y -> result X) (l1 l2 : list Y) (x : X) :
  foldM f (l1 ++ l2) x = (let* x' := foldM f l1 x in foldM f l2 x').
Proof.
  revert x. induction l1 as [|y l1 IH]; intros x; simpl; [reflexivity|].
  destruct (f x y) as [x'|e]; simpl; [apply IH|reflexivity].
Qed.

Lemma foldM_nested {X A C : Type} (g : A -> X -> C -> result X)
      (xs : list A) (ys : list C) (x : X) :
  foldM (fun acc a => foldM (g a) ys acc) xs x
  = foldM (fun acc p => g (fst p) acc (snd p)) (list_prod xs ys) x.
Proof.
  revert x. induction xs as [|a xs IH]; intros x; simpl; [reflexivity|].
  rewrite foldM_app.
  assert (E : forall l acc, foldM (fun acc p => g (fst p) acc (snd p))
                              (map (fun y => (a, y)) l) acc
                            = foldM (g a) l acc).
  { induction l as [|y l IHl]; intros acc; simpl; [reflexivity|].
    destruct (g a acc y); simpl; [apply IHl|reflexivity]. }
  rewrite E. destruct (foldM (g a) ys x); simpl; [apply IH|reflexivity].
Qed.

(** A loop that stores the value [V y] under the name [K y] for every [y]
    of a list: when no other element of the list has the name of [y], the
    name holds the value of [y] at the end. *)
Lemma foldM_set_col {Y : Type} (K : Y -> string) (V : Y -> result column)
      (ys : list Y) (nc nc' : frame) (y : Y) (r : column) :
  foldM (fun acc y => let* v := V y in Ok (set_col (K y) v acc)) ys nc = Ok nc' ->
  V y = Ok r ->
  (forall y', In y' ys -> K y' = K y -> y' = y) ->
  In y ys \/ get_col (K y) nc = Some r ->
  get_col (K y) nc' = Some r.
Proof.
  revert nc. induction ys as [|y0 ys IH]; intros nc H Hv Hinj Hin; simpl in H.
  - injection H as <-. destruct Hin as [[]|Hin]. exact Hin.
  - destruct (V y0) as [v0|e] eqn:E0; simpl in H; [|discriminate].
    apply (IH _ H Hv).
    + intros y' Hy'. apply Hinj. right. exact Hy'.
    + destruct Hin as [[->|Hin]|Hin].
      * right. rewrite get_col_set_col_same. congruence.
      * left. exact Hin.
      * right. destruct (string_dec (K y0) (K y)) as [Ek|Ek].
        -- assert (y0 = y) by (apply Hinj; [left; reflexivity|exact Ek]). subst y0.
           rewrite get_col_set_col_same. congruence.
        -- rewrite get_col_set_col_other by exact Ek. exact Hin.
Qed.

(** ** Rolling features *)

Section RollingFeatures.
Variable fos : string -> option (option Qc).

Lemma get_col_take_rows (n : string) (idx : list nat) (df : frame) :
  get_col n (Pandas.take_rows idx df) = option_map (Pandas.gather idx) (get_col n df).
Proof.
  induction df as [|[m c] df IH]; simpl; [reflexivity|].
  destruct (String.eqb m n); [reflexivity|exact IH].
Qed.

Lemma gather_to_numeric (idx : list nat) (col : column) :
  Pandas.gather idx (map (Pandas.to_numeric fos) col)
  = map (Pandas.to_numeric fos) (Pandas.gather idx col).
Proof.
  unfold Pandas.gather. rewrite map_map. apply map_ext. intros i.
  change NA with (Pandas.to_numeric fos NA) at 1. apply map_nth.
Qed.

Lemma gather_length (idx : list nat) (col : column) :
  List.length (Pandas.gather idx col) = List.length idx.
Proof. apply length_map. Qed.

Lemma sort_values_take_rows (names : list string) (df df' : frame) :
  Pandas.sort_values names df = Ok df' ->
  exists idx, df' = Pandas.take_rows idx df /\
              forall n, In n names -> has_col n df = true.
Proof.
  unfold Pandas.sort_values. intros H.
  destruct (mapM (col_or_raise df) names) as [cols|e] eqn:E; simpl in H; [|discriminate].
  injection H as <-. eexists. split; [reflexivity|].
  intros n Hn. apply In_nth_error in Hn. destruct Hn as [i Hi].
  destruct (mapM_nth_error _ _ _ E i n Hi) as (c & Hc & _).
  unfold col_or_raise in Hc. unfold has_col.
  destruct (get_col n df); [reflexivity|discriminate].
Qed.

(** After the conversion loop, every column of the loop holds converted
    values, and the other columns are as they were. *)
Lemma numeric_loop_keeps (cols : list string) (df df' : frame) (c : string) :
  foldM (PlayerFeatures.numeric_step fos) cols df = Ok df' ->
  (exists col, get_col c df = Some (map (Pandas.to_numeric fos) col)) ->
  exists col, get_col c df' = Some (map (Pandas.to_numeric fos) col).
Proof.
  revert df. induction cols as [|c0 cols IH]; intros df H Hc; simpl in H.
  - injection H as <-. exact Hc.
  - unfold PlayerFeatures.numeric_step at 1 in H.
    destruct (get_col c0 df) as [col0|] eqn:E0; simpl in H; [|discriminate].
    apply (IH _ H). destruct (string_dec c0 c) as [->|Hne].
    + rewrite get_col_set_col_same. eauto.
    + rewrite get_col_set_col_other by exact Hne. exact Hc.
Qed.

Lemma numeric_loop_makes (cols : list string) (df df' : frame) (c : string) :
  foldM (PlayerFeatures.numeric_step fos) cols df = Ok df' ->
  In c cols ->
  exists col, get_col c df' = Some (map (Pandas.to_numeric fos) col).
Proof.
  revert df. induction cols as [|c0 cols IH]; intros df H Hin; simpl in H; [destruct Hin|].
  unfold PlayerFeatures.numeric_step at 1 in H.
  destruct (get_col c0 df) as [col0|] eqn:E0; simpl in H; [|discriminate].
  destruct Hin as [->|Hin].
  - apply (numeric_loop_keeps _ _ _ _ H). rewrite get_col_set_col_same. eauto.
  - apply (IH _ H Hin).
Qed.

Lemma roll_step_stores (ic : bool) (id_col : string) (df : frame) (col : string)
      (nc : frame) (w : positive) :
  PlayerFeatures.roll_step fos ic id_col df col nc w
  = (let* v := PlayerFeatures.roll_value fos ic id_col df (col, w) in
     Ok (set_col (PlayerFeatures.roll_name col w) v nc)).
Proof.
  unfold PlayerFeatures.roll_step, PlayerFeatures.roll_value. simpl.
  destruct (get_col id_col df), (get_col col df); reflexivity.
Qed.

(** Every column and window of the loop has its entry in [new_cols]. *)
Lemma new_cols_entry (ic : bool) (id_col : string) (df : frame)
      (cols : list string) (windows : list positive) (nc : frame)
      (c : string) (w : positive) :
  foldM (fun acc col => foldM (PlayerFeatures.roll_step fos ic id_col df col) windows acc)
        cols [] = Ok nc ->
  In c cols -> In w windows ->
  exists r, PlayerFeatures.roll_value fos ic id_col df (c, w) = Ok r /\
            get_col (PlayerFeatures.roll_name c w) nc = Some r.
Proof.
  intros H Hc Hw. rewrite foldM_nested in H.
  assert (Hin : In (c, w) (list_prod cols windows)) by (apply in_prod; assumption).
  assert (H' : foldM (fun acc p =>
                        let* v := PlayerFeatures.roll_value fos ic id_col df p in
                        Ok (set_col (PlayerFeatures.roll_name (fst p) (snd p)) v acc))
                     (list_prod cols windows) [] = Ok nc).
  { rewrite <- H. clear. generalize (@nil (string * column)).
    induction (list_prod cols windows) as [|[c0 w0] l IH]; intros acc; simpl;
      [reflexivity|].
    rewrite roll_step_stores. simpl.
    destruct (PlayerFeatures.roll_value fos ic id_col df (c0, w0)); simpl;
      [apply IH|reflexivity]. }
  destruct (PlayerFeatures.roll_value fos ic id_col df (c, w)) as [r|e] eqn:Ev.
  - exists r. split; [reflexivity|].
    apply (foldM_set_col (fun p => PlayerFeatures.roll_name (fst p) (snd p))
             (PlayerFeatures.roll_value fos ic id_col df)
             (list_prod cols windows) [] nc (c, w) r H' Ev).
    + intros [c' w'] _ E. simpl in E. apply roll_name_inj in E.
      destruct E. subst. reflexivity.
    + left. exact Hin.
  - exfalso. clear H. revert H' Hin. generalize (@nil (string * column)).
    induction (list_prod cols windows) as [|[c0 w0] l IH]; intros acc H' Hin;
      [destruct Hin|].
    simpl in H'. destruct Hin as [E|Hin].
    + injection E as -> ->. rewrite Ev in H'. discriminate.
    + destruct (PlayerFeatures.roll_value fos ic id_col df (c0, w0)); simpl in H';
        [eapply IH; eauto|discriminate].
Qed.

Lemma trend_step_keeps (nc : frame) (p : string * positive * positive)
      (c : string) (w : positive) :
  get_col (PlayerFeatures.roll_name c w) (PlayerFeatures.trend_step nc p)
  = get_col (PlayerFeatures.roll_name c w) nc.
Proof.
  destruct p as [[b s] l]. unfold PlayerFeatures.trend_step.
  destruct (get_col (PlayerFeatures.roll_name b s) nc); [|reflexivity].
  destruct (get_col (PlayerFeatures.roll_name b l) nc); [|reflexivity].
  apply get_col_set_col_other. apply trend_name_not_roll_name.
Qed.

Lemma trend_loop_keeps (ps : list (string * positive * positive)) (nc : frame)
      (c : string) (w : positive) :
  get_col (PlayerFeatures.roll_name c w) (fold_left PlayerFeatures.trend_step ps nc)
  = get_col (PlayerFeatures.roll_name c w) nc.
Proof.
  revert nc. induction ps as [|p ps IH]; intros nc; simpl; [reflexivity|].
  rewrite IH. apply trend_step_keeps.
Qed.

End RollingFeatures.

Lemma filter_none {X : Type} (p : X -> bool) (l : list X) :
  (forall x, In x l -> p x = false) -> filter p l = [].
Proof.
  induction l as [|x l IH]; simpl; intros H; [reflexivity|].
  rewrite (H x) by auto. apply IH. auto.
Qed.

(** ** The order of a sort *)

Lemma ascii_compare_trans (a b c : ascii) (r : comparison) :
  Ascii.compare a b = r -> Ascii.compare b c = r -> Ascii.compare a c = r.
Proof.
  unfold Ascii.compare. intros H1 H2. destruct r.
  - apply N.compare_eq in H1. rewrite H1. exact H2.
  - apply N.compare_lt_iff in H1. apply N.compare_lt_iff in H2.
    apply N.compare_lt_iff. exact (N.lt_trans _ _ _ H1 H2).
  - apply N.compare_gt_iff in H1. apply N.compare_gt_iff in H2.
    apply N.compare_gt_iff. exact (N.lt_trans _ _ _ H2 H1).
Qed.

Lemma ascii_compare_eq (a b : ascii) : Ascii.compare a b = Eq -> a = b.
Proof.
  unfold Ascii.compare. intros H. apply N.compare_eq in H.
  rewrite <- (ascii_N_embedding a), <- (ascii_N_embedding b), H. reflexivity.
Qed.

Lemma string_leb_trans (a b c : string) :
  String.leb a b = true -> String.leb b c = true -> String.leb a c = true.
Proof.
  unfold String.leb. revert b c.
  induction a as [|x a IH]; intros [|y b] [|z c]; simpl; try reflexivity; try discriminate.
  destruct (Ascii.compare x y) eqn:Exy; try discriminate.
  - apply ascii_compare_eq in Exy. subst y.
    destruct (Ascii.compare x z) eqn:Exz; try discriminate; [apply IH|reflexivity].
  - intros _. destruct (Ascii.compare y z) eqn:Eyz; try discriminate.
    + apply ascii_compare_eq in Eyz. subst z. rewrite Exy. reflexivity.
    + rewrite (ascii_compare_trans x y z Lt Exy Eyz). reflexivity.
Qed.

Lemma Qc_leb_total (a b : Qc) : Qc_leb a b = true \/ Qc_leb b a = true.
Proof.
  unfold Qc_leb. rewrite !Qle_bool_iff.
  destruct (Qlt_le_dec (this a) (this b)) as [H|H]; [left; apply Qlt_le_weak; exact H|right; exact H].
Qed.

Lemma Qc_leb_trans (a b c : Qc) :
  Qc_leb a b = true -> Qc_leb b c = true -> Qc_leb a c = true.
Proof. unfold Qc_leb. rewrite !Qle_bool_iff. apply Qle_trans. Qed.

Lemma key_leb_total (a b : option Pandas.key) :
  Pandas.key_leb a b = true \/ Pandas.key_leb b a = true.
Proof.
  destruct a as [[x|x]|], b as [[y|y]|]; simpl; auto.
  - apply Qc_leb_total.
  - apply String.leb_total.
Qed.

Lemma key_leb_trans (a b c : option Pandas.key) :
  Pandas.key_leb a b = true -> Pandas.key_leb b c = true -> Pandas.key_leb a c = true.
Proof.
  destruct a as [[x|x]|], b as [[y|y]|], c as [[z|z]|]; simpl; auto; try discriminate.
  - apply Qc_leb_trans.
  - apply string_leb_trans.
Qed.

Lemma keys_leb_total (a b : list (option Pandas.key)) :
  Pandas.keys_leb a b = true \/ Pandas.keys_leb b a = true.
Proof.
  revert b. induction a as [|x a IH]; intros [|y b]; simpl; auto.
  destruct (Pandas.key_leb x y) eqn:Exy, (Pandas.key_leb y x) eqn:Eyx; auto.
  destruct (key_leb_total x y); congruence.
Qed.

Lemma keys_leb_trans (a b c : list (option Pandas.key)) :
  List.length a = List.length b -> List.length b = List.length c ->
  Pandas.keys_leb a b = true -> Pandas.keys_leb b c = true -> Pandas.keys_leb a c = true.
Proof.
  revert b c. induction a as [|x a IH]; intros [|y b] [|z c]; simpl; try discriminate; auto.
  intros L1 L2.
  destruct (Pandas.key_leb x y) eqn:Exy; [|discriminate].
  destruct (Pandas.key_leb y z) eqn:Eyz; [|destruct (Pandas.key_leb y x); discriminate].
  rewrite (key_leb_trans x y z Exy Eyz).
  destruct (Pandas.key_leb z x) eqn:Ezx; [|reflexivity].
  rewrite (key_leb_trans y z x Eyz Ezx), (key_leb_trans z x y Ezx Exy).
  apply IH; congruence.
Qed.

Lemma insert_by_In {X : Type} (leb : X -> X -> bool) (x y : X) (l : list X) :
  In y (Pandas.insert_by leb x l) -> y = x \/ In y l.
Proof.
  induction l as [|z l IH]; simpl.
  - intros [->|[]]. auto.
  - destruct (leb x z); simpl.
    + intros [->|[->|H]]; auto.
    + intros [->|H]; auto. destruct (IH H); auto.
Qed.

Section SortOrder.
Context {X : Type} (leb : X -> X -> bool).
Hypothesis leb_total : forall a b, leb a b = true \/ leb b a = true.
Hypothesis leb_trans : forall a b c, leb a b = true -> leb b c = true -> leb a c = true.

Lemma insert_by_sorted (x : X) (l : list X) :
  StronglySorted (fun a b => leb a b = true) l ->
  StronglySorted (fun a b => leb a b = true) (Pandas.insert_by leb x l).
Proof.
  induction 1 as [|z l Hs IH Hz]; simpl.
  - constructor; constructor.
  - destruct (leb x z) eqn:E.
    + constructor; [constructor; assumption|].
      constructor; [exact E|].
      apply Forall_forall. intros y Hy. rewrite Forall_forall in Hz.
      apply (leb_trans x z y E (Hz y Hy)).
    + constructor; [exact IH|].
      apply Forall_forall. intros y Hy. apply insert_by_In in Hy.
      destruct Hy as [->|Hy].
      * destruct (leb_total x z); congruence.
      * rewrite Forall_forall in Hz. apply Hz. exact Hy.
Qed.

Lemma sort_by_sorted (l : list X) :
  StronglySorted (fun a b => leb a b = true) (Pandas.sort_by leb l).
Proof.
  induction l as [|x l IH]; simpl; [constructor|]. apply insert_by_sorted. exact IH.
Qed.

End SortOrder.

Lemma sorted_nth {X : Type} (R : X -> X -> Prop) (l : list X) (d : X) (i j : nat) :
  StronglySorted R l -> (i < j < List.length l)%nat -> R (nth i l d) (nth j l d).
Proof.
  intros H. revert i j. induction H as [|x l Hs IH Hx]; intros i j Hij; simpl in Hij; [lia|].
  destruct j as [|j]; [lia|]. destruct i as [|i]; simpl.
  - rewrite Forall_forall in Hx. apply Hx. apply nth_In. lia.
  - apply IH. lia.
Qed.

Lemma row_keys_length (cols : list column) (i : nat) :
  List.length (Pandas.row_keys cols i) = List.length cols.
Proof. unfold Pandas.row_keys, Pandas.row_at. rewrite !length_map. reflexivity. Qed.

(** The rows of a sorted table come in the order of their keys. *)
Lemma sort_values_ordered (names : list string) (df df' : frame) :
  Pandas.sort_values names df = Ok df' ->
  exists idx cols,
    df' = Pandas.take_rows idx df /\
    mapM (col_or_raise df) names = Ok cols /\
    forall i j, (i < j < List.length idx)%nat ->
      Pandas.keys_leb (Pandas.row_keys cols (nth i idx O))
                      (Pandas.row_keys cols (nth j idx O)) = true.
Proof.
  unfold Pandas.sort_values. intros H.
  destruct (mapM (col_or_raise df) names) as [cols|e] eqn:E; cbn [bind] in H; [|discriminate].
  injection H as <-. eexists. exists cols. split; [reflexivity|]. split; [reflexivity|].
  intros i j Hij.
  apply (sorted_nth (fun a b => Pandas.keys_leb (Pandas.row_keys cols a)
                                                (Pandas.row_keys cols b) = true)).
  - apply sort_by_sorted.
    + intros a b. apply keys_leb_total.
    + intros a b c. apply keys_leb_trans; rewrite !row_keys_length; reflexivity.
  - exact Hij.
Qed.

Lemma okey_eqb_leb (a b : option Pandas.key) :
  Pandas.okey_eqb a b = true ->
  Pandas.key_leb a b = true /\ Pandas.key_leb b a = true.
Proof.
  destruct a as [[x|x]|], b as [[y|y]|]; simpl; try discriminate.
  - intros H. apply Qc_eq_bool_eq in H. subst y.
    assert (Qc_leb x x = true) by (unfold Qc_leb; apply Qle_bool_iff, Qle_refl). auto.
  - intros H. apply String.eqb_eq in H. subst y.
    destruct (String.leb_total x x); auto.
Qed.

Lemma gather_nth (idx : list nat) (c : column) (i : nat) :
  (i < List.length idx)%nat ->
  nth i (Pandas.gather idx c) NA = nth (nth i idx O) c NA.
Proof.
  intros H. unfold Pandas.gather.
  rewrite (nth_indep _ NA (nth O c NA)) by (rewrite length_map; exact H).
  apply (map_nth (fun k => nth k c NA)).
Qed.

(** In a table sorted by an entity column and a gameweek column, the rows
    of one entity come in the order of their gameweeks. *)
Lemma sorted_rows_by_gameweek (id_col gw_col : string) (df df' : frame) :
  Pandas.sort_values [id_col; gw_col] df = Ok df' ->
  exists idx idc gwc,
    df' = Pandas.take_rows idx df /\
    get_col id_col df = Some idc /\
    get_col gw_col df = Some gwc /\
    forall i j, (i < j < List.length idx)%nat ->
      Pandas.cell_eqb (nth i (Pandas.gather idx idc) NA)
                      (nth j (Pandas.gather idx idc) NA) = true ->
      Pandas.key_leb (Pandas.key_of (nth i (Pandas.gather idx gwc) NA))
                     (Pandas.key_of (nth j (Pandas.gather idx gwc) NA)) = true.
Proof.
  intros H. destruct (sort_values_ordered _ _ _ H) as (idx & cols & -> & Ecols & Hord).
  simpl in Ecols. unfold col_or_raise in Ecols.
  destruct (get_col id_col df) as [idc|] eqn:Ei; cbn [bind] in Ecols; [|discriminate].
  destruct (get_col gw_col df) as [gwc|] eqn:Eg; cbn [bind] in Ecols; [|discriminate].
  injection Ecols as <-.
  exists idx, idc, gwc. repeat split.
  intros i j Hij Heq. specialize (Hord i j Hij).
  rewrite !gather_nth in * by lia.
  unfold Pandas.row_keys, Pandas.row_at in Hord. simpl in Hord.
  apply okey_eqb_leb in Heq. destruct Heq as [H1 H2]. rewrite H1, H2 in Hord.
  destruct (Pandas.key_leb _ _); [reflexivity|discriminate].
Qed.

Lemma shift_length (k : Z) (s : column) : List.length (Pandas.shift k s) = List.length s.
Proof. unfold Pandas.shift. rewrite length_map, length_seq. reflexivity. Qed.

Lemma shift_cells (k : Z) (s : column) (x : cell) :
  In x (Pandas.shift k s) -> x = NA \/ In x s.
Proof.
  unfold Pandas.shift. intros Hx. apply in_map_iff in Hx. destruct Hx as (i & <- & _).
  cbv zeta. destruct (andb _ _) eqn:E; [|left; reflexivity].
  apply andb_prop in E. destruct E as [E1 E2].
  apply Z.leb_le in E1. apply Z.ltb_lt in E2.
  right. apply nth_In. lia.
Qed.

Lemma shift_forward_one (s : column) (i : nat) :
  (i < List.length s)%nat ->
  firstn (S i) (Pandas.shift 1 s) = NA :: firstn i s.
Proof.
  intros Hi. apply (nth_ext _ _ NA NA).
  - cbn [List.length]. rewrite !length_firstn, shift_length. lia.
  - intros j Hj. rewrite length_firstn, shift_length in Hj.
    assert (Hji : (j < S i)%nat) by lia.
    rewrite nth_firstn. replace (j <? S i)%nat with true by (symmetry; apply Nat.ltb_lt; lia).
    unfold Pandas.shift. rewrite nth_map_seq by lia. cbv zeta.
    destruct j as [|j].
    + reflexivity.
    + cbn [nth]. rewrite nth_firstn.
      replace (j <? i)%nat with true by (symmetry; apply Nat.ltb_lt; lia).
      destruct (Z.leb_spec 0 (Z.of_nat (S j) - 1));
        destruct (Z.ltb_spec (Z.of_nat (S j) - 1) (Z.of_nat (List.length s)));
        cbn [andb]; try lia.
      f_equal. lia.
Qed.

Section RollingTheorem.
Variable fos : string -> option (option Qc).

(** The cell of a rolling mean at a row of an entity that has at most [w]
    rows so far: the mean of the observed values of these rows. *)
Lemma rolled_cell_early (w : positive) (ids col r : column) (i : nat) :
  List.length ids = List.length col ->
  Pandas.transform (fun s => PlayerFeatures._rolling fos true s w) ids
                   (map (Pandas.to_numeric fos) col) = Ok r ->
  (i < List.length col)%nat ->
  is_na (nth i ids NA) = false ->
  (List.length (filter (fun j => Pandas.cell_eqb (nth j ids NA) (nth i ids NA)) (seq 0 (S i)))
   <= Pos.to_nat w)%nat ->
  nth i r NA
  = match Pandas.present
            (map num_of
               (Pandas.gather
                  (filter (fun j => Pandas.cell_eqb (nth j ids NA) (nth i ids NA)) (seq 0 (S i)))
                  (map (Pandas.to_numeric fos) col))) with
    | [] => NA
    | obs => VFloat (Pandas.qmean obs)
    end.
Proof.
  intros Hlen Ht Hi Hna Hw.
  assert (Hi' : (i < List.length (map (Pandas.to_numeric fos) col))%nat)
    by (rewrite length_map; exact Hi).
  destruct (transform_nth _ _ _ _ i Ht Hi' Hna) as (g & Hg & Hr).
  rewrite Hr. unfold PlayerFeatures._rolling in Hg.
  assert (Hids : (i < List.length ids)%nat) by lia.
  pose proof (group_index_split ids i Hids) as Hsplit.
  pose proof (rows_so_far_length ids i Hna) as Hrows.
  set (rows := filter (fun j => Pandas.cell_eqb (nth j ids NA) (nth i ids NA)) (seq 0 (S i))) in *.
  set (later := filter (fun j => Pandas.cell_eqb (nth j ids NA) (nth i ids NA))
                       (seq (S i) (List.length ids - S i))) in *.
  rewrite Hsplit in Hg.
  rewrite gather_to_numeric in Hg.
  rewrite (rolling_mean_early fos w _ _ g (Pandas.group_rank ids i)
             (as_float_numeric fos _) Hg).
  - rewrite firstn_map. rewrite <- gather_to_numeric.
    rewrite <- Hrows. rewrite firstn_gather. reflexivity.
  - rewrite length_map, gather_length, length_app. lia.
  - lia.
Qed.

(** The cell of a rolling mean of [min_periods = 1] at row [k]: the mean of
    the observed values of its window, missing when there is none. *)
Lemma rolling_mean_window (w : positive) (s : column) (vals : list (option Qc))
      (r : column) (k : nat) :
  mapM (Pandas.as_float fos) s = Ok vals ->
  Pandas.rolling_mean fos w 1 s = Ok r ->
  (k < List.length s)%nat ->
  nth k r NA = match Pandas.present (Pandas.window (Pos.to_nat w) k vals) with
               | [] => NA
               | obs => VFloat (Pandas.qmean obs)
               end.
Proof.
  intros Hv Hr Hk. unfold Pandas.rolling_mean, Pandas.rolling in Hr.
  rewrite Hv in Hr. simpl in Hr. injection Hr as <-.
  rewrite nth_map_seq by exact Hk.
  destruct (Pandas.present (Pandas.window (Pos.to_nat w) k vals)) as [|q obs]; reflexivity.
Qed.

Lemma present_skip_none (n : nat) (l : list (option Qc)) :
  Pandas.present (skipn (S n - 0) (None :: l)) = Pandas.present (skipn n l).
Proof. reflexivity. Qed.

(** The cell of the rolling mean of [add_player_rolling_features] at a
    row: the mean of the observed values of the last [w] rows of the
    entity, up to the row itself when the current row counts, and up to the
    row before it when it does not. *)
Lemma rolled_cell_window (ic : bool) (w : positive) (ids col r : column) (i : nat) :
  List.length ids = List.length col ->
  Pandas.transform (fun s => PlayerFeatures._rolling fos ic s w) ids
                   (map (Pandas.to_numeric fos) col) = Ok r ->
  (i < List.length col)%nat ->
  is_na (nth i ids NA) = false ->
  nth i r NA
  = match Pandas.present
            (map num_of
               (Pandas.gather
                  (skipn
                     (List.length
                        (filter (fun j => Pandas.cell_eqb (nth j ids NA) (nth i ids NA))
                                (seq 0 (if ic then S i else i)))
                      - Pos.to_nat w)
                     (filter (fun j => Pandas.cell_eqb (nth j ids NA) (nth i ids NA))
                             (seq 0 (if ic then S i else i))))
                  (map (Pandas.to_numeric fos) col))) with
    | [] => NA
    | obs => VFloat (Pandas.qmean obs)
    end.
Proof.
  intros Hlen Ht Hi Hna.
  assert (Hi' : (i < List.length (map (Pandas.to_numeric fos) col))%nat)
    by (rewrite length_map; exact Hi).
  destruct (transform_nth _ _ _ _ i Ht Hi' Hna) as (g & Hg & Hr).
  rewrite Hr. unfold PlayerFeatures._rolling in Hg.
  assert (Hids : (i < List.length ids)%nat) by lia.
  pose proof (group_index_split ids i Hids) as Hsplit.
  pose proof (rows_so_far_length ids i Hna) as Hrows.
  set (same := fun j => Pandas.cell_eqb (nth j ids NA) (nth i ids NA)) in *.
  set (later := filter same (seq (S i) (List.length ids - S i))) in *.
  set (vals := map (Pandas.to_numeric fos) col) in *.
  assert (Hbefore : filter same (seq 0 (S i)) = (filter same (seq 0 i) ++ [i])%list).
  { rewrite seq_S, filter_app. cbn [filter Nat.add]. unfold same at 2.
    rewrite (cell_eqb_refl _ Hna). reflexivity. }
  assert (Hrank : List.length (filter same (seq 0 i)) = Pandas.group_rank ids i)
    by reflexivity.
  set (rank := Pandas.group_rank ids i) in *.
  assert (Hnum : forall idx, mapM (Pandas.as_float fos) (Pandas.gather idx vals)
                             = Ok (map num_of (Pandas.gather idx vals))).
  { intros idx. unfold vals. rewrite gather_to_numeric. apply as_float_numeric. }
  destruct ic.
  - (* the current row counts *)
    rewrite (rolling_mean_window w _ _ g rank (Hnum _) Hg)
      by (rewrite gather_length, Hsplit, length_app; lia).
    unfold Pandas.window. rewrite firstn_map, skipn_map.
    rewrite Hsplit, <- Hrows, firstn_gather. rewrite Hrows.
    unfold Pandas.gather at 1. rewrite skipn_map. reflexivity.
  - (* the window ends at the row before *)
    set (s := Pandas.gather (Pandas.group_index ids i) vals) in *.
    assert (Hs : (rank < List.length s)%nat).
    { unfold s. rewrite gather_length, Hsplit, length_app. lia. }
    assert (Hshift : mapM (Pandas.as_float fos) (Pandas.shift 1 s)
                     = Ok (map num_of (Pandas.shift 1 s))).
    { apply mapM_ok_map. intros a Ha. apply shift_cells in Ha.
      destruct Ha as [->|Ha]; [reflexivity|].
      unfold s, Pandas.gather in Ha. apply in_map_iff in Ha. destruct Ha as (j & <- & _).
      unfold vals.
      destruct (Nat.lt_ge_cases j (List.length (map (Pandas.to_numeric fos) col))) as [Hj|Hj].
      - rewrite (nth_indep _ NA (Pandas.to_numeric fos NA)) by exact Hj.
        rewrite map_nth. apply as_float_to_numeric.
      - rewrite nth_overflow by exact Hj. reflexivity. }
    rewrite (rolling_mean_window w _ _ g rank Hshift Hg)
      by (rewrite shift_length; exact Hs).
    unfold Pandas.window. rewrite firstn_map.
    rewrite (shift_forward_one s rank Hs). cbn [map num_of].
    assert (Hfirst : firstn rank s = Pandas.gather (filter same (seq 0 i)) vals).
    { unfold s. rewrite Hsplit, Hbefore, <- app_assoc.
      rewrite <- Hrank. apply firstn_gather. }
    rewrite Hfirst. rewrite <- Hrank.
    set (before := filter same (seq 0 i)) in *.
    destruct (Nat.le_gt_cases (Pos.to_nat w) (List.length before)) as [Hge|Hlt].
    + replace (S (List.length before) - Pos.to_nat w)%nat
        with (S (List.length before - Pos.to_nat w)) by lia.
      cbn [skipn]. rewrite skipn_map. unfold Pandas.gather at 1. rewrite skipn_map.
      reflexivity.
    + replace (S (List.length before) - Pos.to_nat w)%nat with O by lia.
      replace (List.length before - Pos.to_nat w)%nat with O by lia.
      cbn [skipn]. reflexivity.
Qed.

(** C6 (amended).  The rows of one entity come in the order of their
    gameweeks in the output, so that the first row of an entity is its
    first observed gameweek.  For every rolled column [c] and window [w],
    the output has the column [c_roll<w>], and its cell at a row is the mean
    of the observed values of the last [w] rows of the entity, missing when
    none is observed; these rows end at the row itself when
    [include_current] is true and at the row before it when it is false.
    With [include_current] true, a row of an entity that has at most [w]
    rows so far holds the mean of the observed values of these rows, and
    the first row of an entity with an observed value holds that value;
    with [include_current] false, the first row of an entity holds a
    missing value. *)
Theorem rolling_mean_first_observation
        (df : frame) (windows : list positive) (cols : option (list string))
        (per90 include_current : bool) (id_col gw_col minutes_col : string)
        (out : frame) :
  PlayerFeatures.add_player_rolling_features fos df windows cols per90 include_current
    id_col gw_col minutes_col = Ok out ->
  forall c w,
    (exists df1 rc,
        PlayerFeatures.roll_columns fos df
          (match cols with
           | None => PlayerFeatures.DEFAULT_ROLLING_COLS
           | Some l => l
           end) per90 minutes_col = Ok (df1, rc) /\ In c rc) ->
    In w windows ->
    exists ids gws vals rolled,
      get_col id_col out = Some ids /\
      get_col gw_col out = Some gws /\
      (forall i j, (i < j < List.length ids)%nat ->
         Pandas.cell_eqb (nth i ids NA) (nth j ids NA) = true ->
         Pandas.key_leb (Pandas.key_of (nth i gws NA)) (Pandas.key_of (nth j gws NA)) = true) /\
      get_col c out = Some vals /\
      In (PlayerFeatures.roll_name c w, rolled) out /\
      List.length ids = List.length vals /\
      List.length rolled = List.length vals /\
      forall i, (i < List.length vals)%nat -> is_na (nth i ids NA) = false ->
        nth i rolled NA
        = match Pandas.present
                  (map num_of
                     (Pandas.gather
                        (skipn
                           (List.length
                              (filter (fun j => Pandas.cell_eqb (nth j ids NA) (nth i ids NA))
                                      (seq 0 (if include_current then S i else i)))
                            - Pos.to_nat w)
                           (filter (fun j => Pandas.cell_eqb (nth j ids NA) (nth i ids NA))
                                   (seq 0 (if include_current then S i else i))))
                        vals)) with
          | [] => NA
          | obs => VFloat (Pandas.qmean obs)
          end /\
        (include_current = true ->
         ((List.length (filter (fun j => Pandas.cell_eqb (nth j ids NA) (nth i ids NA))
                               (seq 0 (S i))) <= Pos.to_nat w)%nat ->
          nth i rolled NA
          = match Pandas.present
                    (map num_of
                       (Pandas.gather
                          (filter (fun j => Pandas.cell_eqb (nth j ids NA) (nth i ids NA))
                                  (seq 0 (S i))) vals)) with
            | [] => NA
            | obs => VFloat (Pandas.qmean obs)
            end) /\
         ((forall j, (j < i)%nat -> Pandas.cell_eqb (nth j ids NA) (nth i ids NA) = false) ->
          forall v, num_of (nth i vals NA) = Some v -> nth i rolled NA = VFloat v)) /\
        (include_current = false ->
         (forall j, (j < i)%nat -> Pandas.cell_eqb (nth j ids NA) (nth i ids NA) = false) ->
         nth i rolled NA = NA).
Proof.
  intros H c w (df1 & rc & Erc & Hc) Hw.
  unfold PlayerFeatures.add_player_rolling_features in H.
  destruct (orb (negb (has_col id_col df)) (negb (has_col gw_col df))); [discriminate|].
  rewrite Erc in H. cbn [bind] in H.
  destruct (foldM (PlayerFeatures.numeric_step fos) rc df1) as [df2|e] eqn:E2;
    cbn [bind] in H; [|discriminate].
  destruct (Pandas.sort_values [id_col; gw_col] df2) as [df3|e] eqn:E3;
    cbn [bind] in H; [|discriminate].
  destruct (foldM (fun nc col =>
                     foldM (PlayerFeatures.roll_step fos include_current id_col df3 col)
                           windows nc)
                  rc []) as [nc|e] eqn:E4; cbn [bind] in H; [|discriminate].
  destruct (sorted_rows_by_gameweek _ _ _ _ E3) as (idx & idc & gwc & -> & Hidc & Hgwc & Hord).
  destruct (numeric_loop_makes fos _ _ _ c E2 Hc) as (col & Hcol).
  destruct (new_cols_entry fos include_current id_col _ rc windows nc c w E4 Hc Hw)
    as (r & Hv & Hr).
  unfold PlayerFeatures.roll_value in Hv. simpl in Hv.
  rewrite !get_col_take_rows, Hidc, Hcol in Hv. simpl in Hv.
  rewrite gather_to_numeric in Hv.
  rewrite <- (trend_loop_keeps PlayerFeatures.trend_pairs) in Hr.
  set (nc' := fold_left PlayerFeatures.trend_step PlayerFeatures.trend_pairs nc) in *.
  assert (Hout : out = (Pandas.take_rows idx df2 ++ nc')%list).
  { destruct nc' as [|x l]; [discriminate|]. injection H as <-. reflexivity. }
  clear H. subst out.
  exists (Pandas.gather idx idc), (Pandas.gather idx gwc),
         (map (Pandas.to_numeric fos) (Pandas.gather idx col)), r.
  assert (Hlen : List.length (Pandas.gather idx idc) = List.length (Pandas.gather idx col))
    by (rewrite !gather_length; reflexivity).
  split; [|split; [|split; [|split; [|split; [|split; [|split]]]]]].
  - rewrite get_col_app, get_col_take_rows, Hidc. reflexivity.
  - rewrite get_col_app, get_col_take_rows, Hgwc. reflexivity.
  - intros i j Hij. rewrite gather_length in Hij. apply Hord. exact Hij.
  - rewrite get_col_app, get_col_take_rows, Hcol. simpl.
    rewrite gather_to_numeric. reflexivity.
  - apply in_or_app. right. apply get_col_In. exact Hr.
  - rewrite length_map. exact Hlen.
  - apply transform_length in Hv. exact Hv.
  - intros i Hi Hna. rewrite length_map in Hi.
    pose proof (rolled_cell_window include_current w _ _ r i Hlen Hv Hi Hna) as Hwin.
    split; [exact Hwin|]. split.
    + intros ->.
      assert (Hearly :
                (List.length
                   (filter (fun j => Pandas.cell_eqb (nth j (Pandas.gather idx idc) NA)
                                       (nth i (Pandas.gather idx idc) NA)) (seq 0 (S i)))
                 <= Pos.to_nat w)%nat ->
                nth i r NA
                = match Pandas.present
                          (map num_of
                             (Pandas.gather
                                (filter (fun j => Pandas.cell_eqb
                                                    (nth j (Pandas.gather idx idc) NA)
                                                    (nth i (Pandas.gather idx idc) NA))
                                        (seq 0 (S i)))
                                (map (Pandas.to_numeric fos) (Pandas.gather idx col)))) with
                  | [] => NA
                  | obs => VFloat (Pandas.qmean obs)
                  end).
      { intros Hle. rewrite Hwin.
        replace (List.length
                   (filter (fun j => Pandas.cell_eqb (nth j (Pandas.gather idx idc) NA)
                                       (nth i (Pandas.gather idx idc) NA)) (seq 0 (S i)))
                 - Pos.to_nat w)%nat with O by lia.
        reflexivity. }
      split; [exact Hearly|].
      intros Hfirst v Hval.
      assert (Hrows : filter (fun j => Pandas.cell_eqb (nth j (Pandas.gather idx idc) NA)
                                         (nth i (Pandas.gather idx idc) NA)) (seq 0 (S i))
                      = [i]).
      { rewrite seq_S, filter_app. simpl. rewrite (cell_eqb_refl _ Hna).
        replace (filter (fun j => Pandas.cell_eqb (nth j (Pandas.gather idx idc) NA)
                                    (nth i (Pandas.gather idx idc) NA)) (seq 0 i))
          with (@nil nat); [reflexivity|].
        symmetry. apply filter_none. intros j Hj. apply in_seq in Hj.
        apply Hfirst. lia. }
      rewrite Hrows in Hearly. simpl in Hearly.
      rewrite Hval in Hearly. simpl in Hearly.
      rewrite Hearly by (pose proof (Pos2Nat.is_pos w); lia).
      rewrite qmean_single. reflexivity.
    + intros -> Hfirst. rewrite Hwin.
      rewrite (filter_none _ (seq 0 i))
        by (intros j Hj; apply in_seq in Hj; apply Hfirst; lia).
      reflexivity.
Qed.

End RollingTheorem.

Lemma rolling_mean_first_observation_witness :
  exists out,
    PlayerFeatures.add_player_rolling_features Samples.no_float Samples.two_rows
      [3%positive] (Some ["metric"]) false false "player_id" "gw" "minutes" = Ok out /\
    exists ids gws vals rolled,
      get_col "player_id" out = Some ids /\
      get_col "gw" out = Some gws /\
      (forall i j, (i < j < List.length ids)%nat ->
         Pandas.cell_eqb (nth i ids NA) (nth j ids NA) = true ->
         Pandas.key_leb (Pandas.key_of (nth i gws NA)) (Pandas.key_of (nth j gws NA)) = true) /\
      get_col "metric" out = Some vals /\
      In (PlayerFeatures.roll_name "metric" 3, rolled) out /\
      List.length ids = List.length vals /\
      List.length rolled = List.length vals /\
      forall i, (i < List.length vals)%nat -> is_na (nth i ids NA) = false ->
        nth i rolled NA
        = match Pandas.present
                  (map num_of
                     (Pandas.gather
                        (skipn
                           (List.length
                              (filter (fun j => Pandas.cell_eqb (nth j ids NA) (nth i ids NA))
                                      (seq 0 i))
                            - Pos.to_nat 3)
                           (filter (fun j => Pandas.cell_eqb (nth j ids NA) (nth i ids NA))
                                   (seq 0 i)))
                        vals)) with
          | [] => NA
          | obs => VFloat (Pandas.qmean obs)
          end /\
        (false = true ->
         ((List.length (filter (fun j => Pandas.cell_eqb (nth j ids NA) (nth i ids NA))
                               (seq 0 (S i))) <= Pos.to_nat 3)%nat ->
          nth i rolled NA
          = match Pandas.present
                    (map num_of
                       (Pandas.gather
                          (filter (fun j => Pandas.cell_eqb (nth j ids NA) (nth i ids NA))
                                  (seq 0 (S i))) vals)) with
            | [] => NA
            | obs => VFloat (Pandas.qmean obs)
            end) /\
         ((forall j, (j < i)%nat -> Pandas.cell_eqb (nth j ids NA) (nth i ids NA) = false) ->
          forall v, num_of (nth i vals NA) = Some v -> nth i rolled NA = VFloat v)) /\
        (false = false ->
         (forall j, (j < i)%nat -> Pandas.cell_eqb (nth j ids NA) (nth i ids NA) = false) ->
         nth i rolled NA = NA).
Proof.
  eexists. split; [vm_compute; reflexivity|].
  apply (rolling_mean_first_observation Samples.no_float Samples.two_rows [3%positive]
           (Some ["metric"]) false false "player_id" "gw" "minutes").
  - vm_compute. reflexivity.
  - eexists. eexists. split; [vm_compute; reflexivity|]. left. reflexivity.
  - left. reflexivity.
Defined.

(** C6, as the specification words it, at a call with
    [include_current = false]: the window holds the rows before the
    current one only, and at the first row of each of the two players the
    rolling feature is missing although the metric is observed there. *)
Lemma rolling_mean_missing_without_current :
  exists out,
    PlayerFeatures.add_player_rolling_features Samples.no_float Samples.two_rows
      [3%positive] (Some ["metric"]) false false "player_id" "gw" "minutes" = Ok out /\
    get_col "player_id" out = Some [VInt 1; VInt 2] /\
    get_col "metric" out = Some [VInt 9; VInt 5] /\
    get_col "metric_roll3" out = Some [NA; NA].
Proof. eexists. split; [vm_compute; reflexivity|]. repeat split. Qed.

Example rolling_mean_with_current :
  exists out,
    PlayerFeatures.add_player_rolling_features Samples.no_float Samples.two_rows
      [3%positive] (Some ["metric"]) false true "player_id" "gw" "minutes" = Ok out /\
    option_map (map Spec.view) (get_col "metric_roll3" out)
      = Some [Some (9 # 1); Some (5 # 1)].
Proof. eexists. split; [vm_compute; reflexivity|]. vm_compute. reflexivity. Qed.

(** ** Keys, distinct values and sorting *)

Lemma key_eqb_eq (a b : Pandas.key) : Pandas.key_eqb a b = true <-> a = b.
Proof.
  destruct a as [x|x], b as [y|y]; simpl; split; intros H; try discriminate.
  - apply Qc_eq_bool_eq in H. congruence.
  - injection H as ->. apply Qc_eq_bool_refl.
  - apply String.eqb_eq in H. congruence.
  - injection H as ->. apply String.eqb_refl.
Qed.

Lemma cell_eqb_true (a b : cell) :
  Pandas.cell_eqb a b = true <->
  exists k, Pandas.key_of a = Some k /\ Pandas.key_of b = Some k.
Proof.
  unfold Pandas.cell_eqb, Pandas.okey_eqb.
  destruct (Pandas.key_of a) as [ka|], (Pandas.key_of b) as [kb|]; split.
  - intros H. apply key_eqb_eq in H. subst. eauto.
  - intros (k & H1 & H2). apply key_eqb_eq. congruence.
  - discriminate.
  - intros (k & _ & H). discriminate.
  - discriminate.
  - intros (k & H & _). discriminate.
  - discriminate.
  - intros (k & H & _). discriminate.
Qed.

Lemma cell_eqb_sym (a b : cell) : Pandas.cell_eqb a b = Pandas.cell_eqb b a.
Proof.
  destruct (Pandas.cell_eqb a b) eqn:E1, (Pandas.cell_eqb b a) eqn:E2; try reflexivity.
  - apply cell_eqb_true in E1. destruct E1 as (k & H1 & H2).
    assert (Pandas.cell_eqb b a = true) by (apply cell_eqb_true; eauto). congruence.
  - apply cell_eqb_true in E2. destruct E2 as (k & H1 & H2).
    assert (Pandas.cell_eqb a b = true) by (apply cell_eqb_true; eauto). congruence.
Qed.

Lemma cell_eqb_trans (a b c : cell) :
  Pandas.cell_eqb a b = true -> Pandas.cell_eqb b c = true -> Pandas.cell_eqb a c = true.
Proof.
  intros H1 H2. apply cell_eqb_true in H1, H2.
  destruct H1 as (k & Ha & Hb), H2 as (k' & Hb' & Hc).
  apply cell_eqb_true. exists k. split; congruence.
Qed.

Lemma cell_eqb_na (a b : cell) : is_na a = true -> Pandas.cell_eqb a b = false.
Proof. destruct a; try discriminate. reflexivity. Qed.

Lemma filter_filter_implied {X : Type} (p q : X -> bool) (l : list X) :
  (forall x, In x l -> p x = true -> q x = true) ->
  filter p (filter q l) = filter p l.
Proof.
  induction l as [|x l IH]; simpl; intros H; [reflexivity|].
  destruct (q x) eqn:Eq; simpl.
  - rewrite IH by auto. reflexivity.
  - destruct (p x) eqn:Ep.
    + rewrite (H x) in Eq by auto. discriminate.
    + apply IH. auto.
Qed.

(** Every value of a column occurs once among its distinct values. *)
Lemma unique_once (ids : column) (t : cell) :
  (exists t', In t' ids /\ Pandas.cell_eqb t' t = true) ->
  List.length (filter (fun u => Pandas.cell_eqb u t) (FixtureFeatures.unique ids)) = 1%nat.
Proof.
  induction ids as [|c l IH]; intros (t' & Hin & Ht); [destruct Hin|].
  simpl. destruct (is_na c) eqn:Ena.
  - apply IH. destruct Hin as [->|Hin]; [|eauto].
    rewrite cell_eqb_na in Ht by exact Ena. discriminate.
  - simpl. destruct (Pandas.cell_eqb c t) eqn:Ec.
    + simpl. f_equal. apply length_zero_iff_nil. apply filter_none.
      intros x Hx. apply filter_In in Hx. destruct Hx as [_ Hx].
      destruct (Pandas.cell_eqb x t) eqn:Ex; [|reflexivity].
      rewrite cell_eqb_sym in Ec.
      rewrite (cell_eqb_trans _ _ _ Ex Ec) in Hx. discriminate.
    + rewrite filter_filter_implied.
      * apply IH. destruct Hin as [->|Hin]; [congruence|eauto].
      * intros x _ Hx. destruct (Pandas.cell_eqb x c) eqn:Exc; [|reflexivity].
        rewrite cell_eqb_sym in Exc.
        rewrite (cell_eqb_trans _ _ _ Exc Hx) in Ec. discriminate.
Qed.

Lemma filter_insert_by_length {X : Type} (leb : X -> X -> bool) (p : X -> bool)
      (x : X) (l : list X) :
  List.length (filter p (Pandas.insert_by leb x l)) = List.length (filter p (x :: l)).
Proof.
  induction l as [|y l IH]; simpl; [reflexivity|].
  destruct (leb x y); simpl; [reflexivity|].
  simpl in IH. destruct (p y), (p x); simpl in *; lia.
Qed.

Lemma filter_sort_by_length {X : Type} (leb : X -> X -> bool) (p : X -> bool) (l : list X) :
  List.length (filter p (Pandas.sort_by leb l)) = List.length (filter p l).
Proof.
  induction l as [|x l IH]; simpl; [reflexivity|].
  rewrite filter_insert_by_length. simpl. destruct (p x); simpl; lia.
Qed.

Lemma teams_once (ids teams : column) (t : cell) :
  FixtureFeatures.py_sorted (FixtureFeatures.unique ids) = Ok teams ->
  In t ids -> is_na t = false ->
  List.length (filter (fun u => Pandas.cell_eqb u t) teams) = 1%nat.
Proof.
  unfold FixtureFeatures.py_sorted. intros H Hin Hna.
  destruct (orb _ _); [|discriminate]. injection H as <-.
  rewrite filter_sort_by_length. apply unique_once.
  exists t. split; [exact Hin|apply cell_eqb_refl; exact Hna].
Qed.

(** Every gameweek of the range occurs once in it. *)
Lemma gw_range_once (a b g : Z) :
  a <= g <= b ->
  List.length (filter (fun z => z =? g) (FixtureFeatures.gw_range a b)) = 1%nat.
Proof.
  intros H. unfold FixtureFeatures.gw_range.
  assert (G : forall n s,
             List.length (filter (fun z => z =? g)
                            (map (fun k => a + Z.of_nat k) (seq s n)))
             = if andb (a + Z.of_nat s <=? g) (g <? a + Z.of_nat s + Z.of_nat n)
               then 1%nat else 0%nat).
  { induction n as [|n IH]; intros s.
    - simpl. destruct (a + Z.of_nat s <=? g) eqn:E1, (g <? a + Z.of_nat s + 0) eqn:E2;
        try reflexivity. apply Z.leb_le in E1. apply Z.ltb_lt in E2. lia.
    - cbn [seq map filter].
      destruct (a + Z.of_nat s =? g) eqn:E0; cbn [List.length]; rewrite IH;
        rewrite !Nat2Z.inj_succ;
      destruct (a + Z.succ (Z.of_nat s) <=? g) eqn:E1;
      destruct (g <? a + Z.succ (Z.of_nat s) + Z.of_nat n) eqn:E2;
      destruct (a + Z.of_nat s <=? g) eqn:E3;
      destruct (g <? a + Z.of_nat s + Z.succ (Z.of_nat n)) eqn:E4;
      simpl; try reflexivity;
      repeat match goal with
             | H : (_ =? _) = true |- _ => apply Z.eqb_eq in H
             | H : (_ =? _) = false |- _ => apply Z.eqb_neq in H
             | H : (_ <=? _) = true |- _ => apply Z.leb_le in H
             | H : (_ <=? _) = false |- _ => apply Z.leb_gt in H
             | H : (_ <? _) = true |- _ => apply Z.ltb_lt in H
             | H : (_ <? _) = false |- _ => apply Z.ltb_ge in H
             end; lia. }
  rewrite G. simpl.
  replace (a + 0 <=? g) with true by (symmetry; apply Z.leb_le; lia).
  replace (g <? a + 0 + Z.of_nat (Z.to_nat (b + 1 - a))) with true
    by (symmetry; apply Z.ltb_lt; lia).
  reflexivity.
Qed.

Lemma py_min_lower (l : list Z) (x y : Z) : In y (x :: l) -> py_min x l <= y.
Proof.
  unfold py_min. revert x. induction l as [|z l IH]; simpl; intros x H.
  - destruct H as [->|[]]. lia.
  - assert (G : forall l0 x0, fold_left Z.min l0 x0 <= x0).
    { induction l0 as [|w l0 IHl]; simpl; intros x0; [lia|].
      specialize (IHl (Z.min x0 w)). lia. }
    destruct H as [->|[->|H]].
    + pose proof (G l (Z.min y z)). lia.
    + pose proof (G l (Z.min x y)). lia.
    + apply IH. right. exact H.
Qed.

(** ** Rows as dictionaries *)

Lemma dict_get_set_same (k : string) (v : cell) (d : Pandas.dict) :
  Pandas.dict_get k (Pandas.dict_set k v d) = Some v.
Proof.
  induction d as [|[m v0] d IH]; simpl.
  - rewrite String.eqb_refl. reflexivity.
  - destruct (String.eqb m k) eqn:E; simpl; rewrite E; auto.
Qed.

Lemma dict_get_set_other (k k' : string) (v : cell) (d : Pandas.dict) :
  k' <> k -> Pandas.dict_get k (Pandas.dict_set k' v d) = Pandas.dict_get k d.
Proof.
  intros Hne. induction d as [|[m v0] d IH]; simpl.
  - destruct (String.eqb k' k) eqn:E; [apply String.eqb_eq in E; congruence|reflexivity].
  - destruct (String.eqb m k') eqn:E; simpl.
    + apply String.eqb_eq in E. subst m.
      destruct (String.eqb k' k) eqn:E'; [apply String.eqb_eq in E'; congruence|reflexivity].
    + destruct (String.eqb m k); auto.
Qed.

Lemma dict_get_named (k : string) (v : cell) (d : Pandas.dict) :
  Pandas.dict_get k d = Some v -> In k (map fst d).
Proof.
  induction d as [|[m v0] d IH]; simpl; [discriminate|].
  destruct (String.eqb m k) eqn:E; [apply String.eqb_eq in E; auto|auto].
Qed.

Lemma get_col_named (F : string -> column) (names : list string) (n : string) :
  In n names -> get_col n (map (fun m => (m, F m)) names) = Some (F n).
Proof.
  induction names as [|m names IH]; simpl; intros H; [destruct H|].
  destruct (String.eqb m n) eqn:E.
  - apply String.eqb_eq in E. subst. reflexivity.
  - apply IH. destruct H as [->|H]; [rewrite String.eqb_refl in E; discriminate|exact H].
Qed.

Lemma get_col_frame_of_rows (n : string) (rows : list Pandas.dict) :
  (exists d, In d rows /\ In n (map fst d)) ->
  get_col n (Pandas.frame_of_rows rows) = Some (map (Pandas.dict_cell n) rows).
Proof.
  intros (d & Hd & Hn). unfold Pandas.frame_of_rows.
  apply (get_col_named (fun m => map (Pandas.dict_cell m) rows)).
  apply (union_names_in (fun d => map fst d) rows [] d). right. auto.
Qed.

Lemma mapM_Forall2 {A C : Type} (f : A -> result C) (l : list A) (r : list C) :
  mapM f l = Ok r -> Forall2 (fun a c => f a = Ok c) l r.
Proof.
  revert r. induction l as [|a l IH]; simpl; intros r H.
  - injection H as <-. constructor.
  - destruct (f a) as [c|e] eqn:E; simpl in H; [|discriminate].
    destruct (mapM f l) as [cs|e]; simpl in H; [|discriminate].
    injection H as <-. constructor; auto.
Qed.

(** ** The names of the fixture-difficulty columns *)

Ltac unfold_names :=
  unfold FixtureFeatures.horizon_names, FixtureFeatures.name_count,
    FixtureFeatures.name_home, FixtureFeatures.name_opp_elo,
    FixtureFeatures.name_opp_strength, FixtureFeatures.name_elo_delta in *.

Lemma horizon_names_disjoint (h h' : Z) (k : string) :
  In k (FixtureFeatures.horizon_names h) -> In k (FixtureFeatures.horizon_names h') -> h = h'.
Proof.
  unfold_names. simpl.
  intros [<-|[<-|[<-|[<-|[<-|[]]]]]] [H|[H|[H|[H|[H|[]]]]]];
    try discriminate H;
    injection H as H; repeat (try discriminate H; injection H as H);
    apply str_of_Z_inj in H; congruence.
Qed.

Lemma horizon_names_not_key (h : Z) :
  ~ In "team_id" (FixtureFeatures.horizon_names h) /\
  ~ In "gw" (FixtureFeatures.horizon_names h).
Proof.
  unfold_names. simpl. split; intros [H|[H|[H|[H|[H|[]]]]]]; discriminate H.
Qed.

Lemma horizon_names_distinct (h : Z) : NoDup (FixtureFeatures.horizon_names h).
Proof.
  unfold_names. repeat constructor; simpl; intros H;
    repeat (destruct H as [H|H]; [discriminate H|]); exact H.
Qed.

(** ** The rows of the fixture-difficulty table *)

Section FixtureRows.
Variable fos : string -> option (option Qc).

Ltac get_set :=
  repeat first
    [ rewrite dict_get_set_same
    | rewrite dict_get_set_other
        by (unfold_names; simpl; intros E; injection E as E;
            repeat (try discriminate E; injection E as E)) ].

Lemma horizon_step_cells (team_rows : frame) (g h : Z) (row row' : Pandas.dict) :
  FixtureFeatures.horizon_step fos team_rows g row h = Ok row' ->
  FixtureFeatures.horizon_cells team_rows g h row' /\
  forall k, ~ In k (FixtureFeatures.horizon_names h) ->
            Pandas.dict_get k row' = Pandas.dict_get k row.
Proof.
  unfold FixtureFeatures.horizon_step. intros H.
  destruct (FixtureFeatures.upcoming_rows team_rows g h) as [up|e] eqn:Eup;
    cbn [bind] in H; [|discriminate].
  assert (Hother : forall k v1 v2 v3 v4 v5,
             ~ In k (FixtureFeatures.horizon_names h) ->
             Pandas.dict_get k
               (Pandas.dict_set (FixtureFeatures.name_elo_delta h) v5
                  (Pandas.dict_set (FixtureFeatures.name_opp_strength h) v4
                     (Pandas.dict_set (FixtureFeatures.name_opp_elo h) v3
                        (Pandas.dict_set (FixtureFeatures.name_home h) v2
                           (Pandas.dict_set (FixtureFeatures.name_count h) v1 row)))))
             = Pandas.dict_get k row).
  { intros k v1 v2 v3 v4 v5 Hk. unfold FixtureFeatures.horizon_names in Hk. simpl in Hk.
    rewrite !dict_get_set_other by (intros E; apply Hk; subst k; tauto). reflexivity. }
  destruct (Nat.eqb (nrows up) 0) eqn:E0.
  - injection H as <-. split; [|intros k Hk; apply Hother; exact Hk].
    exists up. split; [exact Eup|]. split; [|intros _; repeat split]; get_set; reflexivity.
  - destruct (FixtureFeatures.col_mean fos "is_home" up) as [v2|e]; cbn [bind] in H;
      [|discriminate].
    destruct (FixtureFeatures.col_mean fos "opp_elo" up) as [v3|e]; cbn [bind] in H;
      [|discriminate].
    destruct (if has_col "opp_strength" up
              then FixtureFeatures.col_mean fos "opp_strength" up else Ok NA) as [v4|e];
      cbn [bind] in H; [|discriminate].
    destruct (FixtureFeatures.col_mean fos "elo_delta" up) as [v5|e]; cbn [bind] in H;
      [|discriminate].
    injection H as <-. split; [|intros k Hk; apply Hother; exact Hk].
    exists up. split; [exact Eup|]. split.
    + get_set. reflexivity.
    + intros Hz. rewrite Hz in E0. discriminate.
Qed.

Lemma horizon_cells_kept (team_rows : frame) (g h : Z) (row row' : Pandas.dict) :
  (forall k, In k (FixtureFeatures.horizon_names h) ->
             Pandas.dict_get k row' = Pandas.dict_get k row) ->
  FixtureFeatures.horizon_cells team_rows g h row -> FixtureFeatures.horizon_cells team_rows g h row'.
Proof.
  intros Hk (up & Hup & Hc & Hz). exists up. split; [exact Hup|].
  assert (Hin : forall k, In k (FixtureFeatures.horizon_names h) ->
                          Pandas.dict_get k row' = Pandas.dict_get k row) by exact Hk.
  unfold FixtureFeatures.horizon_names in Hin. simpl in Hin.
  split.
  - rewrite Hin by tauto. exact Hc.
  - intros H0. destruct (Hz H0) as (H1 & H2 & H3 & H4).
    rewrite !Hin by tauto. auto.
Qed.

Lemma horizon_loop_cells (team_rows : frame) (g : Z) (hs : list Z) (row0 row : Pandas.dict) :
  foldM (FixtureFeatures.horizon_step fos team_rows g) hs row0 = Ok row ->
  (forall k, (forall h, In h hs -> ~ In k (FixtureFeatures.horizon_names h)) ->
             Pandas.dict_get k row = Pandas.dict_get k row0) /\
  (forall h, In h hs -> FixtureFeatures.horizon_cells team_rows g h row).
Proof.
  revert row0. induction hs as [|h0 hs IH]; intros row0 H; simpl in H.
  - injection H as <-. split; [reflexivity|intros h []].
  - destruct (FixtureFeatures.horizon_step fos team_rows g row0 h0) as [row1|e] eqn:E1;
      cbn [bind] in H; [|discriminate].
    destruct (horizon_step_cells _ _ _ _ _ E1) as [Hc1 Ho1].
    destruct (IH _ H) as [Hk Hh]. split.
    + intros k Hnot. rewrite Hk by (intros h Hin; apply Hnot; right; exact Hin).
      apply Ho1. apply Hnot. left. reflexivity.
    + intros h Hin. destruct (in_dec Z.eq_dec h hs) as [Hin'|Hnin]; [apply Hh; exact Hin'|].
      destruct Hin as [->|Hin]; [|contradiction].
      apply (horizon_cells_kept team_rows g h row1); [|exact Hc1].
      intros k Hkin. apply Hk. intros h' Hh' Hk'.
      assert (h = h') by (eapply horizon_names_disjoint; eauto). subst. contradiction.
Qed.

(** A row of the table: its key and the cells of every horizon. *)
Lemma gw_row_cells (team_rows : frame) (hs : list Z) (u : cell) (g : Z) (row : Pandas.dict) :
  FixtureFeatures.gw_row fos team_rows hs u g = Ok row ->
  Pandas.dict_get "team_id" row = Some u /\
  Pandas.dict_get "gw" row = Some (VInt g) /\
  forall h, In h hs -> FixtureFeatures.horizon_cells team_rows g h row.
Proof.
  unfold FixtureFeatures.gw_row. intros H.
  destruct (horizon_loop_cells _ _ _ _ _ H) as [Hk Hh].
  split; [|split; [|exact Hh]].
  - rewrite Hk; [reflexivity|]. intros h _. apply horizon_names_not_key.
  - rewrite Hk; [reflexivity|]. intros h _. apply horizon_names_not_key.
Qed.

End FixtureRows.

Lemma Forall2_list_prod {A C D : Type} (R : A -> C -> D -> Prop)
      (l1 : list A) (l2 : list C) (bss : list (list D)) :
  Forall2 (fun a bs => Forall2 (R a) l2 bs) l1 bss ->
  Forall2 (fun p b => R (fst p) (snd p) b) (list_prod l1 l2) (List.concat bss).
Proof.
  induction 1 as [|a bs l1 bss Hbs _ IH]; simpl; [constructor|].
  apply Forall2_app; [|exact IH].
  clear -Hbs. induction Hbs; simpl; constructor; auto.
Qed.

Lemma filter_list_prod_length {A C : Type} (p : A -> bool) (q : C -> bool)
      (l1 : list A) (l2 : list C) :
  List.length (filter (fun x => andb (p (fst x)) (q (snd x))) (list_prod l1 l2))
  = (List.length (filter p l1) * List.length (filter q l2))%nat.
Proof.
  induction l1 as [|a l1 IH]; simpl; [reflexivity|].
  rewrite filter_app, length_app, IH. clear IH.
  assert (E : List.length (filter (fun x => andb (p (fst x)) (q (snd x)))
                             (map (fun y => (a, y)) l2))
              = if p a then List.length (filter q l2) else 0%nat).
  { induction l2 as [|y l2 IHl]; simpl; [destruct (p a); reflexivity|].
    destruct (p a) eqn:Ep; simpl.
    - destruct (q y); simpl; rewrite IHl; reflexivity.
    - exact IHl. }
  rewrite E. destruct (p a); simpl; lia.
Qed.

Lemma filter_map_length {X Y : Type} (F : X -> Y) (p : Y -> bool) (l : list X) :
  List.length (filter p (map F l)) = List.length (filter (fun x => p (F x)) l).
Proof.
  induction l as [|x l IH]; simpl; [reflexivity|].
  destruct (p (F x)); simpl; rewrite IH; reflexivity.
Qed.

Lemma combine_map_map {X Y Z' : Type} (F : X -> Y) (G : X -> Z') (l : list X) :
  combine (map F l) (map G l) = map (fun x => (F x, G x)) l.
Proof. induction l as [|x l IH]; simpl; [reflexivity|]. rewrite IH. reflexivity. Qed.

Section FixtureTable.
Variable fos : string -> option (option Qc).

(** The rows of the output: one per team and gameweek of the range, in
    this order, each made by [gw_row]. *)
Lemma difficulty_rows_shape (team_fx : frame) (hs : list Z) (rows : list Pandas.dict) :
  FixtureFeatures.difficulty_rows fos team_fx hs = Ok rows ->
  exists gcol ids g0 gs teams,
    get_col "gw" team_fx = Some gcol /\
    map FixtureFeatures.cell_Z gcol = g0 :: gs /\
    get_col "team_id" team_fx = Some ids /\
    FixtureFeatures.py_sorted (FixtureFeatures.unique ids) = Ok teams /\
    Forall2 (fun p row =>
               FixtureFeatures.gw_row fos (FixtureFeatures.rows_of_team team_fx ids (fst p)) hs
                 (fst p) (snd p) = Ok row)
            (list_prod teams (FixtureFeatures.gw_range (py_min g0 gs) (py_max g0 gs)))
            rows.
Proof.
  unfold FixtureFeatures.difficulty_rows, col_or_raise. intros H.
  destruct (get_col "gw" team_fx) as [gcol|] eqn:Eg; cbn [bind] in H; [|discriminate].
  destruct (map FixtureFeatures.cell_Z gcol) as [|g0 gs] eqn:Ez; [discriminate|].
  destruct (get_col "team_id" team_fx) as [ids|] eqn:Ei; cbn [bind] in H; [|discriminate].
  destruct (FixtureFeatures.py_sorted (FixtureFeatures.unique ids)) as [teams|e] eqn:Et;
    cbn [bind] in H; [|discriminate].
  destruct (mapM _ teams) as [blocks|e] eqn:Eb; cbn [bind] in H; [|discriminate].
  injection H as <-.
  exists gcol, ids, g0, gs, teams. repeat split; auto.
  apply (Forall2_list_prod
           (fun u g row =>
              FixtureFeatures.gw_row fos (FixtureFeatures.rows_of_team team_fx ids u) hs u g = Ok row)).
  apply mapM_Forall2 in Eb.
  clear Et. induction Eb as [|u block teams' blocks' Hu _ IH]; constructor; [|exact IH].
  unfold FixtureFeatures.team_block in Hu. rewrite Ei in Hu.
  apply mapM_Forall2 in Hu. exact Hu.
Qed.

Lemma rows_keys (team_fx : frame) (ids : column) (hs : list Z)
      (pairs : list (cell * Z)) (rows : list Pandas.dict) :
  Forall2 (fun p row =>
             FixtureFeatures.gw_row fos (FixtureFeatures.rows_of_team team_fx ids (fst p)) hs
               (fst p) (snd p) = Ok row) pairs rows ->
  map (Pandas.dict_cell "team_id") rows = map fst pairs /\
  map (Pandas.dict_cell "gw") rows = map (fun p => VInt (snd p)) pairs.
Proof.
  induction 1 as [|p row pairs rows Hp _ [IH1 IH2]]; simpl; [auto|].
  destruct (gw_row_cells fos _ _ _ _ _ Hp) as (Ht & Hg & _).
  unfold Pandas.dict_cell at 1 3. rewrite Ht, Hg, IH1, IH2. auto.
Qed.

Lemma dict_set_keeps (k k' : string) (v : cell) (d : Pandas.dict) :
  Pandas.dict_get k d <> None -> Pandas.dict_get k (Pandas.dict_set k' v d) <> None.
Proof.
  intros H. destruct (string_dec k' k) as [->|Hne].
  - rewrite dict_get_set_same. discriminate.
  - rewrite dict_get_set_other by exact Hne. exact H.
Qed.

Lemma horizon_step_sets (team_rows : frame) (g h : Z) (row row' : Pandas.dict) :
  FixtureFeatures.horizon_step fos team_rows g row h = Ok row' ->
  exists v1 v2 v3 v4 v5,
    row' = Pandas.dict_set (FixtureFeatures.name_elo_delta h) v5
             (Pandas.dict_set (FixtureFeatures.name_opp_strength h) v4
                (Pandas.dict_set (FixtureFeatures.name_opp_elo h) v3
                   (Pandas.dict_set (FixtureFeatures.name_home h) v2
                      (Pandas.dict_set (FixtureFeatures.name_count h) v1 row)))).
Proof.
  unfold FixtureFeatures.horizon_step. intros H.
  destruct (FixtureFeatures.upcoming_rows team_rows g h) as [up|e];
    cbn [bind] in H; [|discriminate].
  destruct (Nat.eqb (nrows up) 0).
  - injection H as <-. do 5 eexists. reflexivity.
  - destruct (FixtureFeatures.col_mean fos "is_home" up) as [v2|e]; cbn [bind] in H;
      [|discriminate].
    destruct (FixtureFeatures.col_mean fos "opp_elo" up) as [v3|e]; cbn [bind] in H;
      [|discriminate].
    destruct (if has_col "opp_strength" up
              then FixtureFeatures.col_mean fos "opp_strength" up else Ok NA) as [v4|e];
      cbn [bind] in H; [|discriminate].
    destruct (FixtureFeatures.col_mean fos "elo_delta" up) as [v5|e]; cbn [bind] in H;
      [|discriminate].
    injection H as <-. do 5 eexists. reflexivity.
Qed.

Lemma horizon_loop_names (team_rows : frame) (g : Z) (hs : list Z) (row0 row : Pandas.dict) :
  foldM (FixtureFeatures.horizon_step fos team_rows g) hs row0 = Ok row ->
  (forall k, Pandas.dict_get k row0 <> None -> Pandas.dict_get k row <> None) /\
  (forall h k, In h hs -> In k (FixtureFeatures.horizon_names h) ->
               Pandas.dict_get k row <> None).
Proof.
  revert row0. induction hs as [|h0 hs IH]; intros row0 H; simpl in H.
  - injection H as <-. split; [auto|intros h k []].
  - destruct (FixtureFeatures.horizon_step fos team_rows g row0 h0) as [row1|e] eqn:E1;
      cbn [bind] in H; [|discriminate].
    destruct (horizon_step_sets _ _ _ _ _ E1) as (v1 & v2 & v3 & v4 & v5 & ->).
    destruct (IH _ H) as [Hk Hh]. split.
    + intros k Hk0. apply Hk. repeat apply dict_set_keeps. exact Hk0.
    + intros h k [->|Hin] Hkn; [|eapply Hh; eauto].
      apply Hk. unfold FixtureFeatures.horizon_names in Hkn. simpl in Hkn.
      destruct Hkn as [<-|[<-|[<-|[<-|[<-|[]]]]]];
        repeat first [ rewrite dict_get_set_same; discriminate | apply dict_set_keeps ].
Qed.

Lemma rows_columns (team_fx : frame) (ids : column) (hs : list Z)
      (pairs : list (cell * Z)) (rows : list Pandas.dict) (n : string) :
  Forall2 (fun p row =>
             FixtureFeatures.gw_row fos (FixtureFeatures.rows_of_team team_fx ids (fst p)) hs
               (fst p) (snd p) = Ok row) pairs rows ->
  pairs <> [] ->
  n = "team_id" \/ n = "gw" \/ (exists h, In h hs /\ In n (FixtureFeatures.horizon_names h)) ->
  get_col n (Pandas.frame_of_rows rows) = Some (map (Pandas.dict_cell n) rows).
Proof.
  intros HF Hne Hn. apply get_col_frame_of_rows.
  destruct HF as [|p row pairs rows Hp _]; [congruence|].
  exists row. split; [left; reflexivity|].
  destruct (gw_row_cells fos _ _ _ _ _ Hp) as (Ht & Hg & _).
  destruct Hn as [->|[->|(h & Hin & Hk)]].
  - eapply dict_get_named; eauto.
  - eapply dict_get_named; eauto.
  - unfold FixtureFeatures.gw_row in Hp.
    destruct (horizon_loop_names _ _ _ _ _ Hp) as [_ Hh].
    specialize (Hh h n Hin Hk).
    destruct (Pandas.dict_get n row) as [v|] eqn:Ev; [|congruence].
    eapply dict_get_named; eauto.
Qed.

End FixtureTable.

(** ** Well-formed frames *)

Lemma set_col_In (n : string) (c : column) (df : frame) (n' : string) (c' : column) :
  In (n', c') (set_col n c df) -> (n' = n /\ c' = c) \/ In (n', c') df.
Proof.
  induction df as [|[m c0] df IH]; simpl.
  - intros [E|[]]. injection E as <- <-. auto.
  - destruct (String.eqb m n) eqn:E; simpl.
    + apply String.eqb_eq in E. subst m. intros [E'|H]; [injection E' as <- <-; auto|auto].
    + intros [E'|H]; [auto|]. destruct (IH H); auto.
Qed.

Lemma set_col_nonempty (n : string) (c : column) (df : frame) : set_col n c df <> [].
Proof. destruct df as [|[m c0] df]; simpl; [discriminate|]. destruct (String.eqb m n); discriminate. Qed.

Lemma nrows_set_col (n : string) (c : column) (df : frame) :
  df <> [] -> List.length c = nrows df -> nrows (set_col n c df) = nrows df.
Proof.
  destruct df as [|[m c0] df]; [congruence|]. intros _ H. simpl.
  destruct (String.eqb m n); simpl; auto.
Qed.

Lemma well_formed_set_col (n : string) (c : column) (df : frame) :
  well_formed df -> df <> [] -> List.length c = nrows df -> well_formed (set_col n c df).
Proof.
  intros Hwf Hne Hlen n' c' Hin. rewrite nrows_set_col by assumption.
  destruct (set_col_In _ _ _ _ _ Hin) as [[_ ->]|H]; [exact Hlen|apply (Hwf _ _ H)].
Qed.

Lemma well_formed_get_col (n : string) (c : column) (df : frame) :
  well_formed df -> get_col n df = Some c -> List.length c = nrows df.
Proof. intros Hwf H. apply (Hwf n). apply get_col_In. exact H. Qed.

Lemma get_col_columns (n : string) (c : column) (df : frame) :
  get_col n df = Some c -> In n (columns df).
Proof. intros H. apply get_col_In in H. apply (in_map fst) in H. exact H. Qed.

Lemma empty_false_nonempty (df : frame) : empty df = false -> df <> [].
Proof. intros H ->. discriminate. Qed.

(** The rows of one side of the fixtures. *)
Lemma side_rows_shape (fx rows : frame) (team opp : string) (flag : Z)
      (team_elo opp_elo : string) (tcol : column) :
  FixtureFeatures.side_rows fx team opp flag team_elo opp_elo = Ok rows ->
  well_formed fx -> fx <> [] ->
  get_col team fx = Some tcol ->
  well_formed rows /\ rows <> [] /\ nrows rows = nrows fx /\
  get_col "team_id" rows = Some tcol /\
  get_col "gw" rows = get_col "gw" fx.
Proof.
  unfold FixtureFeatures.side_rows. intros H Hwf Hne Ht. rewrite Ht in H.
  destruct (get_col opp fx) as [o|] eqn:Eo; [|discriminate].
  destruct (get_col team_elo fx) as [te|] eqn:Ete; [|discriminate].
  destruct (get_col opp_elo fx) as [oe|] eqn:Eoe; [|discriminate].
  injection H as <-.
  pose proof (well_formed_get_col _ _ _ Hwf Ht) as L1.
  pose proof (well_formed_get_col _ _ _ Hwf Eo) as L2.
  pose proof (well_formed_get_col _ _ _ Hwf Ete) as L3.
  pose proof (well_formed_get_col _ _ _ Hwf Eoe) as L4.
  set (f1 := set_col "team_id" tcol fx).
  assert (W1 : well_formed f1 /\ nrows f1 = nrows fx /\ f1 <> []).
  { split; [apply well_formed_set_col; auto|]. split;
      [apply nrows_set_col; auto|apply set_col_nonempty]. }
  destruct W1 as (W1 & N1 & E1).
  set (f2 := set_col "opp_id" o f1).
  assert (W2 : well_formed f2 /\ nrows f2 = nrows fx /\ f2 <> []).
  { split; [apply well_formed_set_col; auto; congruence|]. split;
      [unfold f2; rewrite nrows_set_col; auto; congruence|apply set_col_nonempty]. }
  destruct W2 as (W2 & N2 & E2).
  set (f3 := set_col "is_home" (repeat (VInt flag) (nrows fx)) f2).
  assert (W3 : well_formed f3 /\ nrows f3 = nrows fx /\ f3 <> []).
  { split; [apply well_formed_set_col; auto; rewrite repeat_length; congruence|].
    split; [unfold f3; rewrite nrows_set_col; auto; rewrite repeat_length; congruence
           |apply set_col_nonempty]. }
  destruct W3 as (W3 & N3 & E3).
  set (f4 := set_col "team_elo" te f3).
  assert (W4 : well_formed f4 /\ nrows f4 = nrows fx /\ f4 <> []).
  { split; [apply well_formed_set_col; auto; congruence|]. split;
      [unfold f4; rewrite nrows_set_col; auto; congruence|apply set_col_nonempty]. }
  destruct W4 as (W4 & N4 & E4).
  split; [apply well_formed_set_col; auto; congruence|].
  split; [apply set_col_nonempty|].
  split; [rewrite nrows_set_col; auto; congruence|].
  unfold f4, f3, f2, f1. split.
  - rewrite !get_col_set_col_other by discriminate. apply get_col_set_col_same.
  - rewrite !get_col_set_col_other by discriminate. reflexivity.
Qed.

(** Two frames one after the other. *)
Lemma concat2_get_col (n : string) (a b : frame) (ca cb : column) :
  get_col n a = Some ca -> get_col n b = Some cb ->
  get_col n (Pandas.concat_frames [a; b]) = Some (ca ++ cb)%list.
Proof.
  intros Ha Hb. unfold Pandas.concat_frames.
  rewrite (get_col_named
             (fun m => flat_map (fun f => match get_col m f with
                                          | Some c => c
                                          | None => repeat NA (nrows f)
                                          end) [a; b])).
  - simpl. rewrite Ha, Hb, app_nil_r. reflexivity.
  - apply (union_names_in columns [a; b] [] a). right. split; [left; reflexivity|].
    eapply get_col_columns; eauto.
Qed.

Lemma concat2_well_formed (a b : frame) :
  well_formed a -> well_formed b -> a <> [] ->
  well_formed (Pandas.concat_frames [a; b]) /\
  Pandas.concat_frames [a; b] <> [] /\
  nrows (Pandas.concat_frames [a; b]) = (nrows a + nrows b)%nat.
Proof.
  intros Ha Hb Hne.
  assert (Hcol : forall n c, In (n, c) (Pandas.concat_frames [a; b]) ->
                             List.length c = (nrows a + nrows b)%nat).
  { intros n c Hin. unfold Pandas.concat_frames in Hin. apply in_map_iff in Hin.
    destruct Hin as (m & E & _). injection E as <- <-. simpl.
    rewrite app_nil_r, length_app. f_equal.
    - destruct (get_col m a) eqn:E; [eapply well_formed_get_col; eauto|apply repeat_length].
    - destruct (get_col m b) eqn:E; [eapply well_formed_get_col; eauto|apply repeat_length]. }
  assert (Hnon : Pandas.concat_frames [a; b] <> []).
  { destruct a as [|[n0 c0] a']; [congruence|].
    assert (Hin : In n0 (fold_left (fun acc f => Pandas.add_names acc (columns f))
                                   [(n0, c0) :: a'; b] [])).
    { apply (union_names_in columns _ [] ((n0, c0) :: a')). right.
      split; [left; reflexivity|left; reflexivity]. }
    intros E.
    pose proof (get_col_named
                  (fun m => flat_map (fun f => match get_col m f with
                                               | Some c => c
                                               | None => repeat NA (nrows f)
                                               end) [(n0, c0) :: a'; b]) _ n0 Hin) as G.
    unfold Pandas.concat_frames in E.
    pose proof (eq_trans (eq_sym (f_equal (get_col n0) E)) G) as G'. discriminate G'. }
  split; [|split; [exact Hnon|]].
  - intros n c Hin. rewrite (Hcol n c Hin).
    destruct (Pandas.concat_frames [a; b]) as [|[n0 c0] l] eqn:E; [congruence|].
    simpl. symmetry. apply (Hcol n0). left. reflexivity.
  - destruct (Pandas.concat_frames [a; b]) as [|[n0 c0] l] eqn:E; [congruence|].
    simpl. apply (Hcol n0). left. reflexivity.
Qed.

(** ** Left joins *)

Lemma gather_seq (c : column) : Pandas.gather (seq 0 (List.length c)) c = c.
Proof.
  unfold Pandas.gather. apply nth_ext with (d := NA) (d' := NA).
  - rewrite length_map, length_seq. reflexivity.
  - intros i Hi. rewrite length_map, length_seq in Hi.
    rewrite nth_map_seq by exact Hi. reflexivity.
Qed.

Lemma gather_covers (idx : list nat) (c : column) (x : cell) :
  (forall i, (i < List.length c)%nat -> In i idx) ->
  In x c -> In x (Pandas.gather idx c).
Proof.
  intros Hcov Hx. destruct (In_nth c x NA Hx) as (i & Hi & <-).
  unfold Pandas.gather. apply in_map_iff. exists i. split; [reflexivity|auto].
Qed.

Lemma merge_pairs_cover (lk rk : list column) (nl nr i : nat) :
  (i < nl)%nat -> In i (map fst (Pandas.merge_pairs lk rk nl nr)).
Proof.
  intros Hi. unfold Pandas.merge_pairs. apply in_map_iff.
  destruct (Pandas.matches_of lk rk nr i) as [|j js] eqn:E.
  - exists (i, None). split; [reflexivity|]. apply in_flat_map. exists i.
    split; [apply in_seq; lia|]. rewrite E. left. reflexivity.
  - exists (i, Some j). split; [reflexivity|]. apply in_flat_map. exists i.
    split; [apply in_seq; lia|]. rewrite E. left. reflexivity.
Qed.

Lemma key_match_common (a b c : cell) :
  Pandas.key_match a b = true -> Pandas.key_match a c = true ->
  Pandas.key_match b c = true.
Proof.
  unfold Pandas.key_match. intros H1 H2.
  apply orb_true_iff in H1, H2. apply orb_true_iff.
  destruct H1 as [H1|H1], H2 as [H2|H2].
  - apply andb_true_iff in H1, H2. left. apply andb_true_iff. tauto.
  - apply andb_true_iff in H1. destruct H1 as [Ha _].
    rewrite (cell_eqb_na a c Ha) in H2. discriminate.
  - apply andb_true_iff in H2. destruct H2 as [Ha _].
    rewrite (cell_eqb_na a b Ha) in H1. discriminate.
  - right. rewrite cell_eqb_sym in H1. eapply cell_eqb_trans; eauto.
Qed.

Lemma filter_at_most_one {X : Type} (p : X -> bool) (l : list X) :
  NoDup l ->
  (forall x y, In x l -> In y l -> p x = true -> p y = true -> x = y) ->
  (List.length (filter p l) <= 1)%nat.
Proof.
  induction 1 as [|x l Hx Hnd IH]; intros H; simpl; [lia|].
  destruct (p x) eqn:Ep.
  - simpl. rewrite filter_none; [simpl; lia|].
    intros y Hy. destruct (p y) eqn:Ey; [|reflexivity].
    assert (x = y) by (apply H; simpl; auto). subst. contradiction.
  - apply IH. intros a b Ha Hb. apply H; simpl; auto.
Qed.

Lemma matches_at_most_one (lkc rkc : column) (i : nat) :
  Pandas.distinct_keys rkc ->
  (List.length (Pandas.matches_of [lkc] [rkc] (List.length rkc) i) <= 1)%nat.
Proof.
  intros Hd. unfold Pandas.matches_of. apply filter_at_most_one; [apply seq_NoDup|].
  intros x y Hx Hy Px Py. apply in_seq in Hx, Hy.
  unfold Pandas.keys_match in Px, Py. simpl in Px, Py.
  rewrite andb_true_r in Px, Py.
  pose proof (key_match_common _ _ _ Px Py) as Hxy.
  pose proof (key_match_common _ _ _ Py Px) as Hyx.
  destruct (Nat.lt_trichotomy x y) as [Hlt|[Heq|Hgt]]; [|exact Heq|].
  - rewrite (Hd x y) in Hxy by lia. discriminate.
  - rewrite (Hd y x) in Hyx by lia. discriminate.
Qed.

Lemma merge_pairs_exact (lkc rkc : column) (nl : nat) :
  Pandas.distinct_keys rkc ->
  map fst (Pandas.merge_pairs [lkc] [rkc] nl (List.length rkc)) = seq 0 nl.
Proof.
  intros Hd. unfold Pandas.merge_pairs. generalize (seq 0 nl). intros l.
  induction l as [|i l IH]; [reflexivity|].
  cbn [flat_map]. rewrite map_app, IH.
  change (i :: l) with ([i] ++ l)%list. f_equal.
  pose proof (matches_at_most_one lkc rkc i Hd) as Hle.
  destruct (Pandas.matches_of [lkc] [rkc] (List.length rkc) i) as [|j [|j' js]];
    simpl in *; try reflexivity. lia.
Qed.

Lemma get_col_renamed (ren : string -> string) (G : column -> column)
      (df : frame) (n : string) (c : column) :
  get_col n df = Some c ->
  ren n = n ->
  (forall n', In n' (columns df) -> ren n' = n -> n' = n) ->
  get_col n (map (fun nc => (ren (fst nc), G (snd nc))) df) = Some (G c).
Proof.
  intros Hc Hn Hinj. induction df as [|[m c0] df IH]; simpl in *; [discriminate|].
  destruct (String.eqb m n) eqn:E.
  - apply String.eqb_eq in E. subst m. injection Hc as ->.
    rewrite Hn, String.eqb_refl. reflexivity.
  - destruct (String.eqb (ren m) n) eqn:E'.
    + apply String.eqb_eq in E'. rewrite (Hinj m) in E by auto.
      rewrite String.eqb_refl in E. discriminate.
    + apply IH; auto.
Qed.

Lemma suffix_x_not_key (n' : string) : n' ++ "_x" <> "team_id" /\ n' ++ "_x" <> "gw".
Proof.
  split; intros H; apply (f_equal split_last) in H;
    rewrite (split_last_append n' "x" eq_refl) in H; discriminate.
Qed.

Lemma merge_left_unfold (lhs rhs : frame) (on : string) (lk rk : column) :
  get_col on lhs = Some lk -> get_col on rhs = Some rk ->
  Pandas.merge_left lhs rhs on
  = if Pandas.keys_compatible lk rk then
      Ok (map (fun nc => (Pandas.left_name [on] rhs (fst nc),
                          Pandas.gather
                            (map fst (Pandas.merge_pairs [lk] [rk] (nrows lhs) (nrows rhs)))
                            (snd nc))) lhs
          ++ flat_map (fun nc =>
                         if isin (fst nc) [on] then []
                         else [(Pandas.right_name lhs (fst nc),
                                Pandas.gather_opt
                                  (map snd (Pandas.merge_pairs [lk] [rk] (nrows lhs) (nrows rhs)))
                                  (snd nc))]) rhs)%list
    else Raise (ValueError "You are trying to merge on object and number columns").
Proof.
  intros Hl Hr. unfold Pandas.merge_left, Pandas.merge_left_on.
  cbn [mapM]. unfold col_or_raise. rewrite Hl, Hr. cbn [bind].
  cbn [combine forallb filter fst snd]. rewrite String.eqb_refl, andb_true_r.
  destruct (Pandas.keys_compatible lk rk); reflexivity.
Qed.

Lemma merge_left_keys (lhs rhs m : frame) (on : string) :
  Pandas.merge_left lhs rhs on = Ok m ->
  exists lk rk, get_col on lhs = Some lk /\ get_col on rhs = Some rk.
Proof.
  unfold Pandas.merge_left, Pandas.merge_left_on. cbn [mapM]. unfold col_or_raise.
  intros H.
  destruct (get_col on lhs) as [lk|]; cbn [bind] in H; [|discriminate].
  destruct (get_col on rhs) as [rk|]; cbn [bind] in H; [|discriminate].
  eauto.
Qed.

(** A left join keeps a column of the left frame that its naming leaves
    alone: every value of the column is still there, and the column is the
    same when the keys of the right frame are distinct. *)
Lemma merge_left_keeps (lhs rhs m : frame) (on n : string) (c : column) :
  Pandas.merge_left lhs rhs on = Ok m ->
  well_formed lhs -> lhs <> [] ->
  get_col n lhs = Some c ->
  n = on \/ has_col n rhs = false ->
  (forall n', n' ++ "_x" <> n) ->
  exists c',
    get_col n m = Some c' /\
    (forall x, In x c -> In x c') /\
    (forall rk, get_col on rhs = Some rk -> Pandas.distinct_keys rk ->
                nrows rhs = List.length rk -> c' = c).
Proof.
  intros H Hwf Hne Hc Hn Hx.
  destruct (merge_left_keys _ _ _ _ H) as (lk & rk & El & Er).
  rewrite (merge_left_unfold _ _ _ _ _ El Er) in H.
  destruct (Pandas.keys_compatible lk rk); [|discriminate]. injection H as <-.
  set (pairs := Pandas.merge_pairs [lk] [rk] (nrows lhs) (nrows rhs)).
  exists (Pandas.gather (map fst pairs) c).
  pose proof (well_formed_get_col _ _ _ Hwf Hc) as Hlen.
  split; [|split].
  - rewrite get_col_app.
    rewrite (get_col_renamed (Pandas.left_name [on] rhs)
               (Pandas.gather (map fst pairs)) lhs n c Hc); [reflexivity| |].
    + unfold Pandas.left_name. destruct Hn as [->|Hn].
      * simpl. rewrite String.eqb_refl. reflexivity.
      * rewrite Hn, andb_false_r. reflexivity.
    + intros n' _. unfold Pandas.left_name.
      destruct (andb _ _); [intros E; elim (Hx _ E)|auto].
  - intros x Hin. apply gather_covers; [|exact Hin].
    intros i Hi. apply merge_pairs_cover. lia.
  - intros rk' Hrk Hd Hnr. rewrite Er in Hrk. injection Hrk as <-. unfold pairs.
    rewrite Hnr. rewrite merge_pairs_exact by exact Hd. rewrite <- Hlen. apply gather_seq.
Qed.

Lemma merge_left_well_formed (lhs rhs m : frame) (on : string) :
  Pandas.merge_left lhs rhs on = Ok m -> lhs <> [] ->
  well_formed m /\ m <> [].
Proof.
  intros H Hne.
  destruct (merge_left_keys _ _ _ _ H) as (lk & rk & El & Er).
  rewrite (merge_left_unfold _ _ _ _ _ El Er) in H.
  destruct (Pandas.keys_compatible lk rk); [|discriminate]. injection H as <-.
  set (pairs := Pandas.merge_pairs [lk] [rk] (nrows lhs) (nrows rhs)).
  set (m := (_ ++ _)%list).
  assert (Hcol : forall n c, In (n, c) m -> List.length c = List.length pairs).
  { intros n c Hin. apply in_app_or in Hin. destruct Hin as [Hin|Hin].
    - apply in_map_iff in Hin. destruct Hin as ([m0 c0] & E & _). injection E as _ <-.
      unfold Pandas.gather. rewrite !length_map. reflexivity.
    - apply in_flat_map in Hin. destruct Hin as ([m0 c0] & _ & Hin).
      destruct (orb _ _); [destruct Hin|]. destruct Hin as [E|[]]. injection E as _ <-.
      unfold Pandas.gather_opt. rewrite !length_map. reflexivity. }
  destruct lhs as [|[n0 c0] lhs']; [congruence|].
  split; [|discriminate].
  intros n c Hin. rewrite (Hcol n c Hin). simpl.
  unfold Pandas.gather. rewrite !length_map. reflexivity.
Qed.

(** ** The table of team fixtures *)

Lemma get_col_drop_col (n d : string) (df : frame) :
  n <> d -> get_col n (Pandas.drop_col d df) = get_col n df.
Proof.
  intros Hne. unfold Pandas.drop_col. induction df as [|[m c] df IH]; simpl; [reflexivity|].
  destruct (String.eqb m d) eqn:E; simpl.
  - apply String.eqb_eq in E. subst m.
    destruct (String.eqb d n) eqn:E'; [apply String.eqb_eq in E'; congruence|exact IH].
  - destruct (String.eqb m n); [reflexivity|exact IH].
Qed.

Lemma with_opp_strength_keeps (t0 dim t1 : frame) (n : string) (c : column) :
  FixtureFeatures.with_opp_strength t0 dim = Ok t1 ->
  well_formed t0 -> t0 <> [] ->
  n = "team_id" \/ n = "gw" ->
  get_col n t0 = Some c ->
  (well_formed t1 /\ t1 <> []) /\
  exists c',
    get_col n t1 = Some c' /\
    (forall x, In x c -> In x c') /\
    (FixtureFeatures.dim_ids_distinct (Some dim) -> c' = c).
Proof.
  unfold FixtureFeatures.with_opp_strength, FixtureFeatures.dim_lookup.
  intros H Hwf Hne Hn Hc.
  destruct (get_col "id" dim) as [k|] eqn:Ek;
    [destruct (get_col "strength" dim) as [v|] eqn:Ev|].
  - split; [eapply merge_left_well_formed; eauto|].
    destruct (merge_left_keeps _ _ _ _ n c H Hwf Hne Hc) as (c' & G1 & G2 & G3).
    + right. destruct Hn as [->| ->]; reflexivity.
    + intros n'. destruct Hn as [->| ->]; apply suffix_x_not_key.
    + exists c'. split; [exact G1|]. split; [exact G2|].
      intros Hd. apply (G3 k); [reflexivity|apply Hd; exact Ek|reflexivity].
  - injection H as <-. split; [auto|]. exists c. auto.
  - injection H as <-. split; [auto|]. exists c. auto.
Qed.

Lemma with_team_elo_keeps (t0 dim t1 : frame) (n : string) (c : column) :
  FixtureFeatures.with_team_elo t0 dim = Ok t1 ->
  well_formed t0 -> t0 <> [] ->
  n = "team_id" \/ n = "gw" ->
  get_col n t0 = Some c ->
  exists c',
    get_col n t1 = Some c' /\
    (forall x, In x c -> In x c') /\
    (FixtureFeatures.dim_ids_distinct (Some dim) -> c' = c).
Proof.
  unfold FixtureFeatures.with_team_elo, FixtureFeatures.dim_lookup.
  intros H Hwf Hne Hn Hc.
  destruct (get_col "id" dim) as [k|] eqn:Ek;
    [destruct (get_col "elo" dim) as [v|] eqn:Ev|].
  - destruct (Pandas.merge_left t0 [("team_id", k); ("team_elo_dim", v)] "team_id")
      as [m|e] eqn:Em; cbn [bind] in H; [|discriminate].
    destruct (merge_left_keeps _ _ _ _ n c Em Hwf Hne Hc) as (c' & G1 & G2 & G3).
    + destruct Hn as [->| ->]; [left|right]; reflexivity.
    + intros n'. destruct Hn as [->| ->]; apply suffix_x_not_key.
    + destruct (get_col "team_elo" m) as [e|]; [|discriminate].
      destruct (get_col "team_elo_dim" m) as [d|]; [|discriminate].
      injection H as <-. exists c'. split; [|split; [exact G2|]].
      * rewrite get_col_drop_col by (destruct Hn as [->| ->]; discriminate).
        rewrite get_col_set_col_other by (destruct Hn as [->| ->]; discriminate).
        exact G1.
      * intros Hd. apply (G3 k); [reflexivity|apply Hd; exact Ek|reflexivity].
  - injection H as <-. exists c. auto.
  - injection H as <-. exists c. auto.
Qed.

Lemma team_fixtures_columns (fx : frame) (dims : option frame) (team_fx : frame)
      (home away G : column) :
  FixtureFeatures.team_fixtures fx dims = Ok team_fx ->
  well_formed fx -> fx <> [] ->
  get_col "home_team" fx = Some home ->
  get_col "away_team" fx = Some away ->
  get_col "gw" fx = Some G ->
  exists ids gcol,
    get_col "team_id" team_fx = Some ids /\
    get_col "gw" team_fx = Some gcol /\
    (forall x, In x (home ++ away) -> In x ids) /\
    (forall x, In x (G ++ G) -> In x gcol) /\
    (FixtureFeatures.dim_ids_distinct dims ->
     ids = (home ++ away)%list /\ gcol = (G ++ G)%list).
Proof.
  unfold FixtureFeatures.team_fixtures. intros H Hwf Hne Hh Ha Hg.
  destruct (FixtureFeatures.side_rows fx "home_team" "away_team" 1 _ _) as [hr|e] eqn:Eh;
    cbn [bind] in H; [|discriminate].
  destruct (FixtureFeatures.side_rows fx "away_team" "home_team" 0 _ _) as [ar|e] eqn:Ea;
    cbn [bind] in H; [|discriminate].
  destruct (side_rows_shape _ _ _ _ _ _ _ home Eh Hwf Hne Hh) as (Wh & Nh & _ & Th & Gh).
  destruct (side_rows_shape _ _ _ _ _ _ _ away Ea Hwf Hne Ha) as (Wa & Na & _ & Ta & Ga).
  rewrite Hg in Gh, Ga.
  destruct (concat2_well_formed hr ar Wh Wa Nh) as (W0 & N0 & _).
  pose proof (concat2_get_col "team_id" hr ar _ _ Th Ta) as T0.
  pose proof (concat2_get_col "gw" hr ar _ _ Gh Ga) as G0.
  set (t0 := Pandas.concat_frames [hr; ar]) in *.
  assert (Hdims : exists t2 ids gcol,
             match dims with
             | Some dim =>
                 if empty dim then Ok t0
                 else (let* t := FixtureFeatures.with_opp_strength t0 dim in
                       FixtureFeatures.with_team_elo t dim)
             | None => Ok t0
             end = Ok t2 /\
             get_col "team_id" t2 = Some ids /\
             get_col "gw" t2 = Some gcol /\
             (forall x, In x (home ++ away) -> In x ids) /\
             (forall x, In x (G ++ G) -> In x gcol) /\
             (FixtureFeatures.dim_ids_distinct dims ->
              ids = (home ++ away)%list /\ gcol = (G ++ G)%list)).
  { destruct dims as [dim|]; [destruct (empty dim)|].
    - exists t0, (home ++ away)%list, (G ++ G)%list. repeat split; auto.
    - destruct (FixtureFeatures.with_opp_strength t0 dim) as [t1|e] eqn:E1;
        cbn [bind] in H; [|discriminate].
      destruct (FixtureFeatures.with_team_elo t1 dim) as [t2|e] eqn:E2;
        cbn [bind] in H; [|discriminate].
      destruct (with_opp_strength_keeps _ _ _ "team_id" _ E1 W0 N0 (or_introl eq_refl) T0)
        as ((W1 & N1) & i1 & I1 & I1in & I1eq).
      destruct (with_opp_strength_keeps _ _ _ "gw" _ E1 W0 N0 (or_intror eq_refl) G0)
        as (_ & g1 & G1 & G1in & G1eq).
      destruct (with_team_elo_keeps _ _ _ "team_id" _ E2 W1 N1 (or_introl eq_refl) I1)
        as (i2 & I2 & I2in & I2eq).
      destruct (with_team_elo_keeps _ _ _ "gw" _ E2 W1 N1 (or_intror eq_refl) G1)
        as (g2 & G2 & G2in & G2eq).
      exists t2, i2, g2. cbn [bind]. repeat split; auto.
      + rewrite (I2eq H0), (I1eq H0). reflexivity.
      + rewrite (G2eq H0), (G1eq H0). reflexivity.
    - exists t0, (home ++ away)%list, (G ++ G)%list. repeat split; auto. }
  destruct Hdims as (t2 & ids & gcol & E2 & I2 & G2 & Hin1 & Hin2 & Heq).
  rewrite E2 in H. cbn [bind] in H. unfold col_or_raise in H.
  destruct (get_col "team_elo" t2) as [te|]; cbn [bind] in H; [|discriminate].
  destruct (get_col "opp_elo" t2) as [oe|]; cbn [bind] in H; [|discriminate].
  destruct (mapM _ (combine te oe)) as [delta|e]; cbn [bind] in H; [|discriminate].
  injection H as <-. exists ids, gcol.
  rewrite !get_col_set_col_other by discriminate. repeat split; auto; apply Heq; auto.
Qed.

(** ** Counting the rows a mask keeps *)

Lemma gather_mask_shift (p : cell -> bool) (l1 l2 : column) (s : nat) :
  List.length l1 = List.length l2 ->
  map (fun i => nth (i - s) l2 NA)
      (filter (fun i => nth (i - s) (map p l1) false) (seq s (List.length l1)))
  = map snd (filter (fun q => p (fst q)) (combine l1 l2)).
Proof.
  revert l2 s. induction l1 as [|x l1 IH]; intros [|y l2] s Hlen; try discriminate; [reflexivity|].
  injection Hlen as Hlen. cbn [List.length seq filter combine map].
  assert (Hf : filter (fun i => nth (i - s) (p x :: map p l1) false) (seq (S s) (List.length l1))
               = filter (fun i => nth (i - S s) (map p l1) false) (seq (S s) (List.length l1))).
  { apply filter_ext_in. intros i Hi. apply in_seq in Hi.
    replace (i - s)%nat with (S (i - S s)) by lia. reflexivity. }
  assert (Hm : forall l, (forall i, In i l -> (S s <= i)%nat) ->
                         map (fun i => nth (i - s) (y :: l2) NA) l
                         = map (fun i => nth (i - S s) l2 NA) l).
  { intros l Hl. apply map_ext_in. intros i Hi. apply Hl in Hi.
    replace (i - s)%nat with (S (i - S s)) by lia. reflexivity. }
  assert (Hge : forall i, In i (filter (fun i => nth (i - S s) (map p l1) false)
                                  (seq (S s) (List.length l1))) -> (S s <= i)%nat).
  { intros i Hi. apply filter_In in Hi. destruct Hi as [Hi _]. apply in_seq in Hi. lia. }
  rewrite Hf, Nat.sub_diag.
  change (nth 0 (p x :: map p l1) false) with (p x). change (fst (x, y)) with x.
  destruct (p x); cbn [map snd];
    rewrite (Hm _ Hge), (IH l2 (S s) Hlen), ?Nat.sub_diag; reflexivity.
Qed.

Lemma gather_mask (p : cell -> bool) (l1 l2 : column) :
  List.length l1 = List.length l2 ->
  Pandas.gather (Pandas.mask_index (map p l1)) l2
  = map snd (filter (fun q => p (fst q)) (combine l1 l2)).
Proof.
  intros Hlen. unfold Pandas.gather, Pandas.mask_index. rewrite length_map.
  rewrite <- (gather_mask_shift p l1 l2 0 Hlen).
  rewrite (map_ext (fun i => nth i l2 NA) (fun i => nth (i - 0) l2 NA))
    by (intros i; rewrite Nat.sub_0_r; reflexivity).
  f_equal. apply filter_ext. intros i. rewrite Nat.sub_0_r. reflexivity.
Qed.

Lemma filter_combine_self {X : Type} (p : X -> bool) (l : list X) :
  map snd (filter (fun q => p (fst q)) (combine l l)) = filter p l.
Proof.
  induction l as [|x l IH]; simpl; [reflexivity|].
  destruct (p x); simpl; rewrite IH; reflexivity.
Qed.

Lemma mask_index_length (p : cell -> bool) (l : column) :
  List.length (Pandas.mask_index (map p l)) = List.length (filter p l).
Proof.
  rewrite <- (gather_length (Pandas.mask_index (map p l)) l).
  rewrite gather_mask by reflexivity. rewrite filter_combine_self. reflexivity.
Qed.

Lemma filter_filter_andb {X : Type} (p q : X -> bool) (l : list X) :
  filter p (filter q l) = filter (fun x => andb (q x) (p x)) l.
Proof.
  induction l as [|x l IH]; simpl; [reflexivity|].
  destruct (q x); simpl; [destruct (p x)|]; rewrite IH; reflexivity.
Qed.

Lemma nrows_take_rows (idx : list nat) (df : frame) :
  df <> [] -> nrows (Pandas.take_rows idx df) = List.length idx.
Proof.
  destruct df as [|[n c] df]; [congruence|]. intros _. simpl. apply gather_length.
Qed.

Lemma take_rows_nonempty (idx : list nat) (df : frame) :
  df <> [] -> Pandas.take_rows idx df <> [].
Proof. destruct df as [|[n c] df]; [congruence|]. intros _. discriminate. Qed.

Lemma get_col_nonempty (n : string) (c : column) (df : frame) :
  get_col n df = Some c -> df <> [].
Proof. intros H ->. discriminate. Qed.

(** The fixtures ahead of a team: the rows of the table of team fixtures
    with its id and a gameweek in the window. *)
Lemma upcoming_count (team_fx up : frame) (ids gcol : column) (u : cell) (g h : Z) :
  get_col "team_id" team_fx = Some ids ->
  get_col "gw" team_fx = Some gcol ->
  List.length ids = List.length gcol ->
  FixtureFeatures.upcoming_rows (FixtureFeatures.rows_of_team team_fx ids u) g h = Ok up ->
  nrows up
  = List.length
      (filter (fun q => andb (Pandas.cell_eqb (fst q) u)
                             (Spec.in_window g h (FixtureFeatures.cell_Z (snd q))))
              (combine ids gcol)).
Proof.
  intros Hi Hg Hlen H. unfold FixtureFeatures.upcoming_rows, FixtureFeatures.rows_of_team in H.
  unfold Pandas.filter_rows in H. rewrite get_col_take_rows, Hg in H. cbn [option_map] in H.
  injection H as <-.
  pose proof (get_col_nonempty _ _ _ Hg) as Hne.
  rewrite nrows_take_rows by (apply take_rows_nonempty; exact Hne).
  rewrite (mask_index_length
             (fun c => andb (g <? FixtureFeatures.cell_Z c) (FixtureFeatures.cell_Z c <=? g + h))).
  rewrite (gather_mask (fun c => Pandas.cell_eqb c u) ids gcol Hlen).
  rewrite filter_map_length, filter_filter_andb. reflexivity.
Qed.

Lemma combine_app {X Y : Type} (a b : list X) (c d : list Y) :
  List.length a = List.length c ->
  combine (a ++ b) (c ++ d) = (combine a c ++ combine b d)%list.
Proof.
  revert c. induction a as [|x a IH]; intros [|y c] H; try discriminate; [reflexivity|].
  simpl. rewrite IH by (injection H; auto). reflexivity.
Qed.

Lemma combine_map_r {X Y Z' : Type} (F : Y -> Z') (a : list X) (b : list Y) :
  combine a (map F b) = map (fun q => (fst q, F (snd q))) (combine a b).
Proof.
  revert b. induction a as [|x a IH]; intros [|y b]; simpl; try reflexivity.
  rewrite IH. reflexivity.
Qed.

Lemma side_count (side : column) (gw : list Z) (u : cell) (g h : Z) :
  List.length
    (filter (fun q => andb (Pandas.cell_eqb (fst q) u)
                           (Spec.in_window g h (FixtureFeatures.cell_Z (snd q))))
            (combine side (map VInt gw)))
  = Spec.side_ahead side gw u g h.
Proof.
  unfold Spec.side_ahead. rewrite combine_map_r, filter_map_length. reflexivity.
Qed.

Lemma both_sides_count (home away : column) (gw : list Z) (u : cell) (g h : Z) :
  List.length home = List.length gw ->
  List.length
    (filter (fun q => andb (Pandas.cell_eqb (fst q) u)
                           (Spec.in_window g h (FixtureFeatures.cell_Z (snd q))))
            (combine (home ++ away) (map VInt gw ++ map VInt gw)))
  = Spec.fixtures_ahead home away gw u g h.
Proof.
  intros Hlen. rewrite combine_app by (rewrite length_map; exact Hlen).
  rewrite filter_app, length_app, !side_count. reflexivity.
Qed.

(** ** The fixture table as a whole *)

Lemma has_col_get_col (n : string) (df : frame) :
  has_col n df = true -> exists c, get_col n df = Some c.
Proof. unfold has_col. destruct (get_col n df) as [c|]; [eauto|discriminate]. Qed.

Lemma ensure_gw_col_shape (df : frame) (n : string) :
  well_formed df -> df <> [] -> n <> "gw" ->
  well_formed (FixtureFeatures._ensure_gw_col df) /\
  FixtureFeatures._ensure_gw_col df <> [] /\
  nrows (FixtureFeatures._ensure_gw_col df) = nrows df /\
  get_col n (FixtureFeatures._ensure_gw_col df) = get_col n df.
Proof.
  intros Hwf Hne Hn. unfold FixtureFeatures._ensure_gw_col.
  destruct (get_col "gameweek" df) as [c|] eqn:E; [|auto].
  destruct (has_col "gw" df); [auto|].
  pose proof (well_formed_get_col _ _ _ Hwf E) as Hlen.
  split; [apply well_formed_set_col; assumption|].
  split; [apply set_col_nonempty|].
  split; [apply nrows_set_col; assumption|].
  apply get_col_set_col_other. congruence.
Qed.

Section FixtureBuild.
Variable fos : string -> option (option Qc).

(** The steps of a call that returns a table. *)
Lemma build_steps (fixtures : frame) (dims : option frame) (hs : list Z) (out : frame) :
  FixtureFeatures.build_team_fixture_difficulty fos fixtures dims hs = Ok out ->
  empty fixtures = false -> well_formed fixtures ->
  exists home away gws gw team_fx rows ids gcol,
    get_col "home_team" fixtures = Some home /\
    get_col "away_team" fixtures = Some away /\
    get_col "gw" (FixtureFeatures._ensure_gw_col fixtures) = Some gws /\
    mapM astype_int gws = Ok gw /\
    List.length home = List.length gw /\
    List.length away = List.length gw /\
    FixtureFeatures.difficulty_rows fos team_fx hs = Ok rows /\
    out = Pandas.frame_of_rows rows /\
    get_col "team_id" team_fx = Some ids /\
    get_col "gw" team_fx = Some gcol /\
    (forall x, In x (home ++ away) -> In x ids) /\
    (forall x, In x (map VInt gw) -> In x gcol) /\
    (FixtureFeatures.dim_ids_distinct dims ->
     ids = (home ++ away)%list /\ gcol = (map VInt gw ++ map VInt gw)%list).
Proof.
  unfold FixtureFeatures.build_team_fixture_difficulty. intros H He Hwf. rewrite He in H.
  pose proof (empty_false_nonempty _ He) as Hne.
  destruct (forallb _ FixtureFeatures.required) eqn:Ereq; cbn [negb] in H; [|discriminate].
  unfold col_or_raise in H.
  destruct (get_col "gw" (FixtureFeatures._ensure_gw_col fixtures)) as [gws|] eqn:Egws;
    cbn [bind] in H; [|discriminate].
  destruct (mapM astype_int gws) as [gw|e] eqn:Egw; cbn [bind] in H; [|discriminate].
  set (fx := set_col "gw" (map VInt gw) (FixtureFeatures._ensure_gw_col fixtures)) in *.
  destruct (FixtureFeatures.team_fixtures fx dims) as [team_fx|e] eqn:Etf;
    cbn [bind] in H; [|discriminate].
  destruct (FixtureFeatures.difficulty_rows fos team_fx hs) as [rows|e] eqn:Erows;
    cbn [bind] in H; [|discriminate].
  injection H as <-.
  destruct (ensure_gw_col_shape fixtures "home_team" Hwf Hne ltac:(discriminate))
    as (Wf1 & Ne1 & Nr1 & Hh).
  destruct (ensure_gw_col_shape fixtures "away_team" Hwf Hne ltac:(discriminate))
    as (_ & _ & _ & Ha).
  unfold FixtureFeatures.required in Ereq. cbn [forallb] in Ereq.
  apply andb_prop in Ereq. destruct Ereq as [_ Ereq].
  apply andb_prop in Ereq. destruct Ereq as [Rh Ereq].
  apply andb_prop in Ereq. destruct Ereq as [Ra _].
  destruct (has_col_get_col _ _ Rh) as [home Eh].
  destruct (has_col_get_col _ _ Ra) as [away Ea].
  pose proof (mapM_length _ _ _ Egw) as Lgw.
  pose proof (well_formed_get_col _ _ _ Wf1 Egws) as Lgws.
  pose proof (well_formed_get_col _ _ _ Wf1 Eh) as Lh.
  pose proof (well_formed_get_col _ _ _ Wf1 Ea) as La.
  assert (Lfx : List.length (map VInt gw) = nrows (FixtureFeatures._ensure_gw_col fixtures))
    by (rewrite length_map; congruence).
  assert (Wfx : well_formed fx) by (apply well_formed_set_col; assumption).
  assert (Nfx : fx <> []) by apply set_col_nonempty.
  assert (Hfx : get_col "home_team" fx = Some home)
    by (unfold fx; rewrite get_col_set_col_other by discriminate; exact Eh).
  assert (Afx : get_col "away_team" fx = Some away)
    by (unfold fx; rewrite get_col_set_col_other by discriminate; exact Ea).
  assert (Gfx : get_col "gw" fx = Some (map VInt gw)) by apply get_col_set_col_same.
  destruct (team_fixtures_columns _ _ _ _ _ _ Etf Wfx Nfx Hfx Afx Gfx)
    as (ids & gcol & I1 & G1 & Hin1 & Hin2 & Heq).
  exists home, away, gws, gw, team_fx, rows, ids, gcol.
  rewrite <- Hh, <- Ha. repeat split; auto; try congruence.
  - intros x Hx. apply Hin2, in_or_app. left. exact Hx.
  - apply Heq; assumption.
  - apply Heq; assumption.
Qed.

End FixtureBuild.

Lemma Forall2_nth_both {X Y : Type} (R : X -> Y -> Prop) (l1 : list X) (l2 : list Y)
      (i : nat) (a : X) :
  Forall2 R l1 l2 -> nth_error l1 i = Some a ->
  exists b, nth_error l2 i = Some b /\ R a b.
Proof.
  intros H. revert i. induction H as [|x y l1 l2 Hxy _ IH]; intros [|i] Hi; simpl in *;
    try discriminate.
  - injection Hi as <-. eauto.
  - apply IH. exact Hi.
Qed.

Lemma frame_of_rows_nonempty (n : string) (c : column) (rows : list Pandas.dict) :
  get_col n (Pandas.frame_of_rows rows) = Some c -> rows <> [].
Proof. intros H ->. discriminate. Qed.

Lemma filter_one_nth {X : Type} (p : X -> bool) (l : list X) :
  List.length (filter p l) = 1%nat ->
  exists i x, nth_error l i = Some x /\ p x = true.
Proof.
  intros H. destruct (filter p l) as [|x r] eqn:E; [discriminate|].
  assert (Hin : In x (filter p l)) by (rewrite E; left; reflexivity).
  apply filter_In in Hin. destruct Hin as [Hin Hp].
  destruct (In_nth_error _ _ Hin) as [i Hi]. eauto.
Qed.

Section FixtureTheorems.
Variable fos : string -> option (option Qc).

(** C10.  The table of [build_team_fixture_difficulty] is a dense grid.
    For a non-empty fixtures table on which the call returns, every team
    id of the home or the away column (a missing id is no team) and every
    gameweek [g] between two gameweeks of the fixtures, hence between the
    least and the greatest, has exactly one row keyed ([t], [g]) in the
    output, whether or not the team has a fixture at [g]. *)
Theorem fixture_grid_dense (fixtures : frame) (dims : option frame) (hs : list Z)
        (out : frame) :
  FixtureFeatures.build_team_fixture_difficulty fos fixtures dims hs = Ok out ->
  empty fixtures = false ->
  well_formed fixtures ->
  exists home away gws gw,
    get_col "home_team" fixtures = Some home /\
    get_col "away_team" fixtures = Some away /\
    get_col "gw" (FixtureFeatures._ensure_gw_col fixtures) = Some gws /\
    mapM astype_int gws = Ok gw /\
    forall t g a b,
      In t (home ++ away) -> is_na t = false ->
      In a gw -> In b gw -> a <= g <= b ->
      exists tcol gcol,
        get_col "team_id" out = Some tcol /\
        get_col "gw" out = Some gcol /\
        Spec.rows_keyed tcol gcol t g = 1%nat.
Proof.
  intros H He Hwf.
  destruct (build_steps fos _ _ _ _ H He Hwf)
    as (home & away & gws & gw & team_fx & rows & ids & gcol
        & Eh & Ea & Egws & Egw & _ & _ & Erows & -> & Ei & Eg & Hin1 & Hin2 & _).
  exists home, away, gws, gw. repeat (split; [assumption|]).
  intros t g a b Ht Hna Hina Hinb Hab.
  destruct (difficulty_rows_shape fos _ _ _ Erows)
    as (gcol' & ids' & g0 & gs & teams & Eg' & Emin & Ei' & Eteams & HF).
  rewrite Eg in Eg'. injection Eg' as <-. rewrite Ei in Ei'. injection Ei' as <-.
  assert (Hrange : forall z, In z gw -> In z (g0 :: gs)).
  { intros z Hz. rewrite <- Emin. apply (in_map VInt) in Hz. apply Hin2 in Hz.
    apply (in_map FixtureFeatures.cell_Z) in Hz. exact Hz. }
  pose proof (py_min_lower gs g0 a (Hrange a Hina)) as Hlo.
  pose proof (py_max_upper gs g0 b (Hrange b Hinb)) as Hhi.
  pose proof (teams_once ids teams t Eteams (Hin1 t Ht) Hna) as Hteam.
  pose proof (gw_range_once (py_min g0 gs) (py_max g0 gs) g ltac:(lia)) as Hgw.
  set (pairs := list_prod teams (FixtureFeatures.gw_range (py_min g0 gs) (py_max g0 gs))) in *.
  assert (Hcount : List.length
                     (filter (fun x => andb (Pandas.cell_eqb (fst x) t) (snd x =? g)) pairs)
                   = 1%nat).
  { unfold pairs.
    rewrite (filter_list_prod_length (fun u => Pandas.cell_eqb u t) (fun z => z =? g)).
    rewrite Hteam, Hgw. reflexivity. }
  assert (Hpairs : pairs <> []) by (intros E; rewrite E in Hcount; discriminate).
  destruct (rows_keys fos _ _ _ _ _ HF) as [Kt Kg].
  exists (map fst pairs), (map (fun p => VInt (snd p)) pairs).
  split; [|split].
  - rewrite (rows_columns fos _ _ _ _ _ "team_id" HF Hpairs) by auto. rewrite Kt. reflexivity.
  - rewrite (rows_columns fos _ _ _ _ _ "gw" HF Hpairs) by auto. rewrite Kg. reflexivity.
  - unfold Spec.rows_keyed. rewrite combine_map_map, filter_map_length. exact Hcount.
Qed.

(** C7 (amended).  In the table of [build_team_fixture_difficulty], for a
    team table that lists no id twice (or without a team table), the cell
    [fixture_count_next_h] of every row, of team [t] and gameweek [g], is
    the number of fixtures of [t], home or away, with a gameweek strictly
    after [g] and at most [g + h]; whatever the team table, that cell holds
    a count, and when the count is zero the home share and the averages of
    the opponent rating, of the opponent strength and of the rating
    difference of that row are missing values; and every team of the
    fixtures has such a row at every gameweek between two gameweeks of the
    fixtures. *)
Theorem fixture_count_exact (fixtures : frame) (dims : option frame) (hs : list Z)
        (out : frame) :
  FixtureFeatures.build_team_fixture_difficulty fos fixtures dims hs = Ok out ->
  empty fixtures = false ->
  well_formed fixtures ->
  exists home away gws gw,
    get_col "home_team" fixtures = Some home /\
    get_col "away_team" fixtures = Some away /\
    get_col "gw" (FixtureFeatures._ensure_gw_col fixtures) = Some gws /\
    mapM astype_int gws = Ok gw /\
    (forall h i t g,
       In h hs ->
       Spec.cell_at "team_id" out i = Some t ->
       Spec.cell_at "gw" out i = Some (VInt g) ->
       exists k,
         Spec.cell_at (FixtureFeatures.name_count h) out i = Some (VInt (Z.of_nat k)) /\
         (FixtureFeatures.dim_ids_distinct dims ->
          k = Spec.fixtures_ahead home away gw t g h) /\
         (k = 0%nat ->
          Spec.cell_at (FixtureFeatures.name_home h) out i = Some NA /\
          Spec.cell_at (FixtureFeatures.name_opp_elo h) out i = Some NA /\
          Spec.cell_at (FixtureFeatures.name_opp_strength h) out i = Some NA /\
          Spec.cell_at (FixtureFeatures.name_elo_delta h) out i = Some NA)) /\
    (forall t g a b,
       In t (home ++ away) -> is_na t = false ->
       In a gw -> In b gw -> a <= g <= b ->
       exists i t',
         Spec.cell_at "team_id" out i = Some t' /\
         Pandas.cell_eqb t' t = true /\
         Spec.cell_at "gw" out i = Some (VInt g)).
Proof.
  intros H He Hwf.
  destruct (build_steps fos _ _ _ _ H He Hwf)
    as (home & away & gws & gw & team_fx & rows & ids & gcol
        & Eh & Ea & Egws & Egw & Lh & La & Erows & -> & Ei & Eg & Hin1 & Hin2 & Hexact).
  exists home, away, gws, gw. repeat (split; [assumption|]).
  destruct (difficulty_rows_shape fos _ _ _ Erows)
    as (gcol' & ids' & g0 & gs & teams & Eg' & Emin & Ei' & Eteams & HF).
  rewrite Eg in Eg'. injection Eg' as <-. rewrite Ei in Ei'. injection Ei' as <-.
  set (pairs := list_prod teams (FixtureFeatures.gw_range (py_min g0 gs) (py_max g0 gs))) in *.
  destruct (rows_keys fos _ _ _ _ _ HF) as [Kt Kg].
  split.
  - intros h i t g Hh Ht Hg.
    unfold Spec.cell_at in Ht, Hg.
    destruct (get_col "team_id" (Pandas.frame_of_rows rows)) as [tcol|] eqn:Etcol;
      [|discriminate].
    pose proof (frame_of_rows_nonempty _ _ _ Etcol) as Hrows.
    assert (Hpairs : pairs <> []).
    { intros E. rewrite E in HF. inversion HF. congruence. }
    rewrite (rows_columns fos _ _ _ _ _ "team_id" HF Hpairs) in Etcol by auto.
    rewrite (rows_columns fos _ _ _ _ _ "gw" HF Hpairs) in Hg by auto.
    injection Etcol as <-. rewrite Kt, nth_error_map in Ht. rewrite Kg, nth_error_map in Hg.
    destruct (nth_error pairs i) as [[t' g']|] eqn:Ep; [|discriminate].
    cbn in Ht, Hg. injection Ht as ->. injection Hg as ->.
    destruct (Forall2_nth_both _ _ _ _ _ HF Ep) as (row & Erow & Hrow). cbn [fst snd] in Hrow.
    destruct (gw_row_cells fos _ _ _ _ _ Hrow) as (_ & _ & Hcells).
    destruct (Hcells h Hh) as (up & Eup & Hcnt & Hzero).
    assert (Hcell : forall n v,
               In n (FixtureFeatures.horizon_names h) ->
               Pandas.dict_get n row = Some v ->
               Spec.cell_at n (Pandas.frame_of_rows rows) i = Some v).
    { intros n v Hn Hv. unfold Spec.cell_at.
      rewrite (rows_columns fos _ _ _ _ _ n HF Hpairs) by (right; right; exists h; auto).
      rewrite nth_error_map, Erow. cbn [option_map]. unfold Pandas.dict_cell. rewrite Hv.
      reflexivity. }
    exists (nrows up). split; [|split].
    + apply Hcell; [left; reflexivity|exact Hcnt].
    + intros Hd. destruct (Hexact Hd) as [-> ->].
      assert (Hlen : List.length (home ++ away) = List.length (map VInt gw ++ map VInt gw))
        by (rewrite !length_app, length_map; lia).
      rewrite (upcoming_count _ _ _ _ _ _ _ Ei Eg Hlen Eup).
      apply both_sides_count. exact Lh.
    + intros Hk. destruct (Hzero Hk) as (Z1 & Z2 & Z3 & Z4).
      unfold FixtureFeatures.horizon_names in Hcell.
      repeat split; apply Hcell; cbn [In]; auto 10.
  - intros t g a b Ht Hna Hina Hinb Hab.
    assert (Hrange : forall z, In z gw -> In z (g0 :: gs)).
    { intros z Hz. rewrite <- Emin. apply (in_map VInt) in Hz. apply Hin2 in Hz.
      apply (in_map FixtureFeatures.cell_Z) in Hz. exact Hz. }
    pose proof (py_min_lower gs g0 a (Hrange a Hina)) as Hlo.
    pose proof (py_max_upper gs g0 b (Hrange b Hinb)) as Hhi.
    pose proof (teams_once ids teams t Eteams (Hin1 t Ht) Hna) as Hteam.
    pose proof (gw_range_once (py_min g0 gs) (py_max g0 gs) g ltac:(lia)) as Hgw.
    assert (Hcount : List.length
                       (filter (fun x => andb (Pandas.cell_eqb (fst x) t) (snd x =? g)) pairs)
                     = 1%nat).
    { unfold pairs.
      rewrite (filter_list_prod_length (fun u => Pandas.cell_eqb u t) (fun z => z =? g)).
      rewrite Hteam, Hgw. reflexivity. }
    destruct (filter_one_nth _ _ Hcount) as (i & [t' g'] & Hi & Hp).
    cbn [fst snd] in Hp. apply andb_prop in Hp. destruct Hp as [Hp1 Hp2].
    apply Z.eqb_eq in Hp2. subst g'.
    assert (Hpairs : pairs <> []) by (intros E; rewrite E in Hi; destruct i; discriminate).
    exists i, t'. unfold Spec.cell_at.
    rewrite (rows_columns fos _ _ _ _ _ "team_id" HF Hpairs) by auto.
    rewrite (rows_columns fos _ _ _ _ _ "gw" HF Hpairs) by auto.
    rewrite Kt, Kg, !nth_error_map, Hi. cbn [option_map fst snd]. auto.
Qed.

End FixtureTheorems.

(** ** The fixture table on three fixtures *)

Lemma three_fixtures_well_formed : well_formed Samples.three_fixtures.
Proof.
  intros n c Hin. simpl in Hin.
  repeat (destruct Hin as [Hin|Hin]; [injection Hin as <- <-; reflexivity|]).
  destruct Hin.
Qed.

Lemma fixture_grid_dense_witness :
  exists out,
    FixtureFeatures.build_team_fixture_difficulty Samples.no_float Samples.three_fixtures
      (Some Samples.three_teams) [1; 2] = Ok out /\
    empty Samples.three_fixtures = false /\
    exists home away gws gw,
      get_col "home_team" Samples.three_fixtures = Some home /\
      get_col "away_team" Samples.three_fixtures = Some away /\
      get_col "gw" (FixtureFeatures._ensure_gw_col Samples.three_fixtures) = Some gws /\
      mapM astype_int gws = Ok gw /\
      forall t g a b,
        In t (home ++ away) -> is_na t = false ->
        In a gw -> In b gw -> a <= g <= b ->
        exists tcol gcol,
          get_col "team_id" out = Some tcol /\
          get_col "gw" out = Some gcol /\
          Spec.rows_keyed tcol gcol t g = 1%nat.
Proof.
  eexists. split; [vm_compute; reflexivity|]. split; [reflexivity|].
  apply (fixture_grid_dense Samples.no_float Samples.three_fixtures
           (Some Samples.three_teams) [1; 2]).
  - vm_compute. reflexivity.
  - reflexivity.
  - exact three_fixtures_well_formed.
Defined.

(** The team table of the samples lists every team once. *)
Example three_teams_distinct : FixtureFeatures.dim_ids_distinct (Some Samples.three_teams).
Proof.
  intros ids H. injection H as <-. intros i j Hij. simpl in Hij.
  destruct j as [|[|[|j]]]; [lia| | |lia].
  - destruct i as [|i]; [reflexivity|lia].
  - destruct i as [|[|i]]; [reflexivity|reflexivity|lia].
Qed.

Lemma fixture_count_exact_witness :
  exists out,
    FixtureFeatures.build_team_fixture_difficulty Samples.no_float Samples.three_fixtures
      (Some Samples.three_teams) [1; 2] = Ok out /\
    empty Samples.three_fixtures = false /\
    exists home away gws gw,
      get_col "home_team" Samples.three_fixtures = Some home /\
      get_col "away_team" Samples.three_fixtures = Some away /\
      get_col "gw" (FixtureFeatures._ensure_gw_col Samples.three_fixtures) = Some gws /\
      mapM astype_int gws = Ok gw /\
      (forall h i t g,
         In h [1; 2] ->
         Spec.cell_at "team_id" out i = Some t ->
         Spec.cell_at "gw" out i = Some (VInt g) ->
         Spec.cell_at (FixtureFeatures.name_count h) out i
         = Some (VInt (Z.of_nat (Spec.fixtures_ahead home away gw t g h))) /\
         (Spec.fixtures_ahead home away gw t g h = 0%nat ->
          Spec.cell_at (FixtureFeatures.name_home h) out i = Some NA /\
          Spec.cell_at (FixtureFeatures.name_opp_elo h) out i = Some NA /\
          Spec.cell_at (FixtureFeatures.name_opp_strength h) out i = Some NA /\
          Spec.cell_at (FixtureFeatures.name_elo_delta h) out i = Some NA)) /\
      (forall t g a b,
         In t (home ++ away) -> is_na t = false ->
         In a gw -> In b gw -> a <= g <= b ->
         exists i t',
           Spec.cell_at "team_id" out i = Some t' /\
           Pandas.cell_eqb t' t = true /\
           Spec.cell_at "gw" out i = Some (VInt g)).
Proof.
  eexists. split; [vm_compute; reflexivity|]. split; [reflexivity|].
  destruct (fixture_count_exact Samples.no_float Samples.three_fixtures
              (Some Samples.three_teams) [1; 2] _
              ltac:(vm_compute; reflexivity) eq_refl three_fixtures_well_formed)
    as (home & away & gws & gw & Eh & Ea & Egws & Egw & Hrows & Hgrid).
  exists home, away, gws, gw. repeat (split; [assumption|]).
  split; [|exact Hgrid].
  intros h i t g Hh Ht Hg.
  destruct (Hrows h i t g Hh Ht Hg) as (k & Hk & Hex & Hzero).
  rewrite (Hex three_teams_distinct) in Hk, Hzero. split; [exact Hk|].
  intros Hz. apply Hzero. exact Hz.
Defined.

(** Team 10 plays at the gameweeks 1 and 3.  Its row at gameweek 1 counts
    no fixture within one gameweek, with missing aggregates, and one
    within two; it has a row at gameweek 2, where it does not play; the
    row of team 20 at gameweek 3 has nothing ahead. *)
Example fixture_table_three_teams :
  exists out,
    FixtureFeatures.build_team_fixture_difficulty Samples.no_float Samples.three_fixtures
      (Some Samples.three_teams) [1; 2] = Ok out /\
    nrows out = 9%nat /\
    Spec.cell_at "team_id" out 0 = Some (VInt 10) /\
    Spec.cell_at "gw" out 0 = Some (VInt 1) /\
    Spec.cell_at "fixture_count_next_1" out 0 = Some (VInt 0) /\
    Spec.cell_at "home_share_next_1" out 0 = Some NA /\
    Spec.cell_at "opp_elo_avg_next_1" out 0 = Some NA /\
    Spec.cell_at "opp_strength_avg_next_1" out 0 = Some NA /\
    Spec.cell_at "elo_delta_avg_next_1" out 0 = Some NA /\
    Spec.cell_at "fixture_count_next_2" out 0 = Some (VInt 1) /\
    option_map Spec.view (Spec.cell_at "home_share_next_2" out 0) = Some (Some (1 # 1)%Q) /\
    option_map Spec.view (Spec.cell_at "opp_strength_avg_next_2" out 0) = Some (Some (5 # 1)%Q) /\
    Spec.cell_at "team_id" out 1 = Some (VInt 10) /\
    Spec.cell_at "gw" out 1 = Some (VInt 2) /\
    Spec.cell_at "team_id" out 5 = Some (VInt 20) /\
    Spec.cell_at "gw" out 5 = Some (VInt 3) /\
    Spec.cell_at "fixture_count_next_2" out 5 = Some (VInt 0) /\
    Spec.cell_at "home_share_next_2" out 5 = Some NA.
Proof.
  eexists. split; [vm_compute; reflexivity|].
  repeat split; vm_compute; reflexivity.
Qed.

(** C7, as the specification words it, on a team table that lists team
    10 twice: the left merges repeat the rows of its fixtures, and the count
    of team 10 at gameweek 1 within two gameweeks is 2 for its one fixture
    against team 30. *)
Example fixture_count_repeated_team_id :
  exists out,
    FixtureFeatures.build_team_fixture_difficulty Samples.no_float Samples.three_fixtures
      (Some Samples.repeated_teams) [1; 2] = Ok out /\
    Spec.cell_at "team_id" out 0 = Some (VInt 10) /\
    Spec.cell_at "gw" out 0 = Some (VInt 1) /\
    Spec.cell_at "fixture_count_next_2" out 0 = Some (VInt 2) /\
    Spec.fixtures_ahead [VInt 10; VInt 20; VInt 10] [VInt 20; VInt 30; VInt 30] [1; 2; 3]
      (VInt 10) 1 2 = 1%nat.
Proof.
  eexists. split; [vm_compute; reflexivity|].
  repeat split; vm_compute; reflexivity.
Qed.

(** ** The label window in general *)

Lemma mapM_map {A B C : Type} (f : B -> result C) (g : A -> B) (l : list A) :
  mapM f (map g l) = mapM (fun x => f (g x)) l.
Proof.
  induction l as [|a l IH]; simpl; [reflexivity|]. rewrite IH. reflexivity.
Qed.

Lemma present_length {l : list (option Qc)} :
  (List.length (Pandas.present l) <= List.length l)%nat.
Proof.
  induction l as [|[q|] l IH]; simpl; lia.
Qed.

Lemma present_app (a b : list (option Qc)) :
  Pandas.present (a ++ b) = (Pandas.present a ++ Pandas.present b)%list.
Proof. apply flat_map_app. Qed.

(** A shift towards the start: row [i] takes the value of row [i + k]. *)
Lemma shift_back_nth (k : nat) (s : column) (i : nat) :
  (i < List.length s)%nat ->
  nth i (Pandas.shift (- Z.of_nat k) s) NA = nth (i + k) s NA.
Proof.
  intros Hi. unfold Pandas.shift. rewrite nth_map_seq by exact Hi. cbv zeta.
  destruct (Z.leb_spec 0 (Z.of_nat i - - Z.of_nat k));
    destruct (Z.ltb_spec (Z.of_nat i - - Z.of_nat k) (Z.of_nat (List.length s)));
    cbn [andb]; try lia.
  - f_equal. lia.
  - symmetry. apply nth_overflow. lia.
Qed.

Lemma shift_back_one (c : cell) (s : column) :
  Pandas.shift (-1) (c :: s) = (s ++ [NA])%list.
Proof.
  apply (nth_ext _ _ NA NA).
  - rewrite shift_length, length_app. simpl. lia.
  - intros i Hi. rewrite shift_length in Hi.
    change (-1) with (- Z.of_nat 1).
    rewrite (shift_back_nth 1 (c :: s) i Hi).
    replace (i + 1)%nat with (S i) by lia. cbn [nth].
    cbn [List.length] in Hi.
    destruct (Nat.lt_ge_cases i (List.length s)) as [Hlt|Hge].
    + rewrite app_nth1 by exact Hlt. reflexivity.
    + rewrite app_nth2 by exact Hge. rewrite nth_overflow by lia.
      replace (i - List.length s)%nat with O by lia. reflexivity.
Qed.

Section LabelWindow.
Variable fos : string -> option (option Qc).

Lemma as_float_nth (s : column) (vals : list (option Qc)) (k : nat) :
  mapM (Pandas.as_float fos) s = Ok vals ->
  Pandas.as_float fos (nth k s NA) = Ok (nth k vals None).
Proof.
  intros H. destruct (nth_error s k) as [c|] eqn:E.
  - destruct (mapM_nth_error _ _ _ H k c E) as (v & Hv & Hn).
    rewrite (nth_error_nth_default _ _ _ NA E), (nth_error_nth_default _ _ _ None Hn).
    exact Hv.
  - apply nth_error_None in E. pose proof (mapM_length _ _ _ H) as L.
    rewrite !nth_overflow by lia. reflexivity.
Qed.

Lemma gather_as_float (s : column) (vals : list (option Qc)) (idx : list nat) :
  mapM (Pandas.as_float fos) s = Ok vals ->
  mapM (Pandas.as_float fos) (Pandas.gather idx s)
  = Ok (map (fun j => nth j vals None) idx).
Proof.
  intros H. unfold Pandas.gather. rewrite mapM_map. apply mapM_ok_map.
  intros j _. apply as_float_nth. exact H.
Qed.

(** The lambda of the transform on the values of one entity: the call
    returns, and row [i] gets the sum of the [h] rows that follow it, or a
    missing value when fewer than [h] rows follow or one of them is not
    observed. *)
Lemma next_h_sum_cell (h : positive) (s : column) (vals : list (option Qc)) :
  mapM (Pandas.as_float fos) s = Ok vals ->
  exists r,
    Targets.next_h_sum fos h s = Ok r /\
    List.length r = List.length s /\
    forall i, (i < List.length s)%nat ->
      nth i r NA
      = (let obs := Pandas.present (firstn (Pos.to_nat h) (skipn (S i) vals)) in
         if Nat.eqb (List.length obs) (Pos.to_nat h) then VFloat (Pandas.qsum obs) else NA).
Proof.
  intros Hvals. pose proof (mapM_length _ _ _ Hvals) as Lvals.
  pose proof (Pos2Nat.is_pos h) as Hpos.
  unfold Targets.next_h_sum, Pandas.rolling_sum, Pandas.rolling.
  destruct s as [|c s].
  - simpl in Hvals. injection Hvals as <-. exists []. simpl.
    repeat split. intros i Hi. lia.
  - simpl in Hvals.
    destruct (Pandas.as_float fos c) as [v|e]; cbn [bind] in Hvals; [|discriminate].
    destruct (mapM (Pandas.as_float fos) s) as [tvals|e] eqn:Et; cbn [bind] in Hvals;
      [|discriminate].
    injection Hvals as <-. pose proof (mapM_length _ _ _ Et) as Lt.
    rewrite shift_back_one.
    assert (E1 : mapM (Pandas.as_float fos) (s ++ [NA]) = Ok (tvals ++ [None])%list).
    { clear -Et. revert tvals Et. induction s as [|x s IH]; intros tvals Et; simpl in *.
      - injection Et as <-. reflexivity.
      - destruct (Pandas.as_float fos x) as [vx|e]; cbn [bind] in *; [|discriminate].
        destruct (mapM (Pandas.as_float fos) s) as [ts|e]; cbn [bind] in *; [|discriminate].
        injection Et as <-. rewrite (IH ts eq_refl). reflexivity. }
    rewrite E1. cbn [bind]. eexists. split; [reflexivity|].
    split; [rewrite shift_length, length_map, length_seq, length_app; simpl; lia|].
    intros i Hi. cbn [List.length] in Hi.
    replace (- (Z.pos h - 1)) with (- Z.of_nat (Pos.to_nat h - 1)) by lia.
    rewrite shift_back_nth
      by (rewrite length_map, length_seq, length_app; simpl; lia).
    rewrite length_app. cbn [List.length]. cbv zeta.
    set (n := List.length s) in *. set (w := Pos.to_nat h) in *.
    change (skipn (S i) (v :: tvals)) with (skipn i tvals).
    assert (Hcond : forall obs : list Qc,
               (List.length obs <= w)%nat ->
               (if andb (w <=? List.length obs)%nat (1 <=? List.length obs)%nat
                then VFloat (Pandas.qsum obs) else NA)
               = (if Nat.eqb (List.length obs) w then VFloat (Pandas.qsum obs) else NA)).
    { intros obs Hle. destruct (Nat.eqb_spec (List.length obs) w) as [He|He].
      - rewrite He, Nat.leb_refl. replace (1 <=? w)%nat with true; [reflexivity|].
        symmetry. apply Nat.leb_le. lia.
      - replace (w <=? List.length obs)%nat with false; [reflexivity|].
        symmetry. apply Nat.leb_gt. lia. }
    pose proof (@present_length (firstn w (skipn i tvals))) as Hle.
    rewrite length_firstn, length_skipn in Hle.
    destruct (Nat.lt_ge_cases (i + w) (S n)) as [Hin|Hout].
    + rewrite nth_map_seq by lia.
      unfold Pandas.window.
      replace (S (i + (w - 1)) - w)%nat with i by lia.
      replace (S (i + (w - 1)))%nat with (i + w)%nat by lia.
      rewrite firstn_app. replace (i + w - List.length tvals)%nat with O by lia.
      cbn [firstn]. rewrite app_nil_r.
      rewrite skipn_firstn_comm. replace (i + w - i)%nat with w by lia.
      apply Hcond. lia.
    + destruct (Nat.eqb_spec (List.length (Pandas.present (firstn w (skipn i tvals)))) w);
        [lia|].
      destruct (Nat.eq_dec (i + w) (S n)) as [Hlast|Hnot].
      * rewrite nth_map_seq by lia.
        unfold Pandas.window.
        replace (S (i + (w - 1)) - w)%nat with i by lia.
        rewrite firstn_all2 by (rewrite length_app; simpl; lia).
        rewrite skipn_app. replace (i - List.length tvals)%nat with O by lia.
        cbn [skipn]. rewrite present_app. cbn [Pandas.present flat_map app].
        rewrite app_nil_r.
        pose proof (@present_length (skipn i tvals)) as Hle2.
        rewrite length_skipn in Hle2.
        replace (w <=? List.length (Pandas.present (skipn i tvals)))%nat with false;
          [reflexivity|].
        symmetry. apply Nat.leb_gt. lia.
      * apply nth_overflow. rewrite length_map, length_seq. cbn [List.length]. lia.
Qed.

End LabelWindow.

Lemma total_not_per_week (t : string) (h : positive) :
  Targets.total_name t h <> Targets.per_week_name t h.
Proof.
  unfold Targets.total_name, Targets.per_week_name. intros H.
  do 3 apply append_same_prefix in H. discriminate.
Qed.

Section LabelRows.
Variable fos : string -> option (option Qc).

(** One pass of the inner loop of [add_horizon_labels] on a numeric source
    column: the call returns; the total of a row is the sum of the source
    over the [h] rows of the same entity that follow it in the table, or a
    missing value when fewer than [h] such rows follow or one of them is
    not observed; and the per-week column is the total divided by [h].
    The window is made of rows: the gameweeks of these rows play no part. *)
Lemma add_label_next_rows (id_col target src_col : string) (h : positive) (df : frame)
      (ids src : column) (vals : list (option Qc)) :
  get_col id_col df = Some ids ->
  get_col src_col df = Some src ->
  List.length ids = List.length src ->
  mapM (Pandas.as_float fos) src = Ok vals ->
  exists out total,
    Targets.add_label fos id_col target src_col h df = Ok out /\
    get_col (Targets.total_name target h) out = Some total /\
    get_col (Targets.per_week_name target h) out = Some (map (Targets.div_h h) total) /\
    List.length total = List.length src /\
    forall i, (i < List.length src)%nat -> is_na (nth i ids NA) = false ->
      nth i total NA
      = (let rows :=
           firstn (Pos.to_nat h)
                  (filter (fun j => Pandas.cell_eqb (nth j ids NA) (nth i ids NA))
                          (seq (S i) (List.length ids - S i))) in
         let obs := Pandas.present (map (fun j => nth j vals None) rows) in
         if Nat.eqb (List.length obs) (Pos.to_nat h)
         then VFloat (Pandas.qsum obs) else NA).
Proof.
  intros Hids Hsrc Hlen Hvals. unfold Targets.add_label. rewrite Hids, Hsrc.
  set (cellf := fun i =>
         if is_na (nth i ids NA) then NA
         else
           let rows :=
             firstn (Pos.to_nat h)
                    (filter (fun j => Pandas.cell_eqb (nth j ids NA) (nth i ids NA))
                            (seq (S i) (List.length ids - S i))) in
           let obs := Pandas.present (map (fun j => nth j vals None) rows) in
           if Nat.eqb (List.length obs) (Pos.to_nat h)
           then VFloat (Pandas.qsum obs) else NA).
  assert (Ht : Pandas.transform (Targets.next_h_sum fos h) ids src
               = Ok (map cellf (seq 0 (List.length src)))).
  { unfold Pandas.transform. apply mapM_ok_map. intros i Hi. apply in_seq in Hi.
    unfold cellf. destruct (is_na (nth i ids NA)) eqn:Hna; [reflexivity|].
    pose proof (gather_as_float fos src vals (Pandas.group_index ids i) Hvals) as Hg.
    destruct (next_h_sum_cell fos h _ _ Hg) as (r & Hr & _ & Hcell).
    rewrite Hr. cbn [bind]. f_equal.
    pose proof (rows_so_far_length ids i Hna) as Hrank.
    assert (Hi' : (i < List.length ids)%nat) by lia.
    pose proof (group_index_split ids i Hi') as Hsplit.
    rewrite Hcell
      by (rewrite gather_length, Hsplit, length_app, Hrank; lia).
    cbv zeta. rewrite Hsplit, map_app, skipn_app.
    rewrite (skipn_all2 (n := S (Pandas.group_rank ids i)))
      by (rewrite length_map, Hrank; lia).
    rewrite length_map, Hrank, Nat.sub_diag. cbn [skipn app].
    rewrite firstn_map. reflexivity. }
  rewrite Ht. cbn [bind]. do 2 eexists. split; [reflexivity|].
  split; [|split; [|split]].
  - rewrite get_col_set_col_other
      by (intros E; apply (total_not_per_week target h); congruence).
    apply get_col_set_col_same.
  - apply get_col_set_col_same.
  - rewrite length_map, length_seq. reflexivity.
  - intros i Hi Hna. rewrite nth_map_seq by exact Hi. unfold cellf. rewrite Hna.
    reflexivity.
Qed.

End LabelRows.

Lemma add_label_next_rows_sample :
  exists out total,
    Targets.add_label Samples.no_float "player_id" "points" "event_points" 2
      Samples.gap_at_3 = Ok out /\
    get_col (Targets.total_name "points" 2) out = Some total /\
    map Spec.view total = [Some (10 # 1)%Q; Some (14 # 1)%Q; None; None].
Proof.
  do 2 eexists. split; [vm_compute; reflexivity|]. split; vm_compute; reflexivity.
Qed.

(** * Further properties of the code *)

(** ** The finished-gameweek index *)

Lemma insert_key_sorted (x : Z) (l : list Z) :
  StronglySorted Z.lt l -> StronglySorted Z.lt (Index.insert_key x l).
Proof.
  induction 1 as [|y l Hs IH Hy]; simpl; [repeat constructor|].
  destruct (Z.ltb_spec x y) as [Hlt|Hge].
  - constructor; [constructor; assumption|].
    constructor; [exact Hlt|].
    apply Forall_forall. intros z Hz. rewrite Forall_forall in Hy.
    specialize (Hy z Hz). lia.
  - destruct (Z.eqb_spec x y) as [Heq|Hne]; [constructor; assumption|].
    constructor; [exact IH|].
    apply Forall_forall. intros z Hz. apply insert_key_in in Hz.
    destruct Hz as [->|Hz]; [lia|]. rewrite Forall_forall in Hy. apply Hy. exact Hz.
Qed.

Lemma group_keys_sorted (l : list Z) : StronglySorted Z.lt (Index.group_keys l).
Proof.
  unfold Index.group_keys. induction l as [|x l IH]; simpl; [constructor|].
  apply insert_key_sorted. exact IH.
Qed.

Lemma sorted_filter {X : Type} (R : X -> X -> Prop) (p : X -> bool) (l : list X) :
  StronglySorted R l -> StronglySorted R (filter p l).
Proof.
  induction 1 as [|x l Hs IH Hx]; simpl; [constructor|].
  destruct (p x); [|exact IH]. constructor; [exact IH|].
  apply Forall_forall. intros y Hy. apply filter_In in Hy.
  rewrite Forall_forall in Hx. apply Hx. tauto.
Qed.

Lemma sorted_last_max (g : Z) (rest : list Z) :
  StronglySorted Z.lt (g :: rest) -> py_max g rest = last (g :: rest) 0.
Proof.
  intros Hs.
  assert (Hlast : forall (l : list Z) d, l <> [] -> In (last l d) l).
  { induction l as [|x [|y l] IH]; intros d Hne; [congruence|left; reflexivity|].
    right. apply (IH d). discriminate. }
  assert (Hup : forall l, StronglySorted Z.lt l -> forall x, In x l -> x <= last l 0).
  { induction 1 as [|y l Hl IH Hy]; intros x Hx; [destruct Hx|].
    destruct l as [|z l]; [destruct Hx as [->|[]]; simpl; lia|].
    destruct Hx as [->|Hx].
    - rewrite Forall_forall in Hy.
      specialize (Hy (last (z :: l) 0) (Hlast (z :: l) 0 ltac:(discriminate))).
      change (last (x :: z :: l) 0) with (last (z :: l) 0). lia.
    - apply (IH x Hx). }
  pose proof (py_max_in rest g) as Hin.
  pose proof (Hup _ Hs _ Hin) as H1.
  pose proof (py_max_upper rest g _ (Hlast (g :: rest) 0 ltac:(discriminate))) as H2.
  lia.
Qed.

(** X1.  The gameweeks of the index come in strictly increasing order,
    none twice, and [max_finished_gw] is the last of them, or 0 when there
    is none. *)
Theorem finished_gws_increasing (matches : frame) (idx : Index.FinishedGwIndex) :
  Index.compute_finished_gws matches = Ok idx ->
  StronglySorted Z.lt (Index.finished_gws idx) /\
  Index.max_finished_gw idx = last (Index.finished_gws idx) 0.
Proof.
  unfold Index.compute_finished_gws. intros H.
  destruct (get_col _ matches) as [gws|]; [|discriminate].
  destruct (get_col "finished" matches) as [fin|]; [|discriminate].
  destruct (mapM astype_int gws) as [gw|e]; cbn [bind] in H; [|discriminate].
  injection H as <-. cbn [Index.finished_gws Index.max_finished_gw].
  set (fgws := filter _ (Index.group_keys gw)).
  assert (Hs : StronglySorted Z.lt fgws) by (apply sorted_filter, group_keys_sorted).
  split; [exact Hs|].
  destruct fgws as [|g rest]; [reflexivity|]. apply sorted_last_max. exact Hs.
Qed.

Lemma finished_gws_increasing_witness :
  exists idx,
    Index.compute_finished_gws
      [("gw", [VInt 3; VInt 1; VInt 3; VInt 2]);
       ("finished", [VBool true; VStr "yes"; VInt 1; VInt 0])] = Ok idx /\
    StronglySorted Z.lt (Index.finished_gws idx) /\
    Index.max_finished_gw idx = last (Index.finished_gws idx) 0.
Proof.
  eexists. split; [reflexivity|].
  apply (finished_gws_increasing
           [("gw", [VInt 3; VInt 1; VInt 3; VInt 2]);
            ("finished", [VBool true; VStr "yes"; VInt 1; VInt 0])]).
  reflexivity.
Defined.

Lemma sorted_same_members (l1 l2 : list Z) :
  StronglySorted Z.lt l1 -> StronglySorted Z.lt l2 ->
  (forall x, In x l1 <-> In x l2) -> l1 = l2.
Proof.
  intros H1. revert l2. induction H1 as [|a l1 Hs1 IH Ha]; intros l2 H2 Hm.
  - destruct l2 as [|b l2]; [reflexivity|]. destruct (proj2 (Hm b) (or_introl eq_refl)).
  - destruct H2 as [|b l2 Hs2 Hb]; [destruct (proj1 (Hm a) (or_introl eq_refl))|].
    rewrite Forall_forall in Ha, Hb.
    assert (Hab : a = b).
    { destruct (proj1 (Hm a) (or_introl eq_refl)) as [E|Hin]; [auto|].
      destruct (proj2 (Hm b) (or_introl eq_refl)) as [E|Hin']; [auto|].
      specialize (Ha _ Hin'). specialize (Hb _ Hin). lia. }
    subst b. f_equal. apply IH; [exact Hs2|].
    intros x. split; intros Hx.
    + destruct (proj1 (Hm x) (or_intror Hx)) as [E|Hin]; [|exact Hin].
      specialize (Ha _ Hx). lia.
    + destruct (proj2 (Hm x) (or_intror Hx)) as [E|Hin]; [|exact Hin].
      specialize (Hb _ Hx). lia.
Qed.

(** The rows of a gameweek and their flags, read off the pairs of cells of
    the two columns. *)
Lemma gw_rows_of_pairs (gws fin : column) (gw : list Z) (k : Z) :
  Forall2 (fun c z => astype_int c = Ok z) gws gw ->
  List.length fin = List.length gws ->
  (In k gw <-> exists c f, In (c, f) (combine gws fin) /\ astype_int c = Ok k) /\
  (forallb (fun b => b) (Index.group_rows k gw (Index._to_bool_series fin)) = true <->
   forall c f, In (c, f) (combine gws fin) -> astype_int c = Ok k -> Index.to_bool f = true).
Proof.
  intros HF. revert fin. unfold Index.group_rows, Index._to_bool_series.
  induction HF as [|c0 z0 gws gw H0 _ IH]; intros [|f0 fin] Hlen; try discriminate.
  - simpl. split; split.
    + intros [].
    + intros (c & f & [] & _).
    + intros _ c f [].
    + reflexivity.
  - injection Hlen as Hlen. destruct (IH fin Hlen) as [IH1 IH2]. clear IH.
    cbn [combine map filter In fst]. split.
    + rewrite IH1. split.
      * intros [->|(c & f & Hin & Hc)]; [exists c0, f0; auto|exists c, f; auto].
      * intros (c & f & [E|Hin] & Hc).
        -- injection E as <- <-. left. congruence.
        -- right. eauto.
    + destruct (Z.eqb_spec z0 k) as [->|Hne].
      * cbn [map snd forallb]. rewrite andb_true_iff, IH2. split.
        -- intros [Hb Hall] c f [E|Hin] Hc; [injection E as <- <-; exact Hb|eauto].
        -- intros Hall. split; [apply (Hall c0 f0); auto|].
           intros c f Hin Hc. apply (Hall c f); auto.
      * rewrite IH2. split.
        -- intros Hall c f [E|Hin] Hc; [injection E as <- <-; congruence|eauto].
        -- intros Hall c f Hin Hc. apply (Hall c f); auto.
Qed.

Lemma in_combine_left {X Y : Type} (l : list X) (l' : list Y) (x : X) :
  List.length l' = List.length l -> In x l -> exists y, In (x, y) (combine l l').
Proof.
  revert l'. induction l as [|a l IH]; intros [|b l'] Hlen Hx; try discriminate;
    [destruct Hx|].
  injection Hlen as Hlen. destruct Hx as [->|Hx]; [exists b; left; reflexivity|].
  destruct (IH l' Hlen Hx) as [y Hy]. exists y. right. exact Hy.
Qed.

(** X2.  The index does not depend on the order of the match rows: two
    match tables whose (gameweek, finished) rows are a permutation of one
    another have the same index. *)
Theorem finished_gws_row_order (m m' : frame) (gws fin gws' fin' : column)
        (idx : Index.FinishedGwIndex) :
  get_col (if has_col "gw" m then "gw" else "gameweek") m = Some gws ->
  get_col "finished" m = Some fin ->
  get_col (if has_col "gw" m' then "gw" else "gameweek") m' = Some gws' ->
  get_col "finished" m' = Some fin' ->
  List.length fin = List.length gws ->
  List.length fin' = List.length gws' ->
  Permutation (combine gws fin) (combine gws' fin') ->
  Index.compute_finished_gws m = Ok idx ->
  Index.compute_finished_gws m' = Ok idx.
Proof.
  intros Hg Hf Hg' Hf' Hlen Hlen' HP H.
  unfold Index.compute_finished_gws in *. rewrite Hg, Hf in H. rewrite Hg', Hf'.
  destruct (mapM astype_int gws) as [gw|e] eqn:Egw; cbn [bind] in H; [|discriminate].
  assert (Egw' : exists gw', mapM astype_int gws' = Ok gw').
  { apply mapM_total. intros c Hc.
    destruct (in_combine_left gws' fin' c Hlen' Hc) as [f Hin].
    apply (Permutation_in _ (Permutation_sym HP)) in Hin.
    apply in_combine_l in Hin. apply (mapM_In_ok _ _ _ _ Egw Hin). }
  destruct Egw' as [gw' Egw']. rewrite Egw'. cbn [bind].
  injection H as <-.
  set (F := filter _ (Index.group_keys gw)).
  set (F' := filter _ (Index.group_keys gw')).
  assert (E : F' = F).
  { apply sorted_same_members.
    - apply sorted_filter, group_keys_sorted.
    - apply sorted_filter, group_keys_sorted.
    - intros k. unfold F, F'. rewrite !filter_In, !group_keys_in.
      destruct (gw_rows_of_pairs gws fin gw k (mapM_Forall2 _ _ _ Egw) Hlen) as [A1 A2].
      destruct (gw_rows_of_pairs gws' fin' gw' k (mapM_Forall2 _ _ _ Egw') Hlen') as [B1 B2].
      rewrite A1, A2, B1, B2. split.
      + intros [(c & f & Hin & Hc) Hall]. split.
        * exists c, f. split; [apply (Permutation_in _ (Permutation_sym HP)); exact Hin|exact Hc].
        * intros c1 f1 Hin1. apply Hall. apply (Permutation_in _ HP). exact Hin1.
      + intros [(c & f & Hin & Hc) Hall]. split.
        * exists c, f. split; [apply (Permutation_in _ HP); exact Hin|exact Hc].
        * intros c1 f1 Hin1. apply Hall.
          apply (Permutation_in _ (Permutation_sym HP)). exact Hin1. }
  rewrite E. reflexivity.
Qed.

Lemma finished_gws_row_order_witness :
  Index.compute_finished_gws
    [("gw", [VInt 2; VInt 1; VInt 1]);
     ("finished", [VInt 0; VBool true; VStr "yes"])]
  = Ok {| Index.finished_gws := [1]; Index.max_finished_gw := 1 |}.
Proof.
  apply (finished_gws_row_order
           [("gw", [VInt 1; VInt 1; VInt 2]);
            ("finished", [VBool true; VStr "yes"; VInt 0])]
           [("gw", [VInt 2; VInt 1; VInt 1]);
            ("finished", [VInt 0; VBool true; VStr "yes"])]
           [VInt 1; VInt 1; VInt 2] [VBool true; VStr "yes"; VInt 0]
           [VInt 2; VInt 1; VInt 1] [VInt 0; VBool true; VStr "yes"]);
    try reflexivity.
  cbn [combine].
  apply Permutation_sym.
  apply (Permutation_cons_app [(VInt 1, VBool true); (VInt 1, VStr "yes")] []).
  rewrite app_nil_r. apply Permutation_refl.
Defined.

(** ** Windows: what a label and a rolling mean read *)

Lemma mapM_skipn {A C : Type} (f : A -> result C) (l : list A) (r : list C) (n : nat) :
  mapM f l = Ok r -> mapM f (skipn n l) = Ok (skipn n r).
Proof.
  revert l r. induction n as [|n IH]; intros l r H; [exact H|].
  destruct l as [|a l]; simpl in H.
  - injection H as <-. reflexivity.
  - destruct (f a) as [c|e]; cbn [bind] in H; [|discriminate].
    destruct (mapM f l) as [cs|e] eqn:E; cbn [bind] in H; [|discriminate].
    injection H as <-. simpl. apply IH. exact E.
Qed.

Lemma mapM_firstn {A C : Type} (f : A -> result C) (l : list A) (r : list C) (n : nat) :
  mapM f l = Ok r -> mapM f (firstn n l) = Ok (firstn n r).
Proof.
  revert l r. induction n as [|n IH]; intros l r H; [reflexivity|].
  destruct l as [|a l]; simpl in H.
  - injection H as <-. reflexivity.
  - destruct (f a) as [c|e] eqn:Ea; cbn [bind] in H; [|discriminate].
    destruct (mapM f l) as [cs|e] eqn:E; cbn [bind] in H; [|discriminate].
    injection H as <-. simpl. rewrite Ea. cbn [bind]. rewrite (IH l cs E). reflexivity.
Qed.

Section WindowReads.
Variable fos : string -> option (option Qc).

(** X3.  A label is strictly future: on numeric series of one entity, the
    total of row [i] is the same for two series that agree after row [i],
    whatever they hold at row [i] and before. *)
Theorem label_reads_later_rows_only (h : positive) (s s' : column)
        (vals vals' : list (option Qc)) (i : nat) :
  mapM (Pandas.as_float fos) s = Ok vals ->
  mapM (Pandas.as_float fos) s' = Ok vals' ->
  List.length s = List.length s' ->
  (i < List.length s)%nat ->
  skipn (S i) s = skipn (S i) s' ->
  exists r r',
    Targets.next_h_sum fos h s = Ok r /\
    Targets.next_h_sum fos h s' = Ok r' /\
    nth i r NA = nth i r' NA.
Proof.
  intros Hv Hv' Hlen Hi Hskip.
  destruct (next_h_sum_cell fos h s vals Hv) as (r & Hr & _ & Hc).
  destruct (next_h_sum_cell fos h s' vals' Hv') as (r' & Hr' & _ & Hc').
  exists r, r'. split; [exact Hr|]. split; [exact Hr'|].
  rewrite (Hc i Hi), (Hc' i) by lia.
  pose proof (mapM_skipn _ _ _ (S i) Hv) as E.
  pose proof (mapM_skipn _ _ _ (S i) Hv') as E'.
  rewrite Hskip in E.
  assert (Eq : skipn (S i) vals = skipn (S i) vals') by congruence.
  rewrite Eq. reflexivity.
Qed.

Lemma rolling_mean_reads (w : positive) (m : nat) (s s' r r' : column) (i : nat) :
  Pandas.rolling_mean fos w m s = Ok r ->
  Pandas.rolling_mean fos w m s' = Ok r' ->
  (i < List.length s)%nat -> (i < List.length s')%nat ->
  firstn (S i) s = firstn (S i) s' ->
  nth i r NA = nth i r' NA.
Proof.
  unfold Pandas.rolling_mean, Pandas.rolling. intros H H' Hi Hi' Hf.
  destruct (mapM (Pandas.as_float fos) s) as [vals|e] eqn:E; cbn [bind] in H; [|discriminate].
  destruct (mapM (Pandas.as_float fos) s') as [vals'|e] eqn:E'; cbn [bind] in H';
    [|discriminate].
  injection H as <-. injection H' as <-.
  rewrite !nth_map_seq by assumption. cbv zeta. unfold Pandas.window.
  pose proof (mapM_firstn _ _ _ (S i) E) as F.
  pose proof (mapM_firstn _ _ _ (S i) E') as F'.
  rewrite Hf in F.
  assert (Eq : firstn (S i) vals = firstn (S i) vals') by congruence.
  rewrite Eq. reflexivity.
Qed.

(** X4.  A rolling mean never looks ahead: on the series of one entity,
    the value of row [i] is the same for two series that agree up to row
    [i] when the current row is part of the window, and up to row [i - 1]
    when it is not: no later row is read, and without [include_current]
    not the row itself. *)
Theorem rolling_mean_reads_no_later_row (include_current : bool) (w : positive)
        (s s' r r' : column) (i : nat) :
  PlayerFeatures._rolling fos include_current s w = Ok r ->
  PlayerFeatures._rolling fos include_current s' w = Ok r' ->
  (i < List.length s)%nat -> (i < List.length s')%nat ->
  firstn (if include_current then S i else i) s
  = firstn (if include_current then S i else i) s' ->
  nth i r NA = nth i r' NA.
Proof.
  unfold PlayerFeatures._rolling. intros H H' Hi Hi' Hf.
  destruct include_current.
  - apply (rolling_mean_reads w 1 s s' r r' i H H' Hi Hi' Hf).
  - apply (rolling_mean_reads w 1 _ _ r r' i H H').
    + rewrite shift_length. exact Hi.
    + rewrite shift_length. exact Hi'.
    + rewrite !shift_forward_one by assumption. rewrite Hf. reflexivity.
Qed.

End WindowReads.

Lemma label_reads_later_rows_only_witness :
  exists r r',
    Targets.next_h_sum Samples.no_float 2 [VInt 2; VInt 4; VInt 6; VInt 8] = Ok r /\
    Targets.next_h_sum Samples.no_float 2 [VInt 100; NA; VInt 6; VInt 8] = Ok r' /\
    nth 1 r NA = nth 1 r' NA.
Proof.
  apply (label_reads_later_rows_only Samples.no_float 2
           [VInt 2; VInt 4; VInt 6; VInt 8] [VInt 100; NA; VInt 6; VInt 8]
           (map num_of [VInt 2; VInt 4; VInt 6; VInt 8])
           (map num_of [VInt 100; NA; VInt 6; VInt 8]) 1);
    try reflexivity.
  simpl. lia.
Defined.

Lemma rolling_mean_reads_no_later_row_witness :
  exists r r',
    PlayerFeatures._rolling Samples.no_float false [VInt 2; VInt 4; VInt 6] 2 = Ok r /\
    PlayerFeatures._rolling Samples.no_float false [VInt 2; VInt 50; NA] 2 = Ok r' /\
    nth 1 r NA = nth 1 r' NA.
Proof.
  do 2 eexists. split; [vm_compute; reflexivity|]. split; [vm_compute; reflexivity|].
  apply (rolling_mean_reads_no_later_row Samples.no_float false 2
           [VInt 2; VInt 4; VInt 6] [VInt 2; VInt 50; NA] _ _ 1).
  - vm_compute. reflexivity.
  - vm_compute. reflexivity.
  - simpl. lia.
  - simpl. lia.
  - reflexivity.
Defined.

(** ** The label loops of [add_horizon_labels] *)

Lemma total_name_split (t : string) (h : positive) :
  Targets.total_name t h = (t ++ "_next_" ++ str_of_Z (Zpos h)) ++ "_total".
Proof. unfold Targets.total_name. rewrite !append_assoc. reflexivity. Qed.

Lemma per_week_name_split (t : string) (h : positive) :
  Targets.per_week_name t h = (t ++ "_next_" ++ str_of_Z (Zpos h)) ++ "_per_week".
Proof. unfold Targets.per_week_name. rewrite !append_assoc. reflexivity. Qed.

Lemma next_stem_inj (t t' : string) (h h' : positive) :
  t ++ "_next_" ++ str_of_Z (Zpos h) = t' ++ "_next_" ++ str_of_Z (Zpos h') ->
  t = t' /\ h = h'.
Proof.
  intros H.
  assert (E : forall u k, split_last (u ++ "_next_" ++ str_of_Z (Zpos k))
                          = Some (u ++ "_next", str_of_Z (Zpos k))).
  { intros u k.
    replace (u ++ "_next_" ++ str_of_Z (Zpos k))
      with ((u ++ "_next") ++ String "_" (str_of_Z (Zpos k)))
      by (rewrite append_assoc; reflexivity).
    apply split_last_append, split_last_digits, all_digits_str_of_pos. }
  apply (f_equal split_last) in H. rewrite !E in H. injection H as Ht Hh.
  apply append_same_suffix in Ht. apply str_of_Z_inj in Hh. split; congruence.
Qed.

Lemma total_name_inj (t t' : string) (h h' : positive) :
  Targets.total_name t h = Targets.total_name t' h' -> t = t' /\ h = h'.
Proof.
  rewrite !total_name_split. intros H. apply append_same_suffix in H.
  apply next_stem_inj. exact H.
Qed.

Lemma per_week_name_inj (t t' : string) (h h' : positive) :
  Targets.per_week_name t h = Targets.per_week_name t' h' -> t = t' /\ h = h'.
Proof.
  rewrite !per_week_name_split. intros H. apply append_same_suffix in H.
  apply next_stem_inj. exact H.
Qed.

Lemma total_name_not_per_week (t t' : string) (h h' : positive) :
  Targets.total_name t h <> Targets.per_week_name t' h'.
Proof.
  intros H. apply (f_equal split_last) in H.
  rewrite total_name_split, per_week_name_split in H.
  change ((t ++ "_next_" ++ str_of_Z (Zpos h)) ++ "_total")
    with ((t ++ "_next_" ++ str_of_Z (Zpos h)) ++ String "_" "total") in H.
  replace ((t' ++ "_next_" ++ str_of_Z (Zpos h')) ++ "_per_week")
    with (((t' ++ "_next_" ++ str_of_Z (Zpos h')) ++ "_per") ++ String "_" "week") in H
    by (rewrite !append_assoc; reflexivity).
  rewrite !split_last_append in H by reflexivity. discriminate.
Qed.

Lemma sort_by_length {X : Type} (leb : X -> X -> bool) (l : list X) :
  List.length (Pandas.sort_by leb l) = List.length l.
Proof.
  assert (G : forall m : list X, filter (fun _ => true) m = m).
  { induction m as [|x m IH]; simpl; [reflexivity|]. rewrite IH. reflexivity. }
  rewrite <- (G (Pandas.sort_by leb l)), filter_sort_by_length, G. reflexivity.
Qed.

Lemma well_formed_take_rows (idx : list nat) (df : frame) :
  df <> [] -> well_formed (Pandas.take_rows idx df).
Proof.
  intros Hne n c Hin. rewrite nrows_take_rows by exact Hne.
  unfold Pandas.take_rows in Hin. apply in_map_iff in Hin.
  destruct Hin as ([m c0] & E & _). injection E as _ <-. apply gather_length.
Qed.

(** A sort by existing columns returns, and keeps the number of rows. *)
Lemma sort_values_rows (names : list string) (df : frame) :
  df <> [] ->
  (forall n, In n names -> has_col n df = true) ->
  exists idx,
    Pandas.sort_values names df = Ok (Pandas.take_rows idx df) /\
    List.length idx = nrows df /\
    (forall i, In i idx -> (i < nrows df)%nat).
Proof.
  intros Hne Hhas. unfold Pandas.sort_values.
  destruct (mapM_total (col_or_raise df) names) as [cols Hcols].
  { intros n Hn. specialize (Hhas n Hn). unfold has_col in Hhas. unfold col_or_raise.
    destruct (get_col n df); [eauto|discriminate]. }
  rewrite Hcols. cbn [bind]. eexists. split; [reflexivity|]. split.
  - rewrite sort_by_length, length_seq. reflexivity.
  - intros i Hi.
    assert (G : forall (l : list nat) leb x, In x (Pandas.sort_by leb l) -> In x l).
    { induction l as [|y l IH]; intros leb x Hx; simpl in Hx; [exact Hx|].
      apply insert_by_In in Hx. destruct Hx as [->|Hx]; [left; reflexivity|].
      right. apply (IH leb). exact Hx. }
    apply G in Hi. apply in_seq in Hi. lia.
Qed.

Section LabelLoops.
Variable fos : string -> option (option Qc).
Variables (id_col : string) (sorted : frame) (ids : column).
Variables (tm : list (string * string)) (hs : list positive).
Hypothesis sorted_wf : well_formed sorted.
Hypothesis sorted_ids : get_col id_col sorted = Some ids.
Hypothesis sources_numeric :
  forall t src c, In (t, src) tm -> get_col src sorted = Some c ->
                  exists vals, mapM (Pandas.as_float fos) c = Ok vals.
Hypothesis labels_fresh :
  forall t src h n, In (t, src) tm -> In h hs ->
    n = Targets.total_name t h \/ n = Targets.per_week_name t h ->
    n <> id_col /\ forall t' src', In (t', src') tm -> n <> src'.

Lemma labels_at_kept (F F' : frame) (t src : string) (h : positive) :
  Targets.labels_at fos sorted F ids t src h ->
  get_col (Targets.total_name t h) F' = get_col (Targets.total_name t h) F ->
  get_col (Targets.per_week_name t h) F' = get_col (Targets.per_week_name t h) F ->
  Targets.labels_at fos sorted F' ids t src h.
Proof.
  intros (srcc & vals & total & H1 & H2 & H3 & H4 & H5 & H6) E1 E2.
  exists srcc, vals, total. rewrite E1, E2. auto 10.
Qed.

Lemma add_label_step (F : frame) (t src : string) (h : positive) :
  Targets.labels_keep sorted F id_col tm ->
  In (t, src) tm -> In h hs ->
  has_col src sorted = true ->
  exists F',
    Targets.add_label fos id_col t src h F = Ok F' /\
    Targets.labels_keep sorted F' id_col tm /\
    Targets.labels_at fos sorted F' ids t src h /\
    forall n, n <> Targets.total_name t h -> n <> Targets.per_week_name t h ->
              get_col n F' = get_col n F.
Proof.
  intros (Wf & Ne & Nr & Hid & Hsrc) Hin Hh Hhas.
  destruct (has_col_get_col _ _ Hhas) as [srcc Esrc].
  destruct (sources_numeric t src srcc Hin Esrc) as [vals Hvals].
  assert (Li : List.length ids = nrows sorted)
    by (apply (well_formed_get_col id_col); assumption).
  assert (Ls : List.length srcc = nrows sorted)
    by (apply (well_formed_get_col src); assumption).
  assert (EidF : get_col id_col F = Some ids) by congruence.
  assert (EsrcF : get_col src F = Some srcc) by (rewrite (Hsrc t src Hin); exact Esrc).
  destruct (add_label_next_rows fos id_col t src h F ids srcc vals EidF EsrcF
              ltac:(congruence) Hvals)
    as (out & total & Hadd & Htot & Hpw & Hlen & Hcell).
  exists out. split; [exact Hadd|].
  unfold Targets.add_label in Hadd. rewrite EidF, EsrcF in Hadd.
  destruct (Pandas.transform _ ids srcc) as [total0|e]; cbn [bind] in Hadd; [|discriminate].
  injection Hadd as <-.
  assert (E0 : total0 = total).
  { rewrite get_col_set_col_other in Htot
      by (intros E; apply (total_not_per_week t h); congruence).
    rewrite get_col_set_col_same in Htot. congruence. }
  subst total0.
  destruct (labels_fresh t src h _ Hin Hh (or_introl eq_refl)) as [Ft1 Ft2].
  destruct (labels_fresh t src h _ Hin Hh (or_intror eq_refl)) as [Fp1 Fp2].
  assert (L1 : List.length total = nrows F) by congruence.
  assert (W1 : well_formed (set_col (Targets.total_name t h) total F))
    by (apply well_formed_set_col; assumption).
  assert (N1 : nrows (set_col (Targets.total_name t h) total F) = nrows F)
    by (apply nrows_set_col; assumption).
  split; [|split].
  - split; [|split; [|split; [|split]]].
    + apply well_formed_set_col; [exact W1|apply set_col_nonempty|].
      rewrite length_map, N1. exact L1.
    + apply set_col_nonempty.
    + rewrite nrows_set_col; [congruence|apply set_col_nonempty|].
      rewrite length_map, N1. exact L1.
    + rewrite !get_col_set_col_other by congruence. exact Hid.
    + intros t' src' Hin'. rewrite !get_col_set_col_other.
      * apply (Hsrc t' src' Hin').
      * apply (Ft2 t' src' Hin').
      * apply (Fp2 t' src' Hin').
  - exists srcc, vals, total. repeat split; auto; try congruence.
    intros i Hi Hna. apply Hcell; [congruence|exact Hna].
  - intros n H1 H2. rewrite !get_col_set_col_other by congruence. reflexivity.
Qed.

Lemma add_labels_loop (t src : string) (hs' : list positive) (F : frame) :
  Targets.labels_keep sorted F id_col tm ->
  In (t, src) tm -> incl hs' hs -> NoDup hs' ->
  has_col src sorted = true ->
  exists F',
    Targets.add_labels fos id_col t src hs' F = Ok F' /\
    Targets.labels_keep sorted F' id_col tm /\
    (forall h, In h hs' -> Targets.labels_at fos sorted F' ids t src h) /\
    forall n, (forall h, In h hs' -> n <> Targets.total_name t h /\
                                     n <> Targets.per_week_name t h) ->
              get_col n F' = get_col n F.
Proof.
  intros Hk Hin. revert F Hk.
  induction hs' as [|h hs' IH]; intros F Hk Hincl Hnd Hhas; simpl.
  - exists F. split; [reflexivity|]. split; [exact Hk|].
    split; [intros h []|reflexivity].
  - destruct (add_label_step F t src h Hk Hin (Hincl h (or_introl eq_refl)) Hhas)
      as (F1 & E1 & K1 & A1 & G1).
    rewrite E1. cbn [bind].
    destruct (IH F1 K1 (fun x Hx => Hincl x (or_intror Hx)) (proj2 (proj1 (NoDup_cons_iff h hs') Hnd)) Hhas)
      as (F' & E' & K' & A' & G').
    exists F'. split; [exact E'|]. split; [exact K'|]. split.
    + intros k [<-|Hk']; [|apply A'; exact Hk'].
      apply (labels_at_kept F1); [exact A1| |].
      * apply G'. intros k Hk'. split.
        -- intros E. apply total_name_inj in E. destruct E as [_ <-].
           apply NoDup_cons_iff in Hnd. tauto.
        -- apply not_eq_sym. intros E. symmetry in E. revert E. apply total_name_not_per_week.
      * apply G'. intros k Hk'. split.
        -- intros E. symmetry in E. revert E. apply total_name_not_per_week.
        -- intros E. apply per_week_name_inj in E. destruct E as [_ <-].
           apply NoDup_cons_iff in Hnd. tauto.
    + intros n Hn. rewrite G' by (intros k Hk'; apply Hn; right; exact Hk').
      apply G1; apply (Hn h (or_introl eq_refl)).
Qed.
Lemma add_targets_loop (req : bool) (tm' : list (string * string)) (F : frame) :
  Targets.labels_keep sorted F id_col tm ->
  incl tm' tm -> NoDup (map fst tm') -> NoDup hs ->
  (req = true -> forall t src, In (t, src) tm' -> has_col src sorted = true) ->
  exists F',
    Targets.add_targets fos id_col req hs tm' F = Ok F' /\
    Targets.labels_keep sorted F' id_col tm /\
    (forall t src h, In (t, src) tm' -> In h hs -> has_col src sorted = true ->
                     Targets.labels_at fos sorted F' ids t src h) /\
    forall n, (forall t src h, In (t, src) tm' -> In h hs ->
                 n <> Targets.total_name t h /\ n <> Targets.per_week_name t h) ->
              get_col n F' = get_col n F.
Proof.
  intros Hk Hincl Hnd Hndh Hreq. revert F Hk.
  induction tm' as [|[t src] rest IH]; intros F Hk; simpl.
  - exists F. split; [reflexivity|]. split; [exact Hk|].
    split; [intros t src h []|reflexivity].
  - assert (Hin : In (t, src) tm) by (apply Hincl; left; reflexivity).
    assert (Hrest : incl rest tm) by (intros x Hx; apply Hincl; right; exact Hx).
    apply NoDup_cons_iff in Hnd. destruct Hnd as [Hnot Hnd].
    assert (Hreq' : req = true -> forall t0 src0, In (t0, src0) rest ->
                                  has_col src0 sorted = true)
      by (intros E t0 src0 H0; apply (Hreq E t0 src0); right; exact H0).
    assert (EF : has_col src F = has_col src sorted).
    { destruct Hk as (_ & _ & _ & _ & Hsrc). unfold has_col.
      rewrite (Hsrc t src Hin). reflexivity. }
    rewrite EF. destruct (has_col src sorted) eqn:Ehas.
    + destruct (add_labels_loop t src hs F Hk Hin (incl_refl hs) Hndh Ehas)
        as (F1 & E1 & K1 & A1 & G1).
      rewrite E1. cbn [bind].
      destruct (IH Hrest Hnd Hreq' F1 K1) as (F' & E' & K' & A' & G').
      exists F'. split; [exact E'|]. split; [exact K'|]. split.
      * intros t0 src0 h [E|H0] Hh Hhas0; [|apply A'; assumption].
        injection E as <- <-.
        assert (Hother : forall t1 src1, In (t1, src1) rest -> t1 <> t).
        { intros t1 src1 H1 ->. apply Hnot. apply (in_map fst) in H1. exact H1. }
        apply (labels_at_kept F1); [apply A1; exact Hh| |].
        -- apply G'. intros t1 src1 h1 H1 _. split.
           ++ intros E. apply total_name_inj in E. destruct E as [E _].
              apply (Hother t1 src1 H1). congruence.
           ++ apply total_name_not_per_week.
        -- apply G'. intros t1 src1 h1 H1 _. split.
           ++ intros E. symmetry in E. revert E. apply total_name_not_per_week.
           ++ intros E. apply per_week_name_inj in E. destruct E as [E _].
              apply (Hother t1 src1 H1). congruence.
      * intros n Hn.
        rewrite G' by (intros t1 src1 h1 H1 Hh1; apply (Hn t1 src1 h1); [right|]; assumption).
        apply G1. intros h Hh. apply (Hn t src h); [left; reflexivity|exact Hh].
    + destruct req.
      * specialize (Hreq eq_refl t src (or_introl eq_refl)). congruence.
      * destruct (IH Hrest Hnd Hreq' F Hk) as (F' & E' & K' & A' & G').
        exists F'. split; [exact E'|]. split; [exact K'|]. split.
        -- intros t0 src0 h [E|H0] Hh Hhas0; [|apply A'; assumption].
           injection E as <- <-. congruence.
        -- intros n Hn. apply G'. intros t1 src1 h1 H1 Hh1.
           apply (Hn t1 src1 h1); [right|]; assumption.
Qed.
End LabelLoops.

Lemma has_col_take_rows (n : string) (idx : list nat) (df : frame) :
  has_col n (Pandas.take_rows idx df) = has_col n df.
Proof.
  unfold has_col. rewrite get_col_take_rows. destruct (get_col n df); reflexivity.
Qed.

Section LabelTheorems.
Variable fos : string -> option (option Qc).

(** X5.  The labels of [add_horizon_labels] for every target and horizon
    at once.  For a frame with the entity and gameweek columns, numeric
    source columns, target names and horizons listed once, and label names
    that are not the name of the entity column or of a source column: the
    call returns and keeps the number of rows; for every target whose
    source column is there and every horizon, the total of a row is the sum
    of the source over the next [h] rows of the same entity in the sorted
    frame, missing when fewer than [h] rows follow or one is not observed,
    and the per-week label is the total divided by [h]. *)
Theorem horizon_labels_sum_next_rows
        (df : frame) (hs : list positive) (tm : list (string * string))
        (id_col gw_col : string) (require_all : bool) :
  well_formed df ->
  has_col id_col df = true ->
  has_col gw_col df = true ->
  NoDup (map fst tm) ->
  NoDup hs ->
  (forall t src c, In (t, src) tm -> get_col src df = Some c ->
                   exists vals, mapM (Pandas.as_float fos) c = Ok vals) ->
  (forall t src h n, In (t, src) tm -> In h hs ->
     n = Targets.total_name t h \/ n = Targets.per_week_name t h ->
     n <> id_col /\ forall t' src', In (t', src') tm -> n <> src') ->
  (require_all = true -> forall t src, In (t, src) tm -> has_col src df = true) ->
  exists sorted ids out,
    Pandas.sort_values [id_col; gw_col] df = Ok sorted /\
    get_col id_col sorted = Some ids /\
    Targets.add_horizon_labels fos df hs (Some tm) id_col gw_col require_all = Ok out /\
    nrows out = nrows df /\
    forall t src h, In (t, src) tm -> In h hs -> has_col src df = true ->
      Targets.labels_at fos sorted out ids t src h.
Proof.
  intros Hwf Hid Hgw Hnd Hndh Hnum Hfresh Hreq.
  assert (Hne : df <> []) by (intros ->; discriminate).
  destruct (sort_values_rows [id_col; gw_col] df Hne) as (idx & Hsort & Hlen & _).
  { intros n [<-|[<-|[]]]; assumption. }
  set (sorted := Pandas.take_rows idx df) in *.
  destruct (has_col_get_col _ _ Hid) as [idc Eidc].
  assert (Eids : get_col id_col sorted = Some (Pandas.gather idx idc))
    by (unfold sorted; rewrite get_col_take_rows, Eidc; reflexivity).
  assert (Wf0 : well_formed sorted) by (apply well_formed_take_rows; exact Hne).
  assert (Ne0 : sorted <> []) by (apply take_rows_nonempty; exact Hne).
  assert (Nr0 : nrows sorted = nrows df)
    by (unfold sorted; rewrite nrows_take_rows by exact Hne; exact Hlen).
  assert (Hnum0 : forall t src c, In (t, src) tm -> get_col src sorted = Some c ->
                                  exists vals, mapM (Pandas.as_float fos) c = Ok vals).
  { intros t src c Hin Hc. unfold sorted in Hc. rewrite get_col_take_rows in Hc.
    destruct (get_col src df) as [c0|] eqn:E0; [|discriminate]. injection Hc as <-.
    destruct (Hnum t src c0 Hin E0) as [vals Hv].
    eexists. apply (gather_as_float fos c0 vals idx Hv). }
  assert (Hreq0 : require_all = true ->
                  forall t src, In (t, src) tm -> has_col src sorted = true).
  { intros E t src Hin. unfold sorted. rewrite has_col_take_rows. apply (Hreq E t src Hin). }
  assert (K0 : Targets.labels_keep sorted sorted id_col tm).
  { split; [exact Wf0|]. split; [exact Ne0|]. repeat split; reflexivity. }
  destruct (add_targets_loop fos id_col sorted _ tm hs Wf0 Eids Hnum0 Hfresh
              require_all tm sorted K0 (incl_refl tm) Hnd Hndh Hreq0)
    as (out & Eout & (_ & _ & Nr & _) & Hlab & _).
  exists sorted, (Pandas.gather idx idc), out.
  split; [exact Hsort|]. split; [exact Eids|]. split; [|split].
  - unfold Targets.add_horizon_labels. rewrite Hid, Hgw. cbn [negb orb].
    rewrite Hsort. cbn [bind]. exact Eout.
  - congruence.
  - intros t src h Hin Hh Hhas. apply (Hlab t src h Hin Hh).
    unfold sorted. rewrite has_col_take_rows. exact Hhas.
Qed.

End LabelTheorems.

Lemma gap_at_3_well_formed : well_formed Samples.gap_at_3.
Proof.
  intros n c Hin. simpl in Hin.
  repeat (destruct Hin as [Hin|Hin]; [injection Hin as <- <-; reflexivity|]).
  destruct Hin.
Qed.

Lemma horizon_labels_sum_next_rows_witness :
  exists sorted ids out,
    Pandas.sort_values ["player_id"; "gw"] Samples.gap_at_3 = Ok sorted /\
    get_col "player_id" sorted = Some ids /\
    Targets.add_horizon_labels Samples.no_float Samples.gap_at_3 [2%positive]
      (Some [("points", "event_points")]) "player_id" "gw" true = Ok out /\
    nrows out = nrows Samples.gap_at_3 /\
    forall t src h, In (t, src) [("points", "event_points")] -> In h [2%positive] ->
      has_col src Samples.gap_at_3 = true ->
      Targets.labels_at Samples.no_float sorted out ids t src h.
Proof.
  apply (horizon_labels_sum_next_rows Samples.no_float Samples.gap_at_3 [2%positive]
           [("points", "event_points")] "player_id" "gw" true).
  - exact gap_at_3_well_formed.
  - reflexivity.
  - reflexivity.
  - constructor; [intros []|constructor].
  - constructor; [intros []|constructor].
  - intros t src c [E|[]] Hc. injection E as <- <-.
    vm_compute in Hc. injection Hc as <-. eexists. vm_compute. reflexivity.
  - intros t src h n [E|[]] [<-|[]] Hn. injection E as <- <-.
    split.
    + destruct Hn as [->| ->]; intros E; vm_compute in E; discriminate.
    + intros t' src' [E'|[]]. injection E' as <- <-.
      destruct Hn as [->| ->]; intros E; vm_compute in E; discriminate.
  - intros _ t src [E|[]]. injection E as <- <-. reflexivity.
Defined.

(** ** Missing source columns *)

Section LenientLabels.
Variable fos : string -> option (option Qc).

Lemma as_float_number (c : cell) :
  (forall s, c <> VStr s) -> Pandas.as_float fos c = Ok (num_of c).
Proof. destruct c; intros H; try reflexivity. destruct (H s eq_refl). Qed.

Lemma column_of_numbers (c : column) :
  (forall x, In x c -> forall s, x <> VStr s) ->
  exists vals, mapM (Pandas.as_float fos) c = Ok vals.
Proof.
  intros H. exists (map num_of c). apply mapM_ok_map.
  intros x Hx. apply as_float_number. apply H. exact Hx.
Qed.

Lemma rolling_cells (agg : list Qc -> Qc) (w : positive) (m : nat) (s r : column) :
  Pandas.rolling fos agg w m s = Ok r ->
  forall x, In x r -> forall t, x <> VStr t.
Proof.
  unfold Pandas.rolling. intros H x Hx t.
  destruct (mapM (Pandas.as_float fos) s) as [vals|e]; cbn [bind] in H; [|discriminate].
  injection H as <-. apply in_map_iff in Hx. destruct Hx as (i & <- & _).
  cbv zeta. destruct (andb _ _); discriminate.
Qed.

Lemma label_cells (h : positive) (ids src total : column) :
  Pandas.transform (Targets.next_h_sum fos h) ids src = Ok total ->
  forall x, In x total -> forall t, x <> VStr t.
Proof.
  unfold Pandas.transform. intros H x Hx t.
  apply In_nth_error in Hx. destruct Hx as [i Hi].
  assert (Hlen : (i < List.length total)%nat) by (apply nth_error_Some; congruence).
  pose proof (mapM_length _ _ _ H) as L. rewrite length_seq in L.
  assert (Hi' : (i < List.length src)%nat) by lia.
  destruct (mapM_nth_error _ _ _ H i i (nth_error_seq _ _ Hi')) as (c & Hc & Hn).
  assert (c = x) by congruence. subst c.
  destruct (is_na (nth i ids NA)); [injection Hc as <-; discriminate|].
  destruct (Targets.next_h_sum fos h _) as [g|e] eqn:Eg; cbn [bind] in Hc; [|discriminate].
  injection Hc as <-.
  unfold Targets.next_h_sum, Pandas.rolling_sum in Eg.
  destruct (Pandas.rolling fos Pandas.qsum h (Pos.to_nat h) _) as [r|e] eqn:Er;
    cbn [bind] in Eg; [|discriminate].
  injection Eg as <-.
  match goal with
  | |- nth ?k ?l NA <> _ => destruct (nth_in_or_default k l NA) as [Hin | ->]
  end; [|discriminate].
  apply shift_cells in Hin. destruct Hin as [->|Hin]; [discriminate|].
  apply (rolling_cells _ _ _ _ _ Er _ Hin).
Qed.

Lemma div_h_cell (h : positive) (c : cell) (t : string) : Targets.div_h h c <> VStr t.
Proof. unfold Targets.div_h. destruct (num_of c); discriminate. Qed.

Lemma has_col_set_col_kept (n m : string) (c : column) (df : frame) :
  has_col n df = true -> has_col n (set_col m c df) = true.
Proof. intros H. rewrite has_col_set_col, H. apply orb_true_r. Qed.

Section Loops.
Variables (id_col : string) (tm : list (string * string)).

Lemma add_label_lenient (F : frame) (t src : string) (h : positive) :
  well_formed F -> F <> [] ->
  has_col id_col F = true -> has_col src F = true ->
  (forall t0 src0 c, In (t0, src0) tm -> get_col src0 F = Some c ->
                     exists vals, mapM (Pandas.as_float fos) c = Ok vals) ->
  In (t, src) tm ->
  exists F',
    Targets.add_label fos id_col t src h F = Ok F' /\
    well_formed F' /\ F' <> [] /\ nrows F' = nrows F /\
    (forall n, has_col n F = true -> has_col n F' = true) /\
    (forall t0 src0 c, In (t0, src0) tm -> get_col src0 F' = Some c ->
                       exists vals, mapM (Pandas.as_float fos) c = Ok vals).
Proof.
  intros Wf Ne Hid Hsrc Hnum Hin.
  destruct (has_col_get_col _ _ Hid) as [ids Eid].
  destruct (has_col_get_col _ _ Hsrc) as [srcc Esrc].
  destruct (Hnum t src srcc Hin Esrc) as [vals Hvals].
  pose proof (well_formed_get_col _ _ _ Wf Eid) as Li.
  pose proof (well_formed_get_col _ _ _ Wf Esrc) as Ls.
  destruct (add_label_next_rows fos id_col t src h F ids srcc vals Eid Esrc
              ltac:(congruence) Hvals)
    as (out & total & Hadd & Htot & Hpw & Hlen & _).
  exists out. split; [exact Hadd|].
  unfold Targets.add_label in Hadd. rewrite Eid, Esrc in Hadd.
  destruct (Pandas.transform _ ids srcc) as [total0|e] eqn:Et; cbn [bind] in Hadd;
    [|discriminate].
  injection Hadd as <-.
  assert (E0 : total0 = total).
  { rewrite get_col_set_col_other in Htot
      by (intros E; apply (total_not_per_week t h); congruence).
    rewrite get_col_set_col_same in Htot. congruence. }
  subst total0.
  assert (L1 : List.length total = nrows F) by congruence.
  assert (W1 : well_formed (set_col (Targets.total_name t h) total F))
    by (apply well_formed_set_col; assumption).
  assert (N1 : nrows (set_col (Targets.total_name t h) total F) = nrows F)
    by (apply nrows_set_col; assumption).
  split; [|split; [|split; [|split]]].
  - apply well_formed_set_col; [exact W1|apply set_col_nonempty|].
    rewrite length_map, N1. exact L1.
  - apply set_col_nonempty.
  - rewrite nrows_set_col; [exact N1|apply set_col_nonempty|].
    rewrite length_map, N1. exact L1.
  - intros n Hn. apply has_col_set_col_kept, has_col_set_col_kept. exact Hn.
  - intros t0 src0 c Hin0 Hc.
    destruct (String.eqb_spec (Targets.per_week_name t h) src0) as [E|E].
    + rewrite <- E, get_col_set_col_same in Hc. injection Hc as <-.
      apply column_of_numbers. intros x Hx s. apply in_map_iff in Hx.
      destruct Hx as (y & <- & _). apply div_h_cell.
    + rewrite get_col_set_col_other in Hc by exact E.
      destruct (String.eqb_spec (Targets.total_name t h) src0) as [E'|E'].
      * rewrite <- E', get_col_set_col_same in Hc. injection Hc as <-.
        apply column_of_numbers. apply (label_cells h ids srcc total Et).
      * rewrite get_col_set_col_other in Hc by exact E'.
        apply (Hnum t0 src0 c Hin0 Hc).
Qed.

Lemma add_labels_lenient (t src : string) (hs : list positive) (F : frame) :
  well_formed F -> F <> [] ->
  has_col id_col F = true -> has_col src F = true ->
  (forall t0 src0 c, In (t0, src0) tm -> get_col src0 F = Some c ->
                     exists vals, mapM (Pandas.as_float fos) c = Ok vals) ->
  In (t, src) tm ->
  exists F',
    Targets.add_labels fos id_col t src hs F = Ok F' /\
    well_formed F' /\ F' <> [] /\ nrows F' = nrows F /\
    (forall n, has_col n F = true -> has_col n F' = true) /\
    (forall t0 src0 c, In (t0, src0) tm -> get_col src0 F' = Some c ->
                       exists vals, mapM (Pandas.as_float fos) c = Ok vals).
Proof.
  revert F. induction hs as [|h hs IH]; intros F Wf Ne Hid Hsrc Hnum Hin; simpl.
  - exists F. auto 10.
  - destruct (add_label_lenient F t src h Wf Ne Hid Hsrc Hnum Hin)
      as (F1 & E1 & W1 & N1 & R1 & C1 & M1).
    rewrite E1. cbn [bind].
    destruct (IH F1 W1 N1 (C1 _ Hid) (C1 _ Hsrc) M1 Hin)
      as (F' & E' & W' & N' & R' & C' & M').
    exists F'. split; [exact E'|]. split; [exact W'|]. split; [exact N'|].
    split; [congruence|]. split; [|exact M'].
    intros n Hn. apply C', C1, Hn.
Qed.

Lemma add_targets_lenient (hs : list positive) (tm' : list (string * string)) (F : frame) :
  well_formed F -> F <> [] ->
  has_col id_col F = true ->
  (forall t0 src0 c, In (t0, src0) tm -> get_col src0 F = Some c ->
                     exists vals, mapM (Pandas.as_float fos) c = Ok vals) ->
  incl tm' tm ->
  exists F',
    Targets.add_targets fos id_col false hs tm' F = Ok F' /\
    nrows F' = nrows F /\
    (forall n, has_col n F = true -> has_col n F' = true).
Proof.
  revert F. induction tm' as [|[t src] rest IH]; intros F Wf Ne Hid Hnum Hincl; simpl.
  - exists F. auto.
  - assert (Hrest : incl rest tm) by (intros x Hx; apply Hincl; right; exact Hx).
    destruct (has_col src F) eqn:Ehas.
    + destruct (add_labels_lenient t src hs F Wf Ne Hid Ehas Hnum
                  (Hincl _ (or_introl eq_refl)))
        as (F1 & E1 & W1 & N1 & R1 & C1 & M1).
      rewrite E1. cbn [bind].
      destruct (IH F1 W1 N1 (C1 _ Hid) M1 Hrest) as (F' & E' & R' & C').
      exists F'. split; [exact E'|]. split; [congruence|].
      intros n Hn. apply C', C1, Hn.
    + apply (IH F Wf Ne Hid Hnum Hrest).
Qed.

End Loops.

(** X6.  With [require_all] false, [add_horizon_labels] never fails on a
    missing source: for a frame with the entity and gameweek columns
    whose source columns, where present, are numeric, the call returns,
    whatever targets lack their source; it keeps the number of rows and
    every column of the input. *)
Theorem horizon_labels_skip_missing_sources
        (df : frame) (hs : list positive) (tm : list (string * string))
        (id_col gw_col : string) :
  well_formed df ->
  has_col id_col df = true ->
  has_col gw_col df = true ->
  (forall t src c, In (t, src) tm -> get_col src df = Some c ->
                   exists vals, mapM (Pandas.as_float fos) c = Ok vals) ->
  exists out,
    Targets.add_horizon_labels fos df hs (Some tm) id_col gw_col false = Ok out /\
    nrows out = nrows df /\
    forall n, has_col n df = true -> has_col n out = true.
Proof.
  intros Hwf Hid Hgw Hnum.
  assert (Hne : df <> []) by (intros ->; discriminate).
  destruct (sort_values_rows [id_col; gw_col] df Hne) as (idx & Hsort & Hlen & _).
  { intros n [<-|[<-|[]]]; assumption. }
  destruct (add_targets_lenient id_col tm hs tm (Pandas.take_rows idx df))
    as (out & Eout & Nr & Hc).
  - apply well_formed_take_rows. exact Hne.
  - apply take_rows_nonempty. exact Hne.
  - rewrite has_col_take_rows. exact Hid.
  - intros t src c Hin Hcol. rewrite get_col_take_rows in Hcol.
    destruct (get_col src df) as [c0|] eqn:E0; [|discriminate]. injection Hcol as <-.
    destruct (Hnum t src c0 Hin E0) as [vals Hv].
    eexists. apply (gather_as_float fos c0 vals idx Hv).
  - apply incl_refl.
  - exists out. split; [|split].
    + unfold Targets.add_horizon_labels. rewrite Hid, Hgw. cbn [negb orb].
      rewrite Hsort. cbn [bind]. exact Eout.
    + rewrite Nr, nrows_take_rows by exact Hne. exact Hlen.
    + intros n Hn. apply Hc. rewrite has_col_take_rows. exact Hn.
Qed.

End LenientLabels.

Lemma horizon_labels_skip_missing_sources_witness :
  exists out,
    Targets.add_horizon_labels Samples.no_float Samples.gap_at_3 [2%positive]
      (Some [("points", "event_points"); ("saves", "saves")]) "player_id" "gw" false
    = Ok out /\
    nrows out = nrows Samples.gap_at_3 /\
    forall n, has_col n Samples.gap_at_3 = true -> has_col n out = true.
Proof.
  apply (horizon_labels_skip_missing_sources Samples.no_float Samples.gap_at_3
           [2%positive] [("points", "event_points"); ("saves", "saves")] "player_id" "gw").
  - exact gap_at_3_well_formed.
  - reflexivity.
  - reflexivity.
  - intros t src c [E|[E|[]]] Hc; injection E as <- <-.
    + vm_compute in Hc. injection Hc as <-. eexists. vm_compute. reflexivity.
    + vm_compute in Hc. discriminate.
Defined.

Section StrictLabels.
Variable fos : string -> option (option Qc).

Lemma add_targets_app (id_col : string) (req : bool) (hs : list positive)
      (pre rest : list (string * string)) (F : frame) :
  Targets.add_targets fos id_col req hs (pre ++ rest) F
  = (let* F1 := Targets.add_targets fos id_col req hs pre F in
     Targets.add_targets fos id_col req hs rest F1).
Proof.
  revert F. induction pre as [|[t src] pre IH]; intros F; simpl; [reflexivity|].
  destruct (has_col src F).
  - destruct (Targets.add_labels fos id_col t src hs F) as [F1|e]; cbn [bind];
      [apply IH|reflexivity].
  - destruct req; [reflexivity|apply IH].
Qed.

(** X7.  With [require_all] true, the first target whose source column is
    missing stops [add_horizon_labels] with a [ValueError] that names the
    column, after the targets before it have been labelled without error
    (same conditions on the names and the sources as for the labels). *)
Theorem horizon_labels_missing_source_raises
        (df : frame) (hs : list positive) (pre post : list (string * string))
        (t src id_col gw_col : string) :
  well_formed df ->
  has_col id_col df = true ->
  has_col gw_col df = true ->
  NoDup (map fst (pre ++ (t, src) :: post)%list) ->
  NoDup hs ->
  (forall t0 src0 c, In (t0, src0) (pre ++ (t, src) :: post)%list -> get_col src0 df = Some c ->
                     exists vals, mapM (Pandas.as_float fos) c = Ok vals) ->
  (forall t0 src0 h n, In (t0, src0) (pre ++ (t, src) :: post)%list -> In h hs ->
     n = Targets.total_name t0 h \/ n = Targets.per_week_name t0 h ->
     n <> id_col /\
     forall t' src', In (t', src') (pre ++ (t, src) :: post)%list -> n <> src') ->
  (forall t0 src0, In (t0, src0) pre -> has_col src0 df = true) ->
  has_col src df = false ->
  Targets.add_horizon_labels fos df hs (Some (pre ++ (t, src) :: post)%list) id_col gw_col true
  = Raise (ValueError ("Missing target source column: " ++ src)).
Proof.
  intros Hwf Hid Hgw Hnd Hndh Hnum Hfresh Hpre Hmiss.
  assert (Hne : df <> []) by (intros ->; discriminate).
  destruct (sort_values_rows [id_col; gw_col] df Hne) as (idx & Hsort & Hlen & _).
  { intros n [<-|[<-|[]]]; assumption. }
  set (sorted := Pandas.take_rows idx df) in *.
  set (tm := (pre ++ (t, src) :: post)%list) in *.
  destruct (has_col_get_col _ _ Hid) as [idc Eidc].
  assert (Eids : get_col id_col sorted = Some (Pandas.gather idx idc))
    by (unfold sorted; rewrite get_col_take_rows, Eidc; reflexivity).
  assert (Wf0 : well_formed sorted) by (apply well_formed_take_rows; exact Hne).
  assert (Ne0 : sorted <> []) by (apply take_rows_nonempty; exact Hne).
  assert (Hnum0 : forall t0 src0 c, In (t0, src0) tm -> get_col src0 sorted = Some c ->
                                    exists vals, mapM (Pandas.as_float fos) c = Ok vals).
  { intros t0 src0 c Hin Hc. unfold sorted in Hc. rewrite get_col_take_rows in Hc.
    destruct (get_col src0 df) as [c0|] eqn:E0; [|discriminate]. injection Hc as <-.
    destruct (Hnum t0 src0 c0 Hin E0) as [vals Hv].
    eexists. apply (gather_as_float fos c0 vals idx Hv). }
  assert (K0 : Targets.labels_keep sorted sorted id_col tm).
  { split; [exact Wf0|]. split; [exact Ne0|]. repeat split; reflexivity. }
  assert (Hincl : incl pre tm) by (intros x Hx; apply in_or_app; left; exact Hx).
  assert (Hndp : NoDup (map fst pre)).
  { unfold tm in Hnd. rewrite map_app in Hnd. apply NoDup_app_remove_r in Hnd. exact Hnd. }
  destruct (add_targets_loop fos id_col sorted _ tm hs Wf0 Eids Hnum0 Hfresh
              true pre sorted K0 Hincl Hndp Hndh)
    as (F1 & E1 & (_ & _ & _ & _ & Hsrc) & _).
  { intros _ t0 src0 H0. unfold sorted. rewrite has_col_take_rows. apply (Hpre t0 src0 H0). }
  unfold Targets.add_horizon_labels. rewrite Hid, Hgw. cbn [negb orb].
  rewrite Hsort. cbn [bind]. fold sorted. fold tm. unfold tm at 1.
  rewrite add_targets_app, E1. cbn [bind Targets.add_targets].
  assert (Hno : has_col src F1 = false).
  { unfold has_col. rewrite (Hsrc t src) by (apply in_or_app; right; left; reflexivity).
    unfold sorted. rewrite get_col_take_rows.
    unfold has_col in Hmiss. destruct (get_col src df); [discriminate|reflexivity]. }
  rewrite Hno. reflexivity.
Qed.

End StrictLabels.

Lemma horizon_labels_missing_source_raises_witness :
  Targets.add_horizon_labels Samples.no_float Samples.gap_at_3 [2%positive]
    (Some ([("points", "event_points")] ++ ("saves", "saves") :: [])%list) "player_id" "gw" true
  = Raise (ValueError ("Missing target source column: " ++ "saves")).
Proof.
  apply (horizon_labels_missing_source_raises Samples.no_float Samples.gap_at_3
           [2%positive] [("points", "event_points")] [] "saves" "saves" "player_id" "gw").
  - exact gap_at_3_well_formed.
  - reflexivity.
  - reflexivity.
  - constructor; [intros [E|[]]; discriminate|constructor; [intros []|constructor]].
  - constructor; [intros []|constructor].
  - intros t src c [E|[E|[]]] Hc; injection E as <- <-.
    + vm_compute in Hc. injection Hc as <-. eexists. vm_compute. reflexivity.
    + vm_compute in Hc. discriminate.
  - intros t src h n Hin [<-|[]] Hn.
    assert (Hn' : n = "points_next_2_total" \/ n = "points_next_2_per_week" \/
                  n = "saves_next_2_total" \/ n = "saves_next_2_per_week").
    { destruct Hin as [E|[E|[]]]; injection E as <- <-;
        destruct Hn as [->| ->]; vm_compute; auto. }
    split.
    + destruct Hn' as [->|[->|[->| ->]]]; discriminate.
    + intros t' src' [E|[E|[]]]; injection E as <- <-;
        destruct Hn' as [->|[->|[->| ->]]]; discriminate.
  - intros t src [E|[]]. injection E as <- <-. reflexivity.
  - reflexivity.
Defined.

(** ** Trend columns *)

Lemma trend_step_sets (nc : frame) (b : string) (s l : positive) (cs cl : column) :
  get_col (PlayerFeatures.roll_name b s) nc = Some cs ->
  get_col (PlayerFeatures.roll_name b l) nc = Some cl ->
  get_col (PlayerFeatures.trend_name b s l) (PlayerFeatures.trend_step nc (b, s, l))
  = Some (map (fun ab => PlayerFeatures.sub_cell (fst ab) (snd ab)) (combine cs cl)).
Proof.
  intros Hs Hl. unfold PlayerFeatures.trend_step. rewrite Hs, Hl.
  apply get_col_set_col_same.
Qed.

Lemma trend_step_other (nc : frame) (p : string * positive * positive) (n : string) :
  n <> PlayerFeatures.trend_name (fst (fst p)) (snd (fst p)) (snd p) ->
  get_col n (PlayerFeatures.trend_step nc p) = get_col n nc.
Proof.
  destruct p as [[b s] l]. cbn [fst snd]. intros Hn. unfold PlayerFeatures.trend_step.
  destruct (get_col (PlayerFeatures.roll_name b s) nc); [|reflexivity].
  destruct (get_col (PlayerFeatures.roll_name b l) nc); [|reflexivity].
  apply get_col_set_col_other. congruence.
Qed.

(** The loop over the trend pairs, for a base column of the list. *)
Lemma trend_loop_sets (nc : frame) (b : string) (cs cl : column) :
  In (b, 3%positive, 10%positive) PlayerFeatures.trend_pairs ->
  get_col (PlayerFeatures.roll_name b 3) nc = Some cs ->
  get_col (PlayerFeatures.roll_name b 10) nc = Some cl ->
  get_col (PlayerFeatures.trend_name b 3 10)
          (fold_left PlayerFeatures.trend_step PlayerFeatures.trend_pairs nc)
  = Some (map (fun ab => PlayerFeatures.sub_cell (fst ab) (snd ab)) (combine cs cl)).
Proof.
  intros Hb Hs Hl. unfold PlayerFeatures.trend_pairs in *. cbn [fold_left].
  destruct Hb as [E|[E|[E|[]]]]; injection E as <-.
  - rewrite !trend_step_other by (cbn [fst snd]; intros E; vm_compute in E; discriminate).
    apply trend_step_sets; assumption.
  - rewrite trend_step_other by (cbn [fst snd]; intros E; vm_compute in E; discriminate).
    apply trend_step_sets; rewrite trend_step_keeps; assumption.
  - apply trend_step_sets; rewrite !trend_step_keeps; assumption.
Qed.

Section TrendTheorem.
Variable fos : string -> option (option Qc).

(** X8.  The trend column of [add_player_rolling_features].  For a base
    column of the trend list (points, expected goals, expected assists)
    that is rolled, with the windows 3 and 10 both asked for, the output
    has the column [<base>_trend_3_10], and its cells are the cells of
    [<base>_roll3] minus the cells of [<base>_roll10], row by row, missing
    where one of the two is. *)
Theorem trend_is_short_minus_long
        (df : frame) (windows : list positive) (cols : option (list string))
        (per90 include_current : bool) (id_col gw_col minutes_col : string)
        (out : frame) (b : string) :
  PlayerFeatures.add_player_rolling_features fos df windows cols per90 include_current
    id_col gw_col minutes_col = Ok out ->
  In (b, 3%positive, 10%positive) PlayerFeatures.trend_pairs ->
  (exists df1 rc,
      PlayerFeatures.roll_columns fos df
        (match cols with
         | None => PlayerFeatures.DEFAULT_ROLLING_COLS
         | Some l => l
         end) per90 minutes_col = Ok (df1, rc) /\ In b rc) ->
  In 3%positive windows ->
  In 10%positive windows ->
  exists short long,
    In (PlayerFeatures.roll_name b 3, short) out /\
    In (PlayerFeatures.roll_name b 10, long) out /\
    In (PlayerFeatures.trend_name b 3 10,
        map (fun ab => PlayerFeatures.sub_cell (fst ab) (snd ab)) (combine short long)) out.
Proof.
  intros H Hb (df1 & rc & Erc & Hc) H3 H10.
  unfold PlayerFeatures.add_player_rolling_features in H.
  destruct (orb (negb (has_col id_col df)) (negb (has_col gw_col df))); [discriminate|].
  rewrite Erc in H. cbn [bind] in H.
  destruct (foldM (PlayerFeatures.numeric_step fos) rc df1) as [df2|e] eqn:E2;
    cbn [bind] in H; [|discriminate].
  destruct (Pandas.sort_values [id_col; gw_col] df2) as [df3|e] eqn:E3;
    cbn [bind] in H; [|discriminate].
  destruct (foldM (fun nc col =>
                     foldM (PlayerFeatures.roll_step fos include_current id_col df3 col)
                           windows nc)
                  rc []) as [nc|e] eqn:E4; cbn [bind] in H; [|discriminate].
  destruct (new_cols_entry fos include_current id_col _ rc windows nc b 3 E4 Hc H3)
    as (r3 & _ & Hr3).
  destruct (new_cols_entry fos include_current id_col _ rc windows nc b 10 E4 Hc H10)
    as (r10 & _ & Hr10).
  pose proof (trend_loop_sets nc b r3 r10 Hb Hr3 Hr10) as Ht.
  rewrite <- (trend_loop_keeps PlayerFeatures.trend_pairs) in Hr3, Hr10.
  set (nc' := fold_left PlayerFeatures.trend_step PlayerFeatures.trend_pairs nc) in *.
  assert (Hout : out = (df3 ++ nc')%list).
  { destruct nc' as [|x l]; [discriminate|]. injection H as <-. reflexivity. }
  subst out. exists r3, r10.
  repeat split; apply in_or_app; right; apply get_col_In; assumption.
Qed.

End TrendTheorem.

Lemma trend_is_short_minus_long_witness :
  exists out,
    PlayerFeatures.add_player_rolling_features Samples.no_float Samples.five_weeks
      [3%positive; 10%positive] None true true "player_id" "gw" "minutes" = Ok out /\
    exists short long,
      In (PlayerFeatures.roll_name "event_points" 3, short) out /\
      In (PlayerFeatures.roll_name "event_points" 10, long) out /\
      In (PlayerFeatures.trend_name "event_points" 3 10,
          map (fun ab => PlayerFeatures.sub_cell (fst ab) (snd ab)) (combine short long)) out.
Proof.
  eexists. split; [vm_compute; reflexivity|].
  apply (trend_is_short_minus_long Samples.no_float Samples.five_weeks
           [3%positive; 10%positive] None true true "player_id" "gw" "minutes").
  - vm_compute. reflexivity.
  - left. reflexivity.
  - eexists. eexists. split; [vm_compute; reflexivity|]. cbn [In]. auto.
  - left. reflexivity.
  - right. left. reflexivity.
Defined.

(** ** The shape of the rolling features *)

Lemma set_col_lengths (N : nat) (n : string) (c : column) (df : frame) :
  (forall m x, In (m, x) df -> List.length x = N) ->
  List.length c = N ->
  forall m x, In (m, x) (set_col n c df) -> List.length x = N.
Proof.
  intros H Hc m x Hin. destruct (set_col_In _ _ _ _ _ Hin) as [[_ ->]|Hin']; [exact Hc|].
  apply (H m x Hin').
Qed.

Section RollingShape.
Variable fos : string -> option (option Qc).

Lemma add_per90_step_shape (mins : column) (F F' : frame) (c : string) :
  PlayerFeatures.add_per90_step fos mins F c = Ok F' ->
  well_formed F -> F <> [] -> List.length mins = nrows F ->
  well_formed F' /\ F' <> [] /\ nrows F' = nrows F /\
  forall n, has_col n F = true -> has_col n F' = true.
Proof.
  intros H Wf Ne Hm. unfold PlayerFeatures.add_per90_step in H.
  destruct (get_col c F) as [cc|] eqn:E; [|injection H as <-; auto].
  destruct (PlayerFeatures.per90_values fos cc mins)
    as [q|e] eqn:Eq; cbn [bind] in H; [|discriminate].
  apply per90_values_ok in Eq. injection H as <-.
  pose proof (well_formed_get_col _ _ _ Wf E) as Lc.
  set (num := map (Pandas.to_numeric fos) cc).
  assert (Ln : List.length num = nrows F) by (unfold num; rewrite length_map; exact Lc).
  assert (W1 : well_formed (set_col c num F)) by (apply well_formed_set_col; assumption).
  assert (N1 : nrows (set_col c num F) = nrows F) by (apply nrows_set_col; assumption).
  assert (Lp : List.length q = nrows (set_col c num F)).
  { rewrite (mapM_length _ _ _ Eq). unfold PlayerFeatures.per90_quotients.
    rewrite length_map, length_combine, length_map, N1. lia. }
  split; [|split; [|split]].
  - apply well_formed_set_col; [exact W1|apply set_col_nonempty|exact Lp].
  - apply set_col_nonempty.
  - rewrite nrows_set_col; [exact N1|apply set_col_nonempty|exact Lp].
  - intros n Hn. apply has_col_set_col_kept, has_col_set_col_kept. exact Hn.
Qed.

Lemma minutes_of_length (mc : column) :
  List.length (PlayerFeatures.minutes_of fos mc) = List.length mc.
Proof.
  unfold PlayerFeatures.minutes_of, PlayerFeatures.replace_zero_col.
  destruct (forallb is_bool (map (Pandas.to_numeric fos) mc)); rewrite ?length_map;
    reflexivity.
Qed.

Lemma add_per90_features_shape (df df' : frame) (cols : list string)
      (minutes_col : string) :
  PlayerFeatures.add_per90_features fos df cols minutes_col = Ok df' ->
  well_formed df -> df <> [] ->
  well_formed df' /\ df' <> [] /\ nrows df' = nrows df /\
  forall n, has_col n df = true -> has_col n df' = true.
Proof.
  intros H Wf Ne. unfold PlayerFeatures.add_per90_features in H.
  destruct (get_col minutes_col df) as [mc|] eqn:E; [|injection H as <-; auto].
  pose proof (well_formed_get_col _ _ _ Wf E) as Lm.
  assert (Hm : List.length (PlayerFeatures.minutes_of fos mc) = nrows df)
    by (rewrite minutes_of_length; exact Lm).
  set (mins := PlayerFeatures.minutes_of fos mc) in *.
  clearbody mins. clear E Lm.
  revert df H Wf Ne Hm. induction cols as [|c cs IH]; intros F H WF NF HF; cbn [foldM] in H.
  - injection H as <-. auto.
  - destruct (PlayerFeatures.add_per90_step fos mins F c) as [F1|e] eqn:E1;
      cbn [bind] in H; [|discriminate].
    destruct (add_per90_step_shape mins F F1 c E1 WF NF HF) as (W1 & N1 & R1 & C1).
    destruct (IH F1 H W1 N1 ltac:(congruence)) as (W2 & N2 & R2 & C2).
    repeat split; auto; congruence.
Qed.

Lemma numeric_loop_shape (cols : list string) (F F' : frame) :
  foldM (PlayerFeatures.numeric_step fos) cols F = Ok F' ->
  well_formed F -> F <> [] ->
  well_formed F' /\ F' <> [] /\ nrows F' = nrows F /\
  forall n, has_col n F = true -> has_col n F' = true.
Proof.
  revert F. induction cols as [|c cols IH]; intros F H Wf Ne; simpl in H.
  - injection H as <-. auto.
  - unfold PlayerFeatures.numeric_step at 1 in H.
    destruct (get_col c F) as [cc|] eqn:E; cbn [bind] in H; [|discriminate].
    pose proof (well_formed_get_col _ _ _ Wf E) as Lc.
    assert (Ln : List.length (map (Pandas.to_numeric fos) cc) = nrows F)
      by (rewrite length_map; exact Lc).
    destruct (IH _ H (well_formed_set_col _ _ _ Wf Ne Ln) (set_col_nonempty _ _ _))
      as (W' & N' & R' & C').
    split; [exact W'|]. split; [exact N'|]. split.
    + rewrite R'. apply nrows_set_col; assumption.
    + intros n Hn. apply C', has_col_set_col_kept, Hn.
Qed.

Lemma roll_loop_lengths (ic : bool) (id_col : string) (df : frame)
      (ps : list (string * positive)) (nc nc' : frame) :
  well_formed df ->
  foldM (fun acc p => PlayerFeatures.roll_step fos ic id_col df (fst p) acc (snd p)) ps nc
  = Ok nc' ->
  (forall m x, In (m, x) nc -> List.length x = nrows df) ->
  forall m x, In (m, x) nc' -> List.length x = nrows df.
Proof.
  intros Wf. revert nc. induction ps as [|[c w] ps IH]; intros nc H Hnc; simpl in H.
  - injection H as <-. exact Hnc.
  - unfold PlayerFeatures.roll_step at 1 in H. cbn [fst snd] in H.
    destruct (get_col id_col df) as [ids|] eqn:Ei; [|discriminate].
    destruct (get_col c df) as [vals|] eqn:Ev; [|discriminate].
    destruct (Pandas.transform _ ids vals) as [r|e] eqn:Er; cbn [bind] in H; [|discriminate].
    apply (IH _ H). apply set_col_lengths; [exact Hnc|].
    rewrite (transform_length _ _ _ _ Er). apply (well_formed_get_col c); assumption.
Qed.

Lemma trend_loop_lengths (N : nat) (ps : list (string * positive * positive)) (nc : frame) :
  (forall m x, In (m, x) nc -> List.length x = N) ->
  forall m x, In (m, x) (fold_left PlayerFeatures.trend_step ps nc) -> List.length x = N.
Proof.
  revert nc. induction ps as [|[[b s] l] ps IH]; intros nc Hnc; simpl; [exact Hnc|].
  apply IH. unfold PlayerFeatures.trend_step.
  destruct (get_col (PlayerFeatures.roll_name b s) nc) as [cs|] eqn:Es; [|exact Hnc].
  destruct (get_col (PlayerFeatures.roll_name b l) nc) as [cl|] eqn:El; [|exact Hnc].
  apply set_col_lengths; [exact Hnc|].
  rewrite length_map, length_combine.
  rewrite (Hnc _ _ (get_col_In _ _ _ Es)), (Hnc _ _ (get_col_In _ _ _ El)). lia.
Qed.

(** X9.  [add_player_rolling_features] keeps the table rectangular: when
    it returns on a well-formed frame, the output has the rows of the input
    in number, every column of the input is still there, and every
    column, old or new, has one cell per row. *)
Theorem rolling_features_keep_rows
        (df : frame) (windows : list positive) (cols : option (list string))
        (per90 include_current : bool) (id_col gw_col minutes_col : string)
        (out : frame) :
  PlayerFeatures.add_player_rolling_features fos df windows cols per90 include_current
    id_col gw_col minutes_col = Ok out ->
  well_formed df ->
  well_formed out /\ nrows out = nrows df /\
  forall n, has_col n df = true -> has_col n out = true.
Proof.
  intros H Wf. unfold PlayerFeatures.add_player_rolling_features in H.
  destruct (has_col id_col df) eqn:Hid; [|discriminate].
  destruct (has_col gw_col df) eqn:Hgw; [|discriminate]. cbn [negb orb] in H.
  assert (Ne : df <> []) by (intros ->; discriminate).
  destruct (PlayerFeatures.roll_columns fos df _ per90 minutes_col) as [[df1 rc]|e] eqn:Erc;
    cbn [bind] in H; [|discriminate].
  assert (S1 : well_formed df1 /\ df1 <> [] /\ nrows df1 = nrows df /\
               forall n, has_col n df = true -> has_col n df1 = true).
  { unfold PlayerFeatures.roll_columns in Erc. destruct per90.
    - destruct (PlayerFeatures.add_per90_features fos df _ minutes_col) as [d|e] eqn:Ed;
        cbn [bind] in Erc; [|discriminate].
      injection Erc as <- _. apply (add_per90_features_shape _ _ _ _ Ed); assumption.
    - injection Erc as <- _. auto. }
  destruct S1 as (W1 & N1 & R1 & C1).
  destruct (foldM (PlayerFeatures.numeric_step fos) rc df1) as [df2|e] eqn:E2;
    cbn [bind] in H; [|discriminate].
  destruct (numeric_loop_shape _ _ _ E2 W1 N1) as (W2 & N2 & R2 & C2).
  destruct (Pandas.sort_values [id_col; gw_col] df2) as [df3|e] eqn:E3;
    cbn [bind] in H; [|discriminate].
  destruct (sort_values_rows [id_col; gw_col] df2 N2) as (idx & Hsort & Hlen & _).
  { intros n [<-|[<-|[]]]; apply C2, C1; assumption. }
  rewrite Hsort in E3. injection E3 as <-.
  set (df3 := Pandas.take_rows idx df2) in *.
  assert (W3 : well_formed df3) by (apply well_formed_take_rows; exact N2).
  assert (N3 : df3 <> []) by (apply take_rows_nonempty; exact N2).
  assert (R3 : nrows df3 = nrows df)
    by (unfold df3; rewrite nrows_take_rows by exact N2; congruence).
  assert (C3 : forall n, has_col n df = true -> has_col n df3 = true).
  { intros n Hn. unfold df3. rewrite has_col_take_rows. apply C2, C1, Hn. }
  destruct (foldM (fun nc col =>
                     foldM (PlayerFeatures.roll_step fos include_current id_col df3 col)
                           windows nc)
                  rc []) as [nc|e] eqn:E4; cbn [bind] in H; [|discriminate].
  rewrite foldM_nested in E4.
  pose proof (roll_loop_lengths include_current id_col df3 _ [] nc W3 E4
                (fun m x (Hin : In (m, x) []) => match Hin with end)) as Lnc.
  pose proof (trend_loop_lengths (nrows df3) PlayerFeatures.trend_pairs nc Lnc) as Lnc'.
  set (nc' := fold_left PlayerFeatures.trend_step PlayerFeatures.trend_pairs nc) in *.
  assert (Hout : out = df3 \/ out = (df3 ++ nc')%list).
  { destruct nc' as [|x l]; injection H as <-; auto. }
  assert (Rapp : nrows (df3 ++ nc')%list = nrows df3).
  { destruct df3 as [|[m c] rest]; [congruence|reflexivity]. }
  destruct Hout as [->| ->].
  - auto.
  - split; [|split].
    + intros n c Hin. rewrite Rapp. apply in_app_or in Hin. destruct Hin as [Hin|Hin].
      * apply (W3 n c Hin).
      * apply (Lnc' n c Hin).
    + congruence.
    + intros n Hn. specialize (C3 n Hn). unfold has_col in *. rewrite get_col_app.
      destruct (get_col n df3); [reflexivity|discriminate].
Qed.

End RollingShape.

Lemma two_rows_well_formed : well_formed Samples.two_rows.
Proof.
  intros n c Hin. simpl in Hin.
  repeat (destruct Hin as [Hin|Hin]; [injection Hin as <- <-; reflexivity|]).
  destruct Hin.
Qed.

Lemma rolling_features_keep_rows_witness :
  exists out,
    PlayerFeatures.add_player_rolling_features Samples.no_float Samples.two_rows
      [3%positive] (Some ["metric"]) true true "player_id" "gw" "minutes" = Ok out /\
    well_formed out /\ nrows out = nrows Samples.two_rows /\
    forall n, has_col n Samples.two_rows = true -> has_col n out = true.
Proof.
  eexists. split; [vm_compute; reflexivity|].
  apply (rolling_features_keep_rows Samples.no_float Samples.two_rows
           [3%positive] (Some ["metric"]) true true "player_id" "gw" "minutes").
  - vm_compute. reflexivity.
  - exact two_rows_well_formed.
Defined.

(** ** The rows of the fixture table *)

Lemma merge_pairs_fst_in (lk rk : list column) (nl nr i : nat) :
  In i (map fst (Pandas.merge_pairs lk rk nl nr)) -> (i < nl)%nat.
Proof.
  unfold Pandas.merge_pairs. intros H. apply in_map_iff in H.
  destruct H as ([i' o] & E & H). cbn [fst] in E. subst i'.
  apply in_flat_map in H. destruct H as (k & Hk & H). apply in_seq in Hk.
  destruct (Pandas.matches_of lk rk nr k) as [|j js].
  - destruct H as [E|[]]. injection E as <- _. lia.
  - apply in_map_iff in H. destruct H as (j' & E & _). injection E as <- _. lia.
Qed.

Lemma gather_only (idx : list nat) (c : column) (x : cell) :
  (forall i, In i idx -> (i < List.length c)%nat) ->
  In x (Pandas.gather idx c) -> In x c.
Proof.
  intros H Hx. unfold Pandas.gather in Hx. apply in_map_iff in Hx.
  destruct Hx as (i & <- & Hi). apply nth_In. apply H. exact Hi.
Qed.

(** A left join brings no new value into a column of the left frame. *)
Lemma merge_left_only (lhs rhs m : frame) (on n : string) (c c' : column) :
  Pandas.merge_left lhs rhs on = Ok m ->
  well_formed lhs ->
  get_col n lhs = Some c ->
  n = on \/ has_col n rhs = false ->
  (forall n', n' ++ "_x" <> n) ->
  get_col n m = Some c' ->
  forall x, In x c' -> In x c.
Proof.
  intros H Hwf Hc Hn Hx Hc'.
  destruct (merge_left_keys _ _ _ _ H) as (lk & rk & El & Er).
  rewrite (merge_left_unfold _ _ _ _ _ El Er) in H.
  destruct (Pandas.keys_compatible lk rk); [|discriminate]. injection H as <-.
  set (pairs := Pandas.merge_pairs [lk] [rk] (nrows lhs) (nrows rhs)) in *.
  pose proof (well_formed_get_col _ _ _ Hwf Hc) as Hlen.
  rewrite get_col_app in Hc'.
  rewrite (get_col_renamed (Pandas.left_name [on] rhs)
             (Pandas.gather (map fst pairs)) lhs n c Hc) in Hc'.
  - injection Hc' as <-. intros x Hin. apply (gather_only (map fst pairs)); [|exact Hin].
    intros i Hi. apply merge_pairs_fst_in in Hi. lia.
  - unfold Pandas.left_name. destruct Hn as [->|Hn].
    + simpl. rewrite String.eqb_refl. reflexivity.
    + rewrite Hn, andb_false_r. reflexivity.
  - intros n' _. unfold Pandas.left_name.
    destruct (andb _ _); [intros E; elim (Hx _ E)|auto].
Qed.

Lemma with_opp_strength_only (t0 dim t1 : frame) (n : string) (c c' : column) :
  FixtureFeatures.with_opp_strength t0 dim = Ok t1 ->
  well_formed t0 ->
  n = "team_id" \/ n = "gw" ->
  get_col n t0 = Some c ->
  get_col n t1 = Some c' ->
  forall x, In x c' -> In x c.
Proof.
  unfold FixtureFeatures.with_opp_strength, FixtureFeatures.dim_lookup.
  intros H Hwf Hn Hc Hc'.
  destruct (get_col "id" dim) as [k|] eqn:Ek;
    [destruct (get_col "strength" dim) as [v|] eqn:Ev|].
  - apply (merge_left_only _ _ _ _ n c c' H Hwf Hc); [| |exact Hc'].
    + right. destruct Hn as [->| ->]; reflexivity.
    + intros n'. destruct Hn as [->| ->]; apply suffix_x_not_key.
  - injection H as <-. intros x Hx. congruence.
  - injection H as <-. intros x Hx. congruence.
Qed.

Lemma with_team_elo_only (t0 dim t1 : frame) (n : string) (c c' : column) :
  FixtureFeatures.with_team_elo t0 dim = Ok t1 ->
  well_formed t0 ->
  n = "team_id" \/ n = "gw" ->
  get_col n t0 = Some c ->
  get_col n t1 = Some c' ->
  forall x, In x c' -> In x c.
Proof.
  unfold FixtureFeatures.with_team_elo, FixtureFeatures.dim_lookup.
  intros H Hwf Hn Hc Hc'.
  destruct (get_col "id" dim) as [k|] eqn:Ek;
    [destruct (get_col "elo" dim) as [v|] eqn:Ev|].
  - destruct (Pandas.merge_left t0 [("team_id", k); ("team_elo_dim", v)] "team_id")
      as [m|e] eqn:Em; cbn [bind] in H; [|discriminate].
    destruct (get_col "team_elo" m) as [e|]; [|discriminate].
    destruct (get_col "team_elo_dim" m) as [d|]; [|discriminate].
    injection H as <-.
    rewrite get_col_drop_col in Hc' by (destruct Hn as [->| ->]; discriminate).
    rewrite get_col_set_col_other in Hc' by (destruct Hn as [->| ->]; discriminate).
    apply (merge_left_only _ _ _ _ n c c' Em Hwf Hc); [| |exact Hc'].
    + destruct Hn as [->| ->]; [left|right]; reflexivity.
    + intros n'. destruct Hn as [->| ->]; apply suffix_x_not_key.
  - injection H as <-. intros x Hx. congruence.
  - injection H as <-. intros x Hx. congruence.
Qed.

(** The teams and the gameweeks of the table of team fixtures are those
    of the fixtures. *)
Lemma team_fixtures_only (fx : frame) (dims : option frame) (team_fx : frame)
      (home away G ids gcol : column) :
  FixtureFeatures.team_fixtures fx dims = Ok team_fx ->
  well_formed fx -> fx <> [] ->
  get_col "home_team" fx = Some home ->
  get_col "away_team" fx = Some away ->
  get_col "gw" fx = Some G ->
  get_col "team_id" team_fx = Some ids ->
  get_col "gw" team_fx = Some gcol ->
  (forall x, In x ids -> In x (home ++ away)) /\
  (forall x, In x gcol -> In x G).
Proof.
  unfold FixtureFeatures.team_fixtures. intros H Hwf Hne Hh Ha Hg Hi Hgc.
  destruct (FixtureFeatures.side_rows fx "home_team" "away_team" 1 _ _) as [hr|e] eqn:Eh;
    cbn [bind] in H; [|discriminate].
  destruct (FixtureFeatures.side_rows fx "away_team" "home_team" 0 _ _) as [ar|e] eqn:Ea;
    cbn [bind] in H; [|discriminate].
  destruct (side_rows_shape _ _ _ _ _ _ _ home Eh Hwf Hne Hh) as (Wh & Nh & _ & Th & Gh).
  destruct (side_rows_shape _ _ _ _ _ _ _ away Ea Hwf Hne Ha) as (Wa & Na & _ & Ta & Ga).
  rewrite Hg in Gh, Ga.
  destruct (concat2_well_formed hr ar Wh Wa Nh) as (W0 & N0 & _).
  pose proof (concat2_get_col "team_id" hr ar _ _ Th Ta) as T0.
  pose proof (concat2_get_col "gw" hr ar _ _ Gh Ga) as G0.
  set (t0 := Pandas.concat_frames [hr; ar]) in *.
  assert (Hdims : forall t2,
             match dims with
             | Some dim =>
                 if empty dim then Ok t0
                 else (let* t := FixtureFeatures.with_opp_strength t0 dim in
                       FixtureFeatures.with_team_elo t dim)
             | None => Ok t0
             end = Ok t2 ->
             forall n c c', n = "team_id" \/ n = "gw" ->
               get_col n t0 = Some c -> get_col n t2 = Some c' ->
               forall x, In x c' -> In x c).
  { intros t2 E2 n c c' Hn Hc Hc'. destruct dims as [dim|]; [destruct (empty dim)|].
    - injection E2 as <-. intros x Hx. congruence.
    - destruct (FixtureFeatures.with_opp_strength t0 dim) as [t1|e] eqn:E1;
        cbn [bind] in E2; [|discriminate].
      destruct (with_opp_strength_keeps _ _ _ n c E1 W0 N0 Hn Hc)
        as ((W1 & N1) & c1 & Hc1 & _).
      intros x Hx.
      apply (with_opp_strength_only _ _ _ n c c1 E1 W0 Hn Hc Hc1).
      apply (with_team_elo_only _ _ _ n c1 c' E2 W1 Hn Hc1 Hc'). exact Hx.
    - injection E2 as <-. intros x Hx. congruence. }
  destruct (match dims with
            | Some dim =>
                if empty dim then Ok t0
                else (let* t := FixtureFeatures.with_opp_strength t0 dim in
                      FixtureFeatures.with_team_elo t dim)
            | None => Ok t0
            end) as [t2|e] eqn:E2; cbn [bind] in H; [|discriminate].
  unfold col_or_raise in H.
  destruct (get_col "team_elo" t2) as [te|]; cbn [bind] in H; [|discriminate].
  destruct (get_col "opp_elo" t2) as [oe|]; cbn [bind] in H; [|discriminate].
  destruct (mapM _ (combine te oe)) as [delta|e]; cbn [bind] in H; [|discriminate].
  injection H as <-.
  rewrite get_col_set_col_other in Hi, Hgc by discriminate.
  split.
  - apply (Hdims t2 eq_refl "team_id" _ ids (or_introl eq_refl) T0 Hi).
  - intros x Hx.
    pose proof (Hdims t2 eq_refl "gw" _ gcol (or_intror eq_refl) G0 Hgc x Hx) as Hin.
    apply in_app_or in Hin. tauto.
Qed.

Lemma filter_length_le {X : Type} (p q : X -> bool) (l : list X) :
  (forall x, In x l -> p x = true -> q x = true) ->
  (List.length (filter p l) <= List.length (filter q l))%nat.
Proof.
  induction l as [|x l IH]; intros H; simpl; [lia|].
  assert (IH' := IH (fun y Hy => H y (or_intror Hy))).
  destruct (p x) eqn:Ep.
  - rewrite (H x (or_introl eq_refl) Ep). simpl. lia.
  - destruct (q x); simpl; lia.
Qed.

Lemma gw_range_In (a b g : Z) : In g (FixtureFeatures.gw_range a b) -> a <= g <= b.
Proof.
  unfold FixtureFeatures.gw_range. intros H. apply in_map_iff in H.
  destruct H as (k & <- & Hk). apply in_seq in Hk. lia.
Qed.

Lemma mask_index_In (mask : list bool) (i : nat) :
  In i (Pandas.mask_index mask) -> (i < List.length mask)%nat.
Proof.
  unfold Pandas.mask_index. intros H. apply filter_In in H. destruct H as [H _].
  apply in_seq in H. lia.
Qed.

(** The count of a horizon is the number of the rows of the team with a
    gameweek in the window. *)
Lemma upcoming_rows_count (team_rows up : frame) (g h : Z) :
  FixtureFeatures.upcoming_rows team_rows g h = Ok up ->
  exists gws,
    get_col "gw" team_rows = Some gws /\
    nrows up = List.length
                 (filter (fun c => Spec.in_window g h (FixtureFeatures.cell_Z c)) gws).
Proof.
  unfold FixtureFeatures.upcoming_rows. intros H.
  destruct (get_col "gw" team_rows) as [gws|] eqn:E; [|discriminate].
  injection H as <-. exists gws. split; [reflexivity|].
  unfold Pandas.filter_rows.
  rewrite nrows_take_rows by (apply (get_col_nonempty _ _ _ E)).
  apply (mask_index_length
           (fun c => andb (g <? FixtureFeatures.cell_Z c) (FixtureFeatures.cell_Z c <=? g + h))).
Qed.

Lemma drop_col_In (d : string) (df : frame) (n : string) (c : column) :
  In (n, c) (Pandas.drop_col d df) -> In (n, c) df.
Proof. unfold Pandas.drop_col. intros H. apply filter_In in H. tauto. Qed.

(** Every column of the table of team fixtures has the same number of
    cells. *)
Lemma team_fixtures_uniform (fx : frame) (dims : option frame) (team_fx : frame)
      (home away : column) :
  FixtureFeatures.team_fixtures fx dims = Ok team_fx ->
  well_formed fx -> fx <> [] ->
  get_col "home_team" fx = Some home ->
  get_col "away_team" fx = Some away ->
  exists N, forall n c, In (n, c) team_fx -> List.length c = N.
Proof.
  unfold FixtureFeatures.team_fixtures. intros H Hwf Hne Hh Ha.
  destruct (FixtureFeatures.side_rows fx "home_team" "away_team" 1 _ _) as [hr|e] eqn:Eh;
    cbn [bind] in H; [|discriminate].
  destruct (FixtureFeatures.side_rows fx "away_team" "home_team" 0 _ _) as [ar|e] eqn:Ea;
    cbn [bind] in H; [|discriminate].
  destruct (side_rows_shape _ _ _ _ _ _ _ home Eh Hwf Hne Hh) as (Wh & Nh & _).
  destruct (side_rows_shape _ _ _ _ _ _ _ away Ea Hwf Hne Ha) as (Wa & Na & _).
  destruct (concat2_well_formed hr ar Wh Wa Nh) as (W0 & N0 & _).
  set (t0 := Pandas.concat_frames [hr; ar]) in *.
  assert (Hdims : forall t2,
             match dims with
             | Some dim =>
                 if empty dim then Ok t0
                 else (let* t := FixtureFeatures.with_opp_strength t0 dim in
                       FixtureFeatures.with_team_elo t dim)
             | None => Ok t0
             end = Ok t2 ->
             exists N, forall n c, In (n, c) t2 -> List.length c = N).
  { intros t2 E2.
    assert (Hbase : exists N, forall n c, In (n, c) t0 -> List.length c = N)
      by (exists (nrows t0); exact W0).
    destruct dims as [dim|]; [destruct (empty dim)|]; try (injection E2 as <-; exact Hbase).
    destruct (FixtureFeatures.with_opp_strength t0 dim) as [t1|e] eqn:E1;
      cbn [bind] in E2; [|discriminate].
    assert (S1 : well_formed t1 /\ t1 <> []).
    { unfold FixtureFeatures.with_opp_strength in E1.
      destruct (FixtureFeatures.dim_lookup dim "id" "strength" "opp_id" "opp_strength").
      - apply (merge_left_well_formed _ _ _ _ E1 N0).
      - injection E1 as <-. auto. }
    destruct S1 as [W1 N1].
    unfold FixtureFeatures.with_team_elo in E2.
    destruct (FixtureFeatures.dim_lookup dim "id" "elo" "team_id" "team_elo_dim");
      [|injection E2 as <-; exists (nrows t1); exact W1].
    destruct (Pandas.merge_left t1 f "team_id") as [m|e] eqn:Em; cbn [bind] in E2;
      [|discriminate].
    destruct (merge_left_well_formed _ _ _ _ Em N1) as [Wm Nm].
    destruct (get_col "team_elo" m) as [e|] eqn:Ee; [|discriminate].
    destruct (get_col "team_elo_dim" m) as [d|] eqn:Ed; [|discriminate].
    injection E2 as <-. exists (nrows m). intros n c Hin.
    apply drop_col_In in Hin. revert n c Hin. apply set_col_lengths; [exact Wm|].
    rewrite length_map, length_combine.
    rewrite (well_formed_get_col _ _ _ Wm Ee), (well_formed_get_col _ _ _ Wm Ed). lia. }
  destruct (match dims with
            | Some dim =>
                if empty dim then Ok t0
                else (let* t := FixtureFeatures.with_opp_strength t0 dim in
                      FixtureFeatures.with_team_elo t dim)
            | None => Ok t0
            end) as [t2|e] eqn:E2; cbn [bind] in H; [|discriminate].
  destruct (Hdims t2 eq_refl) as [N HN].
  unfold col_or_raise in H.
  destruct (get_col "team_elo" t2) as [te|] eqn:Ete; cbn [bind] in H; [|discriminate].
  destruct (get_col "opp_elo" t2) as [oe|] eqn:Eoe; cbn [bind] in H; [|discriminate].
  destruct (mapM _ (combine te oe)) as [delta|e] eqn:Ed; cbn [bind] in H; [|discriminate].
  injection H as <-. exists N. apply set_col_lengths; [exact HN|].
  rewrite (mapM_length _ _ _ Ed), length_combine.
  rewrite (HN _ _ (get_col_In _ _ _ Ete)), (HN _ _ (get_col_In _ _ _ Eoe)). lia.
Qed.

Lemma py_min_in (l : list Z) (x : Z) : In (py_min x l) (x :: l).
Proof.
  unfold py_min. revert x. induction l as [|z l IH]; simpl; intros x; [auto|].
  destruct (IH (Z.min x z)) as [H|H].
  - destruct (Z.min_spec x z) as [[_ E]|[_ E]]; rewrite E in *; auto.
  - auto.
Qed.

Lemma sort_by_In {X : Type} (leb : X -> X -> bool) (l : list X) (x : X) :
  In x (Pandas.sort_by leb l) -> In x l.
Proof.
  induction l as [|y l IH]; simpl; intros H; [exact H|].
  apply insert_by_In in H. destruct H as [->|H]; auto.
Qed.

Lemma unique_In (l : list cell) (x : cell) :
  In x (FixtureFeatures.unique l) -> In x l /\ is_na x = false.
Proof.
  induction l as [|c l IH]; simpl; [intros []|].
  destruct (is_na c) eqn:E.
  - intros H. destruct (IH H). auto.
  - intros [<-|H]; [auto|]. apply filter_In in H. destruct H as [H _].
    destruct (IH H). auto.
Qed.

Section FixtureRowsOf.
Variable fos : string -> option (option Qc).

(** The steps of a call that returns a table, and the row of the loops
    behind every row of the table. *)
Lemma build_rows (fixtures : frame) (dims : option frame) (hs : list Z) (out : frame) :
  FixtureFeatures.build_team_fixture_difficulty fos fixtures dims hs = Ok out ->
  empty fixtures = false -> well_formed fixtures ->
  exists home away gws gw team_fx ids gcol g0 gs teams rows,
    get_col "home_team" fixtures = Some home /\
    get_col "away_team" fixtures = Some away /\
    get_col "gw" (FixtureFeatures._ensure_gw_col fixtures) = Some gws /\
    mapM astype_int gws = Ok gw /\
    get_col "team_id" team_fx = Some ids /\
    get_col "gw" team_fx = Some gcol /\
    List.length ids = List.length gcol /\
    (forall x, In x ids <-> In x (home ++ away)) /\
    (forall x, In x gcol <-> In x (map VInt gw)) /\
    map FixtureFeatures.cell_Z gcol = g0 :: gs /\
    FixtureFeatures.py_sorted (FixtureFeatures.unique ids) = Ok teams /\
    out = Pandas.frame_of_rows rows /\
    Forall2 (fun p row =>
               FixtureFeatures.gw_row fos (FixtureFeatures.rows_of_team team_fx ids (fst p)) hs
                 (fst p) (snd p) = Ok row)
            (list_prod teams (FixtureFeatures.gw_range (py_min g0 gs) (py_max g0 gs)))
            rows.
Proof.
  unfold FixtureFeatures.build_team_fixture_difficulty. intros H He Hwf. rewrite He in H.
  pose proof (empty_false_nonempty _ He) as Hne.
  destruct (forallb _ FixtureFeatures.required) eqn:Ereq; cbn [negb] in H; [|discriminate].
  unfold col_or_raise in H.
  destruct (get_col "gw" (FixtureFeatures._ensure_gw_col fixtures)) as [gws|] eqn:Egws;
    cbn [bind] in H; [|discriminate].
  destruct (mapM astype_int gws) as [gw|e] eqn:Egw; cbn [bind] in H; [|discriminate].
  set (fx := set_col "gw" (map VInt gw) (FixtureFeatures._ensure_gw_col fixtures)) in *.
  destruct (FixtureFeatures.team_fixtures fx dims) as [team_fx|e] eqn:Etf;
    cbn [bind] in H; [|discriminate].
  destruct (FixtureFeatures.difficulty_rows fos team_fx hs) as [rows|e] eqn:Erows;
    cbn [bind] in H; [|discriminate].
  injection H as <-.
  destruct (ensure_gw_col_shape fixtures "home_team" Hwf Hne ltac:(discriminate))
    as (Wf1 & Ne1 & Nr1 & Hh).
  destruct (ensure_gw_col_shape fixtures "away_team" Hwf Hne ltac:(discriminate))
    as (_ & _ & _ & Ha).
  unfold FixtureFeatures.required in Ereq. cbn [forallb] in Ereq.
  apply andb_prop in Ereq. destruct Ereq as [_ Ereq].
  apply andb_prop in Ereq. destruct Ereq as [Rh Ereq].
  apply andb_prop in Ereq. destruct Ereq as [Ra _].
  destruct (has_col_get_col _ _ Rh) as [home Eh].
  destruct (has_col_get_col _ _ Ra) as [away Ea].
  pose proof (mapM_length _ _ _ Egw) as Lgw.
  pose proof (well_formed_get_col _ _ _ Wf1 Egws) as Lgws.
  assert (Lfx : List.length (map VInt gw) = nrows (FixtureFeatures._ensure_gw_col fixtures))
    by (rewrite length_map; congruence).
  assert (Wfx : well_formed fx) by (apply well_formed_set_col; assumption).
  assert (Nfx : fx <> []) by apply set_col_nonempty.
  assert (Hfx : get_col "home_team" fx = Some home)
    by (unfold fx; rewrite get_col_set_col_other by discriminate; exact Eh).
  assert (Afx : get_col "away_team" fx = Some away)
    by (unfold fx; rewrite get_col_set_col_other by discriminate; exact Ea).
  assert (Gfx : get_col "gw" fx = Some (map VInt gw)) by apply get_col_set_col_same.
  destruct (team_fixtures_columns _ _ _ _ _ _ Etf Wfx Nfx Hfx Afx Gfx)
    as (ids & gcol & I1 & G1 & Hin1 & Hin2 & _).
  destruct (team_fixtures_only _ _ _ _ _ _ _ _ Etf Wfx Nfx Hfx Afx Gfx I1 G1)
    as [Ho1 Ho2].
  destruct (team_fixtures_uniform _ _ _ _ _ Etf Wfx Nfx Hfx Afx) as [N HN].
  assert (Lig : List.length ids = List.length gcol).
  { rewrite (HN _ _ (get_col_In _ _ _ I1)), (HN _ _ (get_col_In _ _ _ G1)). reflexivity. }
  destruct (difficulty_rows_shape fos _ _ _ Erows)
    as (gcol' & ids' & g0 & gs & teams & Eg' & Emin & Ei' & Eteams & HF).
  rewrite G1 in Eg'. injection Eg' as <-. rewrite I1 in Ei'. injection Ei' as <-.
  exists home, away, gws, gw, team_fx, ids, gcol, g0, gs, teams, rows.
  rewrite <- Hh, <- Ha.
  split; [exact Eh|]. split; [exact Ea|].
  split; [first [exact Egws|reflexivity]|]. split; [first [exact Egw|reflexivity]|].
  split; [exact I1|]. split; [exact G1|]. split; [exact Lig|]. split; [|split].
  - intros x. split; [apply Ho1|apply Hin1].
  - intros x. split; [apply Ho2|].
    intros Hx. apply Hin2, in_or_app. left. exact Hx.
  - auto.
Qed.

(** The row of the loops behind row [i] of the table. *)
Lemma table_row (team_fx : frame) (ids : column) (hs : list Z)
      (pairs : list (cell * Z)) (rows : list Pandas.dict) (i : nat) (t c : cell) :
  Forall2 (fun p row =>
             FixtureFeatures.gw_row fos (FixtureFeatures.rows_of_team team_fx ids (fst p)) hs
               (fst p) (snd p) = Ok row) pairs rows ->
  Spec.cell_at "team_id" (Pandas.frame_of_rows rows) i = Some t ->
  Spec.cell_at "gw" (Pandas.frame_of_rows rows) i = Some c ->
  exists g row,
    c = VInt g /\
    nth_error pairs i = Some (t, g) /\
    nth_error rows i = Some row /\
    FixtureFeatures.gw_row fos (FixtureFeatures.rows_of_team team_fx ids t) hs t g = Ok row /\
    forall h n v, In h hs -> In n (FixtureFeatures.horizon_names h) ->
      Pandas.dict_get n row = Some v ->
      Spec.cell_at n (Pandas.frame_of_rows rows) i = Some v.
Proof.
  intros HF Ht Hg. unfold Spec.cell_at in Ht, Hg.
  destruct (get_col "team_id" (Pandas.frame_of_rows rows)) as [tcol|] eqn:Etcol; [|discriminate].
  pose proof (frame_of_rows_nonempty _ _ _ Etcol) as Hrows.
  assert (Hpairs : pairs <> []).
  { intros E. rewrite E in HF. inversion HF. congruence. }
  destruct (rows_keys fos _ _ _ _ _ HF) as [Kt Kg].
  rewrite (rows_columns fos _ _ _ _ _ "team_id" HF Hpairs) in Etcol by auto.
  rewrite (rows_columns fos _ _ _ _ _ "gw" HF Hpairs) in Hg by auto.
  injection Etcol as <-. rewrite Kt, nth_error_map in Ht. rewrite Kg, nth_error_map in Hg.
  destruct (nth_error pairs i) as [[t' g']|] eqn:Ep; [|discriminate].
  cbn in Ht, Hg. injection Ht as ->. injection Hg as <-.
  destruct (Forall2_nth_both _ _ _ _ _ HF Ep) as (row & Erow & Hrow). cbn [fst snd] in Hrow.
  exists g', row. split; [reflexivity|]. split; [reflexivity|]. split; [exact Erow|].
  split; [exact Hrow|].
  intros h n v Hh Hn Hv. unfold Spec.cell_at.
  rewrite (rows_columns fos _ _ _ _ _ n HF Hpairs) by (right; right; exists h; auto).
  rewrite nth_error_map, Erow. cbn [option_map]. unfold Pandas.dict_cell. rewrite Hv.
  reflexivity.
Qed.

End FixtureRowsOf.

Section FixtureGrid.
Variable fos : string -> option (option Qc).

(** X10.  The table of [build_team_fixture_difficulty] has no row outside
    the grid: every row is keyed by a team id of the home or the away
    column of the fixtures, never a missing one, and by an integer
    gameweek between the least and the greatest gameweek of the fixtures. *)
Theorem fixture_rows_in_grid (fixtures : frame) (dims : option frame) (hs : list Z)
        (out : frame) :
  FixtureFeatures.build_team_fixture_difficulty fos fixtures dims hs = Ok out ->
  empty fixtures = false ->
  well_formed fixtures ->
  exists home away gws gw,
    get_col "home_team" fixtures = Some home /\
    get_col "away_team" fixtures = Some away /\
    get_col "gw" (FixtureFeatures._ensure_gw_col fixtures) = Some gws /\
    mapM astype_int gws = Ok gw /\
    forall i t c,
      Spec.cell_at "team_id" out i = Some t ->
      Spec.cell_at "gw" out i = Some c ->
      In t (home ++ away) /\ is_na t = false /\
      exists g a b, c = VInt g /\ In a gw /\ In b gw /\ a <= g <= b.
Proof.
  intros H He Hwf.
  destruct (build_rows fos _ _ _ _ H He Hwf)
    as (home & away & gws & gw & team_fx & ids & gcol & g0 & gs & teams & rows
        & Eh & Ea & Egws & Egw & Ei & Eg & _ & Hids & Hgcol & Emin & Eteams & -> & HF).
  exists home, away, gws, gw. repeat (split; [assumption|]).
  intros i t c Ht Hc.
  destruct (table_row fos _ _ _ _ _ i t c HF Ht Hc) as (g & row & -> & Ep & _).
  apply nth_error_In in Ep. apply in_prod_iff in Ep. destruct Ep as [Hteam Hrange].
  unfold FixtureFeatures.py_sorted in Eteams.
  destruct (orb _ _); [|discriminate]. injection Eteams as <-.
  apply sort_by_In in Hteam. apply unique_In in Hteam. destruct Hteam as [Hin Hna].
  split; [apply Hids; exact Hin|]. split; [exact Hna|].
  apply gw_range_In in Hrange.
  assert (Hgw : forall z, In z (g0 :: gs) -> In z gw).
  { intros z Hz. rewrite <- Emin in Hz. apply in_map_iff in Hz.
    destruct Hz as (x & <- & Hx). apply Hgcol in Hx. apply in_map_iff in Hx.
    destruct Hx as (z' & <- & Hz'). exact Hz'. }
  exists g, (py_min g0 gs), (py_max g0 gs). split; [reflexivity|].
  split; [apply Hgw, py_min_in|]. split; [apply Hgw, py_max_in|exact Hrange].
Qed.

(** X11.  A longer horizon never counts fewer fixtures: in every row of
    the table, for two horizons [h1 <= h2] of the call, the count of [h1]
    is at most the count of [h2]. *)
Theorem fixture_count_monotone (fixtures : frame) (dims : option frame) (hs : list Z)
        (out : frame) :
  FixtureFeatures.build_team_fixture_difficulty fos fixtures dims hs = Ok out ->
  empty fixtures = false ->
  well_formed fixtures ->
  forall i t c h1 h2,
    Spec.cell_at "team_id" out i = Some t ->
    Spec.cell_at "gw" out i = Some c ->
    In h1 hs -> In h2 hs -> h1 <= h2 ->
    exists k1 k2 : nat,
      Spec.cell_at (FixtureFeatures.name_count h1) out i = Some (VInt (Z.of_nat k1)) /\
      Spec.cell_at (FixtureFeatures.name_count h2) out i = Some (VInt (Z.of_nat k2)) /\
      (k1 <= k2)%nat.
Proof.
  intros H He Hwf i t c h1 h2 Ht Hc H1 H2 Hle.
  destruct (build_rows fos _ _ _ _ H He Hwf)
    as (home & away & gws & gw & team_fx & ids & gcol & g0 & gs & teams & rows
        & _ & _ & _ & _ & _ & _ & _ & _ & _ & _ & _ & -> & HF).
  destruct (table_row fos _ _ _ _ _ i t c HF Ht Hc) as (g & row & -> & _ & _ & Hrow & Hcell).
  destruct (gw_row_cells fos _ _ _ _ _ Hrow) as (_ & _ & Hcells).
  destruct (Hcells h1 H1) as (up1 & Eup1 & Hc1 & _).
  destruct (Hcells h2 H2) as (up2 & Eup2 & Hc2 & _).
  exists (nrows up1), (nrows up2).
  split; [apply (Hcell h1); [exact H1|left; reflexivity|exact Hc1]|].
  split; [apply (Hcell h2); [exact H2|left; reflexivity|exact Hc2]|].
  destruct (upcoming_rows_count _ _ _ _ Eup1) as (g1 & E1 & ->).
  destruct (upcoming_rows_count _ _ _ _ Eup2) as (g2 & E2 & ->).
  rewrite E1 in E2. injection E2 as <-.
  apply filter_length_le. intros x _. unfold Spec.in_window.
  intros Hx. apply andb_prop in Hx. destruct Hx as [Ha Hb].
  apply Z.leb_le in Hb. rewrite Ha. apply Z.leb_le. lia.
Qed.

(** X12.  Nothing is ahead of the last gameweek: in a row whose gameweek
    is at least every gameweek of the fixtures, the count of every horizon
    is 0 and the four aggregates are missing values. *)
Theorem fixture_last_gameweek_empty (fixtures : frame) (dims : option frame) (hs : list Z)
        (out : frame) :
  FixtureFeatures.build_team_fixture_difficulty fos fixtures dims hs = Ok out ->
  empty fixtures = false ->
  well_formed fixtures ->
  exists gws gw,
    get_col "gw" (FixtureFeatures._ensure_gw_col fixtures) = Some gws /\
    mapM astype_int gws = Ok gw /\
    forall i t g h,
      Spec.cell_at "team_id" out i = Some t ->
      Spec.cell_at "gw" out i = Some (VInt g) ->
      In h hs ->
      (forall a, In a gw -> a <= g) ->
      Spec.cell_at (FixtureFeatures.name_count h) out i = Some (VInt 0) /\
      Spec.cell_at (FixtureFeatures.name_home h) out i = Some NA /\
      Spec.cell_at (FixtureFeatures.name_opp_elo h) out i = Some NA /\
      Spec.cell_at (FixtureFeatures.name_opp_strength h) out i = Some NA /\
      Spec.cell_at (FixtureFeatures.name_elo_delta h) out i = Some NA.
Proof.
  intros H He Hwf.
  destruct (build_rows fos _ _ _ _ H He Hwf)
    as (home & away & gws & gw & team_fx & ids & gcol & g0 & gs & teams & rows
        & _ & _ & Egws & Egw & Ei & Eg & Lig & _ & Hgcol & _ & _ & -> & HF).
  exists gws, gw. split; [exact Egws|]. split; [exact Egw|].
  intros i t g h Ht Hc Hh Hlast.
  destruct (table_row fos _ _ _ _ _ i t _ HF Ht Hc) as (g' & row & E & _ & _ & Hrow & Hcell).
  injection E as <-.
  destruct (gw_row_cells fos _ _ _ _ _ Hrow) as (_ & _ & Hcells).
  destruct (Hcells h Hh) as (up & Eup & Hcnt & Hzero).
  destruct (upcoming_rows_count _ _ _ _ Eup) as (gtr & Etr & Hn).
  assert (Hnone : nrows up = 0%nat).
  { rewrite Hn. apply length_zero_iff_nil. apply filter_none. intros x Hx.
    unfold FixtureFeatures.rows_of_team, Pandas.filter_rows in Etr.
    rewrite get_col_take_rows, Eg in Etr. cbn [option_map] in Etr. injection Etr as <-.
    apply gather_only in Hx.
    - apply Hgcol in Hx. apply in_map_iff in Hx. destruct Hx as (z & <- & Hz).
      specialize (Hlast z Hz). unfold Spec.in_window. cbn [FixtureFeatures.cell_Z].
      destruct (Z.ltb_spec g z); [lia|reflexivity].
    - intros j Hj. apply mask_index_In in Hj. rewrite length_map in Hj. lia. }
  destruct (Hzero Hnone) as (Z1 & Z2 & Z3 & Z4).
  rewrite Hnone in Hcnt.
  unfold FixtureFeatures.horizon_names in Hcell.
  repeat split; apply (Hcell h); try exact Hh; cbn [In]; auto 10.
Qed.

End FixtureGrid.

Lemma fixture_rows_in_grid_witness :
  exists out,
    FixtureFeatures.build_team_fixture_difficulty Samples.no_float Samples.three_fixtures
      (Some Samples.three_teams) [1; 2] = Ok out /\
    exists home away gws gw,
      get_col "home_team" Samples.three_fixtures = Some home /\
      get_col "away_team" Samples.three_fixtures = Some away /\
      get_col "gw" (FixtureFeatures._ensure_gw_col Samples.three_fixtures) = Some gws /\
      mapM astype_int gws = Ok gw /\
      forall i t c,
        Spec.cell_at "team_id" out i = Some t ->
        Spec.cell_at "gw" out i = Some c ->
        In t (home ++ away) /\ is_na t = false /\
        exists g a b, c = VInt g /\ In a gw /\ In b gw /\ a <= g <= b.
Proof.
  eexists. split; [vm_compute; reflexivity|].
  apply (fixture_rows_in_grid Samples.no_float Samples.three_fixtures
           (Some Samples.three_teams) [1; 2]).
  - vm_compute. reflexivity.
  - reflexivity.
  - exact three_fixtures_well_formed.
Defined.

Lemma fixture_count_monotone_witness :
  exists out,
    FixtureFeatures.build_team_fixture_difficulty Samples.no_float Samples.three_fixtures
      (Some Samples.three_teams) [1; 2] = Ok out /\
    exists k1 k2 : nat,
      Spec.cell_at (FixtureFeatures.name_count 1) out 0 = Some (VInt (Z.of_nat k1)) /\
      Spec.cell_at (FixtureFeatures.name_count 2) out 0 = Some (VInt (Z.of_nat k2)) /\
      (k1 <= k2)%nat.
Proof.
  eexists. split; [vm_compute; reflexivity|].
  apply (fixture_count_monotone Samples.no_float Samples.three_fixtures
           (Some Samples.three_teams) [1; 2] _ ltac:(vm_compute; reflexivity) eq_refl
           three_fixtures_well_formed 0%nat (VInt 10) (VInt 1) 1 2).
  - vm_compute. reflexivity.
  - vm_compute. reflexivity.
  - left. reflexivity.
  - right. left. reflexivity.
  - lia.
Defined.

Lemma fixture_last_gameweek_empty_witness :
  exists out,
    FixtureFeatures.build_team_fixture_difficulty Samples.no_float Samples.three_fixtures
      (Some Samples.three_teams) [1; 2] = Ok out /\
    exists gws gw,
      get_col "gw" (FixtureFeatures._ensure_gw_col Samples.three_fixtures) = Some gws /\
      mapM astype_int gws = Ok gw /\
      forall i t g h,
        Spec.cell_at "team_id" out i = Some t ->
        Spec.cell_at "gw" out i = Some (VInt g) ->
        In h [1; 2] ->
        (forall a, In a gw -> a <= g) ->
        Spec.cell_at (FixtureFeatures.name_count h) out i = Some (VInt 0) /\
        Spec.cell_at (FixtureFeatures.name_home h) out i = Some NA /\
        Spec.cell_at (FixtureFeatures.name_opp_elo h) out i = Some NA /\
        Spec.cell_at (FixtureFeatures.name_opp_strength h) out i = Some NA /\
        Spec.cell_at (FixtureFeatures.name_elo_delta h) out i = Some NA.
Proof.
  eexists. split; [vm_compute; reflexivity|].
  apply (fixture_last_gameweek_empty Samples.no_float Samples.three_fixtures
           (Some Samples.three_teams) [1; 2]).
  - vm_compute. reflexivity.
  - reflexivity.
  - exact three_fixtures_well_formed.
Defined.

(** ** The schema check *)

Lemma validate_columns_ok (df : frame) (required : list string) (table : string) :
  Schema.validate_columns df required table = Ok tt <->
  forall c, In c required -> has_col c df = true.
Proof.
  unfold Schema.validate_columns.
  destruct (filter (fun c => negb (has_col c df)) required) as [|x l] eqn:E.
  - split; [|reflexivity]. intros _ c Hc.
    destruct (has_col c df) eqn:Eh; [reflexivity|].
    assert (Hin : In c (filter (fun c => negb (has_col c df)) required))
      by (apply filter_In; rewrite Eh; auto).
    rewrite E in Hin. destruct Hin.
  - split; [discriminate|]. intros H.
    assert (Hin : In x (filter (fun c => negb (has_col c df)) required))
      by (rewrite E; left; reflexivity).
    apply filter_In in Hin. destruct Hin as [Hin Hx]. rewrite (H x Hin) in Hx. discriminate.
Qed.

Lemma validate_columns_raises (df : frame) (required : list string) (table : string)
      (e : exn) :
  Schema.validate_columns df required table = Raise e -> exists msg, e = ValueError msg.
Proof.
  unfold Schema.validate_columns. destruct (filter _ required); [discriminate|].
  intros H. injection H as <-. eauto.
Qed.

Lemma validate_loop (t : tables) (l : list (string * list string)) :
  (foldM (fun _ nr =>
            match lookup (fst nr) t with
            | None => Raise (ValueError ("Missing table in load output: " ++ fst nr))
            | Some df => Schema.validate_columns df (snd nr) (fst nr)
            end) l tt = Ok tt <->
   forall name required, In (name, required) l ->
     exists df, lookup name t = Some df /\ forall c, In c required -> has_col c df = true) /\
  (forall e,
     foldM (fun _ nr =>
              match lookup (fst nr) t with
              | None => Raise (ValueError ("Missing table in load output: " ++ fst nr))
              | Some df => Schema.validate_columns df (snd nr) (fst nr)
              end) l tt = Raise e ->
     exists msg, e = ValueError msg).
Proof.
  induction l as [|[n r] l [IH1 IH2]]; cbn [foldM fst snd].
  - split; [|discriminate]. split; [intros _ name required []|reflexivity].
  - destruct (lookup n t) as [df|] eqn:El; cbn [bind].
    + destruct (Schema.validate_columns df r n) as [[]|e0] eqn:Ev; cbn [bind].
      * pose proof (proj1 (validate_columns_ok _ _ _) Ev) as Ev'. split; [|exact IH2].
        rewrite IH1. split.
        -- intros H name required [E|Hin]; [|apply H; exact Hin].
           injection E as <- <-. exists df. auto.
        -- intros H name required Hin. apply H. right. exact Hin.
      * split.
        -- split; [discriminate|]. intros H.
           destruct (H n r (or_introl eq_refl)) as (df' & E' & Hc).
           assert (df' = df) by congruence. subst df'.
           pose proof (proj2 (validate_columns_ok df r n) Hc). congruence.
        -- intros e H. injection H as <-. apply (validate_columns_raises _ _ _ _ Ev).
    + split.
      * split; [discriminate|]. intros H.
        destruct (H n r (or_introl eq_refl)) as (df' & E' & _). congruence.
      * intros e H. injection H as <-. eauto.
Qed.

(** X13.  [validate_all] passes exactly when every table of the schema is
    in the dictionary with all its required columns; when it fails, it
    fails with a [ValueError]. *)
Theorem validate_all_passes (t : tables) :
  (Schema.validate_all t = Ok tt <->
   forall name required, In (name, required) Schema.REQUIRED_COLUMNS ->
     exists df, lookup name t = Some df /\ forall c, In c required -> has_col c df = true) /\
  (forall e, Schema.validate_all t = Raise e -> exists msg, e = ValueError msg).
Proof. apply validate_loop. Qed.

(** X14.  A validated dictionary gives [compute_finished_gws] the columns
    it needs: the matches table has the gameweek column the index reads
    ([gw] when present, [gameweek] otherwise) and the finished column, and
    the index is computed as soon as the gameweek cells are integers. *)
Theorem validated_matches_give_index (t : tables) :
  Schema.validate_all t = Ok tt ->
  exists m gws fin,
    lookup "matches" t = Some m /\
    get_col (if has_col "gw" m then "gw" else "gameweek") m = Some gws /\
    get_col "finished" m = Some fin /\
    forall gw, mapM astype_int gws = Ok gw ->
      exists idx, Index.compute_finished_gws m = Ok idx.
Proof.
  intros H0. pose proof (proj1 (proj1 (validate_loop t Schema.REQUIRED_COLUMNS)) H0) as H.
  destruct (H "matches" _ ltac:(right; right; left; reflexivity)) as (m & Em & Hc).
  assert (Hg : has_col "gameweek" m = true) by (apply Hc; cbn [In]; auto).
  assert (Hf : has_col "finished" m = true) by (apply Hc; cbn [In]; auto 10).
  destruct (has_col_get_col _ _ Hf) as [fin Efin].
  assert (Egw : exists gws, get_col (if has_col "gw" m then "gw" else "gameweek") m
                            = Some gws).
  { destruct (has_col "gw" m) eqn:E; apply has_col_get_col; assumption. }
  destruct Egw as [gws Egws].
  exists m, gws, fin. repeat split; try assumption.
  intros gw Hgw. unfold Index.compute_finished_gws. rewrite Egws, Efin, Hgw.
  cbn [bind]. eauto.
Qed.

(** X15.  A validated dictionary passes the column check of
    [build_team_fixture_difficulty]: once [gameweek] is aliased to [gw],
    the fixtures table has every column the builder requires. *)
Theorem validated_fixtures_have_required (t : tables) :
  Schema.validate_all t = Ok tt ->
  exists fx,
    lookup "fixtures" t = Some fx /\
    forall c, In c FixtureFeatures.required ->
              has_col c (FixtureFeatures._ensure_gw_col fx) = true.
Proof.
  intros H0. pose proof (proj1 (proj1 (validate_loop t Schema.REQUIRED_COLUMNS)) H0) as H.
  destruct (H "fixtures" _ ltac:(right; right; right; left; reflexivity)) as (fx & Ef & Hc).
  exists fx. split; [exact Ef|].
  assert (Hg : has_col "gameweek" fx = true) by (apply Hc; cbn [In]; auto).
  destruct (has_col_get_col _ _ Hg) as [gc Egc].
  assert (Hkeep : forall c, has_col c fx = true ->
                            has_col c (FixtureFeatures._ensure_gw_col fx) = true).
  { intros c Hcol. unfold FixtureFeatures._ensure_gw_col. rewrite Egc.
    destruct (has_col "gw" fx); [exact Hcol|]. apply has_col_set_col_kept. exact Hcol. }
  intros c [<-|Hin].
  - unfold FixtureFeatures._ensure_gw_col. rewrite Egc.
    destruct (has_col "gw" fx) eqn:E; [exact E|].
    rewrite has_col_set_col, String.eqb_refl. reflexivity.
  - apply Hkeep, Hc. cbn [In] in Hin. cbn [In]. intuition.
Qed.

Lemma validated_matches_give_index_witness :
  exists m gws fin,
    lookup "matches" Samples.valid_tables = Some m /\
    get_col (if has_col "gw" m then "gw" else "gameweek") m = Some gws /\
    get_col "finished" m = Some fin /\
    forall gw, mapM astype_int gws = Ok gw ->
      exists idx, Index.compute_finished_gws m = Ok idx.
Proof.
  apply (validated_matches_give_index Samples.valid_tables). vm_compute. reflexivity.
Defined.

Lemma validated_fixtures_have_required_witness :
  exists fx,
    lookup "fixtures" Samples.valid_tables = Some fx /\
    forall c, In c FixtureFeatures.required ->
              has_col c (FixtureFeatures._ensure_gw_col fx) = true.
Proof.
  apply (validated_fixtures_have_required Samples.valid_tables). vm_compute. reflexivity.
Defined.

(** ** The loader *)

Lemma insert_by_In_rev {X : Type} (leb : X -> X -> bool) (x y : X) (l : list X) :
  y = x \/ In y l -> In y (Pandas.insert_by leb x l).
Proof.
  induction l as [|z l IH]; simpl.
  - intros [->|[]]. left. reflexivity.
  - destruct (leb x z); simpl.
    + intros [->|[->|H]]; auto.
    + intros [->|[->|H]]; auto.
Qed.

Lemma sort_by_In_rev {X : Type} (leb : X -> X -> bool) (l : list X) (x : X) :
  In x l -> In x (Pandas.sort_by leb l).
Proof.
  induction l as [|y l IH]; simpl; intros H; [exact H|].
  apply insert_by_In_rev. destruct H as [->|H]; auto.
Qed.

(** X16.  [list_gw_dirs] on an existing root lists exactly the entries
    that are directories, whose name starts with [gw] in any case and
    continues with an integer, each with that integer, in ascending order
    of the integers; without a root it raises [FileNotFoundError]. *)
Theorem list_gw_dirs_sorted (entries : list Loaders.dirent) :
  (exists dirs,
     Loaders.list_gw_dirs (Some entries) = Ok dirs /\
     StronglySorted (fun a b => snd (fst a) <= snd (fst b)) dirs /\
     forall n k p,
       In (n, k, p) dirs <->
       In p entries /\ Loaders.d_is_dir p = true /\
       String.prefix "gw" (lower (Loaders.d_name p)) = true /\
       py_int (Loaders.drop2 (Loaders.d_name p)) = Some k /\
       n = Loaders.d_name p) /\
  exists msg, Loaders.list_gw_dirs None = Raise (FileNotFoundError msg).
Proof.
  split; [|eexists; reflexivity].
  eexists. split; [reflexivity|]. split.
  - assert (S : StronglySorted
                  (fun a b : string * Z * Loaders.dirent =>
                     (snd (fst a) <=? snd (fst b)) = true)
                  (Pandas.sort_by (fun a b => snd (fst a) <=? snd (fst b))
                                  (flat_map Loaders.gw_dir entries))).
    { apply sort_by_sorted.
      - intros a b. destruct (Z.leb_spec (snd (fst a)) (snd (fst b))); [auto|].
        right. apply Z.leb_le. lia.
      - intros a b c H1 H2. apply Z.leb_le in H1, H2. apply Z.leb_le. lia. }
    induction S as [|a l Hs IH Ha]; constructor; [exact IH|].
    apply Forall_forall. intros b Hb. rewrite Forall_forall in Ha.
    apply Z.leb_le. apply Ha. exact Hb.
  - intros n k p. split.
    + intros H. apply sort_by_In in H. apply in_flat_map in H.
      destruct H as (q & Hq & H). unfold Loaders.gw_dir in H.
      destruct (Loaders.d_is_dir q) eqn:Ed; [|destruct H].
      destruct (String.prefix "gw" (lower (Loaders.d_name q))) eqn:Ep; [|destruct H].
      cbn [andb] in H.
      destruct (py_int (Loaders.drop2 (Loaders.d_name q))) as [z|] eqn:Ei; [|destruct H].
      destruct H as [E|[]]. injection E as <- <- <-. auto.
    + intros (Hin & Hd & Hp & Hi & ->). apply sort_by_In_rev. apply in_flat_map.
      exists p. split; [exact Hin|]. unfold Loaders.gw_dir. rewrite Hd, Hp, Hi.
      left. reflexivity.
Qed.

Lemma columns_has_col (h : string) (df : frame) : In h (columns df) -> has_col h df = true.
Proof.
  unfold has_col, columns. induction df as [|[m c] df IH]; simpl; [intros []|].
  destruct (String.eqb m h) eqn:E; [reflexivity|].
  intros [->|H]; [rewrite String.eqb_refl in E; discriminate|auto].
Qed.

Lemma load_step_gw (filename : string) (allow_missing : bool)
      (dirs : list (string * Z * Loaders.dirent)) (st st' : Loaders.load_state) :
  foldM (Loaders.load_step filename true allow_missing) dirs st = Ok st' ->
  (forall f, In f (fst st) -> has_col "gw" f = true) ->
  forall f, In f (fst st') -> has_col "gw" f = true.
Proof.
  revert st. induction dirs as [|d dirs IH]; intros st H Hst; simpl in H.
  - injection H as <-. exact Hst.
  - unfold Loaders.load_step at 1 in H.
    destruct (Loaders.find_file filename (Loaders.d_files (snd d))) as [r|].
    + destruct r as [df|e]; cbn [bind] in H; [|discriminate].
      apply (IH _ H). cbn [fst]. intros f Hf. apply in_app_or in Hf.
      destruct Hf as [Hf|[<-|[]]]; [apply Hst; exact Hf|].
      unfold Loaders.place_gw. cbn [andb].
      destruct (has_col "gw" df) eqn:E; [exact E|reflexivity].
    + destruct allow_missing; [|discriminate]. apply (IH _ H Hst).
Qed.

(** X17.  With [add_gw], a table loaded by [load_all_gws] that has rows has
    a [gw] column, in strict and in lenient mode: every file read comes
    with its gameweek. *)
Theorem load_all_gws_has_gw (root : Loaders.root_dir) (filename : string)
        (allow_missing : bool) (out : frame) :
  Loaders.load_all_gws root filename true allow_missing = Ok out ->
  empty out = false ->
  has_col "gw" out = true.
Proof.
  unfold Loaders.load_all_gws. intros H Hne.
  destruct (Loaders.list_gw_dirs root) as [dirs|e]; cbn [bind] in H; [|discriminate].
  destruct (foldM (Loaders.load_step filename true allow_missing) dirs ([], None)) as [st|e] eqn:Est; cbn [bind] in H; [|discriminate].
  injection H as <-.
  pose proof (load_step_gw _ _ _ _ _ Est (fun f (Hf : In f []) => match Hf with end)) as Hgw.
  unfold Loaders.finish_load in *.
  destruct (fst st) as [|f0 fs] eqn:Ef; [discriminate|].
  destruct (filter (fun f => negb (empty f)) (f0 :: fs)) as [|g gs] eqn:En.
  - unfold Loaders.empty_frame, empty in Hne.
    destruct (match snd st with Some c => c | None => [] end); discriminate.
  - apply columns_has_col. apply (concat_frames_columns _ g); [left; reflexivity|].
    assert (Hg : In g (f0 :: fs)).
    { assert (Hin : In g (filter (fun f => negb (empty f)) (f0 :: fs)))
        by (rewrite En; left; reflexivity).
      apply filter_In in Hin. tauto. }
    specialize (Hgw g Hg). destruct (has_col_get_col _ _ Hgw) as [c Hc].
    apply (get_col_columns _ _ _ Hc).
Qed.

Lemma load_all_gws_has_gw_witness :
  exists out,
    Loaders.load_all_gws Samples.season_dir "teams.csv" true true = Ok out /\
    empty out = false /\ has_col "gw" out = true.
Proof.
  eexists. split; [vm_compute; reflexivity|]. split; [reflexivity|].
  apply (load_all_gws_has_gw Samples.season_dir "teams.csv" true).
  - vm_compute. reflexivity.
  - reflexivity.
Defined.

Section LoadTables.
Variables (by_gw : Loaders.root_dir) (add_gw allow_missing : bool).

Lemma load_loop_raise {K : Type} (key : K -> string) (file : K -> string)
      (l : list K) (out : tables) (e : exn) :
  foldM (fun out nf =>
           let* df := Loaders.load_all_gws by_gw (file nf) add_gw allow_missing in
           Ok (update (key nf) df out)) l out = Raise e ->
  exists nf, In nf l /\ Loaders.load_all_gws by_gw (file nf) add_gw allow_missing = Raise e.
Proof.
  revert out. induction l as [|nf l IH]; intros out H; cbn [foldM] in H; [discriminate|].
  destruct (Loaders.load_all_gws by_gw (file nf) add_gw allow_missing) as [df|e0] eqn:E;
    cbn [bind] in H.
  - destruct (IH _ H) as (nf' & Hin & H'). exists nf'. split; [right; exact Hin|exact H'].
  - injection H as <-. exists nf. split; [left; reflexivity|exact E].
Qed.

Lemma load_loop_raises {K : Type} (key : K -> string) (file : K -> string)
      (l : list K) (out : tables) :
  (exists nf e, In nf l /\
                Loaders.load_all_gws by_gw (file nf) add_gw allow_missing = Raise e) ->
  exists e, foldM (fun out nf =>
                     let* df := Loaders.load_all_gws by_gw (file nf) add_gw allow_missing in
                     Ok (update (key nf) df out)) l out = Raise e.
Proof.
  revert out. induction l as [|nf l IH]; intros out (nf0 & e & Hin & H); [destruct Hin|].
  cbn [foldM].
  destruct (Loaders.load_all_gws by_gw (file nf) add_gw allow_missing) as [df|e0] eqn:E;
    cbn [bind]; [|eauto].
  apply IH. destruct Hin as [->|Hin]; [congruence|eauto].
Qed.

End LoadTables.

Lemma load_step_raise_kind (filename : string) (add_gw : bool)
      (dirs : list (string * Z * Loaders.dirent)) (st : Loaders.load_state) (e : exn) :
  foldM (Loaders.load_step filename add_gw false) dirs st = Raise e ->
  (exists msg, e = FileNotFoundError msg) \/
  (exists d, In d dirs /\ Loaders.find_file filename (Loaders.d_files (snd d)) = Some (Raise e)).
Proof.
  revert st. induction dirs as [|d dirs IH]; intros st H; cbn [foldM] in H; [discriminate|].
  unfold Loaders.load_step at 1 in H.
  destruct (Loaders.find_file filename (Loaders.d_files (snd d))) as [r|] eqn:E.
  - destruct r as [df|e0]; cbn [bind] in H.
    + destruct (IH _ H) as [Hm|(d' & Hin & H')]; [left; exact Hm|].
      right. exists d'. split; [right; exact Hin|exact H'].
    + injection H as <-. right. exists d. split; [left; reflexivity|exact E].
  - cbn [bind] in H. injection H as <-. left. eauto.
Qed.

Lemma load_tables_shape (by_gw : Loaders.root_dir) (add_gw : bool) (t : tables) :
  Loaders.load_tables by_gw add_gw = Ok t ->
  exists d1 d2 d3 d4 d5 d6 d7,
    t = [ ("teams", d1); ("players", d2); ("matches", d3); ("fixtures", d4);
          ("player_gameweek_stats", d5); ("playerstats", d6); ("playermatchstats", d7) ] /\
    Loaders.load_all_gws by_gw "teams.csv" add_gw false = Ok d1 /\
    Loaders.load_all_gws by_gw "players.csv" add_gw false = Ok d2 /\
    Loaders.load_all_gws by_gw "matches.csv" add_gw false = Ok d3 /\
    Loaders.load_all_gws by_gw "fixtures.csv" add_gw false = Ok d4 /\
    Loaders.load_all_gws by_gw "player_gameweek_stats.csv" add_gw false = Ok d5 /\
    Loaders.load_all_gws by_gw "playerstats.csv" add_gw false = Ok d6 /\
    Loaders.load_all_gws by_gw "playermatchstats.csv" add_gw false = Ok d7.
Proof.
  unfold Loaders.load_tables, Loaders.TABLE_FILES. cbn [foldM fst snd]. intros H.
  destruct (Loaders.load_all_gws by_gw "teams.csv" add_gw false) as [d1|]; cbn [bind] in H; [|discriminate].
  destruct (Loaders.load_all_gws by_gw "players.csv" add_gw false) as [d2|]; cbn [bind] in H; [|discriminate].
  destruct (Loaders.load_all_gws by_gw "matches.csv" add_gw false) as [d3|]; cbn [bind] in H; [|discriminate].
  destruct (Loaders.load_all_gws by_gw "fixtures.csv" add_gw false) as [d4|]; cbn [bind] in H; [|discriminate].
  destruct (Loaders.load_all_gws by_gw "player_gameweek_stats.csv" add_gw false) as [d5|]; cbn [bind] in H; [|discriminate].
  destruct (Loaders.load_all_gws by_gw "playerstats.csv" add_gw false) as [d6|]; cbn [bind] in H; [|discriminate].
  destruct (Loaders.load_all_gws by_gw "playermatchstats.csv" add_gw false) as [d7|]; cbn [bind] in H; [|discriminate].
  injection H as <-. exists d1, d2, d3, d4, d5, d6, d7.
  split; [vm_compute; reflexivity|]. repeat split; reflexivity.
Qed.

(** X18.  [load_tables] is strict: when one of the listed gameweek
    directories lacks one of the seven files, it returns no dictionary but
    raises, and what it raises is a [FileNotFoundError] unless reading one of
    the seven files in a listed directory raised itself. *)
Theorem load_tables_needs_every_file (entries : list Loaders.dirent) (add_gw : bool)
        (dirs : list (string * Z * Loaders.dirent)) (d : string * Z * Loaders.dirent)
        (name file : string) :
  Loaders.list_gw_dirs (Some entries) = Ok dirs ->
  In d dirs ->
  In (name, file) Loaders.TABLE_FILES ->
  Loaders.find_file file (Loaders.d_files (snd d)) = None ->
  exists e,
    Loaders.load_tables (Some entries) add_gw = Raise e /\
    ((exists msg, e = FileNotFoundError msg) \/
     exists d' name' file',
       In d' dirs /\ In (name', file') Loaders.TABLE_FILES /\
       Loaders.find_file file' (Loaders.d_files (snd d')) = Some (Raise e)).
Proof.
  intros Hd Hin Hf Hnone.
  assert (Hr : exists e, Loaders.load_all_gws (Some entries) file add_gw false = Raise e).
  { unfold Loaders.load_all_gws. rewrite Hd. cbn [bind].
    destruct (load_strict_raises file add_gw dirs ([], None)) as [e He]; [eauto|].
    rewrite He. cbn [bind]. eauto. }
  destruct Hr as [e0 He0].
  destruct (load_loop_raises (Some entries) add_gw false fst snd Loaders.TABLE_FILES [])
    as [e He].
  { exists (name, file), e0. split; [exact Hf|exact He0]. }
  exists e. split; [exact He|].
  destruct (load_loop_raise _ _ _ _ _ _ _ _ He) as ([n' f'] & Hin' & H'). cbn [snd] in H'.
  unfold Loaders.load_all_gws in H'. rewrite Hd in H'. cbn [bind] in H'.
  destruct (foldM (Loaders.load_step f' add_gw false) dirs ([], None)) as [st|e1] eqn:Est;
    cbn [bind] in H'; [discriminate|].
  injection H' as ->.
  destruct (load_step_raise_kind _ _ _ _ _ Est) as [Hm|(d' & Hd' & Hread)]; [left; exact Hm|].
  right. exists d', n', f'. auto.
Qed.

Lemma load_tables_needs_every_file_witness :
  exists e,
    Loaders.load_tables Samples.season_dir true = Raise e /\
    ((exists msg, e = FileNotFoundError msg) \/
     exists d' name' file',
       In d' [ ("GW1", 1, {| Loaders.d_name := "GW1"; Loaders.d_is_dir := true;
                             Loaders.d_files := [("teams.csv", Ok [("id", [])])] |});
               ("GW2", 2, {| Loaders.d_name := "GW2"; Loaders.d_is_dir := true;
                             Loaders.d_files :=
                               [("teams.csv", Ok [("id", [VInt 1; VInt 2])])] |});
               ("GW3", 3, {| Loaders.d_name := "GW3"; Loaders.d_is_dir := true;
                             Loaders.d_files := [] |}) ] /\
       In (name', file') Loaders.TABLE_FILES /\
       Loaders.find_file file' (Loaders.d_files (snd d')) = Some (Raise e)).
Proof.
  refine (load_tables_needs_every_file _ true _
            ("GW3", 3, {| Loaders.d_name := "GW3"; Loaders.d_is_dir := true;
                          Loaders.d_files := [] |})
            "teams" "teams.csv" _ _ _ _).
  - vm_compute. reflexivity.
  - right. right. left. reflexivity.
  - left. reflexivity.
  - reflexivity.
Defined.

(** X19.  A dictionary returned by [load_tables] has the seven tables of
    the schema as its keys, in the order of the literal, and each is the
    strict load of its file. *)
Theorem load_tables_gives_seven (by_gw : Loaders.root_dir) (add_gw : bool) (t : tables) :
  Loaders.load_tables by_gw add_gw = Ok t ->
  map fst t = map fst Schema.REQUIRED_COLUMNS /\
  forall name file, In (name, file) Loaders.TABLE_FILES ->
    exists df, lookup name t = Some df /\
               Loaders.load_all_gws by_gw file add_gw false = Ok df.
Proof.
  intros H. destruct (load_tables_shape _ _ _ H)
    as (d1 & d2 & d3 & d4 & d5 & d6 & d7 & -> & H1 & H2 & H3 & H4 & H5 & H6 & H7).
  split; [reflexivity|].
  intros name file Hin. unfold Loaders.TABLE_FILES in Hin. cbn [In] in Hin.
  destruct Hin as [E|[E|[E|[E|[E|[E|[E|[]]]]]]]]; injection E as <- <-;
    eexists; (split; [vm_compute; reflexivity|assumption]).
Qed.

Lemma load_tables_gives_seven_witness :
  exists t,
    Loaders.load_tables Samples.full_dir true = Ok t /\
    map fst t = map fst Schema.REQUIRED_COLUMNS /\
    forall name file, In (name, file) Loaders.TABLE_FILES ->
      exists df, lookup name t = Some df /\
                 Loaders.load_all_gws Samples.full_dir file true false = Ok df.
Proof.
  eexists. split; [vm_compute; reflexivity|].
  apply (load_tables_gives_seven Samples.full_dir true). vm_compute. reflexivity.
Defined.

Lemma validate_columns_missing (df : frame) (required : list string) (table : string)
      (e : exn) :
  Schema.validate_columns df required table = Raise e ->
  exists c, In c required /\ has_col c df = false.
Proof.
  unfold Schema.validate_columns.
  destruct (filter (fun c => negb (has_col c df)) required) as [|c cs] eqn:E; [discriminate|].
  intros _. assert (Hin : In c (filter (fun c => negb (has_col c df)) required))
    by (rewrite E; left; reflexivity).
  apply filter_In in Hin. destruct Hin as [Hin Hc]. exists c. split; [exact Hin|].
  destruct (has_col c df); [discriminate|reflexivity].
Qed.

Lemma validate_loop_raise (t : tables) (l : list (string * list string)) (e : exn) :
  foldM (fun _ nr =>
           match lookup (fst nr) t with
           | None => Raise (ValueError ("Missing table in load output: " ++ fst nr))
           | Some df => Schema.validate_columns df (snd nr) (fst nr)
           end) l tt = Raise e ->
  exists name required, In (name, required) l /\
    match lookup name t with
    | None => True
    | Some df => exists c, In c required /\ has_col c df = false
    end.
Proof.
  induction l as [|[n r] l IH]; cbn [foldM fst snd]; [discriminate|].
  destruct (lookup n t) as [df|] eqn:El; cbn [bind].
  - destruct (Schema.validate_columns df r n) as [[]|e0] eqn:Ev; cbn [bind].
    + intros H. destruct (IH H) as (name & required & Hin & Hm).
      exists name, required. split; [right; exact Hin|exact Hm].
    + intros _. exists n, r. split; [left; reflexivity|]. rewrite El.
      apply (validate_columns_missing _ _ _ _ Ev).
  - intros _. exists n, r. split; [left; reflexivity|]. rewrite El. exact I.
Qed.

(** X20.  [validate_all] on a dictionary returned by [load_tables] never
    fails on a missing table: it passes, or it raises a [ValueError] and one
    of the loaded tables lacks one of its required columns. *)
Theorem validate_after_load (by_gw : Loaders.root_dir) (add_gw : bool) (t : tables) :
  Loaders.load_tables by_gw add_gw = Ok t ->
  Schema.validate_all t = Ok tt \/
  (exists msg, Schema.validate_all t = Raise (ValueError msg)) /\
  exists name required df c,
    In (name, required) Schema.REQUIRED_COLUMNS /\ lookup name t = Some df /\
    In c required /\ has_col c df = false.
Proof.
  intros H. destruct (load_tables_shape _ _ _ H)
    as (d1 & d2 & d3 & d4 & d5 & d6 & d7 & -> & _).
  match goal with |- Schema.validate_all ?t = _ \/ _ => set (t0 := t) end.
  destruct (Schema.validate_all t0) as [[]|e] eqn:Ev; [left; reflexivity|right].
  split.
  - destruct (proj2 (validate_loop t0 Schema.REQUIRED_COLUMNS) e Ev) as [msg ->]. eauto.
  - destruct (validate_loop_raise _ _ _ Ev) as (name & required & Hin & Hm).
    exists name, required.
    unfold Schema.REQUIRED_COLUMNS in Hin. cbn [In] in Hin.
    destruct Hin as [E|[E|[E|[E|[E|[E|[E|[]]]]]]]]; injection E as <- <-;
      vm_compute in Hm; destruct Hm as (c & Hc & Hm);
      eexists; exists c; (split; [unfold Schema.REQUIRED_COLUMNS; cbn [In]; tauto|]);
      (split; [vm_compute; reflexivity|]); (split; [exact Hc|exact Hm]).
Qed.

Lemma validate_after_load_witness :
  exists t,
    Loaders.load_tables Samples.full_dir false = Ok t /\
    (Schema.validate_all t = Ok tt \/
     (exists msg, Schema.validate_all t = Raise (ValueError msg)) /\
     exists name required df c,
       In (name, required) Schema.REQUIRED_COLUMNS /\ lookup name t = Some df /\
       In c required /\ has_col c df = false).
Proof.
  eexists. split; [vm_compute; reflexivity|].
  apply (validate_after_load Samples.full_dir false). vm_compute. reflexivity.
Defined.

(** ** Dictionaries *)

Lemma lookup_update_same {A : Type} (k : string) (v : A) (d : list (string * A)) :
  lookup k (update k v d) = Some v.
Proof.
  induction d as [|[n v0] d IH]; simpl.
  - rewrite String.eqb_refl. reflexivity.
  - destruct (String.eqb n k) eqn:E; simpl; rewrite E; [reflexivity|exact IH].
Qed.

Lemma lookup_update_other {A : Type} (k k' : string) (v : A) (d : list (string * A)) :
  k' <> k -> lookup k' (update k v d) = lookup k' d.
Proof.
  intros Hne. induction d as [|[n v0] d IH]; simpl.
  - destruct (String.eqb_spec k k'); [congruence|reflexivity].
  - destruct (String.eqb_spec n k) as [->|Hn]; simpl.
    + destruct (String.eqb_spec k k'); [congruence|reflexivity].
    + destruct (String.eqb n k'); [reflexivity|exact IH].
Qed.

Lemma update_keys {A : Type} (k : string) (v : A) (d : list (string * A)) (n : string) :
  In n (map fst (update k v d)) <-> n = k \/ In n (map fst d).
Proof.
  induction d as [|[m v0] d IH]; simpl.
  - split; [intros [<-|[]]; auto|intros [->|[]]; auto].
  - destruct (String.eqb_spec m k) as [->|Hm]; simpl.
    + split; [intros [<-|H]; auto|intros [->|[<-|H]]; auto].
    + rewrite IH. tauto.
Qed.

Lemma update_NoDup {A : Type} (k : string) (v : A) (d : list (string * A)) :
  NoDup (map fst d) -> NoDup (map fst (update k v d)).
Proof.
  induction d as [|[m v0] d IH]; simpl; intros H.
  - constructor; [intros []|constructor].
  - destruct (String.eqb_spec m k) as [->|Hm]; simpl; [exact H|].
    apply NoDup_cons_iff in H. destruct H as [Hn Hd]. constructor; [|apply IH; exact Hd].
    rewrite update_keys. intros [E|Hin]; [congruence|exact (Hn Hin)].
Qed.

Lemma lookup_keys {A : Type} (k : string) (d : list (string * A)) :
  In k (map fst d) <-> exists v, lookup k d = Some v.
Proof.
  induction d as [|[m v0] d IH]; simpl.
  - split; [intros []|intros [v H]; discriminate].
  - destruct (String.eqb_spec m k) as [->|Hm].
    + split; [eauto|auto].
    + rewrite <- IH. split; [intros [E|H]; [congruence|exact H]|auto].
Qed.

Section LenientLoad.
Variables (entries : list Loaders.dirent) (add_gw : bool).
Hypothesis readable :
  forall p f r, In p entries -> Loaders.find_file f (Loaders.d_files p) = Some r ->
                exists df, r = Ok df.

Lemma lenient_steps (filename : string) (dirs : list (string * Z * Loaders.dirent))
      (st : Loaders.load_state) :
  (forall d, In d dirs -> In (snd d) entries) ->
  exists st', foldM (Loaders.load_step filename add_gw true) dirs st = Ok st'.
Proof.
  revert st. induction dirs as [|d dirs IH]; intros st Hd; cbn [foldM]; [eauto|].
  unfold Loaders.load_step at 1.
  destruct (Loaders.find_file filename (Loaders.d_files (snd d))) as [r|] eqn:E.
  - destruct (readable _ _ _ (Hd d (or_introl eq_refl)) E) as [df ->]. cbn [bind].
    apply IH. intros d' H'. apply Hd. right. exact H'.
  - cbn [bind]. apply IH. intros d' H'. apply Hd. right. exact H'.
Qed.

Lemma lenient_load_returns (filename : string) :
  exists df, Loaders.load_all_gws (Some entries) filename add_gw true = Ok df.
Proof.
  unfold Loaders.load_all_gws, Loaders.list_gw_dirs. cbn [bind].
  destruct (lenient_steps filename
              (Pandas.sort_by (fun a b => snd (fst a) <=? snd (fst b))
                              (flat_map Loaders.gw_dir entries)) ([], None))
    as [st Hst].
  - intros d Hd. apply sort_by_In in Hd. apply in_flat_map in Hd.
    destruct Hd as (q & Hq & H). unfold Loaders.gw_dir in H.
    destruct (andb _ _); [|destruct H].
    destruct (py_int _); [|destruct H]. destruct H as [<-|[]]. exact Hq.
  - rewrite Hst. cbn [bind]. eauto.
Qed.

Lemma specific_loop (filenames : list string) (out : tables) :
  NoDup (map fst out) ->
  (forall n df, lookup n out = Some df ->
                Loaders.load_all_gws (Some entries) n add_gw true = Ok df) ->
  exists t,
    foldM (fun out name =>
             let* df := Loaders.load_all_gws (Some entries) name add_gw true in
             Ok (update name df out)) filenames out = Ok t /\
    NoDup (map fst t) /\
    (forall n, In n (map fst t) <-> In n (map fst out) \/ In n filenames) /\
    (forall n df, lookup n t = Some df ->
                  Loaders.load_all_gws (Some entries) n add_gw true = Ok df).
Proof.
  revert out. induction filenames as [|f fs IH]; intros out Hnd Hout; cbn [foldM].
  - exists out. split; [reflexivity|]. split; [exact Hnd|]. split; [|exact Hout].
    intros n. cbn [In]. tauto.
  - destruct (lenient_load_returns f) as [df Hdf]. rewrite Hdf. cbn [bind].
    destruct (IH (update f df out)) as (t & Ht & Hnd' & Hk & Hv).
    + apply update_NoDup. exact Hnd.
    + intros n df' H. destruct (String.eqb_spec n f) as [->|Hn].
      * rewrite lookup_update_same in H. congruence.
      * rewrite lookup_update_other in H by exact Hn. apply Hout. exact H.
    + exists t. split; [exact Ht|]. split; [exact Hnd'|]. split; [|exact Hv].
      intros n. rewrite Hk, update_keys. cbn [In]. split.
      * intros [[->|H]|H]; auto.
      * intros [H|[<-|H]]; auto.
Qed.

End LenientLoad.

(** X21.  In lenient mode [load_specific_tables] does not fail on missing
    files: when the root exists and every file found under it is read
    without error, it returns a dictionary for any list of file names; its
    keys are the requested names, each once, and the table under a name is
    the lenient load of that file. *)
Theorem load_specific_tables_lenient (entries : list Loaders.dirent) (add_gw : bool)
        (filenames : list string) :
  (forall p f r, In p entries -> Loaders.find_file f (Loaders.d_files p) = Some r ->
                 exists df, r = Ok df) ->
  exists t,
    Loaders.load_specific_tables (Some entries) filenames add_gw true = Ok t /\
    NoDup (map fst t) /\
    (forall n, In n (map fst t) <-> In n filenames) /\
    forall n, In n filenames ->
      exists df, lookup n t = Some df /\
                 Loaders.load_all_gws (Some entries) n add_gw true = Ok df.
Proof.
  intros Hr.
  destruct (specific_loop entries add_gw Hr filenames []) as (t & Ht & Hnd & Hk & Hv).
  - constructor.
  - intros n df H. discriminate.
  - exists t. split; [exact Ht|]. split; [exact Hnd|]. split.
    + intros n. rewrite Hk. cbn [map In]. tauto.
    + intros n Hn. assert (Hin : In n (map fst t)) by (apply Hk; right; exact Hn).
      apply lookup_keys in Hin. destruct Hin as [df Hdf]. exists df. split; [exact Hdf|].
      apply Hv. exact Hdf.
Qed.

Lemma load_specific_tables_lenient_witness :
  exists t,
    Loaders.load_specific_tables Samples.season_dir
      ["teams.csv"; "fixtures.csv"; "teams.csv"] true true = Ok t /\
    NoDup (map fst t) /\
    (forall n, In n (map fst t) <-> In n ["teams.csv"; "fixtures.csv"; "teams.csv"]) /\
    forall n, In n ["teams.csv"; "fixtures.csv"; "teams.csv"] ->
      exists df, lookup n t = Some df /\
                 Loaders.load_all_gws Samples.season_dir n true true = Ok df.
Proof.
  apply (load_specific_tables_lenient
           (match Samples.season_dir with Some e => e | None => [] end) true
           ["teams.csv"; "fixtures.csv"; "teams.csv"]).
  intros p f r Hp. cbn in Hp.
  destruct Hp as [<-|[<-|[<-|[<-|[]]]]]; cbn [Loaders.d_files Loaders.find_file];
    try discriminate;
    (destruct (String.eqb "teams.csv" f); [|discriminate]);
    intros E; injection E as <-; eauto.
Defined.

(** ** The gameweek number of a directory name *)

Lemma prefix_two (a b c1 c2 : ascii) (s : string) :
  prefix (String a (String b EmptyString)) (String c1 (String c2 s))
  = andb (Ascii.eqb a c1) (Ascii.eqb b c2).
Proof.
  cbn [prefix].
  destruct (ascii_dec a c1) as [->|H1].
  - rewrite Ascii.eqb_refl. destruct (ascii_dec b c2) as [->|H2].
    + rewrite Ascii.eqb_refl. destruct s; reflexivity.
    + destruct (Ascii.eqb_spec b c2); [contradiction|reflexivity].
  - destruct (Ascii.eqb_spec a c1); [contradiction|reflexivity].
Qed.

Lemma py_int_cases (s : string) :
  py_int s =
  match strip s with
  | EmptyString => None
  | String c r =>
      if Ascii.eqb c "-" then option_map Z.opp (int_digits r 0 false)
      else if Ascii.eqb c "+" then int_digits r 0 false
      else int_digits (String c r) 0 false
  end.
Proof.
  unfold py_int. destruct (strip s) as [|c r]; [reflexivity|].
  destruct c as [[] [] [] [] [] [] [] []]; reflexivity.
Qed.

Lemma int_digits_no_G (s : string) (acc : Z) (prev : bool) (k : Z) :
  int_digits s acc prev = Some k ->
  Forall (fun c => c <> "G"%char) (list_ascii_of_string s).
Proof.
  revert acc prev. induction s as [|c s IH]; intros acc prev H; cbn [list_ascii_of_string].
  - constructor.
  - cbn [int_digits] in H. destruct (digit_of c) as [d|] eqn:Ed.
    + constructor; [intros ->; discriminate|apply (IH _ _ H)].
    + destruct (Ascii.eqb_spec c "_") as [->|]; [|discriminate].
      destruct prev; cbn [andb] in H; [|discriminate].
      destruct s as [|c' s']; [discriminate|].
      destruct (digit_of c'); [|discriminate].
      constructor; [discriminate|apply (IH _ _ H)].
Qed.

Lemma space_not_G (c : ascii) : is_space c = true -> c <> "G"%char.
Proof. intros H ->. discriminate. Qed.

Lemma lstrip_no_G (s : string) :
  Forall (fun c => c <> "G"%char) (list_ascii_of_string (lstrip s)) ->
  Forall (fun c => c <> "G"%char) (list_ascii_of_string s).
Proof.
  induction s as [|c s IH]; cbn [lstrip]; [auto|].
  destruct (is_space c) eqn:E; [|auto].
  intros H. cbn [list_ascii_of_string]. constructor; [apply space_not_G; exact E|auto].
Qed.

Lemma rstrip_no_G (s : string) :
  Forall (fun c => c <> "G"%char) (list_ascii_of_string (rstrip s)) ->
  Forall (fun c => c <> "G"%char) (list_ascii_of_string s).
Proof.
  induction s as [|c s IH]; cbn [rstrip]; [auto|].
  destruct (rstrip s) as [|c' r] eqn:E.
  - intros H. cbn [list_ascii_of_string]. constructor; [|apply IH; constructor].
    destruct (is_space c) eqn:Es; [apply space_not_G; exact Es|].
    cbn [list_ascii_of_string] in H. inversion H. assumption.
  - intros H. cbn [list_ascii_of_string] in *. inversion H; subst.
    constructor; [assumption|]. apply IH. assumption.
Qed.

Lemma py_int_no_G (s : string) (k : Z) :
  py_int s = Some k -> Forall (fun c => c <> "G"%char) (list_ascii_of_string s).
Proof.
  rewrite py_int_cases. intros H. apply lstrip_no_G, rstrip_no_G. fold (strip s).
  destruct (strip s) as [|c r]; [discriminate|].
  destruct (Ascii.eqb_spec c "-") as [->|].
  - cbn [list_ascii_of_string]. constructor; [discriminate|].
    destruct (int_digits r 0 false) eqn:E; [|discriminate]. apply (int_digits_no_G _ _ _ _ E).
  - destruct (Ascii.eqb_spec c "+") as [->|].
    + cbn [list_ascii_of_string]. constructor; [discriminate|].
      apply (int_digits_no_G _ _ _ _ H).
    + apply (int_digits_no_G _ _ _ _ H).
Qed.

Lemma remove_GW_other (c : ascii) (r : string) :
  c <> "G"%char -> Loaders.remove_GW (String c r) = String c (Loaders.remove_GW r).
Proof.
  intros H. destruct c as [[] [] [] [] [] [] [] []]; try reflexivity.
  exfalso. apply H. reflexivity.
Qed.

Lemma remove_GW_no_G (s : string) :
  Forall (fun c => c <> "G"%char) (list_ascii_of_string s) -> Loaders.remove_GW s = s.
Proof.
  induction s as [|c s IH]; intros H; [reflexivity|].
  cbn [list_ascii_of_string] in H. inversion H; subst.
  rewrite remove_GW_other by assumption. rewrite IH by assumption. reflexivity.
Qed.

Lemma remove_GW_first (c : ascii) (r : string) :
  c <> "W"%char ->
  Loaders.remove_GW (String "G" (String c r)) = String "G" (Loaders.remove_GW (String c r)).
Proof.
  intros H. destruct c as [[] [] [] [] [] [] [] []]; try reflexivity.
  exfalso. apply H. reflexivity.
Qed.

Lemma lower_g (c : ascii) : lower_ascii c = "g"%char -> c = "g"%char \/ c = "G"%char.
Proof. destruct c as [[] [] [] [] [] [] [] []]; vm_compute; intros H; try discriminate; auto. Qed.

Lemma lower_w (c : ascii) : lower_ascii c = "w"%char -> c = "w"%char \/ c = "W"%char.
Proof. destruct c as [[] [] [] [] [] [] [] []]; vm_compute; intros H; try discriminate; auto. Qed.

Lemma py_int_letter (c : ascii) (r : string) :
  is_space c = false -> digit_of c = None ->
  c <> "-"%char -> c <> "+"%char -> c <> "_"%char ->
  py_int (String c r) = None.
Proof.
  intros Hs Hd Hm Hp Hu. rewrite py_int_cases. unfold strip. cbn [lstrip]. rewrite Hs.
  assert (E : rstrip (String c r) = String c (rstrip r)).
  { cbn [rstrip]. destruct (rstrip r); [rewrite Hs|]; reflexivity. }
  rewrite E.
  destruct (Ascii.eqb_spec c "-"); [contradiction|].
  destruct (Ascii.eqb_spec c "+"); [contradiction|].
  cbn [int_digits]. rewrite Hd.
  destruct (Ascii.eqb_spec c "_"); [contradiction|]. reflexivity.
Qed.

(** X22.  For a directory named [GW] followed by text that [int] parses,
    [load_csv_for_gw] without a gameweek number behaves as with the number
    [list_gw_dirs] gives the directory. *)
Theorem load_csv_for_gw_number (p : Loaders.dirent) (r filename : string) (k : Z)
        (add_gw : bool) :
  Loaders.d_name p = String "G" (String "W" r) ->
  Loaders.d_is_dir p = true ->
  py_int r = Some k ->
  Loaders.list_gw_dirs (Some [p]) = Ok [(Loaders.d_name p, k, p)] /\
  Loaders.load_csv_for_gw p filename add_gw None
  = Loaders.load_csv_for_gw p filename add_gw (Some k).
Proof.
  intros Hn Hd Hk. split.
  - unfold Loaders.list_gw_dirs. cbn [flat_map]. unfold Loaders.gw_dir.
    rewrite Hd, Hn. cbn [Loaders.drop2]. rewrite Hk.
    cbn [lower]. rewrite prefix_two. reflexivity.
  - unfold Loaders.load_csv_for_gw. rewrite Hn.
    change (Loaders.remove_GW (String "G" (String "W" r))) with (Loaders.remove_GW r).
    rewrite (remove_GW_no_G r (py_int_no_G _ _ Hk)), Hk. reflexivity.
Qed.

Lemma load_csv_for_gw_number_witness :
  Loaders.list_gw_dirs (Some [Samples.upper_dir]) = Ok [("GW4", 4, Samples.upper_dir)] /\
  Loaders.load_csv_for_gw Samples.upper_dir "teams.csv" true None
  = Loaders.load_csv_for_gw Samples.upper_dir "teams.csv" true (Some 4).
Proof.
  apply (load_csv_for_gw_number Samples.upper_dir "4" "teams.csv" 4 true); reflexivity.
Defined.

(** X23.  [list_gw_dirs] takes the prefix [gw] in any case, [load_csv_for_gw]
    removes it in upper case only: for a directory whose name starts with
    [gw], [Gw] or [gW] and a file without a [gw] column, [load_csv_for_gw]
    with [add_gw] and no gameweek number raises [ValueError]; with a number
    it inserts that number, and without [add_gw] it returns the file as
    read. *)
Theorem load_csv_for_gw_lower_case (p : Loaders.dirent) (filename : string) (df : frame) :
  String.prefix "gw" (lower (Loaders.d_name p)) = true ->
  String.prefix "GW" (Loaders.d_name p) = false ->
  Loaders.find_file filename (Loaders.d_files p) = Some (Ok df) ->
  has_col "gw" df = false ->
  (exists msg, Loaders.load_csv_for_gw p filename true None = Raise (ValueError msg)) /\
  (forall k, Loaders.load_csv_for_gw p filename true (Some k) = Ok (Loaders.insert_gw k df)) /\
  Loaders.load_csv_for_gw p filename false None = Ok df.
Proof.
  intros Hl Hu Hf Hg. unfold Loaders.load_csv_for_gw. rewrite Hf. cbn [bind]. rewrite Hg.
  cbn [andb negb bind]. split; [|split; reflexivity].
  destruct (Loaders.d_name p) as [|c1 [|c2 r]]; [discriminate| |].
  { cbn [lower prefix] in Hl. destruct (ascii_dec _ _); discriminate. }
  cbn [lower] in Hl. rewrite prefix_two in Hl. apply andb_true_iff in Hl.
  destruct Hl as [E1 E2]. apply Ascii.eqb_eq in E1, E2.
  destruct (lower_g c1 (eq_sym E1)) as [-> | ->].
  - rewrite remove_GW_other by discriminate.
    rewrite py_int_letter by (reflexivity || discriminate). cbn [bind]. eauto.
  - destruct (lower_w c2 (eq_sym E2)) as [-> | ->].
    + rewrite remove_GW_first by discriminate.
      rewrite py_int_letter by (reflexivity || discriminate). cbn [bind]. eauto.
    + rewrite prefix_two in Hu. discriminate.
Qed.

Lemma load_csv_for_gw_lower_case_witness :
  Loaders.list_gw_dirs (Some [Samples.lower_dir]) = Ok [("gw4", 4, Samples.lower_dir)] /\
  (exists msg,
     Loaders.load_csv_for_gw Samples.lower_dir "teams.csv" true None
     = Raise (ValueError msg)) /\
  (forall k, Loaders.load_csv_for_gw Samples.lower_dir "teams.csv" true (Some k)
             = Ok (Loaders.insert_gw k [("id", [VInt 1; VInt 2])])) /\
  Loaders.load_csv_for_gw Samples.lower_dir "teams.csv" false None
  = Ok [("id", [VInt 1; VInt 2])].
Proof.
  split; [reflexivity|].
  apply (load_csv_for_gw_lower_case Samples.lower_dir "teams.csv"); reflexivity.
Defined.

(** ** The gameweek of a player-match row *)

Lemma alias_other (n : string) (m : frame) :
  n <> "gw" -> get_col n (MatchFeatures.with_gw_alias m) = get_col n m.
Proof.
  intros Hn. unfold MatchFeatures.with_gw_alias.
  destruct (get_col "gameweek" m) as [c|]; [|reflexivity].
  destruct (has_col "gw" m); [reflexivity|].
  apply get_col_set_col_other. congruence.
Qed.

Lemma alias_has_gw (m : frame) :
  has_col "gw" (MatchFeatures.with_gw_alias m)
  = orb (has_col "gw" m) (has_col "gameweek" m).
Proof.
  assert (Hgw : has_col "gameweek" m
                = match get_col "gameweek" m with Some _ => true | None => false end)
    by reflexivity.
  rewrite Hgw. unfold MatchFeatures.with_gw_alias.
  destruct (get_col "gameweek" m) as [c|].
  - destruct (has_col "gw" m) eqn:E; [rewrite E; reflexivity|].
    rewrite has_col_set_col. reflexivity.
  - rewrite orb_false_r. reflexivity.
Qed.

Lemma merge_pairs_distinct (lk rk : column) (nl : nat) :
  Pandas.distinct_keys rk ->
  Pandas.merge_pairs [lk] [rk] nl (List.length rk)
  = map (fun i => (i, hd_error (Pandas.matches_of [lk] [rk] (List.length rk) i))) (seq 0 nl).
Proof.
  intros Hd. unfold Pandas.merge_pairs. generalize (seq 0 nl). intros l.
  induction l as [|i l IH]; [reflexivity|].
  cbn [flat_map]. rewrite IH. cbn [map].
  pose proof (matches_at_most_one lk rk i Hd) as Hle.
  destruct (Pandas.matches_of [lk] [rk] (List.length rk) i) as [|j [|j' js]];
    simpl in *; try reflexivity. lia.
Qed.

Lemma matches_of_the_one (lk rk : column) (i j : nat) :
  Pandas.distinct_keys rk -> (j < List.length rk)%nat ->
  Pandas.key_match (nth i lk NA) (nth j rk NA) = true ->
  Pandas.matches_of [lk] [rk] (List.length rk) i = [j].
Proof.
  intros Hd Hj Hm.
  pose proof (matches_at_most_one lk rk i Hd) as Hle.
  assert (Hin : In j (Pandas.matches_of [lk] [rk] (List.length rk) i)).
  { unfold Pandas.matches_of. apply filter_In. split; [apply in_seq; lia|].
    unfold Pandas.keys_match. simpl. rewrite Hm. reflexivity. }
  destruct (Pandas.matches_of [lk] [rk] (List.length rk) i) as [|j0 [|j1 js]];
    simpl in *; [destruct Hin| |lia].
  destruct Hin as [->|[]]. reflexivity.
Qed.

Lemma matches_of_none (lk rk : column) (i : nat) :
  (forall j, (j < List.length rk)%nat ->
             Pandas.key_match (nth i lk NA) (nth j rk NA) = false) ->
  Pandas.matches_of [lk] [rk] (List.length rk) i = [].
Proof.
  intros H. unfold Pandas.matches_of. apply filter_none. intros j Hj.
  apply in_seq in Hj. unfold Pandas.keys_match. simpl. rewrite H by lia. reflexivity.
Qed.

Lemma ensure_gw_merges (pm m : frame) (pids ids gws : column) :
  has_col "gw" pm = false ->
  get_col "match_id" pm = Some pids ->
  empty m = false ->
  get_col "match_id" m = Some ids ->
  get_col "gw" (MatchFeatures.with_gw_alias m) = Some gws ->
  Pandas.keys_compatible pids ids = true ->
  MatchFeatures._ensure_gw pm (Some m)
  = Ok (Pandas.take_rows
          (map fst (Pandas.merge_pairs [pids] [ids] (nrows pm) (List.length ids))) pm
        ++ [("gw", Pandas.gather_opt
                     (map snd (Pandas.merge_pairs [pids] [ids] (nrows pm) (List.length ids)))
                     gws)])%list.
Proof.
  intros Hg Hp He Hi Hgw Hk. unfold MatchFeatures._ensure_gw. rewrite Hg, He.
  unfold has_col at 1. rewrite Hp. cbn [orb negb].
  unfold has_col at 1. rewrite Hgw. cbn [negb].
  unfold MatchFeatures.select2, col_or_raise.
  rewrite (alias_other "match_id" m) by discriminate. rewrite Hi, Hgw. cbn [bind].
  rewrite (merge_left_unfold pm [("match_id", ids); ("gw", gws)] "match_id" pids ids Hp eq_refl).
  rewrite Hk. f_equal. f_equal.
  - unfold Pandas.take_rows. apply map_ext_in. intros [n c] Hin. cbn [fst snd nrows].
    f_equal. unfold Pandas.left_name.
    destruct (String.eqb_spec n "match_id") as [->|Hn]; [reflexivity|].
    assert (Hn' : n <> "gw").
    { intros ->. apply (in_map fst) in Hin. apply columns_has_col in Hin. cbn [fst] in Hin.
      congruence. }
    unfold has_col, isin. cbn [get_col existsb].
    destruct (String.eqb_spec "match_id" n); [congruence|].
    destruct (String.eqb_spec "gw" n); [congruence|]. 
    destruct (String.eqb n "match_id"); reflexivity.
  - cbn [flat_map isin existsb fst snd app nrows].
    change (String.eqb "match_id" "match_id") with true.
    change (String.eqb "gw" "match_id") with false. cbn [orb app].
    unfold Pandas.right_name. rewrite Hg. reflexivity.
Qed.

(** X24.  [_ensure_gw] raises in two cases only, which both need a
    player-match table without [gw] but with a [match_id] column, and a match
    table with rows and a [gw] or [gameweek] column: with [KeyError] on
    [match_id] when the match table has no [match_id] column, and with
    [ValueError] when it has one and the join refuses the two [match_id]
    columns, one of text and one of numbers; in every other case it returns
    a table. *)
Theorem ensure_gw_raises_only (pm : frame) (matches : option frame) :
  (forall e, MatchFeatures._ensure_gw pm matches = Raise e ->
             e = KeyError "match_id" \/
             e = ValueError "You are trying to merge on object and number columns") /\
  (MatchFeatures._ensure_gw pm matches = Raise (KeyError "match_id") <->
   has_col "gw" pm = false /\ has_col "match_id" pm = true /\
   exists m, matches = Some m /\ empty m = false /\
             (has_col "gw" m = true \/ has_col "gameweek" m = true) /\
             has_col "match_id" m = false) /\
  (MatchFeatures._ensure_gw pm matches
   = Raise (ValueError "You are trying to merge on object and number columns") <->
   has_col "gw" pm = false /\
   exists m pids ids,
     matches = Some m /\ empty m = false /\
     (has_col "gw" m = true \/ has_col "gameweek" m = true) /\
     get_col "match_id" pm = Some pids /\ get_col "match_id" m = Some ids /\
     Pandas.keys_compatible pids ids = false) /\
  ((exists out, MatchFeatures._ensure_gw pm matches = Ok out) <->
   ~ (has_col "gw" pm = false /\ has_col "match_id" pm = true /\
      exists m, matches = Some m /\ empty m = false /\
                (has_col "gw" m = true \/ has_col "gameweek" m = true) /\
                (has_col "match_id" m = false \/
                 exists pids ids,
                   get_col "match_id" pm = Some pids /\ get_col "match_id" m = Some ids /\
                   Pandas.keys_compatible pids ids = false))).
Proof.
  unfold MatchFeatures._ensure_gw.
  destruct (has_col "gw" pm) eqn:Eg.
  { split; [discriminate|]. split; [split; [discriminate|intros (H & _); discriminate]|].
    split; [split; [discriminate|intros (H & _); discriminate]|].
    split; [intros _ (H & _); discriminate|intros _; eauto]. }
  destruct matches as [m|].
  2:{ split; [discriminate|].
      split; [split; [discriminate|intros (_ & _ & m & H & _); discriminate]|].
      split; [split; [discriminate|intros (_ & m & p & i & H & _); discriminate]|].
      split; [intros _ (_ & _ & m & H & _); discriminate|intros _; eauto]. }
  destruct (empty m) eqn:Ee; cbn [orb].
  { split; [discriminate|].
    split; [split; [discriminate|]|].
    { intros (_ & _ & m' & H & H' & _). injection H as <-. congruence. }
    split; [split; [discriminate|]|].
    { intros (_ & m' & p & i & H & H' & _). injection H as <-. congruence. }
    split; [|intros _; eauto].
    intros _ (_ & _ & m' & H & H' & _). injection H as <-. congruence. }
  destruct (has_col "match_id" pm) eqn:Ep; cbn [negb].
  2:{ split; [discriminate|].
      split; [split; [discriminate|intros (_ & H & _); discriminate]|].
      split; [split; [discriminate|]|].
      { intros (_ & m' & p & i & _ & _ & _ & H & _). unfold has_col in Ep.
        rewrite H in Ep. discriminate. }
      split; [intros _ (_ & H & _); discriminate|intros _; eauto]. }
  rewrite alias_has_gw.
  destruct (orb (has_col "gw" m) (has_col "gameweek" m)) eqn:Ea; cbn [negb].
  2:{ apply orb_false_iff in Ea. destruct Ea as [Ea1 Ea2].
      split; [discriminate|].
      split; [split; [discriminate|]|].
      { intros (_ & _ & m' & H & _ & H' & _). injection H as <-. destruct H'; congruence. }
      split; [split; [discriminate|]|].
      { intros (_ & m' & p & i & H & _ & H' & _). injection H as <-. destruct H'; congruence. }
      split; [|intros _; eauto].
      intros _ (_ & _ & m' & H & _ & H' & _). injection H as <-. destruct H'; congruence. }
  apply orb_true_iff in Ea.
  unfold MatchFeatures.select2, col_or_raise.
  rewrite (alias_other "match_id" m) by discriminate.
  destruct (get_col "match_id" m) as [ids|] eqn:Ei; cbn [bind].
  - assert (Ha : has_col "gw" (MatchFeatures.with_gw_alias m) = true)
      by (rewrite alias_has_gw; apply orb_true_iff; exact Ea).
    destruct (has_col_get_col _ _ Ha) as [gws Hgws]. rewrite Hgws. cbn [bind].
    destruct (has_col_get_col _ _ Ep) as [pids Hp].
    rewrite (merge_left_unfold pm [("match_id", ids); ("gw", gws)] "match_id" pids ids Hp eq_refl).
    assert (Hm : has_col "match_id" m = true) by (unfold has_col; rewrite Ei; reflexivity).
    destruct (Pandas.keys_compatible pids ids) eqn:Ek.
    + split; [discriminate|].
      split; [split; [discriminate|]|].
      { intros (_ & _ & m' & H & _ & _ & H'). injection H as <-. congruence. }
      split; [split; [discriminate|]|].
      { intros (_ & m' & p & i & H & _ & _ & H1 & H2 & H3). injection H as <-.
        congruence. }
      split; [|intros _; eauto].
      intros _ (_ & _ & m' & H & _ & _ & [H'|(p & i & H1 & H2 & H3)]);
        injection H as <-; congruence.
    + split; [intros e H; injection H as <-; auto|].
      split; [split; [discriminate|]|].
      { intros (_ & _ & m' & H & _ & _ & H'). injection H as <-. congruence. }
      split; [split; [intros _|reflexivity]|].
      { split; [reflexivity|]. exists m, pids, ids. auto 10. }
      split; [intros [out H]; discriminate|].
      intros H. exfalso. apply H. split; [reflexivity|]. split; [reflexivity|].
      exists m. split; [reflexivity|]. split; [exact Ee|]. split; [exact Ea|].
      right. exists pids, ids. auto.
  - assert (Hm : has_col "match_id" m = false) by (unfold has_col; rewrite Ei; reflexivity).
    split; [intros e H; injection H as <-; auto|].
    split; [split; [intros _|reflexivity]|].
    { split; [reflexivity|]. split; [reflexivity|]. exists m. auto. }
    split; [split; [discriminate|]|].
    { intros (_ & m' & p & i & H & _ & _ & _ & H2 & _). injection H as <-. congruence. }
    split; [intros [out H]; discriminate|].
    intros H. exfalso. apply H. split; [reflexivity|]. split; [reflexivity|].
    exists m. auto 6.
Qed.

(** X25.  When the player-match table has no [gw] column, the match ids
    of the match table are distinct and the join accepts the two [match_id]
    columns (not one of text and one of numbers), [_ensure_gw] returns the
    table with every column as it was and one more column [gw] at the end,
    which holds at every row the gameweek of the match with the id of the
    row, and a missing value where no match has that id. *)
Theorem ensure_gw_looks_up_gameweek (pm m : frame) (pids ids gws : column) :
  well_formed pm ->
  has_col "gw" pm = false ->
  get_col "match_id" pm = Some pids ->
  empty m = false ->
  get_col "match_id" m = Some ids ->
  get_col "gw" (MatchFeatures.with_gw_alias m) = Some gws ->
  Pandas.distinct_keys ids ->
  Pandas.keys_compatible pids ids = true ->
  exists out gw,
    MatchFeatures._ensure_gw pm (Some m) = Ok out /\
    columns out = (columns pm ++ ["gw"])%list /\
    (forall n c, get_col n pm = Some c -> get_col n out = Some c) /\
    get_col "gw" out = Some gw /\ List.length gw = nrows pm /\
    forall i, (i < nrows pm)%nat ->
      (forall j, (j < List.length ids)%nat ->
                 Pandas.key_match (nth i pids NA) (nth j ids NA) = true ->
                 nth i gw NA = nth j gws NA) /\
      ((forall j, (j < List.length ids)%nat ->
                  Pandas.key_match (nth i pids NA) (nth j ids NA) = false) ->
       nth i gw NA = NA).
Proof.
  intros Hwf Hg Hp He Hi Hgw Hd Hk.
  rewrite (ensure_gw_merges pm m pids ids gws Hg Hp He Hi Hgw Hk).
  rewrite (merge_pairs_distinct pids ids (nrows pm) Hd). rewrite !map_map. cbn [fst snd].
  rewrite map_id.
  eexists. eexists. split; [reflexivity|].
  split.
  { unfold columns, Pandas.take_rows. rewrite map_app, map_map. reflexivity. }
  split.
  { intros n c Hc. rewrite get_col_app, get_col_take_rows, Hc. cbn [option_map].
    rewrite <- (Hwf n c (get_col_In _ _ _ Hc)). rewrite gather_seq. reflexivity. }
  split.
  { rewrite get_col_app, get_col_take_rows. unfold has_col in Hg.
    destruct (get_col "gw" pm); [discriminate|]. reflexivity. }
  split.
  { unfold Pandas.gather_opt. rewrite !length_map, length_seq. reflexivity. }
  intros i Hlt. unfold Pandas.gather_opt. rewrite map_map.
  rewrite (nth_map_seq _ _ _ _ Hlt) by idtac. cbn [Nat.add]. split.
  - intros j Hj Hm. rewrite (matches_of_the_one pids ids i j Hd Hj Hm). reflexivity.
  - intros Hnone. rewrite (matches_of_none pids ids i Hnone). reflexivity.
Qed.

Lemma match_ids_distinct : Pandas.distinct_keys [VInt 100; VInt 101; VInt 102].
Proof.
  intros i j Hij. simpl in Hij.
  destruct j as [|[|[|j]]]; [lia| | |lia].
  - destruct i as [|i]; [reflexivity|lia].
  - destruct i as [|[|i]]; [reflexivity|reflexivity|lia].
Qed.

Lemma ensure_gw_looks_up_gameweek_witness :
  exists out gw,
    MatchFeatures._ensure_gw Samples.player_matches (Some Samples.matches_with_gameweek)
    = Ok out /\
    columns out = (columns Samples.player_matches ++ ["gw"])%list /\
    (forall n c, get_col n Samples.player_matches = Some c -> get_col n out = Some c) /\
    get_col "gw" out = Some gw /\ List.length gw = nrows Samples.player_matches /\
    forall i, (i < nrows Samples.player_matches)%nat ->
      (forall j, (j < List.length [VInt 100; VInt 101; VInt 102])%nat ->
                 Pandas.key_match (nth i [VInt 100; VInt 101; VInt 100; VInt 102] NA)
                                  (nth j [VInt 100; VInt 101; VInt 102] NA) = true ->
                 nth i gw NA = nth j [VInt 1; VInt 2; VInt 2] NA) /\
      ((forall j, (j < List.length [VInt 100; VInt 101; VInt 102])%nat ->
                  Pandas.key_match (nth i [VInt 100; VInt 101; VInt 100; VInt 102] NA)
                                   (nth j [VInt 100; VInt 101; VInt 102] NA) = false) ->
       nth i gw NA = NA).
Proof.
  apply (ensure_gw_looks_up_gameweek Samples.player_matches Samples.matches_with_gameweek).
  - intros n c Hin. cbn in Hin.
    destruct Hin as [E|[E|[E|[E|[E|[]]]]]]; injection E as <- <-; reflexivity.
  - reflexivity.
  - reflexivity.
  - reflexivity.
  - reflexivity.
  - reflexivity.
  - exact match_ids_distinct.
  - reflexivity.
Defined.

(** Match ids read as text on one side and as integers on the other: the
    join refuses them. *)
Example ensure_gw_text_ids :
  MatchFeatures._ensure_gw
    [("player_id", [VInt 1; VInt 2]); ("match_id", [VStr "100"; VStr "101"])]
    (Some Samples.matches_with_gameweek)
  = Raise (ValueError "You are trying to merge on object and number columns").
Proof. reflexivity. Qed.

(** ** Availability flags *)

Lemma Z2Qc_plus (a b : Z) : (Z2Qc a + Z2Qc b)%Qc = Z2Qc (a + b).
Proof.
  unfold Z2Qc. apply Qc_is_canon. unfold Qcplus. cbn [this Q2Qc].
  rewrite !Qred_correct. rewrite inject_Z_plus. reflexivity.
Qed.

Lemma Z2Qc_this (k : Z) : this (Z2Qc k) = inject_Z k.
Proof.
  unfold Z2Qc. cbn [this Q2Qc]. apply Qred_identity. cbn [inject_Z Qnum Qden].
  apply Z.gcd_1_r.
Qed.

Lemma astype_int_Z2Qc (k : Z) : astype_int (VFloat (Z2Qc k)) = Ok k.
Proof. cbn [astype_int]. rewrite Z2Qc_this. cbn [inject_Z Qnum Qden]. rewrite Z.quot_1_r. reflexivity. Qed.

Lemma qsum_bits (bs : list bool) (a : Z) :
  fold_left Qcplus (map (fun b : bool => Z2Qc (if b then 1 else 0)) bs) (Z2Qc a)
  = Z2Qc (a + Z.of_nat (List.length (filter (fun b => b) bs))).
Proof.
  revert a. induction bs as [|b bs IH]; intros a; cbn [map fold_left filter].
  - cbn [List.length]. rewrite Z.add_0_r. reflexivity.
  - rewrite Z2Qc_plus, IH. f_equal. destruct b; cbn [List.length]; lia.
Qed.

Lemma transform_nth_na (f : column -> result column) (ids vals r : column) (i : nat) :
  Pandas.transform f ids vals = Ok r ->
  (i < List.length vals)%nat ->
  is_na (nth i ids NA) = true ->
  nth i r NA = NA.
Proof.
  intros H Hi Hna. unfold Pandas.transform in H.
  destruct (mapM_nth_error _ _ _ H i i (nth_error_seq _ _ Hi)) as (c & Hc & Hr).
  rewrite Hna in Hc. injection Hc as <-.
  apply nth_error_nth_default. exact Hr.
Qed.

Lemma get_col_select_cols (n : string) (names : list string) (df : frame) :
  get_col n (Availability.select_cols names df)
  = if isin n names then get_col n df else None.
Proof.
  unfold Availability.select_cols, isin.
  induction names as [|m names IH]; cbn [flat_map existsb]; [reflexivity|].
  rewrite get_col_app, IH.
  destruct (String.eqb_spec n m) as [->|Hn]; cbn [orb].
  - destruct (get_col m df) as [c|] eqn:E; cbn [get_col].
    + rewrite String.eqb_refl. reflexivity.
    + destruct (existsb (String.eqb m) names); reflexivity.
  - destruct (get_col m df) as [c|]; cbn [get_col]; [|reflexivity].
    destruct (String.eqb_spec m n); [congruence|reflexivity].
Qed.

Lemma nrows_rename_col (a b : string) (df : frame) :
  nrows (Pandas.rename_col a b df) = nrows df.
Proof. destruct df as [|[n c] df]; reflexivity. Qed.

Lemma well_formed_rename_col (a b : string) (df : frame) :
  well_formed df -> well_formed (Pandas.rename_col a b df).
Proof.
  intros Hwf n c Hin. rewrite nrows_rename_col. unfold Pandas.rename_col in Hin.
  apply in_map_iff in Hin. destruct Hin as ([n0 c0] & E & Hin). injection E as _ <-.
  apply (Hwf n0 c0 Hin).
Qed.

Lemma prepared_shape (pgw sorted : frame) (id_col gw_col minutes_col : string) :
  well_formed pgw ->
  Availability.prepared pgw id_col gw_col minutes_col = Ok sorted ->
  well_formed sorted /\ sorted <> [] /\ nrows sorted = nrows pgw /\
  has_col id_col sorted = true /\ has_col gw_col sorted = true /\
  has_col minutes_col sorted = true.
Proof.
  intros Hwf H. unfold Availability.prepared in H.
  set (df := if andb (has_col "id" pgw) (negb (has_col id_col pgw))
             then Pandas.rename_col "id" id_col pgw else pgw) in *.
  assert (Wf : well_formed df)
    by (unfold df; destruct (andb _ _); [apply well_formed_rename_col|]; exact Hwf).
  assert (Nr : nrows df = nrows pgw)
    by (unfold df; destruct (andb _ _); [apply nrows_rename_col|reflexivity]).
  cbn [foldM] in H.
  destruct (has_col id_col df) eqn:Hi; cbn [bind] in H; [|discriminate].
  destruct (has_col gw_col df) eqn:Hg; cbn [bind] in H; [|discriminate].
  destruct (has_col minutes_col df) eqn:Hm; cbn [bind] in H; [|discriminate].
  unfold col_or_raise in H.
  destruct (get_col gw_col df) as [gws|] eqn:Eg; cbn [bind] in H; [|discriminate].
  destruct (mapM astype_int gws) as [gw|] eqn:Ez; cbn [bind] in H; [|discriminate].
  assert (Ne : df <> []) by (apply (get_col_nonempty _ _ _ Eg)).
  assert (Hlen : List.length (map VInt gw) = nrows df).
  { rewrite length_map, (mapM_length _ _ _ Ez). apply (well_formed_get_col _ _ _ Wf Eg). }
  set (df1 := set_col gw_col (map VInt gw) df) in *.
  assert (Ne1 : df1 <> []) by apply set_col_nonempty.
  destruct (sort_values_rows [id_col; gw_col] df1 Ne1) as (idx & Hs & Hl & _).
  { intros n [<-|[<-|[]]]; unfold df1; apply has_col_set_col_kept; assumption. }
  rewrite Hs in H. injection H as <-.
  split; [apply well_formed_take_rows; exact Ne1|].
  split; [apply take_rows_nonempty; exact Ne1|].
  split.
  { rewrite nrows_take_rows by exact Ne1. rewrite Hl. unfold df1.
    rewrite nrows_set_col by assumption. exact Nr. }
  rewrite !has_col_take_rows. unfold df1.
  repeat split; apply has_col_set_col_kept; assumption.
Qed.

Lemma present_some {X : Type} (q : X -> Qc) (l : list X) :
  Pandas.present (map (fun j => Some (q j)) l) = map q l.
Proof.
  unfold Pandas.present. induction l as [|x l IH]; cbn [map flat_map app]; [reflexivity|].
  rewrite IH. reflexivity.
Qed.

Lemma filter_of_map {X : Type} (p : X -> bool) (l : list X) :
  List.length (filter (fun b : bool => b) (map p l)) = List.length (filter p l).
Proof. apply (filter_map_length p (fun b : bool => b) l). Qed.

Section Flags.
Variable fos : string -> option (option Qc).

(** The rolling sum of a column of flags, at row [r] of a group: the number
    of flags set among the last [w] rows up to row [r]. *)
Lemma rolling_sum_flags (w : positive) (bits : list bool) (idx : list nat) (g : column)
      (r : nat) :
  (forall j, In j idx -> (j < List.length bits)%nat) ->
  Pandas.rolling_sum fos w 1
    (Pandas.gather idx (map Availability.int_of_bool bits)) = Ok g ->
  (r < List.length idx)%nat ->
  nth r g NA
  = VFloat (Z2Qc (Z.of_nat (List.length
                              (filter (fun j => nth j bits false)
                                      (skipn (S r - Pos.to_nat w) (firstn (S r) idx)))))).
Proof.
  intros Hin Hg Hr.
  assert (Es : Pandas.gather idx (map Availability.int_of_bool bits)
               = map (fun j => Availability.int_of_bool (nth j bits false)) idx).
  { unfold Pandas.gather. apply map_ext_in. intros j Hj.
    rewrite (nth_indep _ NA (Availability.int_of_bool false))
      by (rewrite length_map; apply Hin; exact Hj).
    apply map_nth. }
  rewrite Es in Hg. unfold Pandas.rolling_sum, Pandas.rolling in Hg.
  rewrite (mapM_ok_map (Pandas.as_float fos) num_of) in Hg
    by (intros a Ha; apply in_map_iff in Ha; destruct Ha as (j & <- & _); reflexivity).
  cbn [bind] in Hg. injection Hg as <-.
  rewrite length_map. rewrite (nth_map_seq _ _ _ _ Hr) by idtac. cbn [Nat.add].
  rewrite map_map. unfold Pandas.window.
  rewrite firstn_map, skipn_map.
  set (l := skipn (S r - Pos.to_nat w) (firstn (S r) idx)).
  assert (Hl : (1 <= List.length l)%nat).
  { unfold l. rewrite length_skipn, length_firstn. lia. }
  change (map (fun x => num_of (Availability.int_of_bool (nth x bits false))) l)
    with (map (fun j => Some (Z2Qc (if nth j bits false then 1 else 0))) l).
  rewrite (present_some (fun j => Z2Qc (if nth j bits false then 1 else 0)) l).
  rewrite length_map.
  destruct (List.length l) as [|n'] eqn:El; [lia|]. cbn [Nat.leb andb].
  f_equal. unfold Pandas.qsum.
  rewrite <- (map_map (fun j => nth j bits false)
                      (fun b : bool => Z2Qc (if b then 1 else 0)) l).
  rewrite qsum_bits, filter_of_map, Z.add_0_l. reflexivity.
Qed.

End Flags.

Lemma isin_filter (n : string) (p : string -> bool) (l : list string) :
  In n l -> p n = true -> isin n (filter p l) = true.
Proof. intros Hin Hp. apply isin_In. apply filter_In. auto. Qed.

Ltac bind_step H :=
  match type of H with
  | bind ?c _ = Ok _ =>
      let E := fresh "E" in destruct c eqn:E; cbn [bind] in H; [|discriminate]
  end.

Section FlagTheorems.
Variable fos : string -> option (option Qc).

(** X26.  [missed_last_n] of [build_availability_flags] counts the rows
    without minutes: in the frame sorted by entity and gameweek, its cell
    at a row is the number of rows among the last [window_gw] rows of the
    entity up to that row whose minutes are missing or not positive; no row
    has a missing entity.  The entity column is not named [_dnp]. *)
Theorem missed_last_n_counts (pgw out : frame) (w : positive)
        (id_col gw_col minutes_col : string) :
  well_formed pgw ->
  id_col <> "_dnp" ->
  Availability.build_availability_flags fos pgw w id_col gw_col minutes_col = Ok out ->
  exists sorted ids mins dnp missed,
    Availability.prepared pgw id_col gw_col minutes_col = Ok sorted /\
    get_col id_col sorted = Some ids /\
    get_col minutes_col sorted = Some mins /\
    mapM Availability.did_not_play mins = Ok dnp /\
    get_col "missed_last_n" out = Some missed /\
    List.length missed = nrows pgw /\
    forall i, (i < nrows pgw)%nat ->
      is_na (nth i ids NA) = false /\
      nth i missed NA
      = VInt (Z.of_nat (List.length (filter (fun j => nth j dnp false)
                                            (Availability.last_rows ids w i)))).
Proof.
  intros Hwf Hid H. unfold Availability.build_availability_flags in H.
  destruct (Availability.prepared pgw id_col gw_col minutes_col) as [sorted|] eqn:Eprep;
    cbn [bind] in H; [|discriminate].
  destruct (prepared_shape _ _ _ _ _ Hwf Eprep) as (Wf & Ne & Nr & Hi & _ & Hm).
  unfold col_or_raise in H.
  destruct (get_col minutes_col sorted) as [mins|] eqn:Emins; cbn [bind] in H; [|discriminate].
  destruct (mapM Availability.did_not_play mins) as [dnp|] eqn:Ednp; cbn [bind] in H;
    [|discriminate].
  rewrite (get_col_set_col_other id_col "_dnp") in H by congruence.
  destruct (get_col id_col sorted) as [ids|] eqn:Eids; cbn [bind] in H; [|discriminate].
  rewrite get_col_set_col_same in H. cbn [bind] in H.
  destruct (Pandas.transform (Pandas.rolling_sum fos w 1) ids
                             (map Availability.int_of_bool dnp)) as [missed0|] eqn:Et;
    cbn [bind] in H; [|discriminate].
  destruct (mapM astype_int missed0) as [mz|] eqn:Ez; cbn [bind] in H; [|discriminate].
  assert (Lm : List.length mins = nrows pgw)
    by (rewrite <- Nr; apply (well_formed_get_col _ _ _ Wf Emins)).
  assert (Li : List.length ids = nrows pgw)
    by (rewrite <- Nr; apply (well_formed_get_col _ _ _ Wf Eids)).
  assert (Ld : List.length dnp = nrows pgw) by (rewrite (mapM_length _ _ _ Ednp); exact Lm).
  assert (L0 : List.length missed0 = nrows pgw)
    by (rewrite (transform_length _ _ _ _ Et), length_map; exact Ld).
  assert (Lz : List.length mz = nrows pgw) by (rewrite (mapM_length _ _ _ Ez); exact L0).
  exists sorted, ids, mins, dnp, (map VInt mz).
  split; [reflexivity|]. split; [exact Eids|]. split; [exact Emins|].
  split; [exact Ednp|]. split; [|split; [rewrite length_map; exact Lz|]].
  - (* the column is kept by the later steps *)
    repeat bind_step H.
    injection H as <-.
    match goal with
    | |- context [Availability.select_cols _ ?d] => set (df5 := d)
    end.
    match goal with
    | |- context [Availability.select_cols ?X df5] =>
        change X with (filter (fun c => has_col c df5)
                              (Availability.KEEP_COLS id_col gw_col))
    end.
    assert (Hcol : get_col "missed_last_n" df5 = Some (map VInt mz)).
    { match goal with
      | E4 : match get_col "starts" ?d3 with _ => _ end = Ok ?d4 |- _ =>
          assert (H4 : get_col "missed_last_n" d4 = Some (map VInt mz));
          [ destruct (get_col "starts" d3) as [starts|];
            [ repeat bind_step E4; injection E4 as <-;
              rewrite get_col_set_col_other by discriminate;
              rewrite get_col_set_col_other by discriminate;
              apply get_col_set_col_same
            | injection E4 as <-;
              rewrite get_col_set_col_other by discriminate;
              apply get_col_set_col_same ]
          | ]
      end.
      unfold df5.
      match goal with
      | |- get_col _ (match get_col ?n ?a with _ => _ end) = _ =>
          destruct (get_col n a)
      end.
      all: try rewrite (get_col_set_col_other "missed_last_n" "chance_flag") by discriminate.
      all: match goal with
           | |- get_col _ (match get_col ?n ?a with _ => _ end) = _ =>
               destruct (get_col n a)
           end.
      all: try rewrite (get_col_set_col_other "missed_last_n" "status_flag") by discriminate.
      all: exact H4. }
    rewrite get_col_select_cols. rewrite isin_filter.
    + exact Hcol.
    + unfold Availability.KEEP_COLS. cbn [In]. auto.
    + unfold has_col. rewrite Hcol. reflexivity.
  - intros i Hlt.
    assert (Hi0 : (i < List.length (map Availability.int_of_bool dnp))%nat)
      by (rewrite length_map; lia).
    assert (Hna : is_na (nth i ids NA) = false).
    { destruct (is_na (nth i ids NA)) eqn:Ena; [|reflexivity].
      pose proof (transform_nth_na _ _ _ _ i Et Hi0 Ena) as H0.
      assert (Hne : nth_error missed0 i = Some (nth i missed0 NA))
        by (apply nth_error_nth'; lia).
      rewrite H0 in Hne.
      destruct (mapM_nth_error _ _ _ Ez i NA Hne) as (c & Hc & _). discriminate. }
    split; [exact Hna|].
    destruct (transform_nth _ _ _ _ i Et Hi0 Hna) as (g & Hg & Hr).
    assert (Hids : (i < List.length ids)%nat) by lia.
    pose proof (group_index_split ids i Hids) as Hsplit.
    pose proof (rows_so_far_length ids i Hna) as Hrows.
    set (rows := filter (fun j => Pandas.cell_eqb (nth j ids NA) (nth i ids NA))
                        (seq 0 (S i))) in *.
    set (later := filter (fun j => Pandas.cell_eqb (nth j ids NA) (nth i ids NA))
                         (seq (S i) (List.length ids - S i))) in *.
    assert (Hin : forall j, In j (Pandas.group_index ids i) -> (j < List.length dnp)%nat).
    { intros j Hj. unfold Pandas.group_index in Hj. apply filter_In in Hj.
      destruct Hj as [Hj _]. apply in_seq in Hj. lia. }
    assert (Hrk : (Pandas.group_rank ids i < List.length (Pandas.group_index ids i))%nat).
    { rewrite Hsplit, length_app. lia. }
    rewrite (rolling_sum_flags fos w dnp _ g _ Hin Hg Hrk) in Hr.
    rewrite Hsplit in Hr. rewrite <- Hrows in Hr.
    rewrite firstn_app, Nat.sub_diag, firstn_all in Hr. cbn [firstn] in Hr.
    rewrite app_nil_r in Hr.
    change (skipn (List.length rows - Pos.to_nat w) rows)
      with (Availability.last_rows ids w i) in Hr.
    assert (Hne : nth_error missed0 i = Some (nth i missed0 NA))
      by (apply nth_error_nth'; lia).
    rewrite Hr in Hne.
    destruct (mapM_nth_error _ _ _ Ez i _ Hne) as (c & Hc & Hz).
    rewrite astype_int_Z2Qc in Hc. injection Hc as <-.
    apply nth_error_nth_default. apply map_nth_error. exact Hz.
Qed.

End FlagTheorems.

Lemma minutes_rows_well_formed : well_formed Samples.minutes_rows.
Proof.
  intros n c Hin. cbn in Hin.
  destruct Hin as [E|[E|[E|[]]]]; injection E as <- <-; reflexivity.
Qed.

Lemma missed_last_n_counts_witness :
  exists out,
    Availability.build_availability_flags Samples.no_float Samples.minutes_rows 2
      "player_id" "gw" "minutes" = Ok out /\
    exists sorted ids mins dnp missed,
      Availability.prepared Samples.minutes_rows "player_id" "gw" "minutes" = Ok sorted /\
      get_col "player_id" sorted = Some ids /\
      get_col "minutes" sorted = Some mins /\
      mapM Availability.did_not_play mins = Ok dnp /\
      get_col "missed_last_n" out = Some missed /\
      List.length missed = nrows Samples.minutes_rows /\
      forall i, (i < nrows Samples.minutes_rows)%nat ->
        is_na (nth i ids NA) = false /\
        nth i missed NA
        = VInt (Z.of_nat (List.length (filter (fun j => nth j dnp false)
                                              (Availability.last_rows ids 2 i)))).
Proof.
  eexists. split; [vm_compute; reflexivity|].
  apply (missed_last_n_counts Samples.no_float Samples.minutes_rows _ 2
           "player_id" "gw" "minutes").
  - exact minutes_rows_well_formed.
  - discriminate.
  - vm_compute. reflexivity.
Defined.

(** The flags of the sample: player 1 has missed none of the last two
    gameweeks at gameweek 1, one at gameweek 2 and two at gameweek 3. *)
Example availability_flags_sample :
  exists out,
    Availability.build_availability_flags Samples.no_float Samples.minutes_rows 2
      "player_id" "gw" "minutes" = Ok out /\
    columns out = ["player_id"; "gw"; "missed_last_n"; "avg_minutes_last_n"] /\
    get_col "gw" out = Some [VInt 1; VInt 2; VInt 3; VInt 1] /\
    get_col "missed_last_n" out = Some [VInt 0; VInt 1; VInt 2; VInt 0].
Proof. eexists. split; [vm_compute; reflexivity|]. repeat split; reflexivity. Qed.

Lemma shape_set_col (N : nat) (a b n : string) (c : column) (d : frame) :
  (well_formed d /\ d <> [] /\ nrows d = N /\ has_col a d = true /\ has_col b d = true) ->
  List.length c = N ->
  well_formed (set_col n c d) /\ set_col n c d <> [] /\ nrows (set_col n c d) = N /\
  has_col a (set_col n c d) = true /\ has_col b (set_col n c d) = true.
Proof.
  intros (Wf & Ne & Nr & Ha & Hb) Hc.
  split; [apply well_formed_set_col; [exact Wf|exact Ne|congruence]|].
  split; [apply set_col_nonempty|].
  split; [rewrite nrows_set_col; [exact Nr|exact Ne|congruence]|].
  split; apply has_col_set_col_kept; assumption.
Qed.

Lemma has_col_rename_col (a b : string) (df : frame) :
  has_col a df = true -> has_col b (Pandas.rename_col a b df) = true.
Proof.
  unfold has_col, Pandas.rename_col.
  induction df as [|[n c] df IH]; cbn [get_col map fst snd]; [discriminate|].
  destruct (String.eqb_spec n a) as [->|Hn].
  - intros _. rewrite String.eqb_refl. reflexivity.
  - intros H. destruct (String.eqb n b); [reflexivity|]. apply IH. exact H.
Qed.

Lemma select_cols_In (names : list string) (df : frame) (n : string) (c : column) :
  In (n, c) (Availability.select_cols names df) -> In n names /\ get_col n df = Some c.
Proof.
  unfold Availability.select_cols. intros H. apply in_flat_map in H.
  destruct H as (m & Hm & H). destruct (get_col m df) as [c0|] eqn:E; [|destruct H].
  destruct H as [H|[]]. injection H as <- <-. auto.
Qed.

Section FlagShape.
Variable fos : string -> option (option Qc).

(** The frame the kept columns are taken from. *)
Lemma flags_frame (pgw out : frame) (w : positive) (id_col gw_col minutes_col : string) :
  well_formed pgw ->
  Availability.build_availability_flags fos pgw w id_col gw_col minutes_col = Ok out ->
  exists df,
    out = Availability.select_cols
            (filter (fun c => has_col c df) (Availability.KEEP_COLS id_col gw_col)) df /\
    (well_formed df /\ df <> [] /\ nrows df = nrows pgw /\
     has_col id_col df = true /\ has_col gw_col df = true) /\
    has_col "missed_last_n" df = true /\ has_col "avg_minutes_last_n" df = true.
Proof.
  intros Hwf H. unfold Availability.build_availability_flags in H.
  destruct (Availability.prepared pgw id_col gw_col minutes_col) as [sorted|] eqn:Eprep;
    cbn [bind] in H; [|discriminate].
  destruct (prepared_shape _ _ _ _ _ Hwf Eprep) as (Wf & Ne & Nr & Hi & Hg & _).
  assert (P0 : well_formed sorted /\ sorted <> [] /\ nrows sorted = nrows pgw /\
               has_col id_col sorted = true /\ has_col gw_col sorted = true)
    by (repeat split; assumption).
  unfold col_or_raise in H.
  destruct (get_col minutes_col sorted) as [mins|] eqn:Emins; cbn [bind] in H; [|discriminate].
  destruct (mapM Availability.did_not_play mins) as [dnp|] eqn:Ednp; cbn [bind] in H;
    [|discriminate].
  assert (Lm : List.length mins = nrows pgw)
    by (rewrite <- Nr; apply (well_formed_get_col _ _ _ Wf Emins)).
  assert (P1 := shape_set_col _ id_col gw_col "_dnp" (map Availability.int_of_bool dnp) _ P0
                  ltac:(rewrite length_map, (mapM_length _ _ _ Ednp); exact Lm)).
  set (df1 := set_col "_dnp" (map Availability.int_of_bool dnp) sorted) in *.
  destruct (get_col id_col df1) as [ids|] eqn:Eids; cbn [bind] in H; [|discriminate].
  destruct (get_col "_dnp" df1) as [dc|] eqn:Edc; cbn [bind] in H; [|discriminate].
  destruct (Pandas.transform (Pandas.rolling_sum fos w 1) ids dc) as [missed0|] eqn:Et;
    cbn [bind] in H; [|discriminate].
  destruct (mapM astype_int missed0) as [mz|] eqn:Ez; cbn [bind] in H; [|discriminate].
  assert (Lz : List.length (map VInt mz) = nrows pgw).
  { rewrite length_map, (mapM_length _ _ _ Ez), (transform_length _ _ _ _ Et).
    destruct P1 as (Wf1 & _ & Nr1 & _). rewrite <- Nr1.
    apply (well_formed_get_col _ _ _ Wf1 Edc). }
  assert (P2 := shape_set_col _ id_col gw_col "missed_last_n" _ _ P1 Lz).
  set (df2 := set_col "missed_last_n" (map VInt mz) df1) in *.
  destruct (get_col id_col df2) as [ids2|] eqn:Eids2; cbn [bind] in H; [|discriminate].
  destruct (get_col minutes_col df2) as [mins2|] eqn:Emins2; cbn [bind] in H; [|discriminate].
  destruct (Pandas.transform (Pandas.rolling_mean fos w 1) ids2 mins2) as [avg|] eqn:Ea;
    cbn [bind] in H; [|discriminate].
  assert (La : List.length avg = nrows pgw).
  { rewrite (transform_length _ _ _ _ Ea).
    destruct P2 as (Wf2 & _ & Nr2 & _). rewrite <- Nr2.
    apply (well_formed_get_col _ _ _ Wf2 Emins2). }
  assert (P3 := shape_set_col _ id_col gw_col "avg_minutes_last_n" _ _ P2 La).
  assert (M2 : has_col "missed_last_n" df2 = true)
    by (unfold df2, has_col; rewrite get_col_set_col_same; reflexivity).
  set (df3 := set_col "avg_minutes_last_n" avg df2) in *.
  assert (M3 : has_col "missed_last_n" df3 = true /\ has_col "avg_minutes_last_n" df3 = true).
  { split; [apply has_col_set_col_kept; exact M2|].
    unfold df3, has_col. rewrite get_col_set_col_same. reflexivity. }
  assert (S4 : forall d4,
             match get_col "starts" df3 with
             | Some starts =>
                 let* ids := match get_col id_col df3 with
                             | Some c => Ok c
                             | None => Raise (KeyError id_col)
                             end in
                 let* s := Pandas.transform (Pandas.rolling_sum fos w 1) ids starts in
                 Ok (set_col "starts_last_n" s df3)
             | None => Ok df3
             end = Ok d4 ->
             (well_formed d4 /\ d4 <> [] /\ nrows d4 = nrows pgw /\
              has_col id_col d4 = true /\ has_col gw_col d4 = true) /\
             has_col "missed_last_n" d4 = true /\ has_col "avg_minutes_last_n" d4 = true).
  { intros d4 E4. destruct (get_col "starts" df3) as [starts|] eqn:Es.
    - destruct (get_col id_col df3) as [ids3|]; cbn [bind] in E4; [|discriminate].
      destruct (Pandas.transform (Pandas.rolling_sum fos w 1) ids3 starts) as [s|] eqn:Ets;
        cbn [bind] in E4; [|discriminate].
      injection E4 as <-.
      split; [|split; apply has_col_set_col_kept; apply M3].
      apply shape_set_col; [exact P3|].
      rewrite (transform_length _ _ _ _ Ets).
      destruct P3 as (Wf3 & _ & Nr3 & _). rewrite <- Nr3.
      apply (well_formed_get_col _ _ _ Wf3 Es).
    - injection E4 as <-. split; [exact P3|exact M3]. }
  bind_step H.
  match goal with
  | S : forall d4, Ok ?a = Ok d4 -> _ |- _ => destruct (S a eq_refl) as (P4 & M4 & A4)
  end.
  injection H as <-.
  match goal with
  | |- context [Availability.select_cols _ ?d] => set (df5 := d)
  end.
  exists df5. split; [reflexivity|].
  assert (S5 : forall (n : string) (F : cell -> cell) (m : string) (d : frame),
             (well_formed d /\ d <> [] /\ nrows d = nrows pgw /\
              has_col id_col d = true /\ has_col gw_col d = true) /\
             has_col "missed_last_n" d = true /\ has_col "avg_minutes_last_n" d = true ->
             let d' := match get_col n d with
                       | Some c => set_col m (map F c) d
                       | None => d
                       end in
             (well_formed d' /\ d' <> [] /\ nrows d' = nrows pgw /\
              has_col id_col d' = true /\ has_col gw_col d' = true) /\
             has_col "missed_last_n" d' = true /\ has_col "avg_minutes_last_n" d' = true).
  { intros n F m d (Pd & Md & Ad). cbv zeta.
    destruct (get_col n d) as [c|] eqn:Ec; [|auto].
    split; [|split; apply has_col_set_col_kept; assumption].
    apply shape_set_col; [exact Pd|]. rewrite length_map.
    destruct Pd as (Wfd & _ & Nrd & _). rewrite <- Nrd.
    apply (well_formed_get_col _ _ _ Wfd Ec). }
  apply (S5 "chance_of_playing_next_round" (Availability.chance_flag fos) "chance_flag").
  apply (S5 "status" Availability.status_flag "status_flag").
  auto.
Qed.

(** X27.  [build_availability_flags] keeps one row per input row and
    returns the kept columns only: the entity and gameweek columns,
    [missed_last_n] and [avg_minutes_last_n] are there, every column is one
    of the seven kept names, and every column has one cell per input row. *)
Theorem availability_flags_shape (pgw out : frame) (w : positive)
        (id_col gw_col minutes_col : string) :
  well_formed pgw ->
  Availability.build_availability_flags fos pgw w id_col gw_col minutes_col = Ok out ->
  (forall n, In n (columns out) -> In n (Availability.KEEP_COLS id_col gw_col)) /\
  (forall n, In n [id_col; gw_col; "missed_last_n"; "avg_minutes_last_n"] ->
             has_col n out = true) /\
  nrows out = nrows pgw /\
  forall n c, In (n, c) out -> List.length c = nrows pgw.
Proof.
  intros Hwf H.
  destruct (flags_frame _ _ _ _ _ _ Hwf H) as (df & -> & (Wf & Ne & Nr & Hi & Hg) & Hm & Ha).
  assert (Hcols : forall n c,
             In (n, c) (Availability.select_cols
                          (filter (fun c => has_col c df)
                                  (Availability.KEEP_COLS id_col gw_col)) df) ->
             In n (Availability.KEEP_COLS id_col gw_col) /\ List.length c = nrows pgw).
  { intros n c Hin. apply select_cols_In in Hin. destruct Hin as [Hn Hc].
    apply filter_In in Hn. split; [tauto|]. rewrite <- Nr.
    apply (well_formed_get_col _ _ _ Wf Hc). }
  assert (Hhas : forall n, In n (Availability.KEEP_COLS id_col gw_col) ->
                           has_col n df = true ->
                           has_col n (Availability.select_cols
                                        (filter (fun c => has_col c df)
                                                (Availability.KEEP_COLS id_col gw_col)) df)
                           = true).
  { intros n Hn Hh. unfold has_col at 1. rewrite get_col_select_cols.
    rewrite isin_filter by assumption. exact Hh. }
  split; [|split; [|split]].
  - intros n Hn. unfold columns in Hn. apply in_map_iff in Hn.
    destruct Hn as ([n0 c0] & <- & Hin). apply (Hcols n0 c0 Hin).
  - intros n Hn. cbn [In] in Hn. unfold Availability.KEEP_COLS in Hhas.
    destruct Hn as [<-|[<-|[<-|[<-|[]]]]]; apply Hhas; cbn [In]; auto.
  - assert (Hid : has_col id_col (Availability.select_cols
                                    (filter (fun c => has_col c df)
                                            (Availability.KEEP_COLS id_col gw_col)) df)
                  = true)
      by (apply Hhas; [unfold Availability.KEEP_COLS; cbn [In]; auto|exact Hi]).
    destruct (Availability.select_cols _ df) as [|[n0 c0] rest] eqn:E; [discriminate|].
    cbn [nrows]. apply (Hcols n0 c0). left. reflexivity.
  - intros n c Hin. apply (Hcols n c Hin).
Qed.

(** X28.  The required columns of [build_availability_flags].  A column
    [id] stands in for a missing entity column: the call is then the call on
    the frame with [id] renamed.  Without either, and for the first of the
    gameweek and minutes columns that is missing, the call raises
    [ValueError] naming the column. *)
Theorem availability_flags_required_columns (pgw : frame) (w : positive)
        (id_col gw_col minutes_col : string) :
  (has_col id_col pgw = false -> has_col "id" pgw = true ->
   Availability.build_availability_flags fos pgw w id_col gw_col minutes_col
   = Availability.build_availability_flags fos (Pandas.rename_col "id" id_col pgw) w
       id_col gw_col minutes_col) /\
  (has_col id_col pgw = false -> has_col "id" pgw = false ->
   Availability.build_availability_flags fos pgw w id_col gw_col minutes_col
   = Raise (ValueError ("Missing required column: " ++ id_col))) /\
  (has_col id_col pgw = true -> has_col gw_col pgw = false ->
   Availability.build_availability_flags fos pgw w id_col gw_col minutes_col
   = Raise (ValueError ("Missing required column: " ++ gw_col))) /\
  (has_col id_col pgw = true -> has_col gw_col pgw = true ->
   has_col minutes_col pgw = false ->
   Availability.build_availability_flags fos pgw w id_col gw_col minutes_col
   = Raise (ValueError ("Missing required column: " ++ minutes_col))).
Proof.
  unfold Availability.build_availability_flags, Availability.prepared.
  split; [|split; [|split]].
  - intros Hn Hi. rewrite Hn, Hi. cbn [andb negb].
    rewrite (has_col_rename_col "id" id_col pgw Hi). rewrite andb_false_r. reflexivity.
  - intros Hn Hi. rewrite Hn, Hi. cbn [andb negb foldM]. rewrite Hn. reflexivity.
  - intros Hn Hg. rewrite Hn. rewrite andb_false_r. cbn [foldM]. rewrite Hn, Hg. reflexivity.
  - intros Hn Hg Hm. rewrite Hn. rewrite andb_false_r. cbn [foldM].
    rewrite Hn, Hg, Hm. reflexivity.
Qed.

End FlagShape.

Lemma availability_flags_shape_witness :
  exists out,
    Availability.build_availability_flags Samples.no_float Samples.minutes_rows 2
      "player_id" "gw" "minutes" = Ok out /\
    (forall n, In n (columns out) -> In n (Availability.KEEP_COLS "player_id" "gw")) /\
    (forall n, In n ["player_id"; "gw"; "missed_last_n"; "avg_minutes_last_n"] ->
               has_col n out = true) /\
    nrows out = nrows Samples.minutes_rows /\
    forall n c, In (n, c) out -> List.length c = nrows Samples.minutes_rows.
Proof.
  eexists. split; [vm_compute; reflexivity|].
  apply (availability_flags_shape Samples.no_float Samples.minutes_rows _ 2
           "player_id" "gw" "minutes").
  - exact minutes_rows_well_formed.
  - vm_compute. reflexivity.
Defined.
